(* ===== verification/_CoqProject ===== *)
-Q . S2P
Prelude.v
Sql.v
Schema.v
Incidents.v
Reports.v
Quorum.v
Zones.v
Server.v
Route.v
Auth.v
Api.v
Screen.v
MapClient.v
MapWidgets.v
MapView.v
IncidentUI.v
VolunteerHub.v
AdminPanel.v
Emergency.v
Reporter.v
