(* ===== verification/Prelude.v ===== *)
(** * GuardAid: a verification development of the community safety web application

    The repository (src/) is a React client (src/src/) over an Express/MySQL
    backend (src/backend/server.js).  Its logic falls into four parts:

    - the SQL store: four tables ([safety_zones], [dropped_pins], [incidents],
      [incident_approvals]) created by [initDB] (server.js 23-123), with
      column types, NOT NULL, PRIMARY KEY, UNIQUE and FOREIGN KEY
      constraints that decide which requests fail;
    - the incident lifecycle: [POST /api/incidents] creates a pending
      incident, [POST /api/incidents/:id/action] upserts one approval row per
      (incident, volunteer) and recomputes a fixed quorum of 3 approvals or
      3 rejections, [GET /api/incidents] and [GET /api/incidents/pending] list
      incidents newest first with aggregate counts (server.js 229-368);
    - the zone registry and dropped pins: [GET/POST /api/zones],
      [GET/POST/DELETE /api/pins] and the default seed zones (server.js
      93-227), fed by the client's rating dialog ([rateAreaWithRadius] in
      src/src/components/SafetyMap.jsx);
    - the route planner: [getRealRoute], [isPointSafe] and
      [calculateSafeRoute] in SafetyMap.jsx 158-289, which asks the OSRM
      routing service for a road route, checks it against the danger zones
      and probes six fixed detour waypoints.

    The client polls the backend through [ApiService]
    (src/src/services/apiService.js), which turns every HTTP failure into a
    default value; the route planner consumes the danger zones the backend
    lists.  The screens of the dashboard (src/src/components/) are React
    state machines: the map, the incident screen, the volunteer hub and the
    admin panel call ApiService; the emergency screen, the panic button,
    the demo reporter and the volunteer coordination page keep only local
    state.

    ** Files, in dependency order

    - [Prelude] (this file): the statement monad [St] (state passing where
      the state survives an error, as the autocommit store does), its
      notations in [gd_scope], the combinators [st_preserves] (a state
      predicate every run keeps) and [st_guarantee] (a relation between the
      states before and after every run), JavaScript helpers ([js_or],
      [prefixb], [js_replace]),
      shared list lemmas, the tactic [run_sql] and the hint database
      [guardaid].
    - [Sql]: the column semantics the handlers rely on: request fields that
      are absent, [null] or present ([field]); mysql2's refusal of
      [undefined] bind parameters; the case-insensitive collation of string
      comparisons and keys ([collate], with [Equivalence] and [Proper]
      instances); VARCHAR(n) and TEXT length checks; DECIMAL(p,s) rounding
      and range checks; INT and BIGINT ranges.
    - [Schema]: the rows of the four tables as records, the database
      [db] (a [gmap] per keyed table, a list of approval rows with its
      AUTO_INCREMENT counter), the HTTP reply of a handler.
    - [Incidents]: the request bodies, the UNIQUE key and FOREIGN KEY of
      the approval rows, their counts per incident, the rows of the
      listings' replies.
    - [Reports]: [POST /api/incidents] ([createIncident]) and the two
      listings ([getIncidents], [getPendingIncidents]), with the theorems
      on reporting incidents (C7-C8).
    - [Quorum]: [POST /api/incidents/:id/action] (the upsert, the recount
      and the quorum of 3), the abstraction [vote_of] (the last action of
      each volunteer), the tally the handler keeps of an incident
      ([tally], [tally_step], simulated by [act_seq_tally]), and the
      theorems on the action handler (C1-C6).
    - [Zones]: the zone and pin routes, the seed of [initDB], the body the
      rating dialog sends, and their theorems (C9-C10).
    - [Server]: the route table [handle], reachability from [initDB], the
      invariant [db_wf] of every reachable database, the column types
      [db_typed] (defined in [Schema]) it keeps, the invariant that no
      pending incident has reached the quorum, and the relation
      [db_progress] no request undoes (C11-C12); the replies of a server
      whose first connection failed ([handle_without_pool]).
    - [Route]: the route planner of SafetyMap.jsx with Leaflet's distance
      ([Distance]) and the OSRM server ([RoutingProvider]) as interfaces,
      the provider calls as a log in the state of [St], the contract
      [planned] it refines, and a concrete planner in [Route.Demo]
      (C13-C17).
    - [Auth]: AuthContext with its localStorage, Login, Navigation's menu,
      Dashboard's section switch and App's screen choice (C19-C20).
    - [Api]: the REST interface [Backend] between client and server (one
      operation per route, its state abstract), the methods of apiService.js
      in [Module ApiService] against it (so [ApiService.createIncident] is
      the client's call and [createIncident] the server's handler), and
      the server model as the instance [server_backend], a server that
      cannot be reached as [down_backend].  The URLs of the requests, and the
      base URL of config/api-config.js, which no module imports.
    - [Screen]: a screen that calls the backend: its state and the
      backend's as one world [screen], [scr_call], [scr_get], [scr_set],
      sessions [run_screen], and the lemmas that carry a property of the
      backend or of the screen through its handlers.
    - [MapClient]: the SafetyMap component as a step function on its state,
      its cache, its timers and the backend, with the theorems on every
      backend and on the server model (C21-C23); the parts of the state no
      handler writes ([frame_of]) and the radius only the slider writes.
      The geolocation request is an event, its answer another.
    - [MapWidgets]: SafetyMap's [RadiusPreview] with its ref and its two
      effects under React's cleanup order; the map never holds a second
      preview circle.
    - [MapView]: the markup of SafetyMap as data ([map_render]: the
      controls, banners, the layers of the map in JSX order, the rating
      dialog, the statistics cards), and React's render cycle ([page],
      [render], [settle_step]) in which every render creates a new
      [onRouteCalculated] arrow and commits the effect of [RoutePlanner]
      when its dependencies changed (C18, C24-C25).
    - [IncidentUI]: IncidentReporting.jsx, its functions in [Module
      IncidentReporting]: the report form, the community and review tabs,
      and their handlers over [Screen] (C26-C27).
    - [VolunteerHub]: VolunteerHub.jsx, its functions in [Module
      VolunteerHub]: reviews as the logged-in user, the emergency alerts,
      the header and the stats (C28-C29).
    - [AdminPanel]: AdminPanel.jsx, its functions in [Module AdminPanel]:
      the incident load and the figures it recomputes, the tabs (C30).
    - [Emergency]: EmergencyAlert.jsx and PanicAlert.jsx: the timer and its
      [formatTime] display, the panic countdown, and the screens of both
      components (C31-C32).
    - [Reporter]: IncidentReporter.jsx and VolunteerCoordination.jsx, two
      components no screen renders.

    ** What the theorems show

    - The approval quorum: the status after an action follows the rule of 3
      approvals or 3 rejections counted from the abstract votes; the rows
      refine the map "volunteer -> last action"; an unknown incident or a
      missing comment fails and every failure leaves the database
      unchanged (C1-C5); [approved_by] names the last voter even when it
      rejects, and a resolved incident is approved again by the next vote
      while 3 approvals remain, both by C1; for every database and any
      three distinct volunteers, two orders of requests that leave the same
      vote for everyone end pending and approved (C6).
    - A fresh report is stored pending with its defaults; a duplicate id,
      compared without regard to case, fails with no write (C7-C8); a
      rating is listed on the side of its threshold, and a created pin
      deleted by id restores the database (C9-C10).
    - Over every sequence of requests from [initDB]: no pending incident
      has 3 approvals or 3 rejections; no incident or zone is lost and no
      decided incident becomes pending again (C11-C12).  The lemmas
      [reachable_wf] and [reachable_typed] (the keys and the column types,
      which the engine itself enforces) support them.
    - The route planner refines its contract, makes at most 13 provider
      calls, keeps its score in [0, 100]; a failing provider gives the score
      100 (lemmas), and a short route is never announced (C13-C17); on the
      page the route is planned again after every render, for ever, while
      a destination is set (C18), and a Clear Route lets the page settle.
    - The menu and the dashboard agree for every role, and a session
      survives reloads (C19-C20).
    - On the map client the localStorage cache is never used, a poll shows
      the server's state, a rating is announced as saved even when it was
      not (C21-C23); a refused pin vanishes, and a clicked suggestion is
      not what is searched; no volunteer is ever shown (C24), and every
      radius preview has a radius of the slider, 50 to 500 by 25 (C25).
    - The incident screen announces a report of the offered type
      'broken_infrastructure' that the server refuses, and its review tab
      can never approve or reject an incident (C26-C27); the volunteer hub,
      which votes as the logged-in user, reaches the quorum with three
      volunteers and counts every review as done whatever the server
      answered (C28-C29), and counts each emergency response once; the
      admin panel's figures are the server's counts except the constant zone
      figures (C30).
    - The timer display [MM:SS] can be read back to the seconds, and the
      panic countdown stops after at most ten ticks (C31-C32).

    ** Bounds and fuel

    No definition needs fuel: every loop of the code is over a list
    (waypoints, zones, rows, events) and is a structural [Fixpoint]; the
    timers of the client are events of the step functions, and the panic
    countdown's termination is a theorem (C32).  The render cycle of the
    map page is iterated a given number [k] of times: C18 holds of every
    [k], which is how it states that the cycle never ends.  Integer widths are kept
    where the store checks them (INT, BIGINT, DECIMAL); the numbers of the
    client are rationals, or naturals for counters and seconds, so the
    rounding of doubles, NaN and Infinity are not modelled.

    ** Not modelled

    The order of rows of the same second in [ORDER BY created_at DESC]
    (the model breaks such ties in one fixed way, shared by both
    listings); collation beyond ASCII letter case (MySQL's default also
    folds accents and non-ASCII case); the AUTO_INCREMENT values InnoDB
    consumes on a failed insert or a duplicate-key update, which the API
    never shows.
    Express and mysql2 themselves (parsing, CORS, the connection pool) and
    a connection lost while the server runs (a failed first connection is
    modelled: [Server.handle_without_pool]); the pixels of the map (tiles,
    styles, the icon HTML of [createCustomIcon] and its siblings,
    [CenterFollowPin], which is markup only: [MapView] keeps which layer
    is drawn, where and with which texts); [getDistanceFromLine], which
    SafetyMap defines and never calls; React's bail-out on a state update
    that changes nothing (an event always schedules a render); dates shown with [toLocaleString] and
    [toISOString] (given as strings) and [Math.random] (given as a
    number); the console logs; and Header.jsx, which is static markup. *)

From stdpp Require Import base list.
From Stdlib Require Import String.

(** ** Statement monad

    A handler of server.js runs several SQL statements in a row under
    autocommit: a statement that fails raises, but the effect of the
    statements before it stays.  [St S E A] is therefore state passing in
    which an error carries the state reached so far. *)

Definition St (S E A : Type) : Type := S -> (E + A) * S.

Section Monad.
Context {S E : Type}.

Definition st_ret {A} (a : A) : St S E A := fun s => (inr a, s).

Definition st_bind {A B} (c : St S E A) (k : A -> St S E B) : St S E B :=
  fun s =>
    match c s with
    | (inl e, s') => (inl e, s')
    | (inr a, s') => k a s'
    end.

Definition st_throw {A} (e : E) : St S E A := fun s => (inl e, s).

Definition st_get : St S E S := fun s => (inr s, s).

Definition st_put (s : S) : St S E unit := fun _ => (inr tt, s).

(** Lift a pure check that may fail. *)
Definition st_lift {A} (r : E + A) : St S E A := fun s => (r, s).

(** [try { c } catch (e) { h e }] *)
Definition st_catch {A} (c : St S E A) (h : E -> St S E A) : St S E A :=
  fun s =>
    match c s with
    | (inl e, s') => h e s'
    | r => r
    end.

Lemma st_bind_ret_l {A B} (a : A) (k : A -> St S E B) s :
  st_bind (st_ret a) k s = k a s.
Proof. reflexivity. Qed.

Lemma st_bind_assoc {A B C} (c : St S E A) (f : A -> St S E B)
      (g : B -> St S E C) s :
  st_bind (st_bind c f) g s = st_bind c (fun a => st_bind (f a) g) s.
Proof. unfold st_bind. by destruct (c s) as [[e|a] s']. Qed.

Lemma st_bind_inr {A B} (c : St S E A) (k : A -> St S E B) s a s' :
  c s = (inr a, s') -> st_bind c k s = k a s'.
Proof. unfold st_bind. by intros ->. Qed.

Lemma st_bind_inl {A B} (c : St S E A) (k : A -> St S E B) s e s' :
  c s = (inl e, s') -> st_bind c k s = (inl e, s').
Proof. unfold st_bind. by intros ->. Qed.

Lemma st_lift_inr {A} (a : A) s : st_lift (inr a) s = (inr a, s).
Proof. reflexivity. Qed.

(** [c] keeps the state predicate [P], whether it succeeds or fails. *)
Definition st_preserves {A} (P : S -> Prop) (c : St S E A) : Prop :=
  forall s r s', P s -> c s = (r, s') -> P s'.

Lemma st_preserves_ret {A} P (a : A) : st_preserves P (st_ret a).
Proof. intros s r s' HP [= _ <-]. done. Qed.

Lemma st_preserves_throw {A} P e : st_preserves (A:=A) P (st_throw e).
Proof. intros s r s' HP [= _ <-]. done. Qed.

Lemma st_preserves_lift {A} P (x : E + A) : st_preserves P (st_lift x).
Proof. intros s r s' HP [= _ <-]. done. Qed.

Lemma st_preserves_bind {A B} P (c : St S E A) (k : A -> St S E B) :
  st_preserves P c -> (forall a, st_preserves P (k a)) -> st_preserves P (st_bind c k).
Proof.
  intros Hc Hk s r s' HP. unfold st_bind.
  destruct (c s) as [[e|a] s1] eqn:Ec; [intros [= _ <-]|intros H];
    [exact (Hc _ _ _ HP Ec)|exact (Hk a _ _ _ (Hc _ _ _ HP Ec) H)].
Qed.

(** The state a [st_get] reads satisfies [P]. *)
Lemma st_preserves_get_bind {B} P (k : S -> St S E B) :
  (forall s, P s -> st_preserves P (k s)) -> st_preserves P (st_bind st_get k).
Proof. intros Hk s r s' HP. unfold st_bind, st_get. exact (Hk s HP s r s' HP). Qed.

(** A statement after a column conversion may use the conversion's
    success. *)
Lemma st_preserves_lift_bind {A B} P (x : E + A) (k : A -> St S E B) :
  (forall a, x = inr a -> st_preserves P (k a)) -> st_preserves P (st_bind (st_lift x) k).
Proof.
  intros Hk s r s' HP. unfold st_bind, st_lift.
  destruct x as [e|a]; [by intros [= _ <-]|]. exact (Hk a eq_refl s r s' HP).
Qed.

Lemma st_preserves_if {A} P (b : bool) (c1 c2 : St S E A) :
  st_preserves P c1 -> st_preserves P c2 -> st_preserves P (if b then c1 else c2).
Proof. by destruct b. Qed.

Lemma st_preserves_catch {A} P (c : St S E A) (h : E -> St S E A) :
  st_preserves P c -> (forall e, st_preserves P (h e)) -> st_preserves P (st_catch c h).
Proof.
  intros Hc Hh s r s' HP. unfold st_catch.
  destruct (c s) as [[e|a] s1] eqn:Ec; [intros H|intros [= _ <-]];
    [exact (Hh e _ _ _ (Hc _ _ _ HP Ec) H)|exact (Hc _ _ _ HP Ec)].
Qed.

(** Every run of [c] relates its initial and final state by [R]. *)
Definition st_guarantee {A} (R : S -> S -> Prop) (c : St S E A) : Prop :=
  forall s r s', c s = (r, s') -> R s s'.

Section Guarantee.
Context (R : S -> S -> Prop) `{!Reflexive R, !Transitive R}.

Lemma st_guarantee_ret {A} (a : A) : st_guarantee R (st_ret a).
Proof. intros s r s' [= _ <-]. reflexivity. Qed.

Lemma st_guarantee_get : st_guarantee R st_get.
Proof. intros s r s' [= _ <-]. reflexivity. Qed.

Lemma st_guarantee_lift {A} (x : E + A) : st_guarantee R (st_lift x).
Proof. intros s r s' [= _ <-]. reflexivity. Qed.

Lemma st_guarantee_bind {A B} (c : St S E A) (k : A -> St S E B) :
  st_guarantee R c -> (forall a, st_guarantee R (k a)) -> st_guarantee R (st_bind c k).
Proof.
  intros Hc Hk s r s'. unfold st_bind.
  destruct (c s) as [[e|a] s1] eqn:Ec; [intros [= _ <-]; exact (Hc _ _ _ Ec)|].
  intros H. transitivity s1; [exact (Hc _ _ _ Ec)|exact (Hk a _ _ _ H)].
Qed.

Lemma st_guarantee_catch {A} (c : St S E A) (h : E -> St S E A) :
  st_guarantee R c -> (forall e, st_guarantee R (h e)) -> st_guarantee R (st_catch c h).
Proof.
  intros Hc Hh s r s'. unfold st_catch.
  destruct (c s) as [[e|a] s1] eqn:Ec; [|intros [= _ <-]; exact (Hc _ _ _ Ec)].
  intros H. transitivity s1; [exact (Hc _ _ _ Ec)|exact (Hh e _ _ _ H)].
Qed.
End Guarantee.
End Monad.

Create HintDb guardaid.
#[export] Hint Resolve st_preserves_ret st_preserves_throw st_preserves_lift
  st_preserves_bind st_preserves_get_bind st_preserves_catch st_preserves_if
  st_guarantee_ret st_guarantee_get st_guarantee_lift st_guarantee_bind
  st_guarantee_catch : guardaid.

Declare Scope gd_scope.
Delimit Scope gd_scope with gd.
Notation "'do' x <- c ; k" := (st_bind c (fun x => k))
  (at level 60, x name, c at next level, right associativity) : gd_scope.
Notation "'do' ' p <- c ; k" := (st_bind c (fun x => match x with p => k end))
  (at level 60, p pattern, c at next level, right associativity) : gd_scope.
Notation "c ;;; k" := (st_bind c (fun _ => k))
  (at level 60, right associativity) : gd_scope.

(** Run a concrete [St] computation as far as it goes. *)
Ltac run_sql :=
  repeat (unfold st_bind, st_ret, st_throw, st_get, st_put, st_lift,
                 st_catch in *; simpl in *).

(** ** JavaScript helpers *)

(** [x || d] on a string value: [undefined], [null] and [""] are falsy. *)
Definition js_or (x : option string) (d : string) : string :=
  match x with
  | Some s => if String.eqb s "" then d else s
  | None => d
  end.

(** [s.startsWith(p)] *)
Fixpoint prefixb (p s : string) : bool :=
  match p, s with
  | EmptyString, _ => true
  | String c p', String d s' => Ascii.eqb c d && prefixb p' s'
  | String _ _, EmptyString => false
  end.

(** [s.replace(pat, rep)] with a string pattern: the first occurrence
    only. *)
Fixpoint js_replace (s pat rep : string) : string :=
  if prefixb pat s then rep ++ substring (String.length pat) (String.length s) s
  else match s with
       | EmptyString => s
       | String c s' => String c (js_replace s' pat rep)
       end.

(** ** Shared list lemmas *)

Create Rewrite HintDb guardaid_rw.

Section Lists.
Context {A : Type}.

(** Counting the elements of a list that satisfy a boolean test, as
    [COUNT(CASE WHEN ... THEN 1 END)] and [Array.filter(...).length] do. *)
Definition count_if (p : A -> bool) (l : list A) : nat :=
  List.length (List.filter p l).

Lemma count_if_app p l1 l2 :
  count_if p (l1 ++ l2) = count_if p l1 + count_if p l2.
Proof. unfold count_if. by rewrite List.filter_app, length_app. Qed.

Lemma count_if_nil p : count_if p [] = 0.
Proof. reflexivity. Qed.

Lemma count_if_cons p x l :
  count_if p (x :: l) = (if p x then 1 else 0) + count_if p l.
Proof. unfold count_if. simpl. by destruct (p x). Qed.

Lemma count_if_le p l : count_if p l <= List.length l.
Proof.
  unfold count_if. induction l as [|x l IH]; simpl; [lia|].
  destruct (p x); simpl; lia.
Qed.

Lemma count_if_mono p q l :
  (forall x, In x l -> p x = true -> q x = true) -> count_if p l <= count_if q l.
Proof.
  unfold count_if. induction l as [|x l IH]; intros H; simpl; [lia|].
  specialize (H x (or_introl eq_refl)) as Hx.
  destruct (p x), (q x); simpl; try (specialize (Hx eq_refl); discriminate);
    (assert (count_if p l <= count_if q l) by (apply IH; intros y Hy; apply H; by right));
    unfold count_if in *; lia.
Qed.

Lemma count_if_ext p q l :
  (forall x, In x l -> p x = q x) -> count_if p l = count_if q l.
Proof.
  intros H. unfold count_if. f_equal. apply List.filter_ext_in. exact H.
Qed.

Lemma count_if_false p l :
  (forall x, In x l -> p x = false) -> count_if p l = 0.
Proof.
  intros H. induction l as [|x l IH]; [done|].
  rewrite count_if_cons, H by (left; done).
  apply IH. intros y Hy. apply H. by right.
Qed.

(** Updating in place the elements that satisfy [sel] (an SQL [UPDATE ...
    WHERE]). *)
Definition update_where (sel : A -> bool) (f : A -> A) (l : list A) : list A :=
  List.map (fun x => if sel x then f x else x) l.

Lemma update_where_cons sel f x l :
  update_where sel f (x :: l) = (if sel x then f x else x) :: update_where sel f l.
Proof. reflexivity. Qed.

Lemma Forall_update_where (P : A -> Prop) sel f l :
  (forall x, P x -> P (f x)) -> Forall P l -> Forall P (update_where sel f l).
Proof. intros Hf Hl. apply Forall_fmap, (Forall_impl _ _ _ Hl). intros x Hx. unfold compose. destruct (sel x); auto. Qed.

Lemma length_update_where sel f l : List.length (update_where sel f l) = List.length l.
Proof. apply length_map. Qed.

Lemma update_where_none sel f l :
  (forall x, In x l -> sel x = false) -> update_where sel f l = l.
Proof.
  intros H. induction l as [|x l IH]; [done|]. simpl.
  rewrite H by (left; done). f_equal. apply IH. intros y Hy. apply H. by right.
Qed.
Lemma count_if_update_where sel f p l :
  (forall x, sel x = true -> p (f x) = p x) ->
  count_if p (update_where sel f l) = count_if p l.
Proof.
  intros H. induction l as [|x l IH]; [done|]. simpl.
  rewrite !count_if_cons, IH. destruct (sel x) eqn:E; [by rewrite H|done].
Qed.

Lemma count_if_filter p q l :
  count_if p (List.filter q l) = count_if (fun x => q x && p x) l.
Proof.
  induction l as [|x l IH]; [done|]. simpl.
  rewrite (count_if_cons _ x l). destruct (q x); simpl.
  - rewrite count_if_cons, IH. done.
  - exact IH.
Qed.

Lemma existsb_count_if p l : existsb p l = false <-> count_if p l = 0.
Proof.
  induction l as [|x l IH]; simpl; [done|].
  rewrite count_if_cons. destruct (p x); simpl; [split; [done|lia]|exact IH].
Qed.
Lemma find_app (p : A -> bool) (l1 l2 : list A) :
  List.find p (l1 ++ l2) =
  match List.find p l1 with Some x => Some x | None => List.find p l2 end.
Proof.
  induction l1 as [|x l1 IH]; simpl; [done|]. by destruct (p x).
Qed.
Lemma find_existsb_false (p : A -> bool) (l : list A) :
  existsb p l = false -> List.find p l = None.
Proof.
  induction l as [|x l IH]; simpl; [done|].
  intros [-> H]%orb_false_iff. by apply IH.
Qed.
Lemma count_if_perm p l l' : Permutation l l' -> count_if p l = count_if p l'.
Proof.
  induction 1; rewrite ?count_if_cons; try lia.
  all: destruct (p x), (p y); lia.
Qed.

Lemma map_as_fmap {B} (f : A -> B) (l : list A) : List.map f l = f <$> l.
Proof. induction l as [|x l IH]; simpl; [done|]. by rewrite IH. Qed.

(** [k] copies of a list, one more appended at the end. *)
Lemma concat_repeat_snoc (l : list A) k : List.concat (List.repeat l k) ++ l = List.concat (List.repeat l (S k)).
Proof. induction k as [|k IH]; simpl; [by rewrite app_nil_r|]. by rewrite <- app_assoc, IH. Qed.
End Lists.

Lemma count_if_map {A B} (p : A -> bool) (f : B -> A) l :
  count_if p (map f l) = count_if (fun x => p (f x)) l.
Proof. induction l as [|x l IH]; [done|]. simpl. rewrite !count_if_cons, IH. done. Qed.

#[export] Hint Resolve count_if_le : guardaid.
#[export] Hint Rewrite @count_if_nil @count_if_app @count_if_cons : guardaid_rw.
