(* ===== verification/Sql.v ===== *)
(** * Sql: the column semantics the backend relies on

    server.js passes every request field straight to [pool.execute] as a
    bind parameter.  Whether a request succeeds is decided by mysql2 and by
    the column types of the tables created in [initDB] (server.js 39-91):
    - mysql2 throws before sending the statement when a parameter is
      [undefined] (a field absent from the JSON body), and sends [null] as
      SQL NULL;
    - a NULL into a NOT NULL column, a string longer than its VARCHAR(n), a
      number outside its DECIMAL(p,s) or INT range are errors (strict SQL
      mode, the default of MySQL 5.7 and 8);
    - string comparisons, PRIMARY KEY, UNIQUE and FOREIGN KEY lookups use the
      default collation [utf8mb4_0900_ai_ci] of MySQL 8, which ignores the
      case of letters: two ids that differ only by case are the same key.
      Only ASCII case folding is modelled; accent folding of other letters
      is not.
    Numbers of a JSON body are modelled as rationals [Q] (a double is a
    rational); storing one into DECIMAL or INT rounds half away from
    zero. *)

From stdpp Require Import base list strings.
From Stdlib Require Import String Ascii ZArith QArith.
From S2P Require Import Prelude.

Local Open Scope nat_scope.

(** ** Request fields *)

(** A field of a parsed JSON body: absent ([undefined] after
    destructuring), [null], or a value. *)
Inductive field (A : Type) : Type :=
| Missing
| Null
| Val (a : A).
Arguments Missing {A}.
Arguments Null {A}.
Arguments Val {A} a.

(** The errors the store and mysql2 raise; the handlers turn every one of
    them into the same HTTP 500 reply. *)
Inductive sql_error : Type :=
| BindUndefined
| NotNullViolation (col : string)
| DataTooLong (col : string)
| OutOfRange (col : string)
| DuplicateEntry (key : string)
| NoReferencedRow.

(** mysql2 [execute]: [undefined] throws, [null] is SQL NULL. *)
Definition bind_param {A} (f : field A) : sql_error + option A :=
  match f with
  | Missing => inl BindUndefined
  | Null => inr None
  | Val a => inr (Some a)
  end.

Definition not_null {A} (col : string) (v : option A) : sql_error + A :=
  match v with
  | Some a => inr a
  | None => inl (NotNullViolation col)
  end.

(** The value of a field in JavaScript, where [undefined] and [null] are
    both absent: the argument of [x || d]. *)
Definition js_value {A} (f : field A) : option A :=
  match f with
  | Val a => Some a
  | _ => None
  end.

(** [f === s] for a string literal [s]: only a present string equal to [s]. *)
Definition js_eq_str (f : field string) (s : string) : bool :=
  match f with
  | Val a => String.eqb a s
  | _ => false
  end.

(** ** Collation *)

Definition lower_ascii (c : ascii) : ascii :=
  let n := nat_of_ascii c in
  if (65 <=? n) && (n <=? 90) then ascii_of_nat (n + 32) else c.

Fixpoint collate (s : string) : string :=
  match s with
  | EmptyString => EmptyString
  | String c s' => String (lower_ascii c) (collate s')
  end.

(** SQL [a = b] on two strings under the case-insensitive collation. *)
Definition sql_eq (a b : string) : bool := String.eqb (collate a) (collate b).

(** The equivalence the collation induces on strings. *)
Definition sql_equiv (a b : string) : Prop := collate a = collate b.

(** ** Column types *)

(** A byte of the UTF-8 encoding that continues a character. *)
Definition utf8_continuation (c : ascii) : bool :=
  let n := nat_of_ascii c in (128 <=? n) && (n <? 192).

(** The number of characters of a UTF-8 string, which VARCHAR(n) bounds. *)
Fixpoint char_length (s : string) : nat :=
  match s with
  | EmptyString => 0
  | String c s' => (if utf8_continuation c then 0 else 1) + char_length s'
  end.

Definition varchar (col : string) (n : nat) (s : string) : sql_error + string :=
  if char_length s <=? n then inr s else inl (DataTooLong col).

(** TEXT holds at most 65535 bytes. *)
Definition text_max_bytes : nat := 65535.

Definition text_col (col : string) (s : string) : sql_error + string :=
  if String.length s <=? text_max_bytes then inr s else inl (DataTooLong col).

(** Rounding to the nearest integer, halves away from zero. *)
Definition round_half_away (q : Q) : Z :=
  let n := Qnum q in
  let d := Zpos (Qden q) in
  if (0 <=? n)%Z then ((2 * n + d) / (2 * d))%Z
  else (- ((2 * (- n) + d) / (2 * d)))%Z.

(** DECIMAL(prec, scale): the value is kept as the integer
    [value * 10^scale], with at most [prec] digits. *)
Definition decimal_col (col : string) (prec scale : Z) (q : Q) : sql_error + Z :=
  let z := round_half_away (q * inject_Z (10 ^ scale))%Q in
  if (Z.abs z <? 10 ^ prec)%Z then inr z else inl (OutOfRange col).

(** What [parseFloat] reads back from a DECIMAL column. *)
Definition decimal_value (scale : Z) (z : Z) : Q := z # Z.to_pos (10 ^ scale).

Definition int_min : Z := (- 2 ^ 31)%Z.
Definition int_max : Z := (2 ^ 31 - 1)%Z.

(** INT: a 32-bit signed integer. *)
Definition int_col (col : string) (q : Q) : sql_error + Z :=
  let z := round_half_away q in
  if (int_min <=? z)%Z && (z <=? int_max)%Z then inr z else inl (OutOfRange col).

(** BIGINT: a 64-bit signed integer. *)
Definition bigint_col (col : string) (q : Q) : sql_error + Z :=
  let z := round_half_away q in
  if (- 2 ^ 63 <=? z)%Z && (z <=? 2 ^ 63 - 1)%Z then inr z
  else inl (OutOfRange col).

(** ** Lemmas *)

Lemma lower_ascii_idem c : lower_ascii (lower_ascii c) = lower_ascii c.
Proof.
  unfold lower_ascii.
  destruct ((65 <=? nat_of_ascii c) && (nat_of_ascii c <=? 90)) eqn:E.
  - apply andb_prop in E as [E1 E2]. apply Nat.leb_le in E1, E2.
    rewrite nat_ascii_embedding by lia.
    replace ((65 <=? nat_of_ascii c + 32) && (nat_of_ascii c + 32 <=? 90))
      with false; [done|].
    symmetry. apply andb_false_intro2. apply Nat.leb_gt. lia.
  - by rewrite E.
Qed.

Lemma collate_idem s : collate (collate s) = collate s.
Proof. induction s as [|c s IH]; simpl; [done|]. by rewrite lower_ascii_idem, IH. Qed.

Lemma sql_eq_spec a b : sql_eq a b = true <-> sql_equiv a b.
Proof. unfold sql_eq, sql_equiv. apply String.eqb_eq. Qed.

Lemma sql_eq_refl a : sql_eq a a = true.
Proof. by apply sql_eq_spec. Qed.

Lemma sql_eq_sym a b : sql_eq a b = sql_eq b a.
Proof. unfold sql_eq. apply String.eqb_sym. Qed.

Lemma sql_eq_trans_l a b c : sql_eq a b = true -> sql_eq a c = sql_eq b c.
Proof. intros H. apply sql_eq_spec in H. unfold sql_eq. by rewrite H. Qed.

Lemma sql_eq_trans_r a b c : sql_eq b c = true -> sql_eq a b = sql_eq a c.
Proof. intros H. apply sql_eq_spec in H. unfold sql_eq. by rewrite H. Qed.

Lemma sql_eq_collate_l a b : sql_eq (collate a) b = sql_eq a b.
Proof. unfold sql_eq. by rewrite collate_idem. Qed.

#[export] Instance sql_equiv_equivalence : Equivalence sql_equiv.
Proof. unfold sql_equiv. split; red; intros; congruence. Qed.

#[export] Instance sql_eq_proper : Proper (sql_equiv ==> sql_equiv ==> eq) sql_eq.
Proof. intros a a' Ha b b' Hb. unfold sql_eq. by rewrite Ha, Hb. Qed.

#[export] Instance collate_proper : Proper (sql_equiv ==> eq) collate.
Proof. intros a b H. exact H. Qed.

Lemma sql_equiv_collate s : sql_equiv (collate s) s.
Proof. apply collate_idem. Qed.

Lemma char_length_le s : char_length s <= String.length s.
Proof. induction s as [|c s IH]; simpl; [lia|]. destruct (utf8_continuation c); lia. Qed.

Lemma varchar_inr col n s s' : varchar col n s = inr s' -> s' = s /\ char_length s <= n.
Proof.
  unfold varchar. destruct (char_length s <=? n) eqn:E; [|done].
  intros [= <-]. split; [done|]. by apply Nat.leb_le.
Qed.

Lemma varchar_ok col n s : char_length s <= n -> varchar col n s = inr s.
Proof. unfold varchar. intros H. by rewrite (proj2 (Nat.leb_le _ _) H). Qed.

Lemma varchar_mono col n m s s' :
  n <= m -> varchar col n s = inr s' -> varchar col m s = inr s.
Proof. intros Hnm H. apply varchar_inr in H as [_ H]. apply varchar_ok. lia. Qed.

Lemma text_col_ok col s : String.length s <= text_max_bytes -> text_col col s = inr s.
Proof. unfold text_col. intros H. by rewrite (proj2 (Nat.leb_le _ _) H). Qed.

Lemma text_col_inr col s s' : text_col col s = inr s' -> s' = s /\ String.length s <= text_max_bytes.
Proof.
  unfold text_col. destruct (String.length s <=? text_max_bytes) eqn:E; [|done].
  intros [= <-]. split; [done|]. by apply Nat.leb_le.
Qed.

(** The stored value of a DECIMAL(p,s) column has at most [p] digits. *)
Lemma decimal_col_bound col p s q z :
  decimal_col col p s q = inr z -> (Z.abs z < 10 ^ p)%Z.
Proof.
  unfold decimal_col. destruct (Z.abs _ <? _)%Z eqn:E; [|done].
  intros [= <-]. by apply Z.ltb_lt.
Qed.






Lemma round_half_away_Z z : round_half_away (inject_Z z) = z.
Proof.
  unfold round_half_away, inject_Z. simpl. rewrite Z.mul_1_r.
  destruct (Z.leb_spec 0 z).
  - replace (2 * z + 1)%Z with (z * 2 + 1)%Z by lia.
    rewrite Z.div_add_l by lia. change (1 / 2)%Z with 0%Z. lia.
  - replace (2 * - z + 1)%Z with (- z * 2 + 1)%Z by lia.
    rewrite Z.div_add_l by lia. change (1 / 2)%Z with 0%Z. lia.
Qed.

(** An INT column stores a value of 32 bits. *)
Lemma int_col_bound col q z :
  int_col col q = inr z -> (int_min <= z <= int_max)%Z.
Proof.
  unfold int_col. destruct (_ && _) eqn:E; [|done].
  intros [= <-]. apply andb_prop in E as [E1 E2].
  apply Z.leb_le in E1, E2. lia.
Qed.

(** A BIGINT column stores a value of 64 bits. *)
Lemma bigint_col_bound col q z :
  bigint_col col q = inr z -> (- 2 ^ 63 <= z <= 2 ^ 63 - 1)%Z.
Proof.
  unfold bigint_col. destruct (_ && _) eqn:E; [|done].
  intros [= <-]. apply andb_prop in E as [E1 E2].
  apply Z.leb_le in E1, E2. lia.
Qed.

(** An integer inside the 32-bit range is stored unchanged. *)
Lemma int_col_in_range col z :
  (int_min <= z <= int_max)%Z -> int_col col (inject_Z z) = inr z.
Proof.
  intros [H1 H2]. unfold int_col. rewrite round_half_away_Z.
  apply Z.leb_le in H1, H2. by rewrite H1, H2.
Qed.

#[export] Hint Resolve sql_eq_refl varchar_ok : guardaid.
