(* ===== verification/Schema.v ===== *)
(** * Schema: the tables of guardaid_db and the statement monad over them

    [initDB] (server.js 39-91) creates four tables.  Each row is a record
    with one field per column; a table is
    - a [gmap] from the collated primary key to the row, when the key is a
      string or number the requests choose ([incidents], [safety_zones],
      [dropped_pins]): a lookup by [WHERE id = ?] is a map lookup;
    - a list of rows in insertion order for [incident_approvals], whose
      primary key is an AUTO_INCREMENT counter and whose UNIQUE key
      (incident_id, volunteer_id) is a property the handlers must keep.
    Timestamps ([CURRENT_TIMESTAMP]) are natural numbers given to each
    request.  [Sql A] is a statement sequence over the whole database.
    [db_typed] states the column types of the CREATE TABLE statements:
    VARCHAR lengths, TEXT size, DECIMAL digits, INT and BIGINT widths. *)

From stdpp Require Import base list gmap strings.
From Stdlib Require Import String ZArith QArith.
From S2P Require Import Prelude Sql.

Local Open Scope nat_scope.

(** ** Incident status: the strings 'pending', 'approved', 'rejected' and
    'resolved' the handlers write into [incidents.status]. *)
Inductive status : Type :=
| Pending
| Approved
| Rejected
| Resolved.

#[export] Instance status_eq_dec : EqDecision status.
Proof. solve_decision. Defined.

Definition status_name (s : status) : string :=
  match s with
  | Pending => "pending"
  | Approved => "approved"
  | Rejected => "rejected"
  | Resolved => "resolved"
  end.

(** ** Rows *)

(** [safety_zones(id, type, lat, lng, name, rating, radius, created_at)];
    lat and lng are DECIMAL(10,8) and DECIMAL(11,8), kept scaled by 10^8. *)
Record zone_row : Type := mkZone {
  z_id : string;
  z_type : string;
  z_lat : Z;
  z_lng : Z;
  z_name : string;
  z_rating : Z;
  z_radius : Z;
  z_created_at : nat
}.

(** [dropped_pins(id BIGINT, lat, lng, created_at)] *)
Record pin_row : Type := mkPin {
  p_id : Z;
  p_lat : Z;
  p_lng : Z;
  p_created_at : nat
}.

(** [incidents(...)]: [approval_count] and [rejection_count] are columns
    with DEFAULT 0 that no statement writes. *)
Record incident_row : Type := mkIncident {
  i_id : string;
  i_type : string;
  i_lat : Z;
  i_lng : Z;
  i_description : option string;
  i_severity : string;
  i_status : status;
  i_reporter_id : string;
  i_approved_by : option string;
  i_resolved_by : option string;
  i_approval_count : Z;
  i_rejection_count : Z;
  i_created_at : nat;
  i_updated_at : nat
}.

#[export] Instance incident_row_eq_dec : EqDecision incident_row.
Proof. solve_decision. Defined.

(** [incident_approvals(id AUTO_INCREMENT, incident_id, volunteer_id, action,
    comment, created_at)] *)
Record approval_row : Type := mkApproval {
  a_id : nat;
  a_incident_id : string;
  a_volunteer_id : string;
  a_action : string;
  a_comment : option string;
  a_created_at : nat
}.

(** ** The database *)

Record db : Type := mkDb {
  safety_zones : gmap string zone_row;
  dropped_pins : gmap Z pin_row;
  incidents : gmap string incident_row;
  incident_approvals : list approval_row;
  approvals_next_id : nat
}.

(** The tables right after [CREATE TABLE IF NOT EXISTS] on a fresh
    database. *)
Definition empty_db : db := mkDb ∅ ∅ ∅ [] 1.

Definition set_zones (d : db) (t : gmap string zone_row) : db :=
  mkDb t (dropped_pins d) (incidents d) (incident_approvals d) (approvals_next_id d).
Definition set_pins (d : db) (t : gmap Z pin_row) : db :=
  mkDb (safety_zones d) t (incidents d) (incident_approvals d) (approvals_next_id d).
Definition set_incidents (d : db) (t : gmap string incident_row) : db :=
  mkDb (safety_zones d) (dropped_pins d) t (incident_approvals d) (approvals_next_id d).
Definition set_approvals (d : db) (t : list approval_row) (next : nat) : db :=
  mkDb (safety_zones d) (dropped_pins d) (incidents d) t next.

(** ** Column types

    The value of each column is a value of its declared type: a
    VARCHAR(n) holds at most [n] characters, a TEXT at most 65535 bytes,
    a DECIMAL(p,s) at most [p] digits, an INT or BIGINT a value of 32 or
    64 bits.  MySQL's strict mode refuses a statement that would store
    anything else. *)

Definition opt_varchar_fits (n : nat) (o : option string) : Prop :=
  match o with Some s => char_length s <= n | None => True end.

Definition opt_text_fits (o : option string) : Prop :=
  match o with Some s => String.length s <= text_max_bytes | None => True end.

Definition decimal_fits (p : Z) (z : Z) : Prop := (Z.abs z < 10 ^ p)%Z.

Definition int_fits (z : Z) : Prop := (int_min <= z <= int_max)%Z.

Definition zone_typed (z : zone_row) : Prop :=
  char_length (z_id z) <= 50 /\ char_length (z_type z) <= 10 /\
  decimal_fits 10 (z_lat z) /\ decimal_fits 11 (z_lng z) /\
  char_length (z_name z) <= 255 /\ int_fits (z_rating z) /\ int_fits (z_radius z).

Definition pin_typed (p : pin_row) : Prop :=
  (- 2 ^ 63 <= p_id p <= 2 ^ 63 - 1)%Z /\ decimal_fits 10 (p_lat p) /\ decimal_fits 11 (p_lng p).

Definition incident_typed (r : incident_row) : Prop :=
  char_length (i_id r) <= 50 /\ char_length (i_type r) <= 20 /\
  decimal_fits 10 (i_lat r) /\ decimal_fits 11 (i_lng r) /\
  opt_text_fits (i_description r) /\ char_length (i_severity r) <= 10 /\
  char_length (i_reporter_id r) <= 50 /\ opt_varchar_fits 50 (i_approved_by r) /\
  opt_varchar_fits 50 (i_resolved_by r) /\ int_fits (i_approval_count r) /\
  int_fits (i_rejection_count r).

Definition approval_typed (a : approval_row) : Prop :=
  char_length (a_incident_id a) <= 50 /\ char_length (a_volunteer_id a) <= 50 /\
  char_length (a_action a) <= 20 /\ opt_text_fits (a_comment a).

(** Every row of every table has the types of its columns; the
    AUTO_INCREMENT id is a natural number without the INT bound. *)
Record db_typed (d : db) : Prop := {
  typed_zones : map_Forall (fun _ => zone_typed) (safety_zones d);
  typed_pins : map_Forall (fun _ => pin_typed) (dropped_pins d);
  typed_incidents : map_Forall (fun _ => incident_typed) (incidents d);
  typed_approvals : Forall approval_typed (incident_approvals d)
}.

(** A statement sequence of a handler. *)
Abbreviation Sql := (St db sql_error).

(** The reply of an Express handler: [res.json(a)] or
    [res.status(500).json({ error })]. *)
Inductive http_reply (A : Type) : Type :=
| Json200 (a : A)
| Status500 (error : string).
Arguments Json200 {A} a.
Arguments Status500 {A} error.

(** ** Column conversions of one statement *)

Definition col_varchar (col : string) (n : nat) (v : option string) : sql_error + string :=
  match v with
  | Some s => varchar col n s
  | None => inl (NotNullViolation col)
  end.

Definition col_text_null (col : string) (v : option string) : sql_error + option string :=
  match v with
  | Some s => match text_col col s with inl e => inl e | inr s' => inr (Some s') end
  | None => inr None
  end.

Definition col_decimal (col : string) (prec scale : Z) (v : option Q) : sql_error + Z :=
  match v with
  | Some q => decimal_col col prec scale q
  | None => inl (NotNullViolation col)
  end.

Definition col_int (col : string) (v : option Q) : sql_error + Z :=
  match v with
  | Some q => int_col col q
  | None => inl (NotNullViolation col)
  end.

Lemma col_varchar_inr col n v s :
  col_varchar col n v = inr s -> v = Some s /\ char_length s <= n.
Proof.
  destruct v as [s'|]; simpl; [|done].
  intros H. apply varchar_inr in H as [-> H]. done.
Qed.

Lemma col_varchar_ok col n s :
  char_length s <= n -> col_varchar col n (Some s) = inr s.
Proof. apply varchar_ok. Qed.

Lemma col_text_null_inr col v v' : col_text_null col v = inr v' -> v' = v.
Proof.
  destruct v as [s|]; simpl; [|congruence].
  unfold text_col. destruct (String.length s <=? text_max_bytes); congruence.
Qed.

Lemma col_text_null_fits col v v' : col_text_null col v = inr v' -> opt_text_fits v'.
Proof.
  destruct v as [s|]; simpl; [|by intros [= <-]].
  destruct (text_col col s) as [|s'] eqn:E; [done|]. intros [= <-].
  by apply text_col_inr in E as [-> ?].
Qed.

Lemma col_decimal_fits col p sc v z : col_decimal col p sc v = inr z -> decimal_fits p z.
Proof. destruct v; [apply decimal_col_bound|done]. Qed.

Lemma col_int_fits col v z : col_int col v = inr z -> int_fits z.
Proof. destruct v; [apply int_col_bound|done]. Qed.

(** Turns the successful column conversions of a statement into the
    types of the values it stores. *)
Ltac column_facts :=
  repeat match goal with
  | H : col_varchar _ _ _ = inr _ |- _ => apply col_varchar_inr in H as [? ?]
  | H : varchar _ _ _ = inr _ |- _ => apply varchar_inr in H as [? ?]
  | H : col_text_null _ _ = inr _ |- _ => apply col_text_null_fits in H
  | H : col_decimal _ _ _ _ = inr _ |- _ => apply col_decimal_fits in H
  | H : col_int _ _ = inr _ |- _ => apply col_int_fits in H
  | H : bigint_col _ _ = inr _ |- _ => apply bigint_col_bound in H
  end.

#[export] Hint Resolve col_varchar_ok : guardaid.
