(* ===== verification/Incidents.v ===== *)
(** * Incidents: the requests, approval rows and replies of the incident routes

    The bodies of [POST /api/incidents] and [POST /api/incidents/:id/action]
    as the client sends them, the UNIQUE key of [incident_approvals] and
    the counts of its rows per incident ([rows_of], [count_action]: the
    [COUNT(CASE WHEN ...)] of server.js 309-313 and of the LEFT JOINs of
    the listings), the FOREIGN KEY of the approval rows, and the rows of
    the two listings' replies.  The handlers are in [Reports]
    (creating and listing) and [Quorum] (the action handler). *)

From stdpp Require Import base list gmap strings sorting.
From Stdlib Require Import String ZArith QArith.
From S2P Require Import Prelude Sql Schema.

Local Open Scope nat_scope.
Local Open Scope gd_scope.

(** ** Requests *)

(** The fields destructured from [req.body] in [POST /api/incidents]. *)
Record incident_body : Type := mkIncidentBody {
  ib_id : field string;
  ib_type : field string;
  ib_lat : field Q;
  ib_lng : field Q;
  ib_description : field string;
  ib_severity : field string;
  ib_reporterId : field string
}.

(** The fields destructured from [req.body] in [POST /api/incidents/:id/action]. *)
Record action_body : Type := mkActionBody {
  ab_action : field string;
  ab_volunteerId : field string;
  ab_comment : field string
}.

(** ** Approval rows *)

(** The UNIQUE key [unique_volunteer_incident (incident_id, volunteer_id)]
    under the collation. *)
Definition same_key (iid vid : string) (r : approval_row) : bool :=
  sql_eq (a_incident_id r) iid && sql_eq (a_volunteer_id r) vid.

(** [ON DUPLICATE KEY UPDATE action = VALUES(action), comment = VALUES(comment)] *)
Definition set_action (act : string) (com : option string) (r : approval_row) : approval_row :=
  mkApproval (a_id r) (a_incident_id r) (a_volunteer_id r) act com (a_created_at r).

(** The rows of one incident ([WHERE incident_id = ?], or the LEFT JOIN
    of the listings). *)
Definition rows_of (iid : string) (rows : list approval_row) : list approval_row :=
  List.filter (fun r => sql_eq (a_incident_id r) iid) rows.

(** [COUNT(CASE WHEN action = '<a>' THEN 1 END)] over the rows of one incident. *)
Definition count_action (a iid : string) (rows : list approval_row) : nat :=
  count_if (fun r => sql_eq (a_action r) a) (rows_of iid rows).

Definition approvals_of (iid : string) (rows : list approval_row) : nat :=
  count_action "approve" iid rows.
Definition rejections_of (iid : string) (rows : list approval_row) : nat :=
  count_action "reject" iid rows.

(** The FOREIGN KEY of [incident_approvals.incident_id]. *)
Definition approvals_fk (d : db) : Prop :=
  forall r, In r (incident_approvals d) ->
            is_Some (incidents d !! collate (a_incident_id r)).

(** ** Listings *)

(** One element of the reply of [GET /api/incidents]. *)
Record incident_view : Type := mkIncidentView {
  v_id : string;
  v_type : string;
  v_lat : Q;
  v_lng : Q;
  v_description : option string;
  v_severity : string;
  v_status : string;
  v_reporterId : string;
  v_approvedBy : option string;
  v_resolvedBy : option string;
  v_approvalCount : nat;
  v_rejectionCount : nat;
  v_timestamp : nat;
  v_updatedAt : nat
}.

(** One element of the reply of [GET /api/incidents/pending]. *)
Record pending_view : Type := mkPendingView {
  pv_id : string;
  pv_type : string;
  pv_lat : Q;
  pv_lng : Q;
  pv_description : option string;
  pv_severity : string;
  pv_status : string;
  pv_reporterId : string;
  pv_approvalCount : nat;
  pv_rejectionCount : nat;
  pv_timestamp : nat
}.
