(* ===== verification/Reports.v ===== *)
(** * Reports: reporting incidents and listing them

    The handler of [POST /api/incidents] ([createIncident], server.js
    267-281) and the two listings ([getIncidents], server.js 230-264;
    [getPendingIncidents], server.js 336-368), each a sequence of
    statements in [Sql] that [handle_*] wraps in the [try ... catch] that
    answers 500.  The theorems: a new incident is pending with no votes;
    a request fails without writing anything when its id is taken or a
    field is absent or too long; coordinates are stored within their
    DECIMAL range; the listings are newest first and list exactly the rows
    of the table. *)

From stdpp Require Import base list gmap strings sorting.
From Stdlib Require Import String ZArith QArith.
From S2P Require Import Prelude Sql Schema Incidents.

Local Open Scope nat_scope.
Local Open Scope gd_scope.

(** ** Creating an incident *)

Definition new_incident (now : nat) (id ty : string) (lat lng : Z)
    (desc : option string) (sev rep : string) : incident_row :=
  mkIncident id ty lat lng desc sev Pending rep None None 0 0 now now.

(** [INSERT INTO incidents (id, type, lat, lng, description, severity,
    reporter_id, status) VALUES (?, ?, ?, ?, ?, ?, ?, 'pending')] *)
Definition insert_incident (now : nat) (id ty : option string) (lat lng : option Q)
    (desc : option string) (sev rep : string) : Sql unit :=
  do id <- st_lift (col_varchar "id" 50 id);
  do ty <- st_lift (col_varchar "type" 20 ty);
  do lat <- st_lift (col_decimal "lat" 10 8 lat);
  do lng <- st_lift (col_decimal "lng" 11 8 lng);
  do desc <- st_lift (col_text_null "description" desc);
  do sev <- st_lift (varchar "severity" 10 sev);
  do rep <- st_lift (varchar "reporter_id" 50 rep);
  do d <- st_get;
  (match incidents d !! collate id with
   | Some _ => st_throw (DuplicateEntry id)
   | None =>
       st_put (set_incidents d
         (<[collate id := new_incident now id ty lat lng desc sev rep]> (incidents d)))
   end).

(** The body of the handler: [severity || 'medium'] and
    [reporterId || 'anonymous'] are computed first, then mysql2 refuses an
    [undefined] parameter, then the statement runs. *)
Definition createIncident (now : nat) (b : incident_body) : Sql unit :=
  let sev := js_or (js_value (ib_severity b)) "medium" in
  let rep := js_or (js_value (ib_reporterId b)) "anonymous" in
  do id <- st_lift (bind_param (ib_id b));
  do ty <- st_lift (bind_param (ib_type b));
  do lat <- st_lift (bind_param (ib_lat b));
  do lng <- st_lift (bind_param (ib_lng b));
  do desc <- st_lift (bind_param (ib_description b));
  insert_incident now id ty lat lng desc sev rep.

Definition handle_create_incident (now : nat) (b : incident_body) : Sql (http_reply unit) :=
  st_catch (createIncident now b ;;; st_ret (Json200 tt))
           (fun _ => st_ret (Status500 "Failed to create incident")).

(** ** Listings *)

(** [ORDER BY i.created_at DESC]: newest first.  SQL leaves the order of
    rows with the same timestamp open; the model fixes one (a stable merge
    sort of the table), which is one of the orders the server may send. *)
Definition newest_first (a b : incident_row) : Prop := i_created_at b <= i_created_at a.

#[export] Instance newest_first_dec : RelDecision newest_first.
Proof. intros a b. unfold newest_first. apply _. Defined.

Definition sorted_incidents (t : gmap string incident_row) : list incident_row :=
  merge_sort newest_first (map snd (map_to_list t)).

Definition view_incident (rows : list approval_row) (r : incident_row) : incident_view :=
  mkIncidentView (i_id r) (i_type r) (decimal_value 8 (i_lat r)) (decimal_value 8 (i_lng r))
    (i_description r) (i_severity r) (status_name (i_status r)) (i_reporter_id r)
    (i_approved_by r) (i_resolved_by r)
    (approvals_of (i_id r) rows) (rejections_of (i_id r) rows)
    (i_created_at r) (i_updated_at r).

Definition view_pending (rows : list approval_row) (r : incident_row) : pending_view :=
  mkPendingView (i_id r) (i_type r) (decimal_value 8 (i_lat r)) (decimal_value 8 (i_lng r))
    (i_description r) (i_severity r) (status_name (i_status r)) (i_reporter_id r)
    (approvals_of (i_id r) rows) (rejections_of (i_id r) rows) (i_created_at r).

(** [WHERE i.status = 'pending'] *)
Definition is_pending (r : incident_row) : bool :=
  sql_eq (status_name (i_status r)) "pending".

Definition getIncidents (d : db) : list incident_view :=
  map (view_incident (incident_approvals d)) (sorted_incidents (incidents d)).

Definition getPendingIncidents (d : db) : list pending_view :=
  map (view_pending (incident_approvals d))
      (List.filter is_pending (sorted_incidents (incidents d))).

Definition handle_get_incidents : Sql (http_reply (list incident_view)) :=
  do d <- st_get; st_ret (Json200 (getIncidents d)).

Definition handle_get_pending : Sql (http_reply (list pending_view)) :=
  do d <- st_get; st_ret (Json200 (getPendingIncidents d)).

(** The incident [I1] as the client reports it. *)
Definition demo_body : incident_body :=
  mkIncidentBody (Val "I1") (Val "safety_concern") (Val (3133 # 100)%Q)
    (Val (7557 # 100)%Q) (Val "") (Val "medium") (Val "current_user").

Definition demo_db : db := snd (createIncident 1 demo_body empty_db).

Definition demo_row : incident_row :=
  new_incident 1 "I1" "safety_concern" 3133000000 7557000000 (Some "") "medium"
    "current_user".

(** ** Invariants *)

(** Coordinates stored within DECIMAL(10,8) and DECIMAL(11,8). *)
Definition coords_ok (d : db) : Prop :=
  forall k r, incidents d !! k = Some r ->
    (Z.abs (i_lat r) < 10 ^ 10)%Z /\ (Z.abs (i_lng r) < 10 ^ 11)%Z.

(** The fields of an element of [GET /api/incidents] that
    [GET /api/incidents/pending] sends. *)
Definition pending_fields (v : incident_view) : pending_view :=
  mkPendingView (v_id v) (v_type v) (v_lat v) (v_lng v) (v_description v) (v_severity v)
    (v_status v) (v_reporterId v) (v_approvalCount v) (v_rejectionCount v) (v_timestamp v).

(** ** Lemmas *)

(** A failing report writes nothing: the only write is the last statement. *)
Lemma createIncident_inl now b d e d' :
  createIncident now b d = (inl e, d') -> d' = d.
Proof.
  unfold createIncident, insert_incident. run_sql.
  repeat (case_match; simplify_eq; try done); by intros [= _ ->].
Qed.

Lemma handle_create_500 now b d msg d' :
  handle_create_incident now b d = (inr (Status500 msg), d') -> d' = d.
Proof.
  unfold handle_create_incident, st_catch, st_bind.
  destruct (createIncident now b d) as [[e|u] d1] eqn:E.
  - intros [= _ <-]. by eapply createIncident_inl.
  - done.
Qed.

(** No approval row belongs to an incident that does not exist. *)
Lemma fk_no_rows d id :
  approvals_fk d -> incidents d !! collate id = None ->
  rows_of id (incident_approvals d) = [].
Proof.
  intros Hfk Hn. unfold rows_of.
  destruct (List.filter _ _) as [|x l] eqn:E; [done|].
  assert (Hx : In x (List.filter (fun r => sql_eq (a_incident_id r) id)
                       (incident_approvals d))) by (rewrite E; left; done).
  apply List.filter_In in Hx as [Hx Hk]. apply sql_eq_spec in Hk.
  destruct (Hfk x Hx) as [y Hy]. unfold sql_equiv in Hk. by rewrite Hk, Hn in Hy.
Qed.

Lemma is_pending_iff r : is_pending r = true <-> i_status r = Pending.
Proof. unfold is_pending. by destruct (i_status r). Qed.

#[export] Instance newest_first_total : Total newest_first.
Proof. intros a b. unfold newest_first. lia. Qed.

Lemma in_sorted_incidents t r :
  In r (sorted_incidents t) <-> exists k, t !! k = Some r.
Proof.
  unfold sorted_incidents. rewrite <- list_elem_of_In.
  rewrite (merge_sort_Permutation newest_first). rewrite list_elem_of_fmap.
  split.
  - intros ([k r'] & -> & Hk). apply elem_of_map_to_list in Hk. by exists k.
  - intros [k Hk]. exists (k, r). split; [done|]. by apply elem_of_map_to_list.
Qed.

Lemma in_getIncidents d v :
  In v (getIncidents d) <->
  exists k r, incidents d !! k = Some r /\ v = view_incident (incident_approvals d) r.
Proof.
  unfold getIncidents. rewrite in_map_iff. split.
  - intros (r & <- & Hr). apply in_sorted_incidents in Hr as [k Hk]. eauto.
  - intros (k & r & Hk & ->). exists r. split; [done|].
    apply in_sorted_incidents. eauto.
Qed.

(** A successful report adds one row, whose coordinates are within range. *)
Lemma createIncident_inr now b d u d' :
  createIncident now b d = (inr u, d') ->
  exists (k : string) (row : incident_row),
    d' = set_incidents d (<[k := row]> (incidents d)) /\
    k = collate (i_id row) /\ incidents d !! k = None /\
    (Z.abs (i_lat row) < 10 ^ 10)%Z /\ (Z.abs (i_lng row) < 10 ^ 11)%Z.
Proof.
  unfold createIncident, insert_incident, col_decimal. run_sql.
  repeat (case_match; simplify_eq; try done).
  intros [= _ <-]. eexists _, _. split; [reflexivity|]. simpl.
  split_and!; try done; eapply decimal_col_bound; eassumption.
Qed.

(** ** Claims *)

(** C7. Reporting an incident.  A body whose fields fit their columns and
    whose id is free (in any letter case) is stored as a [pending]
    incident that nobody approved or resolved, with severity
    [severity || 'medium'] and reporter [reporterId || 'anonymous'], no
    approval or rejection on record, and every other incident unchanged. *)
Theorem create_incident_pending now b d id ty lat lng zlat zlng desc :
  approvals_fk d ->
  ib_id b = Val id -> ib_type b = Val ty -> ib_lat b = Val lat -> ib_lng b = Val lng ->
  ib_description b = Val desc ->
  char_length id <= 50 -> char_length ty <= 20 ->
  decimal_col "lat" 10 8 lat = inr zlat -> decimal_col "lng" 11 8 lng = inr zlng ->
  String.length desc <= text_max_bytes ->
  char_length (js_or (js_value (ib_severity b)) "medium") <= 10 ->
  char_length (js_or (js_value (ib_reporterId b)) "anonymous") <= 50 ->
  incidents d !! collate id = None ->
  exists d' r,
    handle_create_incident now b d = (inr (Json200 tt), d') /\
    incidents d' !! collate id = Some r /\
    i_status r = Pending /\ i_approved_by r = None /\ i_resolved_by r = None /\
    i_severity r = js_or (js_value (ib_severity b)) "medium" /\
    i_reporter_id r = js_or (js_value (ib_reporterId b)) "anonymous" /\
    approvals_of id (incident_approvals d') = 0 /\
    rejections_of id (incident_approvals d') = 0 /\
    (forall k, k <> collate id -> incidents d' !! k = incidents d !! k).
Proof.
  intros Hfk Hid Hty Hlat Hlng Hdesc Lid Lty Zlat Zlng Ldesc Lsev Lrep Hfree.
  set (sev := js_or (js_value (ib_severity b)) "medium") in *.
  set (rep := js_or (js_value (ib_reporterId b)) "anonymous") in *.
  set (row := new_incident now id ty zlat zlng (Some desc) sev rep).
  exists (set_incidents d (<[collate id := row]> (incidents d))), row.
  split.
  { unfold handle_create_incident, createIncident, insert_incident.
    rewrite Hid, Hty, Hlat, Hlng, Hdesc. run_sql.
    rewrite !varchar_ok, text_col_ok by done. run_sql. rewrite Zlat, Zlng. run_sql.
    rewrite Hfree. done. }
  assert (Hrows : rows_of id (incident_approvals d) = []) by (by apply fk_no_rows).
  split; [simpl; by rewrite lookup_insert_eq|].
  split_and!; try done.
  - unfold approvals_of, count_action. simpl. by rewrite Hrows.
  - unfold rejections_of, count_action. simpl. by rewrite Hrows.
  - intros k Hk. simpl. by rewrite lookup_insert_ne.
Qed.

(** C8. A report whose id is already taken (ids compare without regard to
    letter case) answers 500 and writes nothing. *)
Theorem create_duplicate_id now b d id r :
  ib_id b = Val id -> incidents d !! collate id = Some r ->
  handle_create_incident now b d = (inr (Status500 "Failed to create incident"), d).
Proof.
  intros Hid Hr. unfold handle_create_incident, st_catch.
  destruct (createIncident now b d) as [[e|u] d1] eqn:E.
  - apply createIncident_inl in E as E'. subst d1. unfold st_bind. by rewrite E.
  - exfalso. revert E. unfold createIncident, insert_incident. rewrite Hid. run_sql.
    repeat (case_match; simplify_eq; try done).
    match goal with H : varchar "id" 50 id = inr _ |- _ =>
      apply varchar_inr in H as [-> _] end. congruence.
Qed.

(** A report without a [description] field answers 500 and writes
    nothing (mysql2 refuses the [undefined] parameter), although the spec
    calls the description optional. *)
Theorem create_missing_description now b d :
  ib_description b = Missing ->
  handle_create_incident now b d = (inr (Status500 "Failed to create incident"), d).
Proof.
  intros Hd. unfold handle_create_incident, st_catch.
  assert (E : exists e, createIncident now b d = (inl e, d)).
  { unfold createIncident. rewrite Hd. run_sql.
    repeat (case_match; simplify_eq; eauto). }
  destruct E as [e E]. unfold st_bind. by rewrite E.
Qed.

(** A report whose type is wider than [type VARCHAR(20)] answers 500 and
    writes nothing. *)
Lemma create_long_type now b d ty :
  ib_type b = Val ty -> 20 < char_length ty ->
  handle_create_incident now b d = (inr (Status500 "Failed to create incident"), d).
Proof.
  intros Hty Hlong. unfold handle_create_incident, st_catch.
  destruct (createIncident now b d) as [[e|u] d1] eqn:E.
  - apply createIncident_inl in E as E'. subst d1. unfold st_bind. by rewrite E.
  - exfalso. revert E. unfold createIncident, insert_incident. rewrite Hty. run_sql.
    repeat (case_match; simplify_eq; try done).
    match goal with H : varchar "type" 20 _ = inr _ |- _ =>
      apply varchar_inr in H as [_ ?] end. lia.
Qed.

(** [GET /api/incidents] lists every incident of the table once, newest
    first, with its counts. *)
Theorem list_newest_first d :
  Sorted (fun a b => v_timestamp b <= v_timestamp a) (getIncidents d) /\
  List.length (getIncidents d) = size (incidents d) /\
  (forall v, In v (getIncidents d) <->
     exists k r, incidents d !! k = Some r /\ v = view_incident (incident_approvals d) r).
Proof.
  split_and!.
  - unfold getIncidents. rewrite map_as_fmap.
    apply (Sorted_fmap _ newest_first); [by intros x y H|].
    apply Sorted_merge_sort, _.
  - unfold getIncidents, sorted_incidents.
    rewrite length_map, (Permutation_length (merge_sort_Permutation _ _)).
    by rewrite length_map, length_map_to_list.
  - apply in_getIncidents.
Qed.

(** [GET /api/incidents/pending] lists exactly the pending incidents. *)
Theorem pending_list_exact d v :
  In v (getPendingIncidents d) <->
  exists k r, incidents d !! k = Some r /\ i_status r = Pending /\
              v = view_pending (incident_approvals d) r.
Proof.
  unfold getPendingIncidents. rewrite in_map_iff. split.
  - intros (r & <- & Hr). apply List.filter_In in Hr as [Hr Hp].
    apply in_sorted_incidents in Hr as [k Hk]. apply is_pending_iff in Hp. eauto.
  - intros (k & r & Hk & Hp & ->). exists r. split; [done|].
    apply List.filter_In. split; [apply in_sorted_incidents; eauto|].
    by apply is_pending_iff.
Qed.

(** The two listing queries agree.  The query of
    [GET /api/incidents/pending] (its own [WHERE], [GROUP BY] and [ORDER
    BY]) returns exactly the elements of [GET /api/incidents] whose status
    is ['pending'], with the same counts, restricted to the fields it
    sends; the order is the same because both listings are modelled with
    one sort, which breaks ties between rows of the same second in one
    fixed way where MySQL leaves that order open to each query. *)
Theorem pending_listing_filters d :
  getPendingIncidents d =
  map pending_fields (List.filter (fun v => String.eqb (v_status v) "pending") (getIncidents d)).
Proof.
  unfold getPendingIncidents, getIncidents.
  induction (sorted_incidents (incidents d)) as [|r l IH]; [done|]. simpl.
  assert (Hp : String.eqb (status_name (i_status r)) "pending" = is_pending r)
    by (unfold is_pending; by destruct (i_status r)).
  rewrite Hp. destruct (is_pending r); simpl; by rewrite IH.
Qed.

(** Stored coordinates stay within DECIMAL(10,8) and DECIMAL(11,8):
    a report keeps the bound on every row, rejecting a value that rounds
    outside the range. *)
Theorem create_keeps_coords_bounded now b d res d' :
  coords_ok d -> handle_create_incident now b d = (res, d') -> coords_ok d'.
Proof.
  intros Hok. unfold handle_create_incident, st_catch.
  destruct (createIncident now b d) as [[e|u] d1] eqn:E; unfold st_bind; rewrite E.
  - apply createIncident_inl in E. subst. by intros [= _ <-].
  - intros [= _ <-]. apply createIncident_inr in E as (k & row & -> & _ & _ & H1 & H2).
    intros k' r'. simpl. rewrite lookup_insert.
    case_decide; [intros [= <-]; done|]. apply Hok.
Qed.

(** ** Witnesses *)

Lemma empty_fk : approvals_fk empty_db.
Proof. intros r []. Qed.

Lemma create_incident_pending_witness :
  exists d' r',
    handle_create_incident 1 demo_body empty_db = (inr (Json200 tt), d') /\
    incidents d' !! collate "I1" = Some r' /\ i_status r' = Pending.
Proof.
  assert (Lid : char_length "I1" <= 50) by (vm_compute; lia).
  assert (Lty : char_length "safety_concern" <= 20) by (vm_compute; lia).
  assert (Zlat : decimal_col "lat" 10 8 (3133 # 100)%Q = inr 3133000000%Z)
    by (vm_compute; reflexivity).
  assert (Zlng : decimal_col "lng" 11 8 (7557 # 100)%Q = inr 7557000000%Z)
    by (vm_compute; reflexivity).
  assert (Ld : String.length "" <= text_max_bytes) by apply Nat.le_0_l.
  assert (Ls : char_length (js_or (js_value (ib_severity demo_body)) "medium") <= 10)
    by (vm_compute; lia).
  assert (Lr : char_length (js_or (js_value (ib_reporterId demo_body)) "anonymous") <= 50)
    by (vm_compute; lia).
  assert (Hn : incidents empty_db !! collate "I1" = None) by reflexivity.
  destruct (create_incident_pending 1 demo_body empty_db "I1" "safety_concern"
              (3133 # 100)%Q (7557 # 100)%Q 3133000000 7557000000 ""
              empty_fk eq_refl eq_refl eq_refl eq_refl eq_refl Lid Lty Zlat Zlng Ld Ls Lr Hn)
    as (d' & r' & H1 & H2 & H3 & _).
  exists d', r'. split_and!; assumption.
Defined.

Lemma create_duplicate_id_witness :
  ib_id (mkIncidentBody (Val "i1") (Val "theft") (Val 31%Q) (Val 75%Q) (Val "") Null Null)
    = Val "i1" /\
  incidents demo_db !! collate "i1" = Some demo_row /\
  handle_create_incident 5
    (mkIncidentBody (Val "i1") (Val "theft") (Val 31%Q) (Val 75%Q) (Val "") Null Null) demo_db
  = (inr (Status500 "Failed to create incident"), demo_db).
Proof.
  assert (H : incidents demo_db !! collate "i1" = Some demo_row) by (vm_compute; reflexivity).
  split; [reflexivity|]. split; [exact H|].
  exact (create_duplicate_id 5
           (mkIncidentBody (Val "i1") (Val "theft") (Val 31%Q) (Val 75%Q) (Val "") Null Null)
           demo_db "i1" demo_row eq_refl H).
Defined.

Lemma create_missing_description_witness :
  ib_description (mkIncidentBody (Val "I2") (Val "theft") (Val 31%Q) (Val 75%Q) Missing
                    Missing Missing) = Missing /\
  handle_create_incident 3 (mkIncidentBody (Val "I2") (Val "theft") (Val 31%Q) (Val 75%Q)
                              Missing Missing Missing) demo_db =
  (inr (Status500 "Failed to create incident"), demo_db).
Proof.
  split; [reflexivity|]. by apply create_missing_description.
Defined.

Lemma create_keeps_coords_bounded_witness :
  coords_ok empty_db /\
  coords_ok (snd (handle_create_incident 1 demo_body empty_db)).
Proof.
  assert (H : coords_ok empty_db) by (intros k r Hk; vm_compute in Hk; done).
  split; [exact H|].
  exact (create_keeps_coords_bounded 1 demo_body empty_db _ _ H
           (surjective_pairing _)).
Defined.
