(* ===== verification/Quorum.v ===== *)
(** * Quorum: the approval rows and the quorum rule of the action handler

    The action handler (server.js 284-333: [upsert_approval],
    [count_actions], [incidentAction]) keeps one row of
    [incident_approvals] per (incident, volunteer) and recounts the rows of
    the incident after every vote.  This file models it and proves
    - that the rows keep the UNIQUE key ([unique_keys]);
    - that the rows refine an abstract map "volunteer -> last action"
      ([vote_of]): the upsert is an insertion into that map;
    - how the counts change on a vote: the volunteer's old action is taken
      out and the new one put in;
    - the functional behaviour of the handler on every branch, its error
      cases, and that an error leaves the database as it was;
    - that a sequence of requests is simulated by a [tally] (status and
      counts) run over the vote map, and from it that the status depends
      on the order of the votes for every database and any three
      volunteers. *)

From stdpp Require Import base list gmap strings.
From Stdlib Require Import String ZArith QArith.
From S2P Require Import Prelude Sql Schema Incidents Reports.

Local Open Scope nat_scope.
Local Open Scope gd_scope.

(** ** The action handler *)

(** [INSERT INTO incident_approvals (incident_id, volunteer_id, action,
    comment) VALUES (?, ?, ?, ?) ON DUPLICATE KEY UPDATE ...]: a row with
    the same key is updated in place; otherwise the foreign key to
    [incidents] is checked and a row with the next AUTO_INCREMENT id is
    appended. *)
Definition upsert_approval (now : nat) (iid : string) (vid act : option string)
    (com : option string) : Sql unit :=
  do iid <- st_lift (col_varchar "incident_id" 50 (Some iid));
  do vid <- st_lift (col_varchar "volunteer_id" 50 vid);
  do act <- st_lift (col_varchar "action" 20 act);
  do com <- st_lift (col_text_null "comment" com);
  do d <- st_get;
  (if existsb (same_key iid vid) (incident_approvals d) then
     st_put (set_approvals d
       (update_where (same_key iid vid) (set_action act com) (incident_approvals d))
       (approvals_next_id d))
   else
     match incidents d !! collate iid with
     | Some _ =>
         st_put (set_approvals d
           (incident_approvals d ++
              [mkApproval (approvals_next_id d) iid vid act com now])
           (S (approvals_next_id d)))
     | None => st_throw NoReferencedRow
     end).

(** The SELECT of the action handler. *)
Definition count_actions (iid : string) : Sql (nat * nat) :=
  do d <- st_get;
  st_ret (approvals_of iid (incident_approvals d),
          rejections_of iid (incident_approvals d)).

(** [updated_at ... ON UPDATE CURRENT_TIMESTAMP]: the timestamp moves only
    when a column changes. *)
Definition touch (now : nat) (f : incident_row -> incident_row) (r : incident_row) : incident_row :=
  let r' := f r in
  if decide (r' = r) then r
  else mkIncident (i_id r') (i_type r') (i_lat r') (i_lng r') (i_description r')
         (i_severity r') (i_status r') (i_reporter_id r') (i_approved_by r')
         (i_resolved_by r') (i_approval_count r') (i_rejection_count r')
         (i_created_at r') now.

(** [UPDATE incidents SET ... WHERE id = ?] *)
Definition update_incident (now : nat) (iid : string)
    (f : incident_row -> incident_row) : Sql unit :=
  do d <- st_get;
  st_put (set_incidents d (alter (touch now f) (collate iid) (incidents d))).

Definition set_resolved (vid : string) (r : incident_row) : incident_row :=
  mkIncident (i_id r) (i_type r) (i_lat r) (i_lng r) (i_description r)
    (i_severity r) Resolved (i_reporter_id r) (i_approved_by r) (Some vid)
    (i_approval_count r) (i_rejection_count r) (i_created_at r) (i_updated_at r).

Definition set_approved (vid : string) (r : incident_row) : incident_row :=
  mkIncident (i_id r) (i_type r) (i_lat r) (i_lng r) (i_description r)
    (i_severity r) Approved (i_reporter_id r) (Some vid) (i_resolved_by r)
    (i_approval_count r) (i_rejection_count r) (i_created_at r) (i_updated_at r).

Definition set_rejected (r : incident_row) : incident_row :=
  mkIncident (i_id r) (i_type r) (i_lat r) (i_lng r) (i_description r)
    (i_severity r) Rejected (i_reporter_id r) (i_approved_by r) (i_resolved_by r)
    (i_approval_count r) (i_rejection_count r) (i_created_at r) (i_updated_at r).

(** The quorum of the code: 3, fixed. *)
Definition quorum : nat := 3.

(** The body of the action handler. *)
Definition incidentAction (now : nat) (id : string) (b : action_body) : Sql unit :=
  do vid <- st_lift (bind_param (ab_volunteerId b));
  do act <- st_lift (bind_param (ab_action b));
  do com <- st_lift (bind_param (ab_comment b));
  upsert_approval now id vid act com ;;;
  (if js_eq_str (ab_action b) "resolve" then
     do v <- st_lift (col_varchar "resolved_by" 50 vid);
     update_incident now id (set_resolved v)
   else
     do '(approvals, rejections) <- count_actions id;
     (if quorum <=? approvals then
        do v <- st_lift (col_varchar "approved_by" 50 vid);
        update_incident now id (set_approved v)
      else if quorum <=? rejections then
        update_incident now id set_rejected
      else st_ret tt)).

Definition handle_incident_action (now : nat) (id : string) (b : action_body)
    : Sql (http_reply unit) :=
  st_catch (incidentAction now id b ;;; st_ret (Json200 tt))
           (fun _ => st_ret (Status500 "Failed to process action")).

(** ** The UNIQUE key and the abstract votes *)

(** At most one row per (incident_id, volunteer_id) under the collation. *)
Definition unique_keys (rows : list approval_row) : Prop :=
  forall iid vid, count_if (same_key iid vid) rows <= 1.

(** The action a volunteer has on record for an incident. *)
Definition vote_of (iid vid : string) (rows : list approval_row) : option string :=
  a_action <$> List.find (same_key iid vid) rows.

(** 1 when a recorded action counts as [a] in [COUNT(CASE WHEN action = a ...)]. *)
Definition votes_for (a : string) (o : option string) : nat :=
  match o with
  | Some x => if sql_eq x a then 1 else 0
  | None => 0
  end.

Lemma same_key_set_action iid vid act com r :
  same_key iid vid (set_action act com r) = same_key iid vid r.
Proof. reflexivity. Qed.

(** A row that matches one key matches another exactly when the keys are
    the same under the collation. *)
Lemma same_key_transfer i v i' v' r :
  same_key i v r = true -> same_key i' v' r = sql_eq i i' && sql_eq v v'.
Proof.
  unfold same_key. intros [H1 H2]%andb_prop.
  by rewrite (sql_eq_trans_l _ _ _ H1), (sql_eq_trans_l _ _ _ H2).
Qed.

(** Rows matching a key match every key equivalent to it. *)
Lemma count_same_key_equiv i v i' v' rows :
  sql_eq i' i = true -> sql_eq v' v = true ->
  count_if (same_key i v) rows = count_if (same_key i' v') rows.
Proof.
  intros E1 E2. apply count_if_ext. intros x _. unfold same_key.
  by rewrite (sql_eq_trans_r _ _ _ E1), (sql_eq_trans_r _ _ _ E2).
Qed.

Lemma unique_keys_tail x rows : unique_keys (x :: rows) -> unique_keys rows.
Proof. intros H i v. specialize (H i v). rewrite count_if_cons in H. lia. Qed.

Lemma unique_keys_head_alone iid vid x rows :
  unique_keys (x :: rows) -> same_key iid vid x = true ->
  forall y, In y rows -> same_key iid vid y = false.
Proof.
  intros H Hx y Hy. specialize (H iid vid). rewrite count_if_cons, Hx in H.
  destruct (same_key iid vid y) eqn:E; [|done]. exfalso.
  assert (count_if (same_key iid vid) rows <> 0); [|lia].
  intros Hz%existsb_count_if. apply not_true_iff_false in Hz. apply Hz.
  apply existsb_exists. eauto.
Qed.

Lemma unique_keys_update iid vid act com rows :
  unique_keys rows ->
  unique_keys (update_where (same_key iid vid) (set_action act com) rows).
Proof.
  intros H i v. rewrite count_if_update_where; [apply H|]. intros x _.
  apply same_key_set_action.
Qed.

Lemma unique_keys_append rows r :
  unique_keys rows ->
  existsb (same_key (a_incident_id r) (a_volunteer_id r)) rows = false ->
  unique_keys (rows ++ [r]).
Proof.
  intros H Hn i v. rewrite count_if_app, count_if_cons, count_if_nil.
  destruct (same_key i v r) eqn:E; [|specialize (H i v); lia].
  assert (count_if (same_key i v) rows = 0) as ->; [|lia].
  apply existsb_count_if in Hn. rewrite <- Hn.
  unfold same_key in E. apply andb_prop in E as [E1 E2].
  by apply count_same_key_equiv.
Qed.

(** The upsert in place is an insertion into the abstract votes. *)
Lemma vote_of_update iid vid act com rows i v :
  vote_of i v (update_where (same_key iid vid) (set_action act com) rows) =
  if sql_eq iid i && sql_eq vid v then
    (if existsb (same_key iid vid) rows then Some act else None)
  else vote_of i v rows.
Proof.
  unfold vote_of. induction rows as [|x rows IH]; simpl.
  { by destruct (_ && _). }
  destruct (same_key iid vid x) eqn:Ex; simpl.
  - rewrite same_key_set_action, (same_key_transfer _ _ _ _ _ Ex). simpl.
    by destruct (sql_eq iid i && sql_eq vid v).
  - destruct (same_key i v x) eqn:Ey; simpl; [|exact IH].
    rewrite (same_key_transfer _ _ _ _ _ Ey) in Ex.
    rewrite sql_eq_sym, (sql_eq_sym vid). by rewrite Ex.
Qed.

Lemma vote_of_none iid vid rows :
  existsb (same_key iid vid) rows = false -> vote_of iid vid rows = None.
Proof. unfold vote_of. intros H. by rewrite find_existsb_false. Qed.

(** Appending a row with a fresh key is also an insertion. *)
Lemma vote_of_append rows r i v :
  existsb (same_key (a_incident_id r) (a_volunteer_id r)) rows = false ->
  vote_of i v (rows ++ [r]) =
  if same_key i v r then Some (a_action r) else vote_of i v rows.
Proof.
  intros Hn. unfold vote_of. rewrite find_app. simpl.
  destruct (same_key i v r) eqn:E.
  - rewrite find_existsb_false; [done|].
    apply existsb_count_if. apply existsb_count_if in Hn. rewrite <- Hn.
    unfold same_key in E. apply andb_prop in E as [E1 E2].
    by apply count_same_key_equiv.
  - by destruct (List.find (same_key i v) rows).
Qed.

(** ** Counts *)

Lemma count_action_filter a iid rows :
  count_action a iid rows =
  count_if (fun r => sql_eq (a_incident_id r) iid && sql_eq (a_action r) a) rows.
Proof. unfold count_action, rows_of. apply count_if_filter. Qed.

Lemma vote_of_cons_hit iid vid x rows :
  same_key iid vid x = true -> vote_of iid vid (x :: rows) = Some (a_action x).
Proof. unfold vote_of. simpl. by intros ->. Qed.

Lemma vote_of_cons_miss iid vid x rows :
  same_key iid vid x = false -> vote_of iid vid (x :: rows) = vote_of iid vid rows.
Proof. unfold vote_of. simpl. by intros ->. Qed.

(** A vote that replaces an earlier one: the count of action [a] loses the
    volunteer's old action and gains the new one. *)
Lemma count_action_update a iid vid act com rows :
  unique_keys rows ->
  count_action a iid (update_where (same_key iid vid) (set_action act com) rows)
    + votes_for a (vote_of iid vid rows)
  = count_action a iid rows
    + (if existsb (same_key iid vid) rows && sql_eq act a then 1 else 0).
Proof.
  rewrite !count_action_filter.
  induction rows as [|x rows IH]; intros U; [done|].
  rewrite update_where_cons, !count_if_cons. simpl existsb.
  destruct (same_key iid vid x) eqn:Ex.
  - rewrite update_where_none
      by (intros y Hy; exact (unique_keys_head_alone _ _ _ _ U Ex y Hy)).
    rewrite vote_of_cons_hit by exact Ex. simpl.
    unfold same_key in Ex. apply andb_prop in Ex as [-> _]. simpl.
    destruct (sql_eq act a), (sql_eq (a_action x) a); lia.
  - rewrite vote_of_cons_miss by exact Ex. simpl.
    specialize (IH (unique_keys_tail _ _ U)). lia.
Qed.

(** A first vote adds one to the count of its action. *)
Lemma count_action_append a iid rows r :
  count_action a iid (rows ++ [r]) =
  count_action a iid rows
    + (if sql_eq (a_incident_id r) iid && sql_eq (a_action r) a then 1 else 0).
Proof.
  rewrite !count_action_filter, count_if_app, count_if_cons, count_if_nil. lia.
Qed.

(** ** The upsert statement *)

(** Request fields that fit their columns. *)
Definition fits (iid vid act : string) (com : option string) : Prop :=
  char_length iid <= 50 /\ char_length vid <= 50 /\ char_length act <= 20 /\
  col_text_null "comment" com = inr com.

(** The body of an action request with every field present. *)
Definition action_req (act vid : string) (com : option string) : action_body :=
  mkActionBody (Val act) (Val vid) (match com with Some s => Val s | None => Null end).

(** The approval rows and the AUTO_INCREMENT counter after a successful
    upsert. *)
Definition upsert_rows (now : nat) (iid vid act : string) (com : option string)
    (d : db) : list approval_row * nat :=
  if existsb (same_key iid vid) (incident_approvals d)
  then (update_where (same_key iid vid) (set_action act com) (incident_approvals d),
        approvals_next_id d)
  else (incident_approvals d ++ [mkApproval (approvals_next_id d) iid vid act com now],
        S (approvals_next_id d)).

Definition after_upsert now iid vid act com d : db :=
  set_approvals d (upsert_rows now iid vid act com d).1
                  (upsert_rows now iid vid act com d).2.

(** With fields that fit, the upsert succeeds exactly when the volunteer
    already voted or the incident exists; otherwise the foreign key fails. *)
Lemma upsert_approval_run now iid vid act com d :
  fits iid vid act com ->
  upsert_approval now iid (Some vid) (Some act) com d =
  if existsb (same_key iid vid) (incident_approvals d)
     || bool_decide (is_Some (incidents d !! collate iid))
  then (inr tt, after_upsert now iid vid act com d)
  else (inl NoReferencedRow, d).
Proof.
  intros (H1 & H2 & H3 & H4). unfold upsert_approval, after_upsert, upsert_rows.
  rewrite !col_varchar_ok by done. run_sql. rewrite H4. run_sql.
  destruct (existsb _ _); simpl; [done|].
  destruct (incidents d !! collate iid); simpl; done.
Qed.

(** A failing upsert writes nothing. *)
Lemma upsert_approval_inl now iid vid act com d e d' :
  upsert_approval now iid vid act com d = (inl e, d') -> d' = d.
Proof.
  unfold upsert_approval. run_sql.
  repeat (case_match; simplify_eq; try done); by intros [= _ ->].
Qed.

Lemma upsert_approval_inr now iid vid act com d u d' :
  upsert_approval now iid vid act com d = (inr u, d') ->
  exists v, vid = Some v /\ char_length v <= 50.
Proof.
  unfold upsert_approval. run_sql.
  destruct (col_varchar "volunteer_id" 50 vid) as [|v] eqn:E;
    repeat (case_match; simplify_eq; try done).
  all: apply col_varchar_inr in E as [-> ?]; eauto.
Qed.

(** ** The action handler *)

(** A failing action writes nothing: every check that can fail runs before
    the first write, and the later statements cannot fail once the upsert
    succeeded (the [resolved_by] and [approved_by] columns are as wide as
    [volunteer_id]). *)
Lemma incidentAction_inl now id b d e d' :
  incidentAction now id b d = (inl e, d') -> d' = d.
Proof.
  unfold incidentAction. unfold st_bind at 1 2 3, st_lift.
  destruct (bind_param (ab_volunteerId b)) as [|vid]; [by intros [= _ ->]|].
  destruct (bind_param (ab_action b)) as [|act]; [by intros [= _ ->]|].
  destruct (bind_param (ab_comment b)) as [|com]; [by intros [= _ ->]|].
  unfold st_bind at 1.
  destruct (upsert_approval now id vid act com d) as [[e'|u] d1] eqn:U.
  { intros [= _ <-]. by eapply upsert_approval_inl. }
  apply upsert_approval_inr in U as (v & -> & Hv).
  rewrite !col_varchar_ok by done. unfold update_incident, count_actions, st_ret.
  destruct (js_eq_str _ _); unfold st_bind, st_get, st_put; simpl; [congruence|].
  repeat case_match; congruence.
Qed.

(** The row update the handler chooses after the upsert, from the action
    and the recounted approvals and rejections. *)
Definition chosen_update (act vid : string) (approvals rejections : nat)
    : option (incident_row -> incident_row) :=
  if String.eqb act "resolve" then Some (set_resolved vid)
  else if quorum <=? approvals then Some (set_approved vid)
  else if quorum <=? rejections then Some set_rejected
  else None.

Definition after_action now id act vid com d : db :=
  let d1 := after_upsert now id vid act com d in
  match chosen_update act vid (approvals_of id (incident_approvals d1))
                                 (rejections_of id (incident_approvals d1)) with
  | Some f => set_incidents d1 (alter (touch now f) (collate id) (incidents d1))
  | None => d1
  end.

Lemma incidentAction_run now id act vid com d :
  fits id vid act com -> is_Some (incidents d !! collate id) ->
  incidentAction now id (action_req act vid com) d =
  (inr tt, after_action now id act vid com d).
Proof.
  intros Hf Hi. pose proof Hf as (H1 & H2 & H3 & H4).
  assert (Hc : bind_param (ab_comment (action_req act vid com)) = inr com)
    by (by destruct com).
  unfold incidentAction.
  rewrite (st_bind_inr _ _ d (Some vid) d) by reflexivity.
  rewrite (st_bind_inr _ _ d (Some act) d) by reflexivity.
  rewrite (st_bind_inr _ _ d com d) by (unfold st_lift; by rewrite Hc).
  rewrite (st_bind_inr _ _ d tt (after_upsert now id vid act com d))
    by (rewrite upsert_approval_run by done;
        by rewrite (bool_decide_eq_true_2 _ Hi), orb_true_r).
  unfold after_action, chosen_update. cbv zeta. simpl js_eq_str.
  set (d1 := after_upsert now id vid act com d).
  change (js_eq_str (ab_action (action_req act vid com)) "resolve")
    with (String.eqb act "resolve").
  destruct (String.eqb act "resolve").
  { rewrite (st_bind_inr _ _ d1 vid d1) by (unfold st_lift; by rewrite col_varchar_ok).
    reflexivity. }
  rewrite (st_bind_inr _ _ d1 (approvals_of id (incident_approvals d1),
                               rejections_of id (incident_approvals d1)) d1) by reflexivity.
  cbv beta iota.
  destruct (quorum <=? approvals_of id (incident_approvals d1)).
  { rewrite (st_bind_inr _ _ d1 vid d1) by (unfold st_lift; by rewrite col_varchar_ok).
    reflexivity. }
  by destruct (quorum <=? rejections_of id (incident_approvals d1)).
Qed.

(** ** What a successful upsert does to the rows *)

Lemma upsert_unique now id vid act com d :
  unique_keys (incident_approvals d) ->
  unique_keys (incident_approvals (after_upsert now id vid act com d)).
Proof.
  intros U. unfold after_upsert, upsert_rows. simpl.
  destruct (existsb _ _) eqn:E; simpl.
  - by apply unique_keys_update.
  - by apply unique_keys_append.
Qed.

Lemma upsert_votes now id vid act com d i v :
  vote_of i v (incident_approvals (after_upsert now id vid act com d)) =
  if sql_eq id i && sql_eq vid v then Some act
  else vote_of i v (incident_approvals d).
Proof.
  unfold after_upsert, upsert_rows. simpl.
  destruct (existsb _ _) eqn:E; simpl.
  - by rewrite vote_of_update, E.
  - rewrite vote_of_append by exact E. unfold same_key. simpl.
    by rewrite (sql_eq_sym id), (sql_eq_sym vid).
Qed.

Lemma upsert_counts now id vid act com d a :
  unique_keys (incident_approvals d) ->
  count_action a id (incident_approvals (after_upsert now id vid act com d))
    + votes_for a (vote_of id vid (incident_approvals d))
  = count_action a id (incident_approvals d) + (if sql_eq act a then 1 else 0).
Proof.
  intros U. unfold after_upsert, upsert_rows. simpl.
  destruct (existsb _ _) eqn:E; simpl.
  - by rewrite count_action_update, E.
  - rewrite count_action_append, vote_of_none by exact E. simpl.
    rewrite sql_eq_refl. simpl. lia.
Qed.

Lemma touch_status now f r : i_status (touch now f r) = i_status (f r).
Proof. unfold touch. case_decide as E; [by rewrite E|done]. Qed.

Lemma touch_approved_by now f r : i_approved_by (touch now f r) = i_approved_by (f r).
Proof. unfold touch. case_decide as E; [by rewrite E|done]. Qed.

Lemma touch_resolved_by now f r : i_resolved_by (touch now f r) = i_resolved_by (f r).
Proof. unfold touch. case_decide as E; [by rewrite E|done]. Qed.

Lemma after_action_approvals now id act vid com d :
  incident_approvals (after_action now id act vid com d) =
  incident_approvals (after_upsert now id vid act com d).
Proof. unfold after_action. by case_match. Qed.

(** The incident row after the action. *)
Lemma after_action_lookup now id act vid com d r :
  incidents d !! collate id = Some r ->
  incidents (after_action now id act vid com d) !! collate id =
  Some (match chosen_update act vid
                (approvals_of id (incident_approvals (after_upsert now id vid act com d)))
                (rejections_of id (incident_approvals (after_upsert now id vid act com d))) with
        | Some f => touch now f r
        | None => r
        end).
Proof.
  intros Hr. unfold after_action, after_upsert. cbv zeta.
  case_match; simpl; [|done]. by rewrite lookup_alter_eq, Hr.
Qed.

(** Every other incident is left as it was. *)
Lemma after_action_other now id act vid com d k :
  k <> collate id ->
  incidents (after_action now id act vid com d) !! k = incidents d !! k.
Proof.
  intros Hk. unfold after_action, after_upsert. cbv zeta.
  case_match; simpl; [|done]. by rewrite lookup_alter_ne.
Qed.

(** ** A successful action, whatever its body *)

Lemma count_action_equiv a j j' rows :
  sql_eq j j' = true -> count_action a j rows = count_action a j' rows.
Proof.
  intros E. rewrite !count_action_filter. apply count_if_ext. intros x _.
  by rewrite (sql_eq_trans_r _ _ _ E).
Qed.

(** The upsert on incident [id] does not change the counts of another
    incident. *)
Lemma upsert_counts_other now id vid act com d a j :
  sql_eq j id = false ->
  count_action a j (incident_approvals (after_upsert now id vid act com d)) =
  count_action a j (incident_approvals d).
Proof.
  intros Hj. unfold after_upsert, upsert_rows. destruct (existsb _ _); simpl.
  - rewrite !count_action_filter. apply count_if_update_where.
    intros x [Hx _]%andb_prop. simpl. by rewrite (sql_eq_trans_l _ _ j Hx), sql_eq_sym, Hj.
  - rewrite count_action_append. simpl. rewrite (sql_eq_sym id j), Hj. simpl. lia.
Qed.

Lemma upsert_approval_inr_fits now iid vid act com d u d' :
  upsert_approval now iid vid act com d = (inr u, d') ->
  exists v a, vid = Some v /\ act = Some a /\ fits iid v a com.
Proof.
  unfold upsert_approval. run_sql. repeat (case_match; simplify_eq; try done).
  all: intros _; repeat match goal with
    | H : col_varchar _ _ _ = inr _ |- _ => apply col_varchar_inr in H as [? ?]
    | H : varchar _ _ _ = inr _ |- _ => apply varchar_inr in H as [? ?] end;
    match goal with H : col_text_null _ _ = inr _ |- _ =>
      pose proof (col_text_null_inr _ _ _ H) end;
    subst; do 2 eexists; split; [reflexivity|split; [reflexivity|]]; split_and!; done.
Qed.

Lemma bind_param_inr {A} (f : field A) o :
  bind_param f = inr o -> f = match o with Some a => Val a | None => Null end.
Proof. by destruct f; intros [= <-]. Qed.

(** A vote on record belongs to an incident that exists. *)
Lemma fk_voted d iid vid :
  approvals_fk d -> existsb (same_key iid vid) (incident_approvals d) = true ->
  is_Some (incidents d !! collate iid).
Proof.
  intros Hfk (x & Hx & Hk)%existsb_exists. apply andb_prop in Hk as [Hk _].
  apply sql_eq_spec in Hk. unfold sql_equiv in Hk. rewrite <- Hk. by apply Hfk.
Qed.

(** Every action that succeeds is one of [incidentAction_run]'s: its body
    has an action and a volunteer that fit their columns, and the incident
    exists. *)
Lemma incidentAction_inr now id b d u d' :
  approvals_fk d -> incidentAction now id b d = (inr u, d') ->
  exists act vid com, fits id vid act com /\ is_Some (incidents d !! collate id) /\
    b = action_req act vid com /\ d' = after_action now id act vid com d.
Proof.
  intros Hfk H. pose proof H as H0. unfold incidentAction, st_bind at 1 2 3 4, st_lift in H.
  destruct (bind_param (ab_volunteerId b)) as [|ov] eqn:Ev; [done|].
  destruct (bind_param (ab_action b)) as [|oa] eqn:Ea; [done|].
  destruct (bind_param (ab_comment b)) as [|com] eqn:Ec; [done|].
  destruct (upsert_approval now id ov oa com d) as [[e|u1] d1] eqn:U; [done|].
  destruct (upsert_approval_inr_fits _ _ _ _ _ _ _ _ U) as (v & a & -> & -> & Hf).
  assert (Hb : b = action_req a v com).
  { destruct b as [ba bv bc]; simpl in *.
    apply bind_param_inr in Ev, Ea, Ec. subst. by destruct com. }
  subst b. assert (Hi : is_Some (incidents d !! collate id)).
  { rewrite upsert_approval_run in U by done.
    destruct (existsb _ _) eqn:Ex; [by eapply fk_voted|].
    destruct (bool_decide _) eqn:Bi; [by apply bool_decide_eq_true_1 in Bi|done]. }
  exists a, v, com. split_and!; try done.
  rewrite incidentAction_run in H0 by done. by injection H0.
Qed.

(** ** Claims *)

(** C1. The quorum rule.  A volunteer action whose fields fit their columns,
    on an incident that exists, succeeds; afterwards the incident is
    [resolved] by that volunteer when the action is ["resolve"]; otherwise,
    counting the approval rows as they are after the vote, it is
    [approved] by that volunteer when at least 3 rows say "approve", else
    [rejected] when at least 3 say "reject", else unchanged. *)
Theorem action_quorum_rule now id act vid com d r :
  fits id vid act com -> incidents d !! collate id = Some r ->
  exists d' r',
    incidentAction now id (action_req act vid com) d = (inr tt, d') /\
    incidents d' !! collate id = Some r' /\
    (act = "resolve" -> i_status r' = Resolved /\ i_resolved_by r' = Some vid) /\
    (act <> "resolve" -> 3 <= approvals_of id (incident_approvals d') ->
       i_status r' = Approved /\ i_approved_by r' = Some vid) /\
    (act <> "resolve" -> approvals_of id (incident_approvals d') < 3 ->
       3 <= rejections_of id (incident_approvals d') ->
       i_status r' = Rejected /\ i_approved_by r' = i_approved_by r) /\
    (act <> "resolve" -> approvals_of id (incident_approvals d') < 3 ->
       rejections_of id (incident_approvals d') < 3 -> r' = r).
Proof.
  intros Hf Hr. eexists _, _. split; [apply incidentAction_run; by eauto|].
  split; [apply after_action_lookup, Hr|].
  rewrite after_action_approvals.
  set (rows := incident_approvals (after_upsert now id vid act com d)).
  unfold chosen_update, quorum.
  destruct (String.eqb_spec act "resolve") as [->|Hne].
  { split; [intros _; by rewrite touch_status, touch_resolved_by|].
    split_and!; intros []; done. }
  split; [done|].
  destruct (Nat.leb_spec 3 (approvals_of id rows)) as [Ha|Ha].
  { split; [intros _ _; by rewrite touch_status, touch_approved_by|].
    split; intros _ ?; lia. }
  split; [intros _ ?; lia|].
  destruct (Nat.leb_spec 3 (rejections_of id rows)) as [Hj|Hj].
  - split; [intros _ _ _; by rewrite touch_status, touch_approved_by|].
    intros _ _ ?; lia.
  - split; [intros _ _ ?; lia|]. done.
Qed.

(** C2. Refinement of the approval rows to the abstract map "volunteer ->
    last action".  A successful action by [vid] on incident [id] keeps the
    UNIQUE key, records [act] as the vote of [vid] and of nobody else (the
    abstract map is updated at one key, last write wins), and recounting
    the action [a] gives the old count with the volunteer's previous vote
    taken out and the new one put in: a volunteer never counts twice. *)
Theorem action_records_last_vote now id act vid com d :
  unique_keys (incident_approvals d) -> fits id vid act com ->
  is_Some (incidents d !! collate id) ->
  exists d',
    incidentAction now id (action_req act vid com) d = (inr tt, d') /\
    unique_keys (incident_approvals d') /\
    (forall i v, vote_of i v (incident_approvals d') =
                 if sql_eq id i && sql_eq vid v then Some act
                 else vote_of i v (incident_approvals d)) /\
    (forall a, count_action a id (incident_approvals d')
                 + votes_for a (vote_of id vid (incident_approvals d))
               = count_action a id (incident_approvals d)
                 + (if sql_eq act a then 1 else 0)).
Proof.
  intros U Hf Hi. eexists. split; [by apply incidentAction_run|].
  rewrite after_action_approvals. split_and!.
  - by apply upsert_unique.
  - intros i v. apply upsert_votes.
  - intros a. by apply upsert_counts.
Qed.

(** C3. An action on an incident id that no row has (in any letter case)
    fails on the foreign key: the reply is a 500 and nothing is written. *)
Theorem action_unknown_incident now id act vid com d :
  approvals_fk d -> fits id vid act com -> incidents d !! collate id = None ->
  handle_incident_action now id (action_req act vid com) d =
  (inr (Status500 "Failed to process action"), d).
Proof.
  intros Hfk Hf Hn.
  assert (E : existsb (same_key id vid) (incident_approvals d) = false).
  { apply not_true_iff_false. intros (x & Hx & Hk)%existsb_exists.
    unfold same_key in Hk. apply andb_prop in Hk as [Hk _].
    apply sql_eq_spec in Hk. destruct (Hfk x Hx) as [y Hy].
    unfold sql_equiv in Hk. rewrite Hk, Hn in Hy. done. }
  assert (Hup : upsert_approval now id (Some vid) (Some act) com d = (inl NoReferencedRow, d)).
  { rewrite upsert_approval_run by done. by rewrite E, Hn. }
  unfold handle_incident_action, st_catch, incidentAction.
  rewrite (st_bind_inl _ _ d NoReferencedRow d); [done|].
  rewrite (st_bind_inr _ _ d (Some vid) d) by reflexivity.
  rewrite (st_bind_inr _ _ d (Some act) d) by reflexivity.
  rewrite (st_bind_inr _ _ d com d) by (unfold st_lift; by destruct com).
  by rewrite (st_bind_inl _ _ d NoReferencedRow d).
Qed.

(** C4. A request without a [comment] field fails: mysql2 refuses the
    [undefined] bind parameter, the reply is a 500 and nothing is written,
    although the spec calls the comment optional. *)
Theorem action_missing_comment now id act vid d :
  handle_incident_action now id (mkActionBody act vid Missing) d =
  (inr (Status500 "Failed to process action"), d).
Proof.
  unfold handle_incident_action, incidentAction, st_catch, st_bind, st_lift.
  simpl. by destruct vid, act.
Qed.

(** C5. Error atomicity: whenever the action handler answers 500, the
    database is exactly as before the request. *)
Theorem action_error_atomic now id b d msg d' :
  handle_incident_action now id b d = (inr (Status500 msg), d') -> d' = d.
Proof.
  unfold handle_incident_action, st_catch.
  destruct (incidentAction now id b d) as [[e|u] d1] eqn:E.
  - unfold st_bind. rewrite E. intros [= _ <-]. by eapply incidentAction_inl.
  - unfold st_bind. rewrite E. done.
Qed.

(** ** Sequences of requests *)

(** A sequence of actions on one incident, one request per time step, each
    with an empty comment as the client sends it. *)
Fixpoint act_seq (t : nat) (id : string) (votes : list (string * string)) : Sql unit :=
  match votes with
  | [] => st_ret tt
  | (vid, act) :: rest =>
      incidentAction t id (action_req act vid (Some "")) ;;; act_seq (S t) id rest
  end.

Definition status_at (d : db) (id : string) : option status :=
  i_status <$> incidents d !! collate id.

(** ** The order of the votes

    The handler keeps no history: each request recounts the rows and can
    only move the status towards approved or rejected.  [tally] is what it
    tracks of one incident, and [tally_step] what one approve or reject
    does to it; [act_seq_tally] shows that a sequence of requests is
    simulated by the run of [tally_step] over the abstract map
    "volunteer -> last action" ([votes_after]). *)

Record tally : Type := mkTally {
  tl_status : status;
  tl_approvals : nat;
  tl_rejections : nat
}.

Definition tally_of (id : string) (d : db) : option tally :=
  (fun r => mkTally (i_status r) (approvals_of id (incident_approvals d))
              (rejections_of id (incident_approvals d))) <$> incidents d !! collate id.

(** One approve or reject by a volunteer whose action on record was
    [prev]: the recount, then the quorum test, approvals first. *)
Definition tally_step (act : string) (prev : option string) (t : tally) : tally :=
  let a := tl_approvals t + (if sql_eq act "approve" then 1 else 0) - votes_for "approve" prev in
  let j := tl_rejections t + (if sql_eq act "reject" then 1 else 0) - votes_for "reject" prev in
  mkTally (if quorum <=? a then Approved else if quorum <=? j then Rejected else tl_status t) a j.

(** The vote map after a vote. *)
Definition cast_vote (v act : string) (f : string -> option string) : string -> option string :=
  fun w => if sql_eq v w then Some act else f w.

Fixpoint votes_after (votes : list (string * string)) (f : string -> option string)
    : string -> option string :=
  match votes with
  | [] => f
  | (v, act) :: rest => votes_after rest (cast_vote v act f)
  end.

Fixpoint tally_run (votes : list (string * string)) (f : string -> option string) (t : tally) : tally :=
  match votes with
  | [] => t
  | (v, act) :: rest => tally_run rest (cast_vote v act f) (tally_step act (f v) t)
  end.

(** One approve or reject refines [tally_step]. *)
Lemma tally_after_action now id act vid com d t :
  act <> "resolve" -> unique_keys (incident_approvals d) -> tally_of id d = Some t ->
  tally_of id (after_action now id act vid com d) =
  Some (tally_step act (vote_of id vid (incident_approvals d)) t).
Proof.
  intros Hact U Ht. unfold tally_of in *.
  destruct (incidents d !! collate id) as [r|] eqn:Hr; [|done]. injection Ht as <-.
  rewrite (after_action_lookup _ _ _ _ _ _ r Hr), after_action_approvals. simpl.
  pose proof (upsert_counts now id vid act com d "approve" U) as Ea.
  pose proof (upsert_counts now id vid act com d "reject" U) as Ej.
  unfold tally_step, chosen_update, approvals_of, rejections_of in *. simpl.
  rewrite (proj2 (String.eqb_neq _ _) Hact).
  set (a' := count_action "approve" id _) in *. set (j' := count_action "reject" id _) in *.
  assert (Ha : a' = count_action "approve" id (incident_approvals d)
                 + (if sql_eq act "approve" then 1 else 0)
                 - votes_for "approve" (vote_of id vid (incident_approvals d))) by lia.
  assert (Hj : j' = count_action "reject" id (incident_approvals d)
                 + (if sql_eq act "reject" then 1 else 0)
                 - votes_for "reject" (vote_of id vid (incident_approvals d))) by lia.
  rewrite <- Ha, <- Hj.
  repeat case_match; simplify_eq; rewrite ?touch_status; done.
Qed.

(** A sequence of approves and rejects that fit their columns, on an
    existing incident, is simulated by [tally_run] from the vote map on
    record, and leaves the vote map [votes_after]. *)
Lemma act_seq_tally now id votes d t f :
  Forall (fun '(v, act) => act <> "resolve" /\ fits id v act (Some "")) votes ->
  unique_keys (incident_approvals d) -> tally_of id d = Some t ->
  (forall v, vote_of id v (incident_approvals d) = f v) ->
  tally_of id (snd (act_seq now id votes d)) = Some (tally_run votes f t) /\
  forall v, vote_of id v (incident_approvals (snd (act_seq now id votes d))) = votes_after votes f v.
Proof.
  revert now d t f. induction votes as [|[v act] rest IH]; intros now d t f Hv U Ht Hf; [done|].
  apply Forall_cons in Hv as [Hx Hrest]. destruct Hx as [Hact Hfit].
  assert (Hi : is_Some (incidents d !! collate id))
    by (unfold tally_of in Ht; destruct (incidents d !! collate id); [done|discriminate]).
  simpl. unfold st_bind. rewrite (incidentAction_run now id act v (Some "") d Hfit Hi).
  apply IH; [done| | |].
  - rewrite after_action_approvals. by apply upsert_unique.
  - rewrite (tally_after_action now id act v (Some "") d t Hact U Ht), Hf. done.
  - intros w. rewrite after_action_approvals, upsert_votes, sql_eq_refl, Hf. done.
Qed.

(** No row of the incident: no vote on record. *)
Lemma vote_of_no_rows id v rows : rows_of id rows = [] -> vote_of id v rows = None.
Proof.
  intros E. unfold vote_of. destruct (List.find (same_key id v) rows) as [x|] eqn:F; [|done].
  apply List.find_some in F as [Hin Hk]. unfold same_key in Hk. apply andb_prop in Hk as [Hk _].
  assert (In x (rows_of id rows)) by (apply filter_In; by split). by rewrite E in *.
Qed.

(** A vote of the client (an empty comment) fits its columns. *)
Lemma fits_vote id v act :
  char_length id <= 50 -> char_length v <= 50 -> char_length act <= 20 -> fits id v act (Some "").
Proof. intros. split_and!; [done|done|done|reflexivity]. Qed.

Lemma status_at_tally d id : status_at d id = tl_status <$> tally_of id d.
Proof. unfold status_at, tally_of. by destruct (incidents d !! collate id). Qed.

(** The tally of a pending incident with no vote on record. *)
Lemma tally_of_fresh d id r :
  incidents d !! collate id = Some r -> i_status r = Pending ->
  rows_of id (incident_approvals d) = [] -> tally_of id d = Some (mkTally Pending 0 0).
Proof.
  intros Hr Hp E. unfold tally_of, approvals_of, rejections_of, count_action.
  rewrite Hr, E. simpl. by rewrite Hp.
Qed.

(** C6. The status is not a function of the final votes.  On every
    database where an incident is pending with no vote on record, for any
    three volunteers distinct under the collation (with ids that fit
    their columns), the requests [v1 approve; v2 approve; v3 reject] and
    [v3 approve; v1 approve; v2 approve; v3 reject] leave the same action
    on record for every volunteer, yet the first leaves the incident
    pending and the second approved: the third approval sets [approved],
    and the recount after [v3] changes its vote never sets it back. *)
Theorem status_depends_on_order now id v1 v2 v3 d r :
  incidents d !! collate id = Some r -> i_status r = Pending ->
  unique_keys (incident_approvals d) -> rows_of id (incident_approvals d) = [] ->
  sql_eq v1 v2 = false -> sql_eq v1 v3 = false -> sql_eq v2 v3 = false ->
  Forall (fun s => char_length s <= 50) [id; v1; v2; v3] ->
  let dA := snd (act_seq now id [(v1, "approve"); (v2, "approve"); (v3, "reject")] d) in
  let dB := snd (act_seq now id [(v3, "approve"); (v1, "approve"); (v2, "approve");
                                  (v3, "reject")] d) in
  (forall v, vote_of id v (incident_approvals dA) = vote_of id v (incident_approvals dB)) /\
  status_at dA id = Some Pending /\ status_at dB id = Some Approved.
Proof.
  intros Hr Hp U E H12 H13 H23 Hl. repeat (apply Forall_cons in Hl as [? Hl]).
  pose proof (tally_of_fresh d id r Hr Hp E) as Ht.
  assert (Hf : forall v, vote_of id v (incident_approvals d) = (fun _ => None) v)
    by (intros v; by apply vote_of_no_rows).
  assert (F : forall v act, char_length v <= 50 -> act = "approve" \/ act = "reject" ->
                act <> "resolve" /\ fits id v act (Some ""))
    by (intros v act ? [-> | ->]; (split; [discriminate|apply fits_vote; [done|done|vm_compute; lia]])).
  edestruct (act_seq_tally now id [(v1, "approve"); (v2, "approve"); (v3, "reject")] d
              (mkTally Pending 0 0) (fun _ => None))
    as [TA VA]; [repeat (constructor; [apply F; auto|]); constructor|exact U|exact Ht|exact Hf|].
  edestruct (act_seq_tally now id [(v3, "approve"); (v1, "approve"); (v2, "approve");
                                   (v3, "reject")] d (mkTally Pending 0 0) (fun _ => None))
    as [TB VB]; [repeat (constructor; [apply F; auto|]); constructor|exact U|exact Ht|exact Hf|].
  cbv zeta. rewrite !status_at_tally, TA, TB.
  rewrite (sql_eq_sym v1 v2) in H12. rewrite (sql_eq_sym v1 v3) in H13.
  rewrite (sql_eq_sym v2 v3) in H23.
  split; [|cbn; unfold cast_vote; rewrite ?sql_eq_refl, ?H12, ?H13, ?H23,
             ?(sql_eq_sym v1 v2), ?(sql_eq_sym v1 v3), ?(sql_eq_sym v2 v3), ?H12, ?H13, ?H23;
           split; reflexivity].
  intros v. rewrite VA, VB. cbn. unfold cast_vote.
  destruct (sql_eq v3 v), (sql_eq v2 v), (sql_eq v1 v); reflexivity.
Qed.

(** ** Witnesses *)

Lemma demo_fits : fits "I1" "V1" "approve" (Some "").
Proof. split_and!; vm_compute; (lia || reflexivity). Qed.

Lemma demo_lookup : incidents demo_db !! collate "I1" = Some demo_row.
Proof. vm_compute. reflexivity. Qed.

Lemma action_quorum_rule_witness :
  fits "I1" "V1" "approve" (Some "") /\
  incidents demo_db !! collate "I1" = Some demo_row /\
  exists d' r',
    incidentAction 2 "I1" (action_req "approve" "V1" (Some "")) demo_db = (inr tt, d') /\
    incidents d' !! collate "I1" = Some r'.
Proof.
  split; [exact demo_fits|]. split; [exact demo_lookup|].
  destruct (action_quorum_rule 2 "I1" "approve" "V1" (Some "") demo_db demo_row
              demo_fits demo_lookup) as (d' & r' & H1 & H2 & _).
  exists d', r'. split; [exact H1|exact H2].
Defined.

Lemma status_depends_on_order_witness :
  status_at (snd (act_seq 2 "I1" [("V1", "approve"); ("V2", "approve"); ("V3", "reject")] demo_db))
    "I1" = Some Pending /\
  status_at (snd (act_seq 2 "I1" [("V3", "approve"); ("V1", "approve"); ("V2", "approve");
                                  ("V3", "reject")] demo_db)) "I1" = Some Approved.
Proof.
  assert (U : unique_keys (incident_approvals demo_db)) by (intros ? ?; vm_compute; lia).
  assert (E : rows_of "I1" (incident_approvals demo_db) = []) by (vm_compute; reflexivity).
  assert (Hl : Forall (fun s => char_length s <= 50) ["I1"; "V1"; "V2"; "V3"])
    by (repeat constructor; vm_compute; lia).
  destruct (status_depends_on_order 2 "I1" "V1" "V2" "V3" demo_db demo_row demo_lookup eq_refl U E
              eq_refl eq_refl eq_refl Hl) as (_ & HA & HB).
  split; [exact HA|exact HB].
Defined.

Lemma action_records_last_vote_witness :
  unique_keys (incident_approvals demo_db) /\
  exists d', incidentAction 2 "I1" (action_req "approve" "V1" (Some "")) demo_db = (inr tt, d') /\
             unique_keys (incident_approvals d').
Proof.
  assert (U : unique_keys (incident_approvals demo_db)) by (intros i v; vm_compute; lia).
  split; [exact U|].
  destruct (action_records_last_vote 2 "I1" "approve" "V1" (Some "") demo_db U demo_fits
              (mk_is_Some _ _ demo_lookup)) as (d' & H1 & H2 & _).
  exists d'. split; [exact H1|exact H2].
Defined.

Lemma action_unknown_incident_witness :
  approvals_fk demo_db /\ incidents demo_db !! collate "I2" = None /\
  handle_incident_action 2 "I2" (action_req "approve" "V1" (Some "")) demo_db =
  (inr (Status500 "Failed to process action"), demo_db).
Proof.
  assert (F : approvals_fk demo_db) by (intros r Hr; vm_compute in Hr; done).
  assert (N : incidents demo_db !! collate "I2" = None) by (vm_compute; reflexivity).
  assert (Hf : fits "I2" "V1" "approve" (Some "")) by (split_and!; vm_compute; (lia || reflexivity)).
  split; [exact F|]. split; [exact N|].
  exact (action_unknown_incident 2 "I2" "approve" "V1" (Some "") demo_db F Hf N).
Defined.

Lemma action_error_atomic_witness :
  handle_incident_action 2 "I1" (mkActionBody (Val "approve") (Val "V1") Missing) demo_db =
  (inr (Status500 "Failed to process action"), demo_db) /\ demo_db = demo_db.
Proof.
  assert (H : handle_incident_action 2 "I1" (mkActionBody (Val "approve") (Val "V1") Missing)
                demo_db = (inr (Status500 "Failed to process action"), demo_db))
    by (vm_compute; reflexivity).
  split; [exact H|]. exact (action_error_atomic _ _ _ _ _ _ H).
Defined.
