(* ===== verification/Zones.v ===== *)
(** * Zones: the zone registry and the dropped pins

    - [createZone], [getZones]: [POST /api/zones] and [GET /api/zones]
      (server.js 127-180);
    - [createPin], [getPins], [deletePin]: the pin routes (server.js
      182-227);
    - [seed_zones], [initDB]: the default zones inserted when the table is
      empty (server.js 93-117);
    - [rate_area_body]: the body the rating dialog of SafetyMap.jsx sends
      ([rateAreaWithRadius], SafetyMap.jsx 781-915): a rating of 3 or more
      makes a safe zone, below 3 a danger zone, with the radius chosen on the
      slider. *)

From stdpp Require Import base list gmap strings sorting pretty.
From Stdlib Require Import String ZArith QArith.
From S2P Require Import Prelude Sql Schema.

Local Open Scope nat_scope.
Local Open Scope gd_scope.

(** ** Zones *)

(** The fields destructured from [req.body] in [POST /api/zones]; the
    client also sends [ratingHistory], which the handler ignores. *)
Record zone_body : Type := mkZoneBody {
  zb_id : field string;
  zb_type : field string;
  zb_lat : field Q;
  zb_lng : field Q;
  zb_name : field string;
  zb_rating : field Q;
  zb_radius : field Q
}.

(** [INSERT INTO safety_zones (id, type, lat, lng, name, rating, radius)
    VALUES (?, ?, ?, ?, ?, ?, ?)] *)
Definition insert_zone (now : nat) (id ty : option string) (lat lng : option Q)
    (name : option string) (rating radius : option Q) : Sql unit :=
  do id <- st_lift (col_varchar "id" 50 id);
  do ty <- st_lift (col_varchar "type" 10 ty);
  do lat <- st_lift (col_decimal "lat" 10 8 lat);
  do lng <- st_lift (col_decimal "lng" 11 8 lng);
  do name <- st_lift (col_varchar "name" 255 name);
  do rating <- st_lift (col_int "rating" rating);
  do radius <- st_lift (col_int "radius" radius);
  do d <- st_get;
  (match safety_zones d !! collate id with
   | Some _ => st_throw (DuplicateEntry id)
   | None =>
       st_put (set_zones d (<[collate id := mkZone id ty lat lng name rating radius now]>
                              (safety_zones d)))
   end).

Definition createZone (now : nat) (b : zone_body) : Sql unit :=
  do id <- st_lift (bind_param (zb_id b));
  do ty <- st_lift (bind_param (zb_type b));
  do lat <- st_lift (bind_param (zb_lat b));
  do lng <- st_lift (bind_param (zb_lng b));
  do name <- st_lift (bind_param (zb_name b));
  do rating <- st_lift (bind_param (zb_rating b));
  do radius <- st_lift (bind_param (zb_radius b));
  insert_zone now id ty lat lng name rating radius.

Definition handle_create_zone (now : nat) (b : zone_body) : Sql (http_reply unit) :=
  st_catch (createZone now b ;;; st_ret (Json200 tt))
           (fun _ => st_ret (Status500 "Failed to create zone")).

(** One zone of the reply of [GET /api/zones]: safe zones carry
    [volunteers: 0], danger zones [incidents: 1]; both claim
    [isUserCreated: true] and [totalRatings: 1]. *)
Record zone_view : Type := mkZoneView {
  zv_id : string;
  zv_lat : Q;
  zv_lng : Q;
  zv_name : string;
  zv_rating : Z;
  zv_radius : Z;
  zv_isUserCreated : bool;
  zv_volunteers : option Z;
  zv_incidents : option Z;
  zv_totalRatings : Z
}.

Record zones_reply : Type := mkZonesReply {
  safeZones : list zone_view;
  dangerZones : list zone_view
}.

(** [ORDER BY created_at DESC] *)
Definition zone_newest_first (a b : zone_row) : Prop := z_created_at b <= z_created_at a.

#[export] Instance zone_newest_first_dec : RelDecision zone_newest_first.
Proof. intros a b. unfold zone_newest_first. apply _. Defined.

Definition sorted_zones (t : gmap string zone_row) : list zone_row :=
  merge_sort zone_newest_first (map snd (map_to_list t)).

Definition view_safe (z : zone_row) : zone_view :=
  mkZoneView (z_id z) (decimal_value 8 (z_lat z)) (decimal_value 8 (z_lng z)) (z_name z)
    (z_rating z) (z_radius z) true (Some 0%Z) None 1.

Definition view_danger (z : zone_row) : zone_view :=
  mkZoneView (z_id z) (decimal_value 8 (z_lat z)) (decimal_value 8 (z_lng z)) (z_name z)
    (z_rating z) (z_radius z) true None (Some 1%Z) 1.

(** [rows.filter(zone => zone.type === 'safe')]: a JavaScript comparison,
    exact in letter case. *)
Definition is_type (ty : string) (z : zone_row) : bool := String.eqb (z_type z) ty.

Definition getZones (d : db) : zones_reply :=
  let rows := sorted_zones (safety_zones d) in
  mkZonesReply (map view_safe (List.filter (is_type "safe") rows))
               (map view_danger (List.filter (is_type "danger") rows)).

Definition handle_get_zones : Sql (http_reply zones_reply) :=
  do d <- st_get; st_ret (Json200 (getZones d)).

(** ** Pins *)

Record pin_body : Type := mkPinBody {
  pb_id : field Q;
  pb_lat : field Q;
  pb_lng : field Q
}.

(** [INSERT INTO dropped_pins (id, lat, lng) VALUES (?, ?, ?)] *)
Definition createPin (now : nat) (b : pin_body) : Sql unit :=
  do id <- st_lift (bind_param (pb_id b));
  do lat <- st_lift (bind_param (pb_lat b));
  do lng <- st_lift (bind_param (pb_lng b));
  do id <- st_lift (match id with Some q => bigint_col "id" q
                               | None => inl (NotNullViolation "id") end);
  do lat <- st_lift (col_decimal "lat" 10 8 lat);
  do lng <- st_lift (col_decimal "lng" 11 8 lng);
  do d <- st_get;
  (match dropped_pins d !! id with
   | Some _ => st_throw (DuplicateEntry "PRIMARY")
   | None => st_put (set_pins d (<[id := mkPin id lat lng now]> (dropped_pins d)))
   end).

Definition handle_create_pin (now : nat) (b : pin_body) : Sql (http_reply unit) :=
  st_catch (createPin now b ;;; st_ret (Json200 tt))
           (fun _ => st_ret (Status500 "Failed to create pin")).

(** One pin of [GET /api/pins]: [{id, lat, lng, timestamp}]. *)
Record pin_view : Type := mkPinView {
  pv_pin_id : Z;
  pv_pin_lat : Q;
  pv_pin_lng : Q;
  pv_pin_timestamp : nat
}.

Definition view_pin (p : pin_row) : pin_view :=
  mkPinView (p_id p) (decimal_value 8 (p_lat p)) (decimal_value 8 (p_lng p)) (p_created_at p).

(** [SELECT * FROM dropped_pins] has no ORDER BY; the model lists the
    table in the order of its keys, one of the orders the server may
    send. *)
Definition getPins (d : db) : list pin_view :=
  map (fun kv => view_pin kv.2) (map_to_list (dropped_pins d)).

Definition handle_get_pins : Sql (http_reply (list pin_view)) :=
  do d <- st_get; st_ret (Json200 (getPins d)).

(** [DELETE FROM dropped_pins WHERE id = ?]: the numeric id of the URL.
    The number of deleted rows is not checked. *)
Definition deletePin (id : Z) : Sql unit :=
  do d <- st_get; st_put (set_pins d (delete id (dropped_pins d))).

Definition handle_delete_pin (id : Z) : Sql (http_reply unit) :=
  st_catch (deletePin id ;;; st_ret (Json200 tt))
           (fun _ => st_ret (Status500 "Failed to delete pin")).

(** ** Seed data *)

Record seed_zone : Type := mkSeed {
  s_id : string;
  s_type : string;
  s_lat : Q;
  s_lng : Q;
  s_name : string;
  s_rating : Q;
  s_radius : Q
}.

(** [defaultZones] (server.js 98-107). *)
Definition defaultZones : list seed_zone :=
  [ mkSeed "default-safe-1" "safe" (313290 # 10000) (755740 # 10000) "DAV College Area" 5 300;
    mkSeed "default-safe-2" "safe" (313240 # 10000) (755810 # 10000) "Model Town" 4 400;
    mkSeed "default-safe-3" "safe" (313300 # 10000) (755700 # 10000) "Civil Lines" 4 350;
    mkSeed "default-danger-1" "danger" (313180 # 10000) (755820 # 10000) "Cantt Area" 2 200;
    mkSeed "default-danger-2" "danger" (313350 # 10000) (755650 # 10000) "GT Road Junction" 2 150 ].

Fixpoint insert_seeds (now : nat) (zs : list seed_zone) : Sql unit :=
  match zs with
  | [] => st_ret tt
  | z :: rest =>
      insert_zone now (Some (s_id z)) (Some (s_type z)) (Some (s_lat z)) (Some (s_lng z))
        (Some (s_name z)) (Some (s_rating z)) (Some (s_radius z)) ;;;
      insert_seeds now rest
  end.

(** [if (existingZones[0].count === 0) { ... }] *)
Definition seed_zones (now : nat) : Sql unit :=
  do d <- st_get;
  if decide (size (safety_zones d) = 0) then insert_seeds now defaultZones
  else st_ret tt.

(** [initDB] on a store that keeps its tables: [CREATE TABLE IF NOT EXISTS]
    leaves existing tables alone, then the seed runs; the [catch] logs and
    swallows an error. *)
Definition initDB (now : nat) : Sql unit :=
  st_catch (seed_zones now) (fun _ => st_ret tt).

(** ** The rating dialog of the client *)

(** [Date.now()] in a template literal. *)
Definition ms_string (ms : Z) : string := pretty ms.

(** The body [rateAreaWithRadius] sends to [ApiService.createZone]:
    [isGoodRating = rating >= 3] chooses the kind and the id prefix. *)
Definition rate_area_body (lat lng : Q) (rating radius : Q) (now_ms : Z)
    (name : string) : zone_body :=
  let good := Qle_bool 3 rating in
  mkZoneBody
    (Val (String.append (if good then "user-safe-" else "user-danger-") (ms_string now_ms)))
    (Val (if good then "safe" else "danger"))
    (Val lat) (Val lng) (Val name) (Val rating) (Val radius).

(** ** Lemmas *)

#[export] Instance zone_newest_first_total : Total zone_newest_first.
Proof. intros a b. unfold zone_newest_first. lia. Qed.

Lemma in_sorted_zones t z : In z (sorted_zones t) <-> exists k, t !! k = Some z.
Proof.
  unfold sorted_zones. rewrite <- list_elem_of_In.
  rewrite (merge_sort_Permutation zone_newest_first), list_elem_of_fmap.
  split.
  - intros ([k z'] & -> & Hk). apply elem_of_map_to_list in Hk. by exists k.
  - intros [k Hk]. exists (k, z). split; [done|]. by apply elem_of_map_to_list.
Qed.

Lemma in_zone_list (f : zone_row -> zone_view) ty t zv :
  In zv (map f (List.filter (is_type ty) (sorted_zones t))) <->
  exists k z, t !! k = Some z /\ z_type z = ty /\ zv = f z.
Proof.
  rewrite in_map_iff. split.
  - intros (z & <- & Hz). apply List.filter_In in Hz as [Hz Ht].
    apply in_sorted_zones in Hz as [k Hk]. apply String.eqb_eq in Ht. eauto.
  - intros (k & z & Hk & Ht & ->). exists z. split; [done|].
    apply List.filter_In. split; [apply in_sorted_zones; eauto|].
    by apply String.eqb_eq.
Qed.

Lemma sorted_zones_perm t : Permutation (sorted_zones t) (map snd (map_to_list t)).
Proof. unfold sorted_zones. apply merge_sort_Permutation. Qed.

Lemma zone_list_length (f : zone_row -> zone_view) ty t :
  List.length (map f (List.filter (is_type ty) (sorted_zones t))) =
  count_if (is_type ty) (map snd (map_to_list t)).
Proof. rewrite length_map. apply (count_if_perm _ _ _ (sorted_zones_perm t)). Qed.

Lemma zone_list_forall (P : zone_view -> Prop) (f : zone_row -> zone_view) ty t :
  Forall (fun z => P (f z)) (map snd (map_to_list t)) ->
  Forall P (map f (List.filter (is_type ty) (sorted_zones t))).
Proof.
  intros H. apply List.Forall_map, List.Forall_forall. intros x Hx.
  apply List.filter_In in Hx as [Hx _].
  apply (Permutation_in _ (sorted_zones_perm t)) in Hx.
  revert x Hx. by apply List.Forall_forall.
Qed.

Lemma set_pins_id d : set_pins d (dropped_pins d) = d.
Proof. by destruct d. Qed.

Lemma set_zones_zones d t : safety_zones (set_zones d t) = t.
Proof. reflexivity. Qed.

(** A successful zone insert adds the row built from the converted fields. *)
Lemma insert_zone_ok now id ty lat lng name rating radius zlat zlng zr zrad d :
  char_length id <= 50 -> char_length ty <= 10 -> char_length name <= 255 ->
  decimal_col "lat" 10 8 lat = inr zlat -> decimal_col "lng" 11 8 lng = inr zlng ->
  int_col "rating" rating = inr zr -> int_col "radius" radius = inr zrad ->
  safety_zones d !! collate id = None ->
  insert_zone now (Some id) (Some ty) (Some lat) (Some lng) (Some name) (Some rating)
    (Some radius) d =
  (inr tt, set_zones d (<[collate id := mkZone id ty zlat zlng name zr zrad now]>
                          (safety_zones d))).
Proof.
  intros L1 L2 L3 H1 H2 H3 H4 Hn. unfold insert_zone, col_decimal, col_int.
  rewrite !col_varchar_ok by done. run_sql. rewrite H1, H2, H3, H4. run_sql.
  by rewrite Hn.
Qed.

Lemma insert_zone_keeps_others now id ty lat lng name rating radius d r d' :
  insert_zone now id ty lat lng name rating radius d = (r, d') ->
  d' = set_zones d (safety_zones d').
Proof.
  unfold insert_zone. run_sql. repeat (case_match; simplify_eq; try done);
    intros [= _ <-]; by destruct d.
Qed.

Lemma createPin_inr now b d u d1 q z :
  pb_id b = Val q -> bigint_col "id" q = inr z ->
  createPin now b d = (inr u, d1) ->
  exists p, dropped_pins d !! z = None /\ d1 = set_pins d (<[z := p]> (dropped_pins d)).
Proof.
  intros Hq Hz. unfold createPin. rewrite Hq. run_sql. rewrite Hz. run_sql.
  repeat (case_match; simplify_eq; try done). intros [= _ <-]. eauto.
Qed.

Lemma createZone_vals now id ty lat lng name rating radius d :
  createZone now (mkZoneBody (Val id) (Val ty) (Val lat) (Val lng) (Val name) (Val rating)
                    (Val radius)) d =
  insert_zone now (Some id) (Some ty) (Some lat) (Some lng) (Some name) (Some rating)
    (Some radius) d.
Proof. reflexivity. Qed.

(** ** Claims *)

(** C9. Rating an area.  The body the rating dialog sends for a rating of
    3 or more is listed among the safe zones, below 3 among the danger
    zones, with the radius and rating as stored, provided its fields fit
    their columns and its id is new. *)
Theorem rate_area_listed now d lat lng rating radius ms name id zlat zlng zr zrad :
  zb_id (rate_area_body lat lng rating radius ms name) = Val id ->
  char_length id <= 50 -> char_length name <= 255 ->
  decimal_col "lat" 10 8 lat = inr zlat -> decimal_col "lng" 11 8 lng = inr zlng ->
  int_col "rating" rating = inr zr -> int_col "radius" radius = inr zrad ->
  safety_zones d !! collate id = None ->
  exists d' zv,
    handle_create_zone now (rate_area_body lat lng rating radius ms name) d =
      (inr (Json200 tt), d') /\
    zv_id zv = id /\ zv_radius zv = zrad /\ zv_rating zv = zr /\
    (if Qle_bool 3 rating then In zv (safeZones (getZones d'))
     else In zv (dangerZones (getZones d'))).
Proof.
  intros Hid L1 L2 H1 H2 H3 H4 Hn.
  set (ty := if Qle_bool 3 rating then "safe" else "danger").
  assert (Lty : char_length ty <= 10)
    by (unfold ty; destruct (Qle_bool 3 rating); vm_compute; lia).
  set (row := mkZone id ty zlat zlng name zr zrad now).
  exists (set_zones d (<[collate id := row]> (safety_zones d))).
  assert (Hrun : handle_create_zone now (rate_area_body lat lng rating radius ms name) d =
                 (inr (Json200 tt), set_zones d (<[collate id := row]> (safety_zones d)))).
  { assert (Eb : rate_area_body lat lng rating radius ms name =
                 mkZoneBody (Val id) (Val ty) (Val lat) (Val lng) (Val name) (Val rating)
                   (Val radius)).
    { unfold rate_area_body in *. simpl in Hid. injection Hid as <-. reflexivity. }
    unfold handle_create_zone, st_catch, st_bind. rewrite Eb, createZone_vals.
    by rewrite (insert_zone_ok now id ty lat lng name rating radius zlat zlng zr zrad d). }
  unfold getZones. simpl.
  destruct (Qle_bool 3 rating) eqn:G.
  - exists (view_safe row). split_and!; try done.
    apply in_zone_list. exists (collate id), row. by rewrite lookup_insert_eq.
  - exists (view_danger row). split_and!; try done.
    apply in_zone_list. exists (collate id), row. by rewrite lookup_insert_eq.
Qed.

(** [GET /api/zones] lists exactly the rows whose type is the string
    ["safe"], respectively ["danger"]: a row stored with any other type
    (["Safe"], ["unsafe"]) is in neither list. *)
Theorem zones_listing_exact d zv :
  (In zv (safeZones (getZones d)) <->
   exists k z, safety_zones d !! k = Some z /\ z_type z = "safe" /\ zv = view_safe z) /\
  (In zv (dangerZones (getZones d)) <->
   exists k z, safety_zones d !! k = Some z /\ z_type z = "danger" /\ zv = view_danger z).
Proof. split; apply in_zone_list. Qed.

(** Seeding.  On a database without zones, [initDB] adds the five
    default zones: three listed as safe and two as danger, each with a
    positive radius, and leaves the other tables alone. *)
Theorem initDB_seeds now d :
  safety_zones d = ∅ ->
  exists d', initDB now d = (inr tt, d') /\
    incidents d' = incidents d /\ dropped_pins d' = dropped_pins d /\
    incident_approvals d' = incident_approvals d /\
    List.length (safeZones (getZones d')) = 3 /\
    List.length (dangerZones (getZones d')) = 2 /\
    Forall (fun zv => (0 < zv_radius zv)%Z)
           (safeZones (getZones d') ++ dangerZones (getZones d')).
Proof.
  destruct d as [zs pins incs rows next]. simpl. intros ->.
  eexists. split; [vm_compute; reflexivity|].
  unfold getZones. cbv zeta. simpl safeZones. simpl dangerZones.
  rewrite !zone_list_length. split_and!; try reflexivity.
  apply Forall_app. split; apply zone_list_forall; vm_compute; repeat constructor.
Qed.

(** [initDB] never seeds a table that already holds a zone. *)
Theorem initDB_no_reseed now d :
  size (safety_zones d) <> 0 -> initDB now d = (inr tt, d).
Proof.
  intros Hs. unfold initDB, seed_zones, st_catch, st_bind, st_get.
  by rewrite decide_False.
Qed.

(** Deleting a pin that does not exist answers [{success: true}] and
    changes nothing; the spec asks for a NotFound error. *)
Theorem delete_missing_pin_ok d id :
  dropped_pins d !! id = None ->
  handle_delete_pin id d = (inr (Json200 tt), d).
Proof.
  intros Hn. unfold handle_delete_pin, deletePin. run_sql.
  rewrite delete_id by done. by destruct d.
Qed.

(** C10. Creating a pin and deleting it by its id restores the database. *)
Theorem pin_create_delete_roundtrip now b d d1 q z :
  pb_id b = Val q -> bigint_col "id" q = inr z ->
  handle_create_pin now b d = (inr (Json200 tt), d1) ->
  handle_delete_pin z d1 = (inr (Json200 tt), d).
Proof.
  intros Hq Hz. unfold handle_create_pin, st_catch.
  destruct (createPin now b d) as [[e|u] d2] eqn:E; unfold st_bind; rewrite E; [done|].
  intros [= <-]. apply (createPin_inr _ _ _ _ _ _ _ Hq Hz) in E as (p & Hn & ->).
  unfold handle_delete_pin, deletePin. run_sql.
  rewrite delete_insert_id by done. by destruct d.
Qed.

(** ** Witnesses *)

Definition demo_rating_body : zone_body :=
  rate_area_body (3133 # 100)%Q (7557 # 100)%Q 2 200 1700000000000 "Pin Location 10:00:00".

Lemma rate_area_listed_witness :
  exists d' zv,
    handle_create_zone 1 demo_rating_body empty_db = (inr (Json200 tt), d') /\
    zv_id zv = "user-danger-1700000000000" /\ zv_radius zv = 200%Z /\
    In zv (dangerZones (getZones d')).
Proof.
  destruct (rate_area_listed 1 empty_db (3133 # 100)%Q (7557 # 100)%Q 2 200 1700000000000
              "Pin Location 10:00:00" "user-danger-1700000000000" 3133000000 7557000000 2 200)
    as (d' & zv & H1 & H2 & H3 & _ & H5);
    try (vm_compute; (reflexivity || lia)).
  exists d', zv. split_and!; try assumption.
Defined.

Lemma initDB_seeds_witness :
  safety_zones empty_db = ∅ /\
  exists d', initDB 0 empty_db = (inr tt, d') /\ List.length (safeZones (getZones d')) = 3.
Proof.
  split; [reflexivity|].
  destruct (initDB_seeds 0 empty_db eq_refl) as (d' & H1 & _ & _ & _ & H2 & _).
  exists d'. split; assumption.
Defined.

Lemma initDB_no_reseed_witness :
  size (safety_zones (snd (initDB 0 empty_db))) <> 0 /\
  initDB 7 (snd (initDB 0 empty_db)) = (inr tt, snd (initDB 0 empty_db)).
Proof.
  assert (H : size (safety_zones (snd (initDB 0 empty_db))) <> 0) by (vm_compute; lia).
  split; [exact H|]. exact (initDB_no_reseed 7 _ H).
Defined.

Lemma delete_missing_pin_ok_witness :
  dropped_pins empty_db !! 5%Z = None /\
  handle_delete_pin 5 empty_db = (inr (Json200 tt), empty_db).
Proof.
  split; [reflexivity|]. by apply delete_missing_pin_ok.
Defined.

Definition demo_pin : pin_body :=
  mkPinBody (Val (1700000000000 # 1)%Q) (Val (3133 # 100)%Q) (Val (7557 # 100)%Q).

Lemma pin_create_delete_roundtrip_witness :
  handle_create_pin 1 demo_pin empty_db =
    (inr (Json200 tt), snd (handle_create_pin 1 demo_pin empty_db)) /\
  handle_delete_pin 1700000000000 (snd (handle_create_pin 1 demo_pin empty_db)) =
    (inr (Json200 tt), empty_db).
Proof.
  assert (H : handle_create_pin 1 demo_pin empty_db =
                (inr (Json200 tt), snd (handle_create_pin 1 demo_pin empty_db)))
    by (vm_compute; reflexivity).
  split; [exact H|].
  exact (pin_create_delete_roundtrip 1 demo_pin empty_db _ (1700000000000 # 1)%Q
           1700000000000 eq_refl (eq_refl) H).
Defined.
