(* ===== verification/Server.v ===== *)
(** * Server: the routes of server.js as one transition system

    [handle] dispatches a request to the Express handler of its route
    (server.js 128-372); [reachable] holds of every database the server can
    reach from [initDB] on an empty store through any sequence of requests.
    The theorems are invariants over all reachable databases, proved by
    induction on [reachable]:
    - [db_wf]: the UNIQUE key and the FOREIGN KEY of [incident_approvals],
      the AUTO_INCREMENT ids, the primary keys of the other tables, and the
      DECIMAL range of stored coordinates;
    - [db_typed] (of [Schema]): every column holds a value of its declared
      SQL type, because every handler puts each value it writes through
      the column's check;
    - [pending_below_quorum]: an incident still pending has fewer than 3
      approvals and fewer than 3 rejections on record, so the pending
      listing never shows one at the quorum;
    - the status of an incident never returns to pending, and no incident
      is ever removed. *)

From stdpp Require Import base list gmap strings.
From Stdlib Require Import String ZArith QArith.
From S2P Require Import Prelude Sql Schema Incidents Reports Quorum Zones.

Local Open Scope nat_scope.
Local Open Scope gd_scope.

(** ** Requests and the dispatcher *)

Inductive request : Type :=
| GetZones
| PostZone (b : zone_body)
| GetPins
| PostPin (b : pin_body)
| DeletePin (id : Z)
| GetIncidents
| PostIncident (b : incident_body)
| PostAction (id : string) (b : action_body)
| GetPending
| Health.

Inductive response : Type :=
| RZones (r : http_reply zones_reply)
| RPins (r : http_reply (list pin_view))
| RIncidents (r : http_reply (list incident_view))
| RPending (r : http_reply (list pending_view))
| RSuccess (r : http_reply unit)
| RHealth (status message : string).

Definition st_map {S E A B} (f : A -> B) (c : St S E A) : St S E B :=
  do a <- c; st_ret (f a).

(** The route table of server.js, with the request's timestamp. *)
Definition handle (now : nat) (q : request) : Sql response :=
  match q with
  | GetZones => st_map RZones handle_get_zones
  | PostZone b => st_map RSuccess (handle_create_zone now b)
  | GetPins => st_map RPins handle_get_pins
  | PostPin b => st_map RSuccess (handle_create_pin now b)
  | DeletePin id => st_map RSuccess (handle_delete_pin id)
  | GetIncidents => st_map RIncidents handle_get_incidents
  | PostIncident b => st_map RSuccess (handle_create_incident now b)
  | PostAction id b => st_map RSuccess (handle_incident_action now id b)
  | GetPending => st_map RPending handle_get_pending
  | Health => st_ret (RHealth "OK" "GuardAid Backend is running")
  end.

(** ** A failed connection

    [initDB] catches every error and only logs it, and [startServer]
    listens anyway.  When the first [mysql.createConnection] fails,
    [pool] stays undefined: the first [pool.execute] of each handler
    throws a TypeError inside its [try], so the route answers its
    [catch]'s 500; [/health] reads no pool. *)
Definition handle_without_pool (q : request) : response :=
  match q with
  | GetZones => RZones (Status500 "Failed to fetch zones")
  | PostZone _ => RSuccess (Status500 "Failed to create zone")
  | GetPins => RPins (Status500 "Failed to fetch pins")
  | PostPin _ => RSuccess (Status500 "Failed to create pin")
  | DeletePin _ => RSuccess (Status500 "Failed to delete pin")
  | GetIncidents => RIncidents (Status500 "Failed to fetch incidents")
  | PostIncident _ => RSuccess (Status500 "Failed to create incident")
  | PostAction _ _ => RSuccess (Status500 "Failed to process action")
  | GetPending => RPending (Status500 "Failed to fetch pending incidents")
  | Health => RHealth "OK" "GuardAid Backend is running"
  end.

(** [startServer]: [initDB] then requests, one at a time. *)
Inductive reachable : db -> Prop :=
| reach_init now : reachable (snd (initDB now empty_db))
| reach_step d now q : reachable d -> reachable (snd (handle now q d)).

(** ** The invariant *)

Record db_wf (d : db) : Prop := {
  wf_unique : unique_keys (incident_approvals d);
  wf_fk : approvals_fk d;
  wf_incident_keys : forall k r, incidents d !! k = Some r -> k = collate (i_id r);
  wf_coords : coords_ok d;
  wf_ids_lt : forall r, In r (incident_approvals d) -> a_id r < approvals_next_id d;
  wf_ids_nodup : NoDup (map a_id (incident_approvals d));
  wf_zone_keys : forall k z, safety_zones d !! k = Some z -> k = collate (z_id z)
}.

(** A row update of the action handler: it keeps the id, the coordinates
    and the creation time, and sets a status other than pending. *)
Definition row_update_ok (f : incident_row -> incident_row) : Prop :=
  forall r, i_id (f r) = i_id r /\ i_lat (f r) = i_lat r /\ i_lng (f r) = i_lng r /\
            i_status (f r) <> Pending /\ i_created_at (f r) = i_created_at r.

(** ** What each statement sequence can leave behind *)

Lemma st_map_state {A B} (f : A -> B) (c : Sql A) d r d' :
  st_map f c d = (r, d') -> exists r0, c d = (r0, d').
Proof.
  unfold st_map, st_bind, st_ret. destruct (c d) as [[e|a] d1]; intros [= _ <-]; eauto.
Qed.

Lemma catch_state {A B} (c : Sql A) (x y : B) d r d' :
  st_catch (c ;;; st_ret x) (fun _ => st_ret y) d = (r, d') -> exists r0, c d = (r0, d').
Proof.
  unfold st_catch, st_bind, st_ret.
  destruct (c d) as [[e|a] d1]; intros [= _ <-]; eauto.
Qed.

Lemma upsert_approval_inr_cases now iid vid act com d u d' :
  upsert_approval now iid vid act com d = (inr u, d') ->
  exists v a c, vid = Some v /\
    ((existsb (same_key iid v) (incident_approvals d) = true /\
     d' = set_approvals d (update_where (same_key iid v) (set_action a c)
                             (incident_approvals d)) (approvals_next_id d)) \/
    (existsb (same_key iid v) (incident_approvals d) = false /\
     is_Some (incidents d !! collate iid) /\
     d' = set_approvals d (incident_approvals d ++
                             [mkApproval (approvals_next_id d) iid v a c now])
                          (S (approvals_next_id d)))).
Proof.
  unfold upsert_approval. run_sql.
  destruct (varchar "incident_id" 50 iid) as [|iid'] eqn:Ei; [by intros [=]|].
  apply varchar_inr in Ei as [-> _].
  repeat (case_match; simplify_eq; try done); intros [= _ <-];
    match goal with H : col_varchar "volunteer_id" _ _ = inr _ |- _ =>
      apply col_varchar_inr in H as [-> _] end; eauto 10.
Qed.

Lemma incidentAction_result now id b d r d' :
  incidentAction now id b d = (r, d') ->
  d' = d \/
  exists vid act com d1 u, upsert_approval now id vid act com d = (inr u, d1) /\
    (d' = d1 \/ exists f, row_update_ok f /\
       d' = set_incidents d1 (alter (touch now f) (collate id) (incidents d1))).
Proof.
  unfold incidentAction. unfold st_bind at 1 2 3, st_lift.
  destruct (bind_param (ab_volunteerId b)) as [|vid]; [intros [= _ <-]; by left|].
  destruct (bind_param (ab_action b)) as [|act]; [intros [= _ <-]; by left|].
  destruct (bind_param (ab_comment b)) as [|com]; [intros [= _ <-]; by left|].
  unfold st_bind at 1.
  destruct (upsert_approval now id vid act com d) as [[e|u] d1] eqn:U.
  { intros [= _ <-]. left. by eapply upsert_approval_inl. }
  intros Hrun. right. exists vid, act, com, d1, u. split; [done|].
  unfold update_incident, count_actions, st_bind, st_get, st_put, st_lift, st_ret in Hrun.
  repeat (case_match; simplify_eq); try (by left); right.
  all: eexists; split; [|reflexivity]; intros x; split_and!; done.
Qed.

Lemma insert_zone_result now id ty lat lng name rating radius d r d' :
  insert_zone now id ty lat lng name rating radius d = (r, d') ->
  d' = d \/ exists i z, z_id z = i /\ safety_zones d !! collate i = None /\
                        d' = set_zones d (<[collate i := z]> (safety_zones d)).
Proof.
  unfold insert_zone. run_sql.
  repeat (case_match; simplify_eq; try (intros [= _ <-]; by left)).
  intros [= _ <-]. right. eexists s, _. split_and!; [|eassumption|reflexivity]; reflexivity.
Qed.

Lemma createZone_result now b d r d' :
  createZone now b d = (r, d') ->
  d' = d \/ exists i z, z_id z = i /\ safety_zones d !! collate i = None /\
                        d' = set_zones d (<[collate i := z]> (safety_zones d)).
Proof.
  unfold createZone, st_bind, st_lift.
  repeat (case_match; try (intros [= _ <-]; by left)).
  apply insert_zone_result.
Qed.

Lemma createPin_result now b d r d' :
  createPin now b d = (r, d') -> d' = d \/ exists t, d' = set_pins d t.
Proof.
  unfold createPin. run_sql.
  repeat (case_match; simplify_eq; try (intros [= _ <-]; by left)).
  intros [= _ <-]. right. eauto.
Qed.

Lemma insert_seeds_result now zs d r d' :
  insert_seeds now zs d = (r, d') ->
  (forall P : db -> Prop,
     P d ->
     (forall d0 i z, P d0 -> z_id z = i -> safety_zones d0 !! collate i = None ->
        P (set_zones d0 (<[collate i := z]> (safety_zones d0)))) ->
     P d').
Proof.
  revert d r d'. induction zs as [|z zs IH]; intros d r d'.
  - intros [= _ <-]. auto.
  - simpl. unfold st_bind.
    destruct (insert_zone _ _ _ _ _ _ _ _ d) as [[e|u] d1] eqn:E.
    + intros [= _ <-] P HP Hstep. apply insert_zone_result in E as [->|(i & z' & Hz & Hn & ->)]; eauto.
    + intros H P HP Hstep. apply (IH d1 r d' H P); [|exact Hstep].
      apply insert_zone_result in E as [->|(i & z' & Hz & Hn & ->)]; eauto.
Qed.

Lemma touch_fields now f r :
  i_id (touch now f r) = i_id (f r) /\ i_lat (touch now f r) = i_lat (f r) /\
  i_lng (touch now f r) = i_lng (f r) /\ i_status (touch now f r) = i_status (f r) /\
  i_created_at (touch now f r) = i_created_at (f r).
Proof. unfold touch. case_decide as E; [by rewrite E|done]. Qed.

Lemma in_update_where {A} (sel : A -> bool) f l x :
  In x (update_where sel f l) -> exists y, In y l /\ (x = y \/ x = f y).
Proof.
  unfold update_where. rewrite in_map_iff. intros (y & <- & Hy).
  exists y. split; [done|]. destruct (sel y); auto.
Qed.

Lemma ids_update_where iid vid act com rows :
  map a_id (update_where (same_key iid vid) (set_action act com) rows) = map a_id rows.
Proof.
  induction rows as [|x rows IH]; [done|]. simpl. rewrite IH.
  by destruct (same_key iid vid x).
Qed.

(** ** Preservation of [db_wf], statement by statement *)

Lemma wf_empty : db_wf empty_db.
Proof.
  split; try (intros ? ? H; vm_compute in H; done).
  - intros i v. vm_compute. lia.
  - intros r [].
  - intros r [].
  - constructor.
Qed.

Lemma wf_set_pins d t : db_wf d -> db_wf (set_pins d t).
Proof. intros []. by split. Qed.

Lemma wf_insert_zone d i z :
  db_wf d -> z_id z = i -> db_wf (set_zones d (<[collate i := z]> (safety_zones d))).
Proof.
  intros [] Hz. split; try done. intros k z'. simpl. rewrite lookup_insert.
  case_decide; [intros [= <-]; by subst|]. auto.
Qed.

Lemma wf_insert_incident d k row :
  db_wf d -> k = collate (i_id row) -> incidents d !! k = None ->
  (Z.abs (i_lat row) < 10 ^ 10)%Z -> (Z.abs (i_lng row) < 10 ^ 11)%Z ->
  db_wf (set_incidents d (<[k := row]> (incidents d))).
Proof.
  intros [U F K C L N Zk] Hk Hn H1 H2. split; simpl; try done.
  - intros r Hr. simpl. rewrite lookup_insert. case_decide; [eauto|]. by apply F.
  - intros k' r'. simpl. rewrite lookup_insert.
    case_decide; [intros [= <-]; by subst|]. auto.
  - intros k' r'. simpl. rewrite lookup_insert. case_decide; [intros [= <-]; done|].
    apply C.
Qed.

Lemma wf_update_incident d now k f :
  db_wf d -> row_update_ok f ->
  db_wf (set_incidents d (alter (touch now f) k (incidents d))).
Proof.
  intros [U F K C L N Zk] Hf. split; simpl; try done.
  - intros r Hr. simpl. apply lookup_alter_is_Some. by apply F.
  - intros k' r'. simpl. rewrite lookup_alter.
    case_decide; [|apply K]. subst k'.
    destruct (incidents d !! k) as [r|] eqn:E; simpl; [|done].
    intros [= <-]. destruct (touch_fields now f r) as (-> & _).
    destruct (Hf r) as (-> & _). by apply K.
  - intros k' r'. simpl. rewrite lookup_alter.
    case_decide; [|apply C]. subst k'.
    destruct (incidents d !! k) as [r|] eqn:E; simpl; [|done].
    intros [= <-]. destruct (touch_fields now f r) as (_ & -> & -> & _).
    destruct (Hf r) as (_ & -> & -> & _). eapply C; eauto.
Qed.

Lemma wf_upsert d now iid vid act com u d1 :
  db_wf d -> upsert_approval now iid vid act com d = (inr u, d1) -> db_wf d1.
Proof.
  intros [U F K C L N Zk] H.
  apply upsert_approval_inr_cases in H as (v & a & c & _ & [[E ->]|(E & Hi & ->)]).
  - split; simpl; try done.
    + by apply unique_keys_update.
    + intros r (y & Hy & [->| ->])%in_update_where; simpl; by apply F.
    + intros r (y & Hy & [->| ->])%in_update_where; simpl; by apply L.
    + by rewrite ids_update_where.
  - split; simpl; try done.
    + by apply unique_keys_append.
    + intros r [Hr|[<-|[]]]%in_app_iff; [by apply F|simpl; exact Hi].
    + intros r [Hr|[<-|[]]]%in_app_iff; [specialize (L r Hr); lia|simpl; lia].
    + rewrite map_app. apply NoDup_app. split_and!; [done| |simpl; apply NoDup_singleton].
      intros x Hx. simpl. rewrite list_elem_of_singleton. intros ->.
      apply list_elem_of_In, in_map_iff in Hx as (r & Hx & Hr). specialize (L r Hr). lia.
Qed.

Lemma wf_incidentAction now id b : st_preserves db_wf (incidentAction now id b).
Proof.
  intros d r d' W H.
  apply incidentAction_result in H as [->|(vid & act & com & d1 & u & U & [->|(f & Hf & ->)])];
    [done|eapply wf_upsert; eauto|].
  apply wf_update_incident; [eapply wf_upsert; eauto|done].
Qed.

Lemma wf_createIncident now b : st_preserves db_wf (createIncident now b).
Proof.
  intros d [e|u] d' W H; [by rewrite (createIncident_inl _ _ _ _ _ H)|].
  apply createIncident_inr in H as (k & row & -> & Hk & Hn & H1 & H2).
  by apply wf_insert_incident.
Qed.

Lemma wf_createZone now b : st_preserves db_wf (createZone now b).
Proof.
  intros d r d' W H. apply createZone_result in H as [->|(i & z & Hz & _ & ->)]; [done|].
  by apply wf_insert_zone.
Qed.

Lemma wf_createPin now b : st_preserves db_wf (createPin now b).
Proof.
  intros d r d' W H. apply createPin_result in H as [->|[t ->]]; [done|].
  by apply wf_set_pins.
Qed.

Lemma wf_deletePin id : st_preserves db_wf (deletePin id).
Proof.
  unfold deletePin, st_put. apply st_preserves_get_bind. intros d W d0 r d' _ H.
  cbv beta in H. injection H as _ <-. by apply wf_set_pins.
Qed.

Lemma wf_initDB now : st_preserves db_wf (initDB now).
Proof.
  apply st_preserves_catch; [|auto with guardaid].
  apply st_preserves_get_bind. intros d _. case_decide; [|auto with guardaid].
  intros d0 r d' W Hs. eapply insert_seeds_result; [exact Hs|exact W|].
  intros d1 i z W1 Hz _. by apply wf_insert_zone.
Qed.

Lemma st_preserves_map {A B} P (f : A -> B) (c : Sql A) :
  st_preserves P c -> st_preserves P (st_map f c).
Proof. intros Hc. unfold st_map. auto with guardaid. Qed.

#[local] Hint Resolve st_preserves_map wf_incidentAction wf_createIncident wf_createZone
  wf_createPin wf_deletePin : guardaid.

Lemma wf_handle now q : st_preserves db_wf (handle now q).
Proof.
  destruct q; simpl;
    unfold handle_get_zones, handle_create_zone, handle_get_pins, handle_create_pin,
      handle_delete_pin, handle_get_incidents, handle_create_incident,
      handle_incident_action, handle_get_pending; auto 10 with guardaid.
Qed.

(** ** What one request can change *)

(** Between two states of the server: no zone is removed or changed, no
    incident is removed, and its id and creation time stay while a
    decided incident stays decided; no volunteer's recorded action is
    erased. *)
Definition db_progress (d d' : db) : Prop :=
  (forall k z, safety_zones d !! k = Some z -> safety_zones d' !! k = Some z) /\
  (forall k r, incidents d !! k = Some r ->
     exists r', incidents d' !! k = Some r' /\ i_id r' = i_id r /\
                i_created_at r' = i_created_at r /\
                (i_status r <> Pending -> i_status r' <> Pending)) /\
  (forall i v a, vote_of i v (incident_approvals d) = Some a ->
     is_Some (vote_of i v (incident_approvals d'))).

#[export] Instance db_progress_preorder : PreOrder db_progress.
Proof.
  split.
  - intros d. split_and!; eauto.
  - intros d1 d2 d3 (Z1 & I1 & V1) (Z2 & I2 & V2). split_and!; [eauto| |].
    + intros k r (r2 & H2 & E2 & C2 & S2)%I1.
      destruct (I2 _ _ H2) as (r3 & H3 & E3 & C3 & S3).
      exists r3. split_and!; [done|congruence|congruence|auto].
    + intros i v a (a2 & H2)%V1. eauto.
Qed.

Lemma votes_kept_update iid vid act com rows i v a :
  existsb (same_key iid vid) rows = true -> vote_of i v rows = Some a ->
  is_Some (vote_of i v (update_where (same_key iid vid) (set_action act com) rows)).
Proof. intros Hex H. rewrite vote_of_update, Hex. case_match; eauto. Qed.

Lemma votes_kept_append rows r i v a :
  existsb (same_key (a_incident_id r) (a_volunteer_id r)) rows = false ->
  vote_of i v rows = Some a -> is_Some (vote_of i v (rows ++ [r])).
Proof. intros Hn H. rewrite vote_of_append by done. case_match; eauto. Qed.

Lemma progress_upsert now iid vid act com d r d' :
  upsert_approval now iid vid act com d = (r, d') -> db_progress d d'.
Proof.
  destruct r as [e|u]; [intros ->%upsert_approval_inl; reflexivity|].
  intros (v & a & c & _ & [[E ->]|(E & Hi & ->)])%upsert_approval_inr_cases;
    (split_and!; [done|intros k r Hr; by exists r|]); intros i v' a' H.
  - eapply votes_kept_update; eauto.
  - eapply votes_kept_append; [exact E|exact H].
Qed.

Lemma progress_update d now k f :
  row_update_ok f -> db_progress d (set_incidents d (alter (touch now f) k (incidents d))).
Proof.
  intros Hf. split_and!; [done| |done]. intros k' r Hr. simpl. rewrite lookup_alter.
  case_decide; [subst k'; rewrite Hr|by rewrite Hr; exists r]. simpl.
  eexists. split; [reflexivity|].
  destruct (touch_fields now f r) as (-> & _ & _ & -> & ->).
  destruct (Hf r) as (-> & _ & _ & S & ->). auto.
Qed.

Lemma progress_insert_incident d k row :
  incidents d !! k = None -> db_progress d (set_incidents d (<[k := row]> (incidents d))).
Proof.
  intros Hn. split_and!; [done| |done]. intros k' r Hr. exists r. simpl.
  rewrite lookup_insert. case_decide; [congruence|done].
Qed.

Lemma progress_insert_zone d k z :
  safety_zones d !! k = None -> db_progress d (set_zones d (<[k := z]> (safety_zones d))).
Proof.
  intros Hn. split_and!; [|intros k' r Hr; by exists r|done]. intros k' z' Hz. simpl.
  rewrite lookup_insert. case_decide; [congruence|done].
Qed.

Lemma progress_set_pins d t : db_progress d (set_pins d t).
Proof. split_and!; [done|intros k r Hr; by exists r|done]. Qed.

Lemma progress_incidentAction now id b : st_guarantee db_progress (incidentAction now id b).
Proof.
  intros d r d' H.
  apply incidentAction_result in H as [->|(vid & act & com & d1 & u & U & [->|(f & Hf & ->)])];
    [reflexivity|by eapply progress_upsert|].
  transitivity d1; [by eapply progress_upsert|by apply progress_update].
Qed.

Lemma progress_createIncident now b : st_guarantee db_progress (createIncident now b).
Proof.
  intros d [e|u] d' H; [rewrite (createIncident_inl _ _ _ _ _ H); reflexivity|].
  apply createIncident_inr in H as (k & row & -> & _ & Hn & _).
  by apply progress_insert_incident.
Qed.

Lemma progress_createZone now b : st_guarantee db_progress (createZone now b).
Proof.
  intros d r d' H. apply createZone_result in H as [->|(i & z & _ & Hn & ->)];
    [reflexivity|by apply progress_insert_zone].
Qed.

Lemma progress_createPin now b : st_guarantee db_progress (createPin now b).
Proof.
  intros d r d' H. apply createPin_result in H as [->|[t ->]];
    [reflexivity|apply progress_set_pins].
Qed.

Lemma progress_deletePin id : st_guarantee db_progress (deletePin id).
Proof. intros d r d' [= _ <-]. apply progress_set_pins. Qed.

Lemma st_guarantee_map {A B} R `{!Reflexive R, !Transitive R} (f : A -> B) (c : Sql A) :
  st_guarantee R c -> st_guarantee R (st_map f c).
Proof. intros Hc. unfold st_map. apply st_guarantee_bind; auto using st_guarantee_ret with typeclass_instances. Qed.

#[local] Hint Resolve progress_incidentAction progress_createIncident progress_createZone
  progress_createPin progress_deletePin : guardaid.

Lemma progress_handle now q : st_guarantee db_progress (handle now q).
Proof.
  destruct q; simpl; [..|intros d r d' [= _ <-]; reflexivity];
    apply st_guarantee_map; try typeclasses eauto;
    unfold handle_get_zones, handle_create_zone, handle_get_pins, handle_create_pin,
      handle_delete_pin, handle_get_incidents, handle_create_incident,
      handle_incident_action, handle_get_pending;
    repeat first [ solve [auto with guardaid] | apply st_guarantee_catch
                 | apply st_guarantee_bind | apply st_guarantee_ret
                 | apply st_guarantee_get | typeclasses eauto | intros ].
Qed.

(** A sequence of requests, each with its timestamp, served one at a time. *)
Fixpoint run_requests (reqs : list (nat * request)) (d : db) : db :=
  match reqs with
  | [] => d
  | (now, q) :: rest => run_requests rest (snd (handle now q d))
  end.

Lemma reachable_run reqs d : reachable d -> reachable (run_requests reqs d).
Proof.
  revert d. induction reqs as [|[now q] reqs IH]; intros d Hd; simpl; [done|].
  apply IH. by constructor.
Qed.

Lemma progress_step d now q : db_progress d (snd (handle now q d)).
Proof. apply (progress_handle now q d (fst (handle now q d))). apply surjective_pairing. Qed.

(** ** The column types of every stored row *)

Lemma typed_set_zones d k z :
  db_typed d -> zone_typed z -> db_typed (set_zones d (<[k := z]> (safety_zones d))).
Proof. intros [] Hz. split; try done. by apply map_Forall_insert_2. Qed.

Lemma typed_set_incidents d k r :
  db_typed d -> incident_typed r -> db_typed (set_incidents d (<[k := r]> (incidents d))).
Proof. intros [] Hr. split; try done. by apply map_Forall_insert_2. Qed.

Lemma typed_insert_zone now id ty lat lng name rating radius :
  st_preserves db_typed (insert_zone now id ty lat lng name rating radius).
Proof.
  intros d r d' T. unfold insert_zone. run_sql.
  repeat (case_match; simplify_eq; try (intros [= _ <-]; done)).
  intros [= _ <-]. column_facts. apply typed_set_zones; [done|].
  unfold zone_typed; simpl; split_and!; done.
Qed.

Lemma typed_insert_incident now id ty lat lng desc sev rep :
  st_preserves db_typed (insert_incident now id ty lat lng desc sev rep).
Proof.
  intros d r d' T. unfold insert_incident. run_sql.
  repeat (case_match; simplify_eq; try (intros [= _ <-]; done)).
  intros [= _ <-]. column_facts. subst. apply typed_set_incidents; [done|].
  unfold incident_typed, int_fits; simpl; split_and!; try done; vm_compute; congruence.
Qed.

Lemma typed_createPin now b : st_preserves db_typed (createPin now b).
Proof.
  intros d r d' T. unfold createPin. run_sql.
  repeat (case_match; simplify_eq; try (intros [= _ <-]; done)).
  intros [= _ <-]. column_facts. destruct T. split; try done. simpl.
  apply map_Forall_insert_2; [|done]. unfold pin_typed; simpl; split_and!; (done || lia).
Qed.

Lemma typed_deletePin id : st_preserves db_typed (deletePin id).
Proof.
  unfold deletePin, st_put. apply st_preserves_get_bind. intros d [] d0 r d' _ [= _ <-].
  split; try done. by apply map_Forall_delete.
Qed.

Lemma typed_touch now f r : incident_typed (f r) -> incident_typed (touch now f r).
Proof.
  intros H. unfold touch. case_decide as E; [by rewrite E in H|].
  revert H. unfold incident_typed. simpl. tauto.
Qed.

Lemma typed_update_incident now iid f :
  (forall r, incident_typed r -> incident_typed (f r)) ->
  st_preserves db_typed (update_incident now iid f).
Proof.
  intros Hf. unfold update_incident, st_put. apply st_preserves_get_bind.
  intros d [] d0 r d' _ [= _ <-]. split; try done. simpl.
  intros k x [[_ (y & Hy & ->)]|[_ Hx]]%lookup_alter_Some; [|eauto].
  apply typed_touch, Hf. eauto.
Qed.

Lemma typed_upsert now iid vid act com : st_preserves db_typed (upsert_approval now iid vid act com).
Proof.
  intros d r d' T. unfold upsert_approval. run_sql.
  repeat (case_match; simplify_eq; try (intros [= _ <-]; done)); intros [= _ <-];
    column_facts; subst; destruct T; split; try done; simpl.
  - apply Forall_update_where; [|done]. intros [] (? & ? & _). unfold approval_typed; simpl.
    split_and!; done.
  - apply Forall_app_2; [done|]. apply Forall_singleton. unfold approval_typed; simpl.
    split_and!; done.
Qed.

#[local] Hint Resolve typed_insert_zone typed_insert_incident typed_createPin typed_deletePin
  typed_upsert : guardaid.

Lemma typed_incidentAction now id b : st_preserves db_typed (incidentAction now id b).
Proof.
  unfold incidentAction. do 4 (apply st_preserves_bind; [auto with guardaid|intros ?]).
  apply st_preserves_if.
  - apply st_preserves_lift_bind. intros v Hv. column_facts.
    apply typed_update_incident. unfold incident_typed; simpl; tauto.
  - apply st_preserves_bind; [unfold count_actions; auto with guardaid|intros [na nr]].
    repeat apply st_preserves_if; [|apply typed_update_incident|auto with guardaid].
    + apply st_preserves_lift_bind. intros v Hv. column_facts.
      apply typed_update_incident. unfold incident_typed; simpl; tauto.
    + unfold incident_typed; simpl; tauto.
Qed.

Lemma typed_insert_seeds now zs : st_preserves db_typed (insert_seeds now zs).
Proof. induction zs as [|z zs IH]; simpl; auto with guardaid. Qed.

Lemma typed_initDB now : st_preserves db_typed (initDB now).
Proof.
  unfold initDB, seed_zones. apply st_preserves_catch; [|auto with guardaid].
  apply st_preserves_get_bind. intros d _. case_decide; [apply typed_insert_seeds|auto with guardaid].
Qed.

Lemma typed_empty : db_typed empty_db.
Proof. split; try apply map_Forall_empty. constructor. Qed.

#[local] Hint Resolve typed_incidentAction : guardaid.

Lemma typed_handle now q : st_preserves db_typed (handle now q).
Proof.
  destruct q; simpl;
    unfold handle_get_zones, handle_create_zone, handle_get_pins, handle_create_pin,
      handle_delete_pin, handle_get_incidents, handle_create_incident,
      handle_incident_action, handle_get_pending, createZone, createIncident;
    auto 20 with guardaid.
Qed.

(** ** No pending incident has reached the quorum *)

(** An incident still pending has fewer than 3 approvals and fewer than
    3 rejections on record. *)
Definition pending_below_quorum (d : db) : Prop :=
  forall k r, incidents d !! k = Some r -> i_status r = Pending ->
    approvals_of (i_id r) (incident_approvals d) < quorum /\
    rejections_of (i_id r) (incident_approvals d) < quorum.

Definition quorum_inv (d : db) : Prop := db_wf d /\ pending_below_quorum d.

Lemma inv_insert_zone now id ty lat lng name rating radius :
  st_preserves quorum_inv (insert_zone now id ty lat lng name rating radius).
Proof.
  intros d r d' [W P] H. apply insert_zone_result in H as [->|(i & z & Hz & _ & ->)]; [done|].
  split; [by apply wf_insert_zone|exact P].
Qed.

Lemma inv_createPin now b : st_preserves quorum_inv (createPin now b).
Proof.
  intros d r d' [W P] H. split; [by eapply wf_createPin|].
  apply createPin_result in H as [->|[t ->]]; [done|exact P].
Qed.

Lemma inv_deletePin id : st_preserves quorum_inv (deletePin id).
Proof.
  intros d r d' [W P] H. split; [by eapply wf_deletePin|].
  unfold deletePin, st_bind, st_get, st_put in H. injection H as _ <-. exact P.
Qed.

Lemma inv_createIncident now b : st_preserves quorum_inv (createIncident now b).
Proof.
  intros d [e|u] d' [W P] H; (split; [by eapply wf_createIncident|]).
  { by rewrite (createIncident_inl _ _ _ _ _ H). }
  apply createIncident_inr in H as (k & row & -> & Hk & Hn & _).
  intros k' r' Hr' Hp. simpl in Hr'. apply lookup_insert_Some in Hr' as [[<- <-]|[_ Hr']].
  - unfold approvals_of, rejections_of, count_action, set_incidents. cbn [incident_approvals].
    rewrite (fk_no_rows d (i_id row)) by (apply W || by rewrite <- Hk). rewrite !count_if_nil. unfold quorum. lia.
  - exact (P k' r' Hr' Hp).
Qed.

Lemma inv_incidentAction now id b : st_preserves quorum_inv (incidentAction now id b).
Proof.
  intros d [e|u] d' [W P] H; (split; [by eapply wf_incidentAction|]).
  { by rewrite (incidentAction_inl _ _ _ _ _ _ H). }
  apply incidentAction_inr in H as (act & vid & com & Hf & [r0 Hr0] & -> & ->); [|apply W].
  intros k x Hx Hp. rewrite after_action_approvals. unfold approvals_of, rejections_of in *.
  destruct (decide (k = collate id)) as [->|Hk].
  - rewrite (after_action_lookup _ _ _ _ _ _ _ Hr0) in Hx.
    destruct (chosen_update _ _ _ _) as [f|] eqn:C; injection Hx as <-.
    { rewrite touch_status in Hp. unfold chosen_update in C.
      repeat case_match; simplify_eq; done. }
    assert (E : sql_eq (i_id r0) id = true)
      by (apply sql_eq_spec; symmetry; exact (wf_incident_keys d W _ _ Hr0)).
    rewrite !(count_action_equiv _ _ _ _ E). unfold chosen_update, approvals_of, rejections_of in C.
    repeat case_match; simplify_eq. split; by apply Nat.leb_gt.
  - rewrite after_action_other in Hx by done.
    assert (E : sql_eq (i_id x) id = false).
    { unfold sql_eq. apply String.eqb_neq. by rewrite <- (wf_incident_keys d W _ _ Hx). }
    rewrite !upsert_counts_other by done. exact (P k x Hx Hp).
Qed.

#[local] Hint Resolve inv_insert_zone inv_createPin inv_deletePin inv_createIncident
  inv_incidentAction : guardaid.

Lemma inv_handle now q : st_preserves quorum_inv (handle now q).
Proof.
  destruct q; simpl;
    unfold handle_get_zones, handle_create_zone, handle_get_pins, handle_create_pin,
      handle_delete_pin, handle_get_incidents, handle_create_incident,
      handle_incident_action, handle_get_pending, createZone;
    auto 20 with guardaid.
Qed.

Lemma inv_initDB now : quorum_inv (snd (initDB now empty_db)).
Proof.
  assert (I : st_preserves quorum_inv (initDB now)).
  { unfold initDB, seed_zones. apply st_preserves_catch; [|auto with guardaid].
    apply st_preserves_get_bind. intros d _. case_decide; [|auto with guardaid].
    induction defaultZones as [|z zs IH]; simpl; auto with guardaid. }
  apply (I empty_db (fst (initDB now empty_db))); [|apply surjective_pairing].
  split; [apply wf_empty|]. intros k r Hk. cbn [incidents empty_db] in Hk. by rewrite lookup_empty in Hk.
Qed.

Lemma reachable_quorum_inv d : reachable d -> quorum_inv d.
Proof.
  induction 1 as [now|d now q _ IH]; [apply inv_initDB|].
  apply (inv_handle now q d (fst (handle now q d))); [exact IH|apply surjective_pairing].
Qed.

(** ** Claims *)

(** The database invariant.  Every database the server reaches from
    [initDB] through any sequence of requests keeps the UNIQUE key
    (incident_id, volunteer_id) of [incident_approvals], its FOREIGN KEY to
    [incidents], distinct AUTO_INCREMENT ids below the counter, the
    primary keys of [incidents] and [safety_zones] (each row under the
    collated form of its own id), and coordinates within DECIMAL(10,8) and
    DECIMAL(11,8). *)
Theorem reachable_wf d : reachable d -> db_wf d.
Proof.
  induction 1 as [now|d now q _ IH].
  - apply (wf_initDB now empty_db (fst (initDB now empty_db))); [apply wf_empty|].
    apply surjective_pairing.
  - apply (wf_handle now q d (fst (handle now q d))); [exact IH|apply surjective_pairing].
Qed.

(** The column types.  Every database the server reaches from
    [initDB] through any sequence of requests stores in each column a
    value of the column's declared type (server.js 39-86): every VARCHAR(n)
    value has at most [n] characters (the ids, types, names, severities,
    reporters, approvers, resolvers, volunteer ids and actions), every
    TEXT at most 65535 bytes, every DECIMAL(10,8) and DECIMAL(11,8) at most
    10 and 11 digits, every INT and BIGINT 32 and 64 bits.  No handler
    writes a value it has not put through the column's check. *)
Theorem reachable_typed d : reachable d -> db_typed d.
Proof.
  induction 1 as [now|d now q _ IH].
  - apply (typed_initDB now empty_db (fst (initDB now empty_db))); [apply typed_empty|].
    apply surjective_pairing.
  - apply (typed_handle now q d (fst (handle now q d))); [exact IH|apply surjective_pairing].
Qed.

(** C12. What no request undoes.  After any sequence of requests, every
    safety zone is still there unchanged, every incident is still there
    with the same id and creation time, an incident that was approved,
    rejected or resolved is not pending again, and every volunteer's
    recorded action on an incident is still on record (possibly
    changed). *)
Theorem requests_progress reqs d : db_progress d (run_requests reqs d).
Proof.
  revert d. induction reqs as [|[now q] reqs IH]; intros d; simpl; [reflexivity|].
  transitivity (snd (handle now q d)); [apply progress_step|apply IH].
Qed.

(** C11. No pending incident has reached the quorum.  On every database
    the server reaches, each element of [GET /api/incidents/pending] has
    fewer than 3 approvals and fewer than 3 rejections: the action that
    brings an incident to 3 approvals or 3 rejections (under the
    case-insensitive comparison of the [COUNT]) also moves it out of
    pending, an action on one incident never changes the counts of
    another, and a new incident has no approval rows (the FOREIGN KEY
    kept by [db_wf]).  The volunteers' review list therefore never shows
    an incident at 3/3. *)
Theorem pending_never_at_quorum d v :
  reachable d -> In v (getPendingIncidents d) ->
  pv_approvalCount v < quorum /\ pv_rejectionCount v < quorum.
Proof.
  intros Hr Hv. destruct (reachable_quorum_inv d Hr) as [_ P].
  apply pending_list_exact in Hv as (k & r & Hk & Hp & ->). exact (P k r Hk Hp).
Qed.

(** A server that took a report and two approvals of it. *)
Definition two_votes_db : db :=
  run_requests [(1, PostIncident demo_body);
                (2, PostAction "I1" (action_req "approve" "V1" (Some "")));
                (3, PostAction "i1" (action_req "APPROVE" "V2" (Some "")))]
    (snd (initDB 0 empty_db)).

Definition first_pending (d : db) : pending_view :=
  List.hd (mkPendingView "" "" 0 0 None "" "" "" 0 0 0) (getPendingIncidents d).

Lemma pending_never_at_quorum_witness :
  reachable two_votes_db /\ In (first_pending two_votes_db) (getPendingIncidents two_votes_db) /\
  pv_approvalCount (first_pending two_votes_db) = 2 /\
  pv_approvalCount (first_pending two_votes_db) < quorum /\
  pv_rejectionCount (first_pending two_votes_db) < quorum.
Proof.
  assert (H : reachable two_votes_db) by (apply reachable_run; constructor).
  assert (Hin : In (first_pending two_votes_db) (getPendingIncidents two_votes_db))
    by (vm_compute; left; reflexivity).
  split; [exact H|]. split; [exact Hin|]. split; [vm_compute; reflexivity|].
  exact (pending_never_at_quorum _ _ H Hin).
Defined.

Lemma reachable_typed_witness :
  reachable two_votes_db /\ db_typed two_votes_db.
Proof.
  assert (H : reachable two_votes_db) by (apply reachable_run; constructor).
  split; [exact H|exact (reachable_typed _ H)].
Defined.

Lemma reachable_wf_witness :
  reachable (run_requests [(1, Health)] (snd (initDB 0 empty_db))) /\
  db_wf (run_requests [(1, Health)] (snd (initDB 0 empty_db))).
Proof.
  assert (H : reachable (run_requests [(1, Health)] (snd (initDB 0 empty_db))))
    by (apply reachable_run; constructor).
  split; [exact H|exact (reachable_wf _ H)].
Defined.
