(* ===== verification/Route.v ===== *)
(** * Route: the safe-route planner of the map client

    [getRealRoute], [isPointSafe] and [calculateSafeRoute]
    (SafetyMap.jsx 159-288) and the [RoutePlanner] effect that measures
    the chosen route (SafetyMap.jsx 309-360).

    Two parts of the planner live outside the code and are interfaces:
    - [Distance]: Leaflet's [L.latLng(a).distanceTo(b)], the great-circle
      distance in metres;
    - [RoutingProvider]: the OSRM server, which for a pair of points either
      answers with the coordinates of its first route or fails (network
      error, a status that is not ok, no route).
    The planner's awaits are sequential, so the calls it makes to the
    provider are a log in the state of the statement monad of the Prelude
    (with no error: every failure is caught inside [getRealRoute]).
    Numbers are rationals: the doubles of the code are not rounded, and
    NaN arises only as the score of an empty route, where it is [None]. *)

From stdpp Require Import base list.
From Stdlib Require Import ZArith QArith Qabs Qminmax Qround Lqa.
From S2P Require Import Prelude Sql Zones.

Local Open Scope Q_scope.
Local Open Scope gd_scope.

(** ** Points, zones and the interfaces *)

Record latlng : Type := mkLatLng {
  lat : Q;
  lng : Q
}.

(** What the browser answers to [getCurrentPosition]. *)
Inductive geo_answer : Type :=
| GeoPosition (p : latlng)
| GeoError.

(** What the planner reads of a danger zone: [zone.lat], [zone.lng],
    [zone.radius]. *)
Record circle : Type := mkCircle {
  c_lat : Q;
  c_lng : Q;
  c_radius : Q
}.

(** A danger zone as [GET /api/zones] lists it. *)
Definition circle_of_view (z : zone_view) : circle :=
  mkCircle (zv_lat z) (zv_lng z) (inject_Z (zv_radius z)).

(** Structural equality of numbers and points: React compares the
    dependencies of an effect one by one, and the model compares the
    points it passes by value. *)
#[export] Instance Q_eq_dec : EqDecision Q.
Proof. solve_decision. Defined.

#[export] Instance latlng_eq_dec : EqDecision latlng.
Proof. solve_decision. Defined.

#[export] Instance circle_eq_dec : EqDecision circle.
Proof. solve_decision. Defined.

Class Distance : Type := {
  distanceTo : latlng -> latlng -> Q;
  distanceTo_nonneg a b : 0 <= distanceTo a b
}.

Class RoutingProvider : Type := {
  osrm_route : latlng -> latlng -> option (list latlng)
}.

(** A leg asked of the provider. *)
Definition leg : Type := (latlng * latlng)%type.

(** The planner's computations: the state is the list of legs asked of
    the provider, in order. *)
Abbreviation Calls := (St (list leg) Empty_set).

(** [x < y] on numbers. *)
Definition qlt (x y : Q) : bool := negb (Qle_bool y x).

(** The value [calculateSafeRoute] resolves to. *)
Record route_result (P : Type) : Type := mkResult {
  coordinates : list P;
  safetyScorePct : Q;
  isDetoured : bool
}.
Arguments mkResult {P} coordinates safetyScorePct isDetoured.
Arguments coordinates {P} r.
Arguments safetyScorePct {P} r.
Arguments isDetoured {P} r.

Section Planner.
Context `{Distance} `{RoutingProvider}.

(** ** [getRealRoute]: the provider's route, or the straight line *)
Definition getRealRoute (start end_ : latlng) : Calls (list latlng) :=
  do log <- st_get;
  st_put (log ++ [(start, end_)]) ;;;
  st_ret (match osrm_route start end_ with
          | Some route => route
          | None => [start; end_]
          end).

(** ** [isPointSafe]: the loop returns false at the first zone whose
    radius plus the margin exceeds the distance. *)
Fixpoint isPointSafe_with (safeDistance : Q) (point : latlng) (dangerZones : list circle)
    : bool :=
  match dangerZones with
  | [] => true
  | zone :: rest =>
      if qlt (distanceTo point (mkLatLng (c_lat zone) (c_lng zone)))
             (c_radius zone + safeDistance)
      then false
      else isPointSafe_with safeDistance point rest
  end.

(** The default margin of 100 metres. *)
Definition isPointSafe (point : latlng) (dangerZones : list circle) : bool :=
  isPointSafe_with 100 point dangerZones.

(** ** The detour candidates *)
Definition waypointOptions (start end_ : latlng) : list latlng :=
  let midLat := (lat start + lat end_) / 2 in
  let midLng := (lng start + lng end_) / 2 in
  let latDiff := Qabs (lat end_ - lat start) in
  let lngDiff := Qabs (lng end_ - lng start) in
  [ mkLatLng (midLat + Qmax (5 # 1000) (latDiff * (3 # 10))) midLng;
    mkLatLng (midLat - Qmax (5 # 1000) (latDiff * (3 # 10))) midLng;
    mkLatLng midLat (midLng + Qmax (5 # 1000) (lngDiff * (3 # 10)));
    mkLatLng midLat (midLng - Qmax (5 # 1000) (lngDiff * (3 # 10)));
    mkLatLng (midLat + Qmax (3 # 1000) (latDiff * (2 # 10)))
             (midLng + Qmax (3 # 1000) (lngDiff * (2 # 10)));
    mkLatLng (midLat - Qmax (3 # 1000) (latDiff * (2 # 10)))
             (midLng - Qmax (3 # 1000) (lngDiff * (2 # 10))) ].

(** [(safePoints / fullRoute.length) * 100]; [None] is the NaN of an empty
    route. *)
Definition safetyScore (dangerZones : list circle) (route : list latlng) : option Q :=
  match route with
  | [] => None
  | _ =>
      Some ((inject_Z (Z.of_nat (List.length (List.filter (fun p => isPointSafe p dangerZones) route)))
             / inject_Z (Z.of_nat (List.length route))) * 100)
  end.

(** [safetyScore > bestSafetyScore]: false when the score is NaN. *)
Definition better (score : option Q) (best : Q) : bool :=
  match score with
  | Some s => qlt best s
  | None => false
  end.

(** The [for (const waypoint of waypointOptions)] loop, with the best
    route and score so far. *)
Fixpoint tryWaypoints (start end_ : latlng) (dangerZones : list circle)
    (ws : list latlng) (bestRoute : list latlng) (bestSafetyScore : Q)
    : Calls (list latlng * Q) :=
  match ws with
  | [] => st_ret (bestRoute, bestSafetyScore)
  | waypoint :: rest =>
      if negb (isPointSafe waypoint dangerZones)
      then tryWaypoints start end_ dangerZones rest bestRoute bestSafetyScore
      else
        do route1 <- getRealRoute start waypoint;
        do route2 <- getRealRoute waypoint end_;
        let fullRoute := route1 ++ route2 in
        let score := safetyScore dangerZones fullRoute in
        (if better score bestSafetyScore
         then tryWaypoints start end_ dangerZones rest fullRoute
                (default 0 score)
         else tryWaypoints start end_ dangerZones rest bestRoute bestSafetyScore)
  end.

(** ** [calculateSafeRoute] on two valid points *)
Definition safeRoute (start end_ : latlng) (dangerZones : list circle)
    : Calls (route_result latlng) :=
  do normalRoute <- getRealRoute start end_;
  match dangerZones with
  | [] => st_ret (mkResult normalRoute 100 false)
  | _ =>
      if forallb (fun point => isPointSafe point dangerZones) normalRoute
      then st_ret (mkResult normalRoute 100 false)
      else
        do '(bestRoute, bestSafetyScore) <-
          tryWaypoints start end_ dangerZones (waypointOptions start end_) normalRoute 0;
        st_ret (if qlt 0 bestSafetyScore
                then mkResult bestRoute bestSafetyScore true
                else mkResult normalRoute 30 false)
  end.

(** [calculateSafeRoute(start, end, dangerZones = [])]: a start or end that
    is not an object with numeric [lat] and [lng] is [None], and is
    returned as it is in the straight line. *)
Definition calculateSafeRoute (start end_ : option latlng) (dangerZones : list circle)
    : Calls (route_result (option latlng)) :=
  match start, end_ with
  | Some s, Some e =>
      do r <- safeRoute s e dangerZones;
      st_ret (mkResult (map Some (coordinates r)) (safetyScorePct r) (isDetoured r))
  | _, _ => st_ret (mkResult [start; end_] 50 false)
  end.

(** ** [RoutePlanner]: the measurements of the chosen route *)

(** The [for (i = 0; i < route.length - 1; i++)] sum of leg lengths. *)
Fixpoint totalDistance (route : list latlng) : Q :=
  match route with
  | p :: ((q :: _) as rest) => distanceTo p q + totalDistance rest
  | _ => 0
  end.

(** [Math.round]: the nearest integer, halves up. *)
Definition js_round (x : Q) : Z := Qfloor (x + (1 # 2)).

(** [x.toFixed(f)] names the decimal [n / 10^f] nearest to [x], halves away
    from zero; the model keeps the integer [n] of the digits. *)
Definition toFixed (f : Z) (x : Q) : Z := round_half_away (x * inject_Z (10 ^ f)).

(** The argument of [onRouteCalculated]. *)
Record route_info : Type := mkRouteInfo {
  ri_route : list latlng;
  ri_distance : Z;
  ri_time : Z;
  ri_safetyScore : Z;
  ri_isDetoured : bool
}.

(** A coordinate of [routeData.coordinates] that is not a valid point
    makes [L.latLng] throw inside the effect's [try]. *)
Fixpoint valid_points (ps : list (option latlng)) : option (list latlng) :=
  match ps with
  | [] => Some []
  | None :: _ => None
  | Some p :: rest => (fun r => p :: r) <$> valid_points rest
  end.

(** The effect [getRoute]: [None] when it returns early or its [catch]
    runs, and the callback's argument otherwise. *)
Definition routePlanner (start end_ : option latlng) (dangerZones : list circle)
    : Calls (option route_info) :=
  match start, end_ with
  | Some _, Some _ =>
      do routeData <- calculateSafeRoute start end_ dangerZones;
      st_ret (match coordinates routeData with
              | [] => None
              | ps =>
                  match valid_points ps with
                  | None => None
                  | Some route =>
                      let total := totalDistance route in
                      Some (mkRouteInfo route (toFixed 2 (total / 1000))
                              (js_round (total / 1000 / 30 * 60))
                              (toFixed 1 (safetyScorePct routeData)) (isDetoured routeData))
                  end
              end)
  | _, _ => st_ret None
  end.

End Planner.

(** The line above the map: [distance && estimatedTime ? ... : 'Route
    planning...'], where [distance] is a non-empty string once a route is
    calculated and [estimatedTime] a number, falsy when 0. *)
Inductive route_banner : Type :=
| RoutePlanned (distance time : Z)
| RoutePlanning.

Definition banner (info : option route_info) : route_banner :=
  match info with
  | Some i => if Z.eqb (ri_time i) 0 then RoutePlanning
              else RoutePlanned (ri_distance i) (ri_time i)
  | None => RoutePlanning
  end.

(** ** Lemmas *)

Lemma qlt_spec x y : qlt x y = true <-> x < y.
Proof.
  unfold qlt. rewrite negb_true_iff. split.
  - intros H. apply Qnot_le_lt. intros Hle. apply Qle_bool_iff in Hle. congruence.
  - intros H. destruct (Qle_bool y x) eqn:E; [|done].
    apply Qle_bool_iff in E. lra.
Qed.

Lemma qlt_false x y : qlt x y = false <-> y <= x.
Proof.
  rewrite <- not_true_iff_false, qlt_spec. split; [apply Qnot_lt_le|]. intros H1 H2. lra.
Qed.

(** The score of a route of [n > 0] points, [f] of them safe, is
    between 0 and 100. *)
Lemma ratio_bounds (f n : nat) :
  (f <= n)%nat -> (0 < n)%nat ->
  0 <= inject_Z (Z.of_nat f) / inject_Z (Z.of_nat n) * 100 <= 100.
Proof.
  intros Hf Hn.
  assert (Hn' : 0 < inject_Z (Z.of_nat n)) by (unfold Qlt; simpl; lia).
  assert (H0 : 0 <= inject_Z (Z.of_nat f)) by (unfold Qle; simpl; lia).
  assert (H1 : inject_Z (Z.of_nat f) <= 1 * inject_Z (Z.of_nat n)) by
    (rewrite Qmult_1_l; unfold Qle; simpl; lia).
  assert (0 <= inject_Z (Z.of_nat f) / inject_Z (Z.of_nat n)) by
    (apply Qle_shift_div_l; [done|lra]).
  assert (inject_Z (Z.of_nat f) / inject_Z (Z.of_nat n) <= 1) by
    (apply Qle_shift_div_r; done).
  split; nra.
Qed.

Section Lemmas.
Context `{Distance} `{RoutingProvider}.

Lemma safetyScore_bounds zones route x :
  safetyScore zones route = Some x -> 0 <= x <= 100.
Proof.
  destruct route as [|p ps]; [done|]. intros [= <-]. apply ratio_bounds.
  - exact (List.filter_length_le _ (p :: ps)).
  - simpl. lia.
Qed.

(** What [getRealRoute] returns. *)
Definition real_route (start end_ : latlng) : list latlng :=
  match osrm_route start end_ with
  | Some route => route
  | None => [start; end_]
  end.

Lemma getRealRoute_run s e log :
  getRealRoute s e log = (inr (real_route s e), log ++ [(s, e)]).
Proof. reflexivity. Qed.

(** The concatenated routes through the waypoints that are safe, in
    order: the candidates the loop scores. *)
Definition candidates (zones : list circle) (s e : latlng) (ws : list latlng)
    : list (list latlng) :=
  map (fun w => real_route s w ++ real_route w e)
      (List.filter (fun w => isPointSafe w zones) ws).

(** The legs the loop asks of the provider. *)
Definition detour_legs (zones : list circle) (s e : latlng) (ws : list latlng) : list leg :=
  flat_map (fun w => if isPointSafe w zones then [(s, w); (w, e)] else []) ws.

(** The choice of the loop, without the calls. *)
Fixpoint pick (zones : list circle) (cands : list (list latlng))
    (bestRoute : list latlng) (bestScore : Q) : list latlng * Q :=
  match cands with
  | [] => (bestRoute, bestScore)
  | c :: rest =>
      if better (safetyScore zones c) bestScore
      then pick zones rest c (default 0 (safetyScore zones c))
      else pick zones rest bestRoute bestScore
  end.

Lemma tryWaypoints_run s e zones ws bR bS log :
  tryWaypoints s e zones ws bR bS log =
  (inr (pick zones (candidates zones s e ws) bR bS), log ++ detour_legs zones s e ws).
Proof.
  revert bR bS log. induction ws as [|w ws IH]; intros bR bS log; simpl.
  { by rewrite app_nil_r. }
  unfold candidates in *. simpl.
  destruct (isPointSafe w zones); simpl; [|apply IH].
  unfold st_bind. rewrite !getRealRoute_run. simpl.
  destruct (better _ bS); rewrite IH, <- !app_assoc; done.
Qed.
End Lemmas.

(** ** The planner's contract *)

Section Contract.
Context `{Distance} `{RoutingProvider}.

(** A candidate scores at most [s] (NaN compares false). *)
Definition score_le (zones : list circle) (s : Q) (c : list latlng) : Prop :=
  match safetyScore zones c with Some x => x <= s | None => True end.

(** A candidate scores below [s]. *)
Definition score_lt (zones : list circle) (s : Q) (c : list latlng) : Prop :=
  match safetyScore zones c with Some x => x < s | None => True end.

(** The loop keeps the first candidate of the highest score, when that
    score beats the initial one. *)
Lemma pick_spec zones cands r0 s0 :
  (pick zones cands r0 s0 = (r0, s0) /\ Forall (score_le zones s0) cands) \/
  (exists pre c post s,
     cands = pre ++ c :: post /\ pick zones cands r0 s0 = (c, s) /\
     safetyScore zones c = Some s /\ s0 < s /\
     Forall (score_lt zones s) pre /\ Forall (score_le zones s) post).
Proof.
  revert r0 s0. induction cands as [|c cands IH]; intros r0 s0; simpl; [by left|].
  unfold better. destruct (safetyScore zones c) as [x|] eqn:Ex.
  - destruct (qlt s0 x) eqn:Lt.
    + apply qlt_spec in Lt. right. simpl.
      destruct (IH c x) as [[-> F]|(pre & c' & post & s & -> & -> & Ec & Ls & F1 & F2)].
      * exists [], c, cands, x. by split_and!.
      * exists (c :: pre), c', post, s. split_and!; try done; [lra|].
        constructor; [|done]. unfold score_lt. rewrite Ex. lra.
    + apply qlt_false in Lt.
      destruct (IH r0 s0) as [[-> F]|(pre & c' & post & s & -> & -> & Ec & Ls & F1 & F2)].
      * left. split; [done|]. constructor; [|done]. unfold score_le. by rewrite Ex.
      * right. exists (c :: pre), c', post, s. split_and!; try done.
        constructor; [|done]. unfold score_lt. rewrite Ex. lra.
  - destruct (IH r0 s0) as [[-> F]|(pre & c' & post & s & -> & -> & Ec & Ls & F1 & F2)].
    + left. split; [done|]. constructor; [|done]. unfold score_le. by rewrite Ex.
    + right. exists (c :: pre), c', post, s. split_and!; try done.
      constructor; [|done]. unfold score_lt. by rewrite Ex.
Qed.

(** Every point of a route is outside every danger circle and its margin. *)
Definition route_safe (zones : list circle) (route : list latlng) : bool :=
  forallb (fun point => isPointSafe point zones) route.

(** The abstract planner: what the result of [calculateSafeRoute] on two
    valid points must be, case by case (the steps of the route
    planner). *)
Inductive planned (zones : list circle) (s e : latlng) : route_result latlng -> Prop :=
| planned_direct :
    zones = [] \/ route_safe zones (real_route s e) = true ->
    planned zones s e (mkResult (real_route s e) 100 false)
| planned_detour pre c post sc :
    zones <> [] -> route_safe zones (real_route s e) = false ->
    candidates zones s e (waypointOptions s e) = pre ++ c :: post ->
    safetyScore zones c = Some sc -> 0 < sc ->
    Forall (score_lt zones sc) pre -> Forall (score_le zones sc) post ->
    planned zones s e (mkResult c sc true)
| planned_unsafe :
    zones <> [] -> route_safe zones (real_route s e) = false ->
    Forall (score_le zones 0) (candidates zones s e (waypointOptions s e)) ->
    planned zones s e (mkResult (real_route s e) 30 false).

(** The provider legs [calculateSafeRoute] asks for. *)
Definition planner_legs (zones : list circle) (s e : latlng) : list leg :=
  (s, e) :: (match zones with
             | [] => []
             | _ => if route_safe zones (real_route s e) then []
                    else detour_legs zones s e (waypointOptions s e)
             end).

Lemma safeRoute_run s e zones log :
  exists r, safeRoute s e zones log = (inr r, log ++ planner_legs zones s e) /\
            planned zones s e r.
Proof.
  unfold safeRoute, planner_legs. unfold st_bind at 1. rewrite getRealRoute_run.
  destruct zones as [|z zs] eqn:Ez.
  { eexists. split; [reflexivity|]. constructor. by left. }
  rewrite <- Ez. fold (route_safe zones (real_route s e)).
  destruct (route_safe zones (real_route s e)) eqn:Safe.
  { eexists. split; [by rewrite Ez|]. constructor. by right. }
  unfold st_bind. rewrite tryWaypoints_run, Ez, <- app_assoc. simpl. rewrite <- Ez.
  destruct (pick_spec zones (candidates zones s e (waypointOptions s e)) (real_route s e) 0)
    as [[-> F]|(pre & c & post & sc & Ec & -> & Sc & Lt & F1 & F2)].
  - eexists. split; [reflexivity|]. simpl. replace (qlt 0 0) with false by done.
    apply planned_unsafe; [by rewrite Ez|done|done].
  - eexists. split; [reflexivity|]. apply qlt_spec in Lt as Lt'. rewrite Lt'.
    eapply planned_detour; [by rewrite Ez|done|exact Ec|done|done|done|done].
Qed.
End Contract.

(** ** Lemmas on the whole planner *)

Section Planner_lemmas.
Context `{Distance} `{RoutingProvider}.

Lemma calculateSafeRoute_run s e zones log :
  exists r, calculateSafeRoute (Some s) (Some e) zones log =
              (inr (mkResult (map Some (coordinates r)) (safetyScorePct r) (isDetoured r)),
               log ++ planner_legs zones s e) /\ planned zones s e r.
Proof.
  destruct (safeRoute_run s e zones log) as (r & Hr & Hp).
  exists r. split; [|done]. unfold calculateSafeRoute, st_bind. by rewrite Hr.
Qed.

Lemma detour_legs_length zones s e ws :
  (List.length (detour_legs zones s e ws) <= 2 * List.length ws)%nat.
Proof.
  induction ws as [|w ws IH]; simpl; [lia|].
  destruct (isPointSafe w zones); simpl; lia.
Qed.

Lemma planner_legs_length zones s e :
  (1 <= List.length (planner_legs zones s e) <= 13)%nat.
Proof.
  unfold planner_legs. destruct zones; simpl; [lia|].
  destruct (route_safe _ _); simpl; [lia|].
  pose proof (detour_legs_length (c :: zones) s e (waypointOptions s e)). simpl in *. lia.
Qed.

Lemma planned_score zones s e r :
  planned zones s e r ->
  0 <= safetyScorePct r <= 100 /\ (isDetoured r = true -> 0 < safetyScorePct r).
Proof.
  intros []; simpl; try (split; [lra|done]).
  apply safetyScore_bounds in H4. split; [lra|done].
Qed.

Lemma totalDistance_nonneg route : 0 <= totalDistance route.
Proof.
  induction route as [|p [|q rest] IH]; simpl; [lra|lra|].
  pose proof (distanceTo_nonneg p q). simpl in IH. lra.
Qed.

Lemma js_round_zero x : 0 <= x < 1 # 2 -> js_round x = 0%Z.
Proof.
  intros [H1 H2]. unfold js_round.
  pose proof (Qfloor_le (x + (1 # 2))) as L. pose proof (Qlt_floor (x + (1 # 2))) as U.
  assert (A : (Qfloor (x + (1 # 2)) < 1)%Z).
  { rewrite Zlt_Qlt. change (inject_Z 1) with 1. lra. }
  assert (B : (-1 < Qfloor (x + (1 # 2)))%Z).
  { rewrite Zlt_Qlt. rewrite inject_Z_plus in U. change (inject_Z 1) with 1 in U.
    change (inject_Z (-1)) with (-1 # 1). lra. }
  lia.
Qed.

Lemma routePlanner_time s e zones log info log' :
  routePlanner (Some s) (Some e) zones log = (inr (Some info), log') ->
  ri_time info = js_round (totalDistance (ri_route info) / 1000 / 30 * 60).
Proof.
  unfold routePlanner, st_bind.
  destruct (calculateSafeRoute _ _ _ _) as [[[]|rd] l] eqn:E.
  unfold st_ret. destruct (coordinates rd) as [|p ps]; [done|].
  destruct (valid_points (p :: ps)) as [route|]; [|done]. by intros [= <- _].
Qed.
Lemma planned_clear zones s e r :
  zones = [] \/ route_safe zones (real_route s e) = true ->
  planned zones s e r -> r = mkResult (real_route s e) 100 false.
Proof. intros Hc []; [done| |]; destruct Hc; congruence. Qed.

Lemma planner_legs_clear zones s e :
  zones = [] \/ route_safe zones (real_route s e) = true ->
  planner_legs zones s e = [(s, e)].
Proof. unfold planner_legs. intros [Hz|Hs]; [by subst|]. rewrite Hs. by destruct zones. Qed.

(** Two points are the same when their reduced coordinates are. *)
Definition point_key (p : latlng) : Q * Q := (Qred (lat p), Qred (lng p)).

Lemma valid_points_Some l : valid_points (map Some l) = Some l.
Proof. induction l as [|p l IH]; simpl; [done|]. by rewrite IH. Qed.

(** The planner's route has a point whenever the provider's direct route
    has one: a detour has a score, which an empty route has not. *)
Lemma planned_nonempty zones s e r :
  planned zones s e r -> real_route s e <> [] -> coordinates r <> [].
Proof. destruct 1 as [|pre c post sc _ _ _ Hsc|]; simpl; try done. by intros _ ->. Qed.

(** On two points with a non-empty provider route, the effect of
    [RoutePlanner] always reaches [onRouteCalculated], after the legs of
    the planner. *)
Lemma routePlanner_run s e zones log :
  real_route s e <> [] ->
  exists info, routePlanner (Some s) (Some e) zones log = (inr (Some info), log ++ planner_legs zones s e).
Proof.
  intros Hne. destruct (calculateSafeRoute_run s e zones log) as (r & Hr & Hp).
  unfold routePlanner, st_bind. rewrite Hr. simpl.
  destruct (coordinates r) as [|p ps] eqn:Ec; [by destruct (planned_nonempty _ _ _ _ Hp Hne)|].
  simpl. rewrite valid_points_Some. by eexists.
Qed.

Lemma point_key_neq p q : ~ (lat p == lat q /\ lng p == lng q) -> point_key p <> point_key q.
Proof.
  intros Hn [= E1 E2]. apply Hn. split; apply Qred_eq_iff; done.
Qed.
End Planner_lemmas.

(** ** Claims *)

Section Claims.
Context `{Distance} `{RoutingProvider}.

(** C13. The direct route when it is clear.  With no danger zone, or when
    every point of the provider's route from start to end is outside
    every danger circle and its 100 m margin, [calculateSafeRoute]
    returns that route with a safety score of 100, not detoured, after a
    single request to the provider. *)
Theorem route_direct_when_clear s e zones log :
  zones = [] \/ route_safe zones (real_route s e) = true ->
  calculateSafeRoute (Some s) (Some e) zones log =
  (inr (mkResult (map Some (real_route s e)) 100 false), log ++ [(s, e)]).
Proof.
  intros Hc. destruct (calculateSafeRoute_run s e zones log) as (r & -> & Hp).
  rewrite (planner_legs_clear _ _ _ Hc). by rewrite (planned_clear _ _ _ _ Hc Hp).
Qed.

(** C14. Refinement of the planner's contract.  On two valid points,
    [calculateSafeRoute] returns the result the contract [planned]
    prescribes (the direct route at 100 when it is clear; otherwise the
    first of the concatenated routes through the safe waypoints with the
    highest score, when that score is above 0, marked as detoured; or the
    direct route at 30), and the provider is asked exactly the legs
    [planner_legs], in order. *)
Theorem route_refines_contract s e zones log :
  exists r, calculateSafeRoute (Some s) (Some e) zones log =
              (inr (mkResult (map Some (coordinates r)) (safetyScorePct r) (isDetoured r)),
               log ++ planner_legs zones s e) /\ planned zones s e r.
Proof. apply calculateSafeRoute_run. Qed.

(** C15. The number of provider requests.  On two valid points the
    planner asks the provider for start to end first and makes between 1
    and 13 requests in all (one, plus two per safe detour waypoint). *)
Theorem route_calls_bound s e zones log :
  exists legs, snd (calculateSafeRoute (Some s) (Some e) zones log) = log ++ (s, e) :: legs /\
               (List.length legs <= 12)%nat.
Proof.
  destruct (calculateSafeRoute_run s e zones log) as (r & -> & _). simpl.
  pose proof (planner_legs_length zones s e) as L.
  exists (tail (planner_legs zones s e)). split; [reflexivity|].
  change (planner_legs zones s e) with ((s, e) :: tail (planner_legs zones s e)) in L.
  rewrite length_cons in L. unfold leg in *. lia.
Qed.

(** C16. Bounds of the safety score.  Whatever the inputs, the score
    [calculateSafeRoute] returns is between 0 and 100, and a detoured
    route has a positive score. *)
Theorem route_score_bounds start end_ zones log r log' :
  calculateSafeRoute start end_ zones log = (inr r, log') ->
  0 <= safetyScorePct r <= 100 /\ (isDetoured r = true -> 0 < safetyScorePct r).
Proof.
  destruct start as [s|], end_ as [e|];
    try (intros [= <- _]; simpl; split; [lra|done]).
  destruct (calculateSafeRoute_run s e zones log) as (r0 & -> & Hp).
  intros [= <- _]. simpl. exact (planned_score _ _ _ _ Hp).
Qed.

(** Six distinct detour candidates.  The waypoint options are six
    points, no two of them the same, whatever the start and end (the
    offsets are at least 0.005 and 0.003 degrees). *)
Theorem waypoints_distinct s e :
  List.length (waypointOptions s e) = 6%nat /\ NoDup (map point_key (waypointOptions s e)).
Proof.
  split; [done|]. unfold waypointOptions. cbv zeta. cbn [map].
  pose proof (Q.le_max_l (5 # 1000) (Qabs (lat e - lat s) * (3 # 10))).
  pose proof (Q.le_max_l (5 # 1000) (Qabs (lng e - lng s) * (3 # 10))).
  pose proof (Q.le_max_l (3 # 1000) (Qabs (lat e - lat s) * (2 # 10))).
  pose proof (Q.le_max_l (3 # 1000) (Qabs (lng e - lng s) * (2 # 10))).
  set (a := Qmax (5 # 1000) (Qabs (lat e - lat s) * (3 # 10))) in *.
  set (b := Qmax (5 # 1000) (Qabs (lng e - lng s) * (3 # 10))) in *.
  set (c := Qmax (3 # 1000) (Qabs (lat e - lat s) * (2 # 10))) in *.
  set (d := Qmax (3 # 1000) (Qabs (lng e - lng s) * (2 # 10))) in *.
  repeat apply NoDup_cons_2; try apply NoDup_nil_2;
    repeat (apply not_elem_of_cons; split; [apply point_key_neq; cbn [lat lng]; lra|]);
    apply not_elem_of_nil.
Qed.

(** A failing provider does not lower the score.  When the provider
    fails for start to end, [getRealRoute] falls back to the straight
    line inside its own [catch], and with no danger zone (or a clear
    straight line) the planner reports that line with a score of 100:
    the fallback score 50 of [calculateSafeRoute]'s [catch] is never
    reached. *)
Theorem provider_failure_full_score s e zones log :
  osrm_route s e = None -> (zones = [] \/ route_safe zones [s; e] = true) ->
  calculateSafeRoute (Some s) (Some e) zones log =
  (inr (mkResult [Some s; Some e] 100 false), log ++ [(s, e)]).
Proof.
  intros Hf Hc. assert (R : real_route s e = [s; e]) by (unfold real_route; by rewrite Hf).
  rewrite <- R in Hc. destruct (calculateSafeRoute_run s e zones log) as (r & -> & Hp).
  rewrite (planner_legs_clear _ _ _ Hc), (planned_clear _ _ _ _ Hc Hp). simpl. by rewrite R.
Qed.

(** C17. A short route is never announced.  When the route the planner
    reports is shorter than 250 m, its estimated time rounds to 0
    minutes, which is falsy, so the banner above the map keeps showing
    'Route planning...' instead of the distance and time. *)
Theorem short_route_banner s e zones log info log' :
  routePlanner (Some s) (Some e) zones log = (inr (Some info), log') ->
  totalDistance (ri_route info) < 250 ->
  banner (Some info) = RoutePlanning.
Proof.
  intros Hr Hd. simpl. rewrite (routePlanner_time _ _ _ _ _ _ Hr), js_round_zero; [done|].
  pose proof (totalDistance_nonneg (ri_route info)).
  assert (E : totalDistance (ri_route info) / 1000 / 30 * 60 ==
              totalDistance (ri_route info) * (1 # 500)) by field.
  rewrite E. split; lra.
Qed.
End Claims.

(** ** A concrete planner

    A metric of 111000 m per degree along each axis (the factor of
    [getDistanceFromLine]) and a provider that knows one route, from
    (0, 0) to (0, 0.1) through ten points, and fails for every other
    leg. *)
Module Demo.

Definition demo_dist (a b : latlng) : Q :=
  111000 * (Qabs (lat a - lat b) + Qabs (lng a - lng b)).

Lemma demo_dist_nonneg a b : 0 <= demo_dist a b.
Proof.
  unfold demo_dist. pose proof (Qabs_nonneg (lat a - lat b)).
  pose proof (Qabs_nonneg (lng a - lng b)). lra.
Qed.

#[local] Instance demo_distance : Distance :=
  {| distanceTo := demo_dist; distanceTo_nonneg := demo_dist_nonneg |}.

Definition same_point (p q : latlng) : bool := Qeq_bool (lat p) (lat q) && Qeq_bool (lng p) (lng q).

Definition demo_start : latlng := mkLatLng 0 0.
Definition demo_end : latlng := mkLatLng 0 (1 # 10).

Definition demo_direct : list latlng :=
  map (fun k => mkLatLng 0 (Z.of_nat k # 100)) (seq 0 11).

#[local] Instance demo_provider : RoutingProvider :=
  {| osrm_route a b := if same_point a demo_start && same_point b demo_end
                       then Some demo_direct else None |}.

(** Two danger zones of radius 0, at the start and in the middle of the
    direct route. *)
Definition demo_zones : list circle := [mkCircle 0 0 0; mkCircle 0 (5 # 100) 0].

(** A detour can be less safe than the direct route.  The direct
    route has 9 safe points of 11 (a score of about 82), so the planner
    looks for a detour; every detour starts at the start point, inside a
    danger circle, and scores 75; the planner returns the first of them
    as detoured with 75, below the score of the route it replaces: the
    loop never compares the candidates with the direct route. *)
Theorem detour_less_safe_than_direct :
  exists r log direct,
    calculateSafeRoute (Some demo_start) (Some demo_end) demo_zones [] = (inr r, log) /\
    isDetoured r = true /\
    safetyScore demo_zones demo_direct = Some direct /\ safetyScorePct r < direct.
Proof.
  do 3 eexists. split_and!; [vm_compute; reflexivity|reflexivity|vm_compute; reflexivity|].
  vm_compute. reflexivity.
Qed.

(** ** Witnesses *)

(** A danger zone far from the direct route. *)
Definition far_zones : list circle := [mkCircle 5 5 0].

Lemma route_direct_when_clear_witness :
  route_safe far_zones (real_route demo_start demo_end) = true /\
  calculateSafeRoute (Some demo_start) (Some demo_end) far_zones [] =
  (inr (mkResult (map Some (real_route demo_start demo_end)) 100 false), [(demo_start, demo_end)]).
Proof.
  assert (Hs : route_safe far_zones (real_route demo_start demo_end) = true)
    by (vm_compute; reflexivity).
  split; [exact Hs|]. exact (route_direct_when_clear _ _ _ [] (or_intror Hs)).
Defined.

Lemma route_score_bounds_witness :
  exists r log, calculateSafeRoute (Some demo_start) (Some demo_end) demo_zones [] = (inr r, log) /\
  0 <= safetyScorePct r <= 100 /\ (isDetoured r = true -> 0 < safetyScorePct r).
Proof.
  destruct (calculateSafeRoute (Some demo_start) (Some demo_end) demo_zones [])
    as [[[]|r] log] eqn:E.
  exists r, log. split; [reflexivity|]. exact (route_score_bounds _ _ _ _ _ _ E).
Defined.

Definition far_end : latlng := mkLatLng 1 1.

Lemma provider_failure_full_score_witness :
  osrm_route demo_start far_end = None /\
  calculateSafeRoute (Some demo_start) (Some far_end) [] [] =
  (inr (mkResult [Some demo_start; Some far_end] 100 false), [(demo_start, far_end)]).
Proof.
  split; [vm_compute; reflexivity|].
  apply (provider_failure_full_score demo_start far_end [] []); [vm_compute; reflexivity|by left].
Defined.

(** A route of 111 m: the provider fails and the straight line is used. *)
Definition near_end : latlng := mkLatLng 0 (1 # 1000).

Lemma short_route_banner_witness :
  exists info log', routePlanner (Some demo_start) (Some near_end) [] [] = (inr (Some info), log') /\
  totalDistance (ri_route info) < 250 /\ banner (Some info) = RoutePlanning.
Proof.
  destruct (routePlanner (Some demo_start) (Some near_end) [] []) as [[[]|[info|]] log'] eqn:E;
    [|vm_compute in E; discriminate].
  assert (Hd : totalDistance (ri_route info) < 250).
  { vm_compute in E. injection E as <- _. vm_compute. reflexivity. }
  exists info, log'. split_and!; [reflexivity|exact Hd|].
  exact (short_route_banner _ _ _ _ _ _ E Hd).
Defined.

End Demo.
