(* ===== verification/Auth.v ===== *)
(** * Auth: the session, the login form, the menu and the dashboard

    The client keeps the logged-in user in React state and in
    [localStorage['guardaid-user']] (AuthContext.jsx).  [Login.jsx] builds
    the user from the form or a quick-login button, [Navigation.jsx]
    lists the sections of the user's role, [Dashboard.jsx] renders the
    active section or 'Access denied' with the location its own
    geolocation effect obtained ([dashboard_location], handed to the
    sections that read it, [section_location]), and [App.jsx] chooses
    between the loading screen, the login form and the dashboard.

    The state of [AuthProvider] and the browser storage are one record;
    each handler is a function on it.  The Login screen is a step
    function [login_step] on its own state and the session, a control
    used only while it is rendered; [login_roles] shows that it logs in
    users of the three roles only.  A stored value that [JSON.parse]
    rejects is [SInvalid]; a stored user reads back as itself
    ([JSON.parse (JSON.stringify u)] is [u] for a record of strings).
    Icons, colours other than the role colour, and layout are not
    modelled. *)

From stdpp Require Import base list strings pretty.
From Stdlib Require Import String ZArith QArith.
From S2P Require Import Prelude Route.

Local Open Scope nat_scope.

Local Open Scope string_scope.

(** ** AuthContext *)

Record user : Type := mkUser {
  u_id : string;
  u_name : string;
  u_phone : string;
  u_role : string;
  u_joinedAt : string
}.

(** The text under [guardaid-user]. *)
Inductive stored : Type :=
| SUser (u : user)
| SInvalid.

Record auth_state : Type := mkAuth {
  as_user : option user;
  as_loading : bool;
  as_storage : option stored
}.

(** A page load: React state starts as [useState(null)], [useState(true)];
    the storage survives. *)
Definition reload (s : auth_state) : auth_state := mkAuth None true (as_storage s).

(** The mount effect of [AuthProvider]. *)
Definition auth_mount (s : auth_state) : auth_state :=
  match as_storage s with
  | Some (SUser u) => mkAuth (Some u) false (as_storage s)
  | Some SInvalid => mkAuth (as_user s) false None
  | None => mkAuth (as_user s) false None
  end.

Definition login (userData : user) (s : auth_state) : auth_state :=
  mkAuth (Some userData) (as_loading s) (Some (SUser userData)).

Definition logout (s : auth_state) : auth_state := mkAuth None (as_loading s) None.

Definition updateUser (userData : user) (s : auth_state) : auth_state :=
  mkAuth (Some userData) (as_loading s) (Some (SUser userData)).

(** [user && user.role === role], used as a boolean. *)
Definition hasRole (s : auth_state) (role : string) : bool :=
  match as_user s with
  | Some u => String.eqb (u_role u) role
  | None => false
  end.

Definition hasAnyRole (s : auth_state) (roles : list string) : bool :=
  match as_user s with
  | Some u => existsb (String.eqb (u_role u)) roles
  | None => false
  end.

Definition isAuthenticated (s : auth_state) : bool := bool_decide (is_Some (as_user s)).

(** ** App *)

Inductive app_screen : Type :=
| ScreenLoading
| ScreenLogin
| ScreenDashboard.

Definition appContent (s : auth_state) : app_screen :=
  if as_loading s then ScreenLoading
  else match as_user s with
       | None => ScreenLogin
       | Some _ => ScreenDashboard
       end.

(** ** Login *)

Record login_form : Type := mkForm {
  f_name : string;
  f_phone : string;
  f_role : string
}.

(** [useState({ name: '', phone: '', role: 'woman' })] *)
Definition initial_form : login_form := mkForm "" "" "woman".

(** The user a submission builds; [now] is [Date.now()] and [iso] is
    [new Date().toISOString()]. *)
Definition form_user (now : Z) (iso : string) (f : login_form) : user :=
  mkUser ("user-" +:+ pretty now) (f_name f) (f_phone f) (f_role f) iso.

(** The browser submits the form only when the [required] inputs are not
    empty. *)
Definition handleSubmit (now : Z) (iso : string) (f : login_form) (s : auth_state) : auth_state :=
  if bool_decide (f_name f <> "") && bool_decide (f_phone f <> "")
  then login (form_user now iso f) s
  else s.

Definition quickLogin (role name : string) (now : Z) (iso : string) (s : auth_state) : auth_state :=
  login (mkUser ("user-" +:+ pretty now) name "9876543210" role iso) s.

(** The three quick-login buttons. *)
Definition quick_logins : list (string * string) :=
  [("woman", "Priya Sharma"); ("volunteer", "Rajesh Kumar"); ("admin", "Admin User")].

(** The options of the role select: value and label. *)
Definition role_options : list (string * string) :=
  [("woman", "Woman - Seeking Safety"); ("volunteer", "Volunteer - Community Helper");
   ("admin", "Admin - System Manager")].

(** The component's own state: the form and [showQuickLogin]. *)
Record login_screen : Type := mkLoginScreen {
  ls_form : login_form;
  showQuickLogin : bool
}.

Definition initial_login_screen : login_screen := mkLoginScreen initial_form false.

Inductive login_event : Type :=
| LToggle
| LName (v : string)
| LPhone (v : string)
| LRole (v : string)
| LSubmit
| LQuick (role name : string).

(** A control is used only while it is rendered: the inputs, the select
    and the submit button are on the form, shown while [showQuickLogin]
    is false; the three quick-login buttons are on the other screen; the
    select offers only its three values. *)
Definition login_step (now : Z) (iso : string) (e : login_event)
    (w : login_screen * auth_state) : login_screen * auth_state :=
  let '(l, s) := w in
  let f := ls_form l in
  match e with
  | LToggle => (mkLoginScreen f (negb (showQuickLogin l)), s)
  | LName v => if showQuickLogin l then w else (mkLoginScreen (mkForm v (f_phone f) (f_role f)) false, s)
  | LPhone v => if showQuickLogin l then w else (mkLoginScreen (mkForm (f_name f) v (f_role f)) false, s)
  | LRole v =>
      if showQuickLogin l || negb (bool_decide (v ∈ map fst role_options)) then w
      else (mkLoginScreen (mkForm (f_name f) (f_phone f) v) false, s)
  | LSubmit => if showQuickLogin l then w else (l, handleSubmit now iso f s)
  | LQuick r n =>
      if showQuickLogin l && bool_decide ((r, n) ∈ quick_logins)
      then (l, quickLogin r n now iso s) else w
  end.

Inductive login_view : Type :=
| LoginQuickView (toggle : string) (buttons : list (string * string))
| LoginFormView (toggle : string) (name phone role : string) (options : list (string * string)).

(** The toggle's text, then the quick-login buttons (label and role) or
    the form with its values and the options of the select. *)
Definition login_render (l : login_screen) : login_view :=
  if showQuickLogin l then
    LoginQuickView "Show Form"
      [("Login as Woman User", "woman"); ("Login as Volunteer", "volunteer");
       ("Login as Admin", "admin")]
  else LoginFormView "Quick Demo Login" (f_name (ls_form l)) (f_phone (ls_form l))
         (f_role (ls_form l)) role_options.

(** ** Navigation *)

Record menu_item : Type := mkItem {
  mi_id : string;
  mi_label : string;
  mi_description : string
}.

Definition getMenuItems (s : auth_state) : list menu_item :=
  [mkItem "map" "Safety Map" "Interactive safety mapping";
   mkItem "incident" "Report Incident" "Report safety concerns"] ++
  (if hasRole s "woman"
   then [mkItem "emergency" "Emergency Alert" "Quick emergency assistance"] else []) ++
  (if hasRole s "volunteer"
   then [mkItem "volunteer-hub" "Volunteer Hub" "Community assistance center"] else []) ++
  (if hasRole s "admin"
   then [mkItem "emergency" "Emergency Alert" "Emergency management";
         mkItem "volunteer-hub" "Volunteer Hub" "Volunteer coordination";
         mkItem "admin-panel" "Admin Panel" "System administration"] else []).

Definition role_of (s : auth_state) : option string := u_role <$> as_user s.

Definition getRoleColor (s : auth_state) : string :=
  match role_of s with
  | Some "woman" => "#ff6b9d"
  | Some "volunteer" => "#2ed573"
  | Some "admin" => "#667eea"
  | _ => "#666"
  end.

Definition getRoleBadge (s : auth_state) : string :=
  match role_of s with
  | Some "woman" => "Woman"
  | Some "volunteer" => "Volunteer"
  | Some "admin" => "Admin"
  | _ => "User"
  end.

Record nav_state : Type := mkNav {
  activeSection : string;
  isMenuOpen : bool
}.

(** [useState('map')] in Dashboard and [useState(false)] in Navigation. *)
Definition initial_nav : nav_state := mkNav "map" false.

Definition toggle_menu (n : nav_state) : nav_state := mkNav (activeSection n) (negb (isMenuOpen n)).

(** A click on a menu item: [setActiveSection(item.id); setIsMenuOpen(false)]. *)
Definition click_item (it : menu_item) (n : nav_state) : nav_state := mkNav (mi_id it) false.

(** A click on the overlay. *)
Definition close_menu (n : nav_state) : nav_state := mkNav (activeSection n) false.

(** What Navigation shows: the menu button's text, whether the sidebar
    is in view ([left: isMenuOpen ? 0 : '-320px']), the role colour, the
    user's name and badge, each menu item (label, description, and
    whether it is the active one), and the overlay. *)
Record nav_view : Type := mkNavView {
  nv_button : string;
  nv_open : bool;
  nv_color : string;
  nv_name : option string;
  nv_badge : string;
  nv_items : list (string * string * bool);
  nv_overlay : bool
}.

Definition nav_render (s : auth_state) (n : nav_state) : nav_view :=
  mkNavView (if isMenuOpen n then "Close" else "Menu") (isMenuOpen n) (getRoleColor s)
    (u_name <$> as_user s) (getRoleBadge s)
    (map (fun it => (mi_label it, mi_description it, String.eqb (activeSection n) (mi_id it)))
         (getMenuItems s))
    (isMenuOpen n).

(** ** Dashboard *)

Inductive section_view : Type :=
| VSafetyMap
| VIncidentReporting
| VEmergencyAlert
| VVolunteerHub
| VAdminPanel
| VAccessDenied.

#[export] Instance section_view_eq_dec : EqDecision section_view.
Proof. solve_decision. Defined.

Definition renderActiveSection (s : auth_state) (section : string) : section_view :=
  match section with
  | "map" => VSafetyMap
  | "incident" => VIncidentReporting
  | "emergency" =>
      if hasRole s "woman" || hasRole s "admin" then VEmergencyAlert else VAccessDenied
  | "volunteer-hub" =>
      if hasRole s "volunteer" || hasRole s "admin" then VVolunteerHub else VAccessDenied
  | "admin-panel" => if hasRole s "admin" then VAdminPanel else VAccessDenied
  | _ => VSafetyMap
  end.

(** Dashboard's location: [null] until the answer to the
    [getCurrentPosition] of its mount effect, then the position, or on an
    error the coordinates of Jalandhar; without [navigator.geolocation]
    the effect does nothing. *)
Definition dashboard_location (supported : bool) (a : option geo_answer) : option latlng :=
  if supported
  then (fun a => match a with
                 | GeoPosition p => p
                 | GeoError => mkLatLng (313260 # 10000) (755762 # 10000)
                 end) <$> a
  else None.

(** The [userLocation] prop a section receives.  [SafetyMap] declares no
    props: the location (and [showIncidentReporting]) the dashboard hands
    it are dropped, and the map asks the browser again; [AdminPanel] is
    given none. *)
Definition section_location (v : section_view) (loc : option latlng) : option latlng :=
  match v with
  | VIncidentReporting | VEmergencyAlert | VVolunteerHub => loc
  | _ => None
  end.

(** The [case] labels of [renderActiveSection]. *)
Definition section_ids : list string :=
  ["map"; "incident"; "emergency"; "volunteer-hub"; "admin-panel"].

(** ** Sessions *)

(** What the user can do to the session: log in (the form or a
    quick-login button), log out, update the profile, or reload the
    page. *)
Inductive auth_action : Type :=
| ALogin (u : user)
| ALogout
| AUpdate (u : user)
| AReload.

Definition auth_step (a : auth_action) (s : auth_state) : auth_state :=
  match a with
  | ALogin u => login u s
  | ALogout => logout s
  | AUpdate u => updateUser u s
  | AReload => auth_mount (reload s)
  end.

Fixpoint run_auth (acts : list auth_action) (s : auth_state) : auth_state :=
  match acts with
  | [] => s
  | a :: rest => run_auth rest (auth_step a s)
  end.

(** The first page load on a browser whose storage holds [st]. *)
Definition first_load (st : option stored) : auth_state := auth_mount (mkAuth None true st).

(** ** Lemmas *)

(** The storage holds the user of the React state. *)
Definition synced (s : auth_state) : Prop := as_storage s = SUser <$> as_user s.

Lemma synced_first_load st : synced (first_load st).
Proof. unfold synced. by destruct st as [[u|]|]. Qed.

Lemma synced_step a s : synced s -> synced (auth_step a s).
Proof.
  unfold synced. intros Hs. destruct a; simpl; try done.
  unfold auth_mount, reload. simpl. by destruct (as_storage s) as [[u|]|].
Qed.

Lemma synced_run acts s : synced s -> synced (run_auth acts s).
Proof.
  revert s. induction acts as [|a acts IH]; intros s Hs; simpl; [done|].
  apply IH, synced_step, Hs.
Qed.

Lemma mount_loaded s : as_loading (auth_mount s) = false.
Proof. unfold auth_mount. by destruct (as_storage s) as [[]|]. Qed.

Lemma synced_reload s : synced s -> as_user (auth_mount (reload s)) = as_user s.
Proof.
  unfold synced, auth_mount, reload. simpl. intros ->.
  by destruct (as_user s).
Qed.

Lemma hasRole_role_of s r : hasRole s r = bool_decide (role_of s = Some r).
Proof.
  unfold hasRole, role_of. destruct (as_user s) as [u|]; simpl; [|done].
  destruct (String.eqb_spec (u_role u) r) as [->|Hn].
  - by rewrite bool_decide_true.
  - rewrite bool_decide_false; [done|congruence].
Qed.

(** The roles that change the menu: one of the three, or another
    (including no user). *)
Lemma role_cases s :
  role_of s = Some "woman" \/ role_of s = Some "volunteer" \/ role_of s = Some "admin" \/
  (role_of s <> Some "woman" /\ role_of s <> Some "volunteer" /\ role_of s <> Some "admin").
Proof.
  destruct (decide (role_of s = Some "woman")); [by left|].
  destruct (decide (role_of s = Some "volunteer")); [by right; left|].
  destruct (decide (role_of s = Some "admin")); [by right; right; left|].
  by right; right; right.
Qed.

(** Rewrite every [hasRole] of the goal to a constant, one role case at
    a time. *)
Ltac role_cases s :=
  rewrite ?hasRole_role_of;
  destruct (role_cases s) as [E|[E|[E|(E1 & E2 & E3)]]];
  [rewrite E| rewrite E| rewrite E| rewrite ?(bool_decide_false _ E1), ?(bool_decide_false _ E2),
                                      ?(bool_decide_false _ E3)];
  rewrite ?bool_decide_true by done; rewrite ?bool_decide_false by done.

(** Login makes only users of the three roles: the select offers three
    values, the initial role is 'woman', and the quick logins use the
    three roles. *)
Definition known_role (r : string) : Prop := r ∈ map fst role_options.

Definition login_roles_ok (w : login_screen * auth_state) : Prop :=
  known_role (f_role (ls_form w.1)) /\ forall u, as_user w.2 = Some u -> known_role (u_role u).

Lemma login_step_roles now iso e w : login_roles_ok w -> login_roles_ok (login_step now iso e w).
Proof.
  destruct w as [[f q] s]. intros [Hf Hu]. unfold login_roles_ok in *.
  destruct e as [|v|v|v| |r n]; simpl in *; destruct q; simpl; try (split; done).
  - destruct (bool_decide (v ∈ _)) eqn:E; simpl; split; try done.
    by apply bool_decide_eq_true_1 in E.
  - split; [done|]. unfold handleSubmit. case_match; [|done]. by intros u [= <-].
  - destruct (bool_decide ((r, n) ∈ quick_logins)) eqn:E; simpl; split; try done.
    intros u [= <-]. simpl. apply bool_decide_eq_true_1, (list_elem_of_fmap_2 fst) in E.
    exact E.
Qed.

Lemma login_roles now iso es s :
  (forall u, as_user s = Some u -> known_role (u_role u)) ->
  forall u, as_user (fold_left (fun w e => login_step now iso e w) es (initial_login_screen, s)).2
            = Some u -> known_role (u_role u).
Proof.
  intros Hs. enough (H : forall w, login_roles_ok w ->
    login_roles_ok (fold_left (fun w e => login_step now iso e w) es w)).
  { apply H. split; [unfold known_role; simpl; apply list_elem_of_here|exact Hs]. }
  induction es as [|e es IH]; intros w Hw; [done|]. apply IH, login_step_roles, Hw.
Qed.

(** ** Claims *)

(** C19. The menu and the dashboard agree.  For every session and every
    section the dashboard knows, the menu of [Navigation] offers the
    section exactly when [Dashboard] renders it rather than 'Access
    denied': a woman gets the emergency alert, a volunteer the volunteer
    hub, an admin all three restricted sections, anyone else (or nobody)
    only the map and the incident report. *)
Theorem menu_matches_dashboard s section :
  In section section_ids ->
  (In section (map mi_id (getMenuItems s)) <-> renderActiveSection s section <> VAccessDenied).
Proof.
  intros Hin. unfold getMenuItems, renderActiveSection.
  role_cases s; simpl;
    repeat (destruct Hin as [<-|Hin]; [simpl; intuition congruence|]); destruct Hin.
Qed.

(** C20. A session survives a reload.  From the first page load, whatever
    the browser had stored, and after any sequence of logins, logouts,
    profile updates and reloads, reloading the page restores exactly the
    user that was logged in (or nobody), and the app then shows the
    dashboard exactly when someone is logged in. *)
Theorem session_survives_reload st acts :
  let s := run_auth acts (first_load st) in
  as_user (auth_mount (reload s)) = as_user s /\
  (appContent (auth_mount (reload s)) = ScreenDashboard <-> is_Some (as_user s)).
Proof.
  simpl. pose proof (synced_reload _ (synced_run acts _ (synced_first_load st))) as E.
  split; [done|]. unfold appContent. rewrite E.
  rewrite mount_loaded.
  destruct (as_user (run_auth acts (first_load st))) as [u|]; split; intros H;
    [by eexists|done|discriminate|by destruct H].
Qed.

(** Each section appears once in the menu, for every session. *)
Theorem menu_no_duplicates s : NoDup (map mi_id (getMenuItems s)).
Proof.
  unfold getMenuItems. role_cases s; simpl;
    repeat (apply NoDup_cons_2; [rewrite list_elem_of_In; simpl; intuition congruence|]);
    apply NoDup_nil_2.
Qed.

Lemma count_active_le l a :
  NoDup (map mi_id l) -> count_if (fun it => String.eqb a (mi_id it)) l <= 1.
Proof.
  induction l as [|x l IH]; intros Hn; [cbv; lia|]. simpl in Hn.
  apply NoDup_cons in Hn as [Hx Hn]. rewrite count_if_cons.
  destruct (String.eqb_spec a (mi_id x)) as [->|_]; [|specialize (IH Hn); lia].
  rewrite count_if_false; [lia|]. intros y Hy. apply String.eqb_neq. intros E.
  apply Hx. rewrite E. apply list_elem_of_In, in_map, Hy.
Qed.

(** The sidebar highlights at most one item, whatever the role and the
    active section. *)
Lemma nav_one_active s n : count_if (fun x => x.2) (nv_items (nav_render s n)) <= 1.
Proof.
  unfold nav_render. cbn [nv_items]. rewrite count_if_map. apply count_active_le, menu_no_duplicates.
Qed.

(** ** Witnesses *)

Lemma menu_matches_dashboard_witness :
  In "admin-panel" section_ids /\
  (In "admin-panel" (map mi_id (getMenuItems (first_load (Some (SUser (mkUser "u" "A" "1" "admin" "t")))))) <->
   renderActiveSection (first_load (Some (SUser (mkUser "u" "A" "1" "admin" "t")))) "admin-panel"
     <> VAccessDenied).
Proof.
  assert (H : In "admin-panel" section_ids) by (simpl; tauto).
  split; [exact H|exact (menu_matches_dashboard _ _ H)].
Defined.
