(* ===== verification/Api.v ===== *)
(** * Api: the REST interface between the client and the server

    [Backend] is what the client needs of the server: one operation per
    route of server.js, each answering either the parsed JSON body of a
    2xx reply ([Some]) or nothing, when [fetch] rejects or the status is
    not ok ([None]).  The server's state is abstract: a backend is a
    state type and the operations on it, so a failing network, a server
    that is down, or the model of server.js are all instances.

    [ApiService] (apiService.js) wraps each route in [try ... catch] and
    returns a fallback value on any failure; its methods are defined here
    against the interface, in the state monad of the Prelude over the
    backend's state with no error: none of them ever throws.

    [server_backend] is the instance given by the model of server.js
    ([Server.handle] on the database, with a clock for
    [CURRENT_TIMESTAMP]); a [Status500] reply is a failure.  JSON
    encoding and decoding of the bodies is taken as the identity on the
    records of the model.

    The URL of each request ([route_url]) is built on the constant
    [API_BASE_URL] of apiService.js; config/api-config.js computes a base
    URL from the page's host ([getApiBaseUrl], [API_CONFIG]) that no
    module imports ([requests_ignore_config]). *)

From stdpp Require Import base list strings pretty.
From Stdlib Require Import String ZArith QArith.
From S2P Require Import Prelude Sql Schema Incidents Reports Quorum Zones Server.

Local Open Scope nat_scope.
Local Open Scope gd_scope.

(** ** The interface *)

Class Backend : Type := {
  bstate : Type;
  b_health : bstate -> option (string * string);
  b_get_zones : bstate -> option zones_reply;
  b_post_zone : zone_body -> bstate -> bool * bstate;
  b_get_pins : bstate -> option (list pin_view);
  b_post_pin : pin_body -> bstate -> bool * bstate;
  b_delete_pin : Z -> bstate -> bool * bstate;
  b_get_incidents : bstate -> option (list incident_view);
  b_get_pending : bstate -> option (list pending_view);
  b_post_incident : incident_body -> bstate -> bool * bstate;
  b_post_action : string -> action_body -> bstate -> bool * bstate
}.

(** The body [{ success: true }] of a successful POST or DELETE. *)
Inductive success : Type := Success.

(** ** Where the client sends its requests *)

(** config/api-config.js: the base URL by [window.location.hostname]. *)
Definition getApiBaseUrl (hostname : string) : string :=
  if String.eqb hostname "localhost" || String.eqb hostname "127.0.0.1"
  then "http://localhost:5001/api"
  else "http://192.168.10.124:5001/api".

Record api_config : Type := mkApiConfig {
  BASE_URL : string;
  HEALTH_URL : string
}.

Definition API_CONFIG (hostname : string) : api_config :=
  mkApiConfig (getApiBaseUrl hostname) (js_replace (getApiBaseUrl hostname) "/api" "/health").

(** apiService.js keeps its own constant; no module imports [API_CONFIG]. *)
Definition API_BASE_URL : string := "http://192.168.10.124:5001/api".

(** The requests of [ApiService], and the URL each [fetch] is given. *)
Inductive api_route : Type :=
| UZones
| UPins
| UPin (pinId : Z)
| UHealth
| UIncidents
| UPending
| UAction (incidentId : string).

Definition route_url (r : api_route) : string :=
  match r with
  | UZones => API_BASE_URL ++ "/zones"
  | UPins => API_BASE_URL ++ "/pins"
  | UPin pinId => API_BASE_URL ++ "/pins/" ++ pretty pinId
  | UHealth => "http://192.168.10.124:5001/health"
  | UIncidents => API_BASE_URL ++ "/incidents"
  | UPending => API_BASE_URL ++ "/incidents/pending"
  | UAction incidentId => API_BASE_URL ++ "/incidents/" ++ incidentId ++ "/action"
  end.

(** The client ignores its configuration: every request but the health
    check has the configuration's base URL as a prefix exactly when the
    page is not served from [localhost] or [127.0.0.1], and so does the
    health URL; on the developer's machine the client still calls the
    address of the local network. *)
Lemma requests_ignore_config hostname :
  let local := String.eqb hostname "localhost" || String.eqb hostname "127.0.0.1" in
  (forall r, r <> UHealth -> prefixb (BASE_URL (API_CONFIG hostname)) (route_url r) = negb local) /\
  String.eqb (HEALTH_URL (API_CONFIG hostname)) (route_url UHealth) = negb local.
Proof.
  unfold API_CONFIG, getApiBaseUrl. cbn zeta. destruct (_ || _); split; try reflexivity;
    intros [] Hr; done.
Qed.

(** ** ApiService *)

(** The client side of a request: a computation on the backend's state
    that never fails. *)
Abbreviation Api := (St bstate Empty_set).

Module ApiService.
Section Methods.
Context `{Backend}.

(** A GET: the reply, or the fallback. *)
Definition api_get {A} (op : bstate -> option A) (fallback : A) : Api A :=
  fun b => (inr (default fallback (op b)), b).

(** A POST or DELETE: the success body, or [null]. *)
Definition api_send (op : bstate -> bool * bstate) : Api (option success) :=
  fun b => let '(ok, b') := op b in (inr (if ok then Some Success else None), b').

Definition fetchZones : Api zones_reply := api_get b_get_zones (mkZonesReply [] []).

Definition createZone (zoneData : zone_body) : Api (option success) :=
  api_send (b_post_zone zoneData).

Definition fetchPins : Api (list pin_view) := api_get b_get_pins [].

Definition createPin (pinData : pin_body) : Api (option success) := api_send (b_post_pin pinData).

Definition deletePin (pinId : Z) : Api (option success) := api_send (b_delete_pin pinId).

Definition checkServerHealth : Api (option (string * string)) :=
  fun b => (inr (b_health b), b).

Definition fetchIncidents : Api (list incident_view) := api_get b_get_incidents [].

Definition fetchPendingIncidents : Api (list pending_view) := api_get b_get_pending [].

Definition createIncident (incidentData : incident_body) : Api (option success) :=
  api_send (b_post_incident incidentData).

Definition volunteerAction (incidentId : string) (actionData : action_body)
    : Api (option success) :=
  api_send (b_post_action incidentId actionData).

End Methods.
End ApiService.

(** The exceptions a handler may raise. *)
Inductive js_error : Type :=
| JsError (message : string).

(** ** The server of server.js as a backend *)

(** Whether a reply of an update route is [{ success: true }] with status
    200, and the bodies of the GET routes' 200 replies. *)
Definition ok_of (r : response) : bool :=
  match r with RSuccess (Json200 _) => true | _ => false end.

Definition zones_of (r : response) : option zones_reply :=
  match r with RZones (Json200 z) => Some z | _ => None end.

Definition pins_of (r : response) : option (list pin_view) :=
  match r with RPins (Json200 p) => Some p | _ => None end.

Definition incidents_of (r : response) : option (list incident_view) :=
  match r with RIncidents (Json200 l) => Some l | _ => None end.

Definition pending_of (r : response) : option (list pending_view) :=
  match r with RPending (Json200 l) => Some l | _ => None end.

Definition health_of (r : response) : option (string * string) :=
  match r with RHealth s m => Some (s, m) | _ => None end.

Record server_state : Type := mkServer {
  srv_db : db;
  srv_clock : nat
}.

(** A request to an update route: whether the reply is ok (not a
    [Status500]), and the server one tick later. *)
Definition srv_send (q : request) (st : server_state) : bool * server_state :=
  let '(r, d') := handle (srv_clock st) q (srv_db st) in
  (match r with
   | inr resp => ok_of resp
   | inl _ => false
   end, mkServer d' (S (srv_clock st))).

Definition server_backend : Backend := {|
  bstate := server_state;
  b_health st := Some ("OK", "GuardAid Backend is running");
  b_get_zones st := Some (getZones (srv_db st));
  b_post_zone b := srv_send (PostZone b);
  b_get_pins st := Some (getPins (srv_db st));
  b_post_pin b := srv_send (PostPin b);
  b_delete_pin id := srv_send (DeletePin id);
  b_get_incidents st := Some (getIncidents (srv_db st));
  b_get_pending st := Some (getPendingIncidents (srv_db st));
  b_post_incident b := srv_send (PostIncident b);
  b_post_action id b := srv_send (PostAction id b)
|}.

(** The server started without a database: it answers every request,
    as [handle_without_pool] says. *)
Definition nopool_backend : Backend := {|
  bstate := unit;
  b_health _ := health_of (handle_without_pool Health);
  b_get_zones _ := zones_of (handle_without_pool GetZones);
  b_post_zone b st := (ok_of (handle_without_pool (PostZone b)), st);
  b_get_pins _ := pins_of (handle_without_pool GetPins);
  b_post_pin b st := (ok_of (handle_without_pool (PostPin b)), st);
  b_delete_pin id st := (ok_of (handle_without_pool (DeletePin id)), st);
  b_get_incidents _ := incidents_of (handle_without_pool GetIncidents);
  b_get_pending _ := pending_of (handle_without_pool GetPending);
  b_post_incident b st := (ok_of (handle_without_pool (PostIncident b)), st);
  b_post_action id b st := (ok_of (handle_without_pool (PostAction id b)), st)
|}.

(** A server that cannot be reached: every [fetch] rejects. *)
Definition down_backend : Backend := {|
  bstate := unit;
  b_health _ := None;
  b_get_zones _ := None;
  b_post_zone _ st := (false, st);
  b_get_pins _ := None;
  b_post_pin _ st := (false, st);
  b_delete_pin _ st := (false, st);
  b_get_incidents _ := None;
  b_get_pending _ := None;
  b_post_incident _ st := (false, st);
  b_post_action _ _ st := (false, st)
|}.
