(* ===== verification/Screen.v ===== *)
(** * Screen: a React screen that talks to the backend

    The screens IncidentReporting, VolunteerHub and AdminPanel keep their
    React state and call [ApiService]; a handler of such a screen runs on
    the pair of its state and the backend's state ([screen]), in the state
    monad of the Prelude with the JavaScript exceptions as errors, so that
    each [try ... catch] of the code is an [st_catch] and each [await
    ApiService.m(...)] is an [scr_call].

    The lemmas transport a property of the backend's state through the
    handlers: reading or setting React state keeps it, a GET keeps it, and
    a POST keeps it when the backend's operation does. *)

From stdpp Require Import base list strings.
From S2P Require Import Prelude Api.

Local Open Scope gd_scope.

Record screen `{Backend} (U : Type) : Type := mkScreen {
  scr_ui : U;
  scr_srv : bstate
}.

Arguments mkScreen {_ _} _ _.
Arguments scr_ui {_ _} _.
Arguments scr_srv {_ _} _.

(** A handler of a screen whose state is [U]. *)
Abbreviation Scr U := (St (screen U) js_error).

Section Ops.
Context `{Backend} {U : Type}.

(** [await ApiService.m(...)]: the methods of ApiService never throw. *)
Definition scr_call {A} (c : Api A) : Scr U A :=
  fun w => let '(r, b') := c (scr_srv w) in
           (match r with inl e => match e with end | inr a => inr a end,
            mkScreen (scr_ui w) b').

(** The state of the render the handler was created in. *)
Definition scr_get : Scr U U := fun w => (inr (scr_ui w), w).

(** A [setX(...)] call. *)
Definition scr_set (f : U -> U) : Scr U unit :=
  fun w => (inr tt, mkScreen (f (scr_ui w)) (scr_srv w)).

(** A sequence of events, each run to its end before the next. *)
Fixpoint run_screen {Ev} (handler : Ev -> Scr U unit) (es : list Ev) (w : screen U)
    : screen U :=
  match es with
  | [] => w
  | e :: es' => run_screen handler es' (snd (handler e w))
  end.

End Ops.

(** ** Properties of the backend's state through a screen *)

Section Preserve.
Context `{Backend} {U : Type}.
Variable P : bstate -> Prop.

Definition srv_pred (w : screen U) : Prop := P (scr_srv w).

Lemma scr_get_preserves : st_preserves srv_pred scr_get.
Proof. by intros w r w' HP [= _ <-]. Qed.

Lemma scr_set_preserves f : st_preserves srv_pred (scr_set f).
Proof. by intros w r w' HP [= _ <-]. Qed.

Lemma scr_call_preserves {A} (c : Api A) : st_preserves P c -> st_preserves srv_pred (scr_call c).
Proof.
  intros Hc w r w'. unfold scr_call. destruct (c (scr_srv w)) as [r0 b'] eqn:E.
  intros HP [= _ <-]. exact (Hc _ _ _ HP E).
Qed.

Lemma api_get_preserves {A} op (x : A) : st_preserves P (ApiService.api_get op x).
Proof. by intros b r b' HP [= _ <-]. Qed.

Lemma api_send_preserves op : (forall b, P b -> P (snd (op b))) -> st_preserves P (ApiService.api_send op).
Proof.
  intros Hop b r b' HP. unfold ApiService.api_send. destruct (op b) as [ok b1] eqn:E.
  intros [= _ <-]. specialize (Hop b HP). by rewrite E in Hop.
Qed.

End Preserve.

(** ** Invariants of a screen *)

Section Invariant.
Context `{Backend} {U : Type}.

(** A predicate of the screen's own state. *)
Definition ui_pred (Q : U -> Prop) (w : screen U) : Prop := Q (scr_ui w).

Lemma scr_get_ui Q : st_preserves (ui_pred Q) scr_get.
Proof. by intros w r w' HQ [= _ <-]. Qed.

Lemma scr_set_ui Q f : (forall s, Q s -> Q (f s)) -> st_preserves (ui_pred Q) (scr_set f).
Proof. intros Hf w r w' HQ [= _ <-]. exact (Hf _ HQ). Qed.

Lemma scr_call_ui {A} Q (c : Api A) : st_preserves (ui_pred Q) (scr_call c).
Proof.
  intros w r w'. unfold scr_call. destruct (c (scr_srv w)) as [r0 b'].
  intros HQ [= _ <-]. exact HQ.
Qed.

(** A handler that reads the state of its render sees the state it runs
    on. *)
Lemma scr_get_bind {B} (I : screen U -> Prop) (k : U -> Scr U B) :
  (forall w r w', I w -> k (scr_ui w) w = (r, w') -> I w') ->
  st_preserves I (do s <- scr_get; k s).
Proof. intros Hk w r w' HI H'. exact (Hk w r w' HI H'). Qed.

Lemma run_screen_preserves {Ev} (I : screen U -> Prop) (handler : Ev -> Scr U unit) es w :
  (forall e, st_preserves I (handler e)) -> I w -> I (run_screen handler es w).
Proof.
  intros Hh. revert w. induction es as [|e es IH]; intros w Hw; [done|]. apply IH.
  destruct (handler e w) as [r w'] eqn:E. exact (Hh e w _ _ Hw E).
Qed.

End Invariant.

#[export] Hint Resolve scr_get_preserves scr_set_preserves scr_call_preserves
  api_get_preserves api_send_preserves scr_get_ui scr_call_ui : guardaid.
