(* ===== verification/MapClient.v ===== *)
(** * MapClient: the state and handlers of the SafetyMap component

    [SafetyMap] (SafetyMap.jsx 415-970) keeps the zones and pins it shows,
    the destination, the search box, the pin-drop mode, the rating dialog
    and a cache in [localStorage]; its handlers call [ApiService] and
    update that state.  The component's React state and the browser's
    storage are one record [map_state]; together with the backend's
    state and the pending timers it is the [world] a handler runs on, in
    the state monad of the Prelude with the JavaScript exceptions as
    errors, so that each [try ... catch] of the code is an [st_catch].

    Handlers are modelled as they run when called: reading the state of
    the render that created them (a timer set by a handler keeps the
    values that handler saw), then applying their updates in order.
    [client_step] runs one event: a user action, the call of
    [getCurrentLocation] (the mount effect or the button), the browser's
    answer to it, the 5-second poll, or a pending timer.

    The map widget is reduced to its centre; [toLowerCase] and [trim] are
    modelled on ASCII; the timestamps of pins and zones, the icons and
    the layout are not modelled. *)

From stdpp Require Import base list strings pretty.
From Stdlib Require Import String Ascii ZArith QArith.
From S2P Require Import Prelude Sql Schema Zones Route Api.

Local Open Scope gd_scope.

(** ** Client data *)

(** A zone the client creates after a rating ([newSafeZone] or
    [newDangerZone]); both carry [isUserCreated: true]. *)
Record local_zone : Type := mkLocalZone {
  lz_id : string;
  lz_lat : Q;
  lz_lng : Q;
  lz_name : string;
  lz_rating : Q;
  lz_radius : Q
}.

(** A zone of [mapData]: as the server lists it, or as the client made it. *)
Inductive client_zone : Type :=
| CZServer (z : zone_view)
| CZLocal (z : local_zone).

Definition zone_id (z : client_zone) : string :=
  match z with CZServer v => zv_id v | CZLocal l => lz_id l end.

Definition zone_isUserCreated (z : client_zone) : bool :=
  match z with CZServer v => zv_isUserCreated v | CZLocal _ => true end.

(** The danger circle the route planner reads of a zone. *)
Definition zone_circle (z : client_zone) : circle :=
  match z with
  | CZServer v => circle_of_view v
  | CZLocal l => mkCircle (lz_lat l) (lz_lng l) (lz_radius l)
  end.

(** A pin of [droppedPins]: [{ id, lat, lng, timestamp }]. *)
Record client_pin : Type := mkClientPin {
  cp_id : Z;
  cp_lat : Q;
  cp_lng : Q
}.

Definition pin_of_view (p : pin_view) : client_pin :=
  mkClientPin (pv_pin_id p) (pv_pin_lat p) (pv_pin_lng p).

(** The messages of [alert]. *)
Inductive alert : Type :=
| AlertSelectLocation
| AlertRated (radius : Q)
| AlertRateError
| AlertNotFound (query : string)
| AlertNoGeolocation.

(** A timer set by a handler, with the values its callback closes over. *)
Inductive timer : Type :=
| TSearch (query : string)
| TRefreshZones
| THideSuggestions.

(** A marker of [mapData.volunteers]: [{ id, lat, lng, name, status }]. *)
Record map_volunteer : Type := mkMapVolunteer {
  mv_id : string;
  mv_lat : Q;
  mv_lng : Q;
  mv_name : string;
  mv_status : string
}.

(** The state of [SafetyMap]: [mapData] (its zones and volunteers; its
    [panicAlerts] are never read), the [useState] hooks, the map
    instance of [mapRef] ([map_view]) and the browser's storage. *)
Record map_state : Type := mkMapState {
  safeZonesOf : list client_zone;
  dangerZonesOf : list client_zone;
  volunteers : list map_volunteer;
  selectedFilter : string;
  userLocation : option latlng;
  isTracking : bool;
  destination : option latlng;
  route : option (list latlng);
  distance : option Z;
  estimatedTime : option Z;
  routeSafetyScore : option Z;
  isRouteDetoured : bool;
  droppedPins : list client_pin;
  isPinDropMode : bool;
  searchQuery : string;
  searchSuggestions : list string;
  showSuggestions : bool;
  ratingLocation : option (latlng * bool);
  showRatingModal : bool;
  showIncidentReporting : bool;
  customRadius : Q;
  mapCenter : option latlng;
  map_view : option latlng;
  ls_zones : option (list client_zone * list client_zone);
  ls_pins : option (list client_pin);
  alerts : list alert
}.

(** [JALANDHAR_CENTER] *)
Definition jalandhar_center : latlng := mkLatLng (313260 # 10000) (755762 # 10000).

(** The state of a first render, with the storage the browser has. *)
Definition initial_map_state (lz : option (list client_zone * list client_zone))
    (lp : option (list client_pin)) : map_state :=
  mkMapState [] [] [] "all" None false None None None None None false [] false "" [] false None false false 200 None None lz lp [].

(** ** Setters: the [setX] of each piece of state *)

Definition set_safeZonesOf (v : list client_zone) (s : map_state) : map_state :=
  mkMapState v (dangerZonesOf s) (volunteers s) (selectedFilter s) (userLocation s) (isTracking s) (destination s) (route s) (distance s) (estimatedTime s) (routeSafetyScore s) (isRouteDetoured s) (droppedPins s) (isPinDropMode s) (searchQuery s) (searchSuggestions s) (showSuggestions s) (ratingLocation s) (showRatingModal s) (showIncidentReporting s) (customRadius s) (mapCenter s) (map_view s) (ls_zones s) (ls_pins s) (alerts s).

Definition set_dangerZonesOf (v : list client_zone) (s : map_state) : map_state :=
  mkMapState (safeZonesOf s) v (volunteers s) (selectedFilter s) (userLocation s) (isTracking s) (destination s) (route s) (distance s) (estimatedTime s) (routeSafetyScore s) (isRouteDetoured s) (droppedPins s) (isPinDropMode s) (searchQuery s) (searchSuggestions s) (showSuggestions s) (ratingLocation s) (showRatingModal s) (showIncidentReporting s) (customRadius s) (mapCenter s) (map_view s) (ls_zones s) (ls_pins s) (alerts s).

Definition set_volunteers (v : list map_volunteer) (s : map_state) : map_state :=
  mkMapState (safeZonesOf s) (dangerZonesOf s) v (selectedFilter s) (userLocation s) (isTracking s) (destination s) (route s) (distance s) (estimatedTime s) (routeSafetyScore s) (isRouteDetoured s) (droppedPins s) (isPinDropMode s) (searchQuery s) (searchSuggestions s) (showSuggestions s) (ratingLocation s) (showRatingModal s) (showIncidentReporting s) (customRadius s) (mapCenter s) (map_view s) (ls_zones s) (ls_pins s) (alerts s).

Definition set_selectedFilter (v : string) (s : map_state) : map_state :=
  mkMapState (safeZonesOf s) (dangerZonesOf s) (volunteers s) v (userLocation s) (isTracking s) (destination s) (route s) (distance s) (estimatedTime s) (routeSafetyScore s) (isRouteDetoured s) (droppedPins s) (isPinDropMode s) (searchQuery s) (searchSuggestions s) (showSuggestions s) (ratingLocation s) (showRatingModal s) (showIncidentReporting s) (customRadius s) (mapCenter s) (map_view s) (ls_zones s) (ls_pins s) (alerts s).

Definition set_userLocation (v : option latlng) (s : map_state) : map_state :=
  mkMapState (safeZonesOf s) (dangerZonesOf s) (volunteers s) (selectedFilter s) v (isTracking s) (destination s) (route s) (distance s) (estimatedTime s) (routeSafetyScore s) (isRouteDetoured s) (droppedPins s) (isPinDropMode s) (searchQuery s) (searchSuggestions s) (showSuggestions s) (ratingLocation s) (showRatingModal s) (showIncidentReporting s) (customRadius s) (mapCenter s) (map_view s) (ls_zones s) (ls_pins s) (alerts s).

Definition set_isTracking (v : bool) (s : map_state) : map_state :=
  mkMapState (safeZonesOf s) (dangerZonesOf s) (volunteers s) (selectedFilter s) (userLocation s) v (destination s) (route s) (distance s) (estimatedTime s) (routeSafetyScore s) (isRouteDetoured s) (droppedPins s) (isPinDropMode s) (searchQuery s) (searchSuggestions s) (showSuggestions s) (ratingLocation s) (showRatingModal s) (showIncidentReporting s) (customRadius s) (mapCenter s) (map_view s) (ls_zones s) (ls_pins s) (alerts s).

Definition set_destination (v : option latlng) (s : map_state) : map_state :=
  mkMapState (safeZonesOf s) (dangerZonesOf s) (volunteers s) (selectedFilter s) (userLocation s) (isTracking s) v (route s) (distance s) (estimatedTime s) (routeSafetyScore s) (isRouteDetoured s) (droppedPins s) (isPinDropMode s) (searchQuery s) (searchSuggestions s) (showSuggestions s) (ratingLocation s) (showRatingModal s) (showIncidentReporting s) (customRadius s) (mapCenter s) (map_view s) (ls_zones s) (ls_pins s) (alerts s).

Definition set_route (v : option (list latlng)) (s : map_state) : map_state :=
  mkMapState (safeZonesOf s) (dangerZonesOf s) (volunteers s) (selectedFilter s) (userLocation s) (isTracking s) (destination s) v (distance s) (estimatedTime s) (routeSafetyScore s) (isRouteDetoured s) (droppedPins s) (isPinDropMode s) (searchQuery s) (searchSuggestions s) (showSuggestions s) (ratingLocation s) (showRatingModal s) (showIncidentReporting s) (customRadius s) (mapCenter s) (map_view s) (ls_zones s) (ls_pins s) (alerts s).

Definition set_distance (v : option Z) (s : map_state) : map_state :=
  mkMapState (safeZonesOf s) (dangerZonesOf s) (volunteers s) (selectedFilter s) (userLocation s) (isTracking s) (destination s) (route s) v (estimatedTime s) (routeSafetyScore s) (isRouteDetoured s) (droppedPins s) (isPinDropMode s) (searchQuery s) (searchSuggestions s) (showSuggestions s) (ratingLocation s) (showRatingModal s) (showIncidentReporting s) (customRadius s) (mapCenter s) (map_view s) (ls_zones s) (ls_pins s) (alerts s).

Definition set_estimatedTime (v : option Z) (s : map_state) : map_state :=
  mkMapState (safeZonesOf s) (dangerZonesOf s) (volunteers s) (selectedFilter s) (userLocation s) (isTracking s) (destination s) (route s) (distance s) v (routeSafetyScore s) (isRouteDetoured s) (droppedPins s) (isPinDropMode s) (searchQuery s) (searchSuggestions s) (showSuggestions s) (ratingLocation s) (showRatingModal s) (showIncidentReporting s) (customRadius s) (mapCenter s) (map_view s) (ls_zones s) (ls_pins s) (alerts s).

Definition set_routeSafetyScore (v : option Z) (s : map_state) : map_state :=
  mkMapState (safeZonesOf s) (dangerZonesOf s) (volunteers s) (selectedFilter s) (userLocation s) (isTracking s) (destination s) (route s) (distance s) (estimatedTime s) v (isRouteDetoured s) (droppedPins s) (isPinDropMode s) (searchQuery s) (searchSuggestions s) (showSuggestions s) (ratingLocation s) (showRatingModal s) (showIncidentReporting s) (customRadius s) (mapCenter s) (map_view s) (ls_zones s) (ls_pins s) (alerts s).

Definition set_isRouteDetoured (v : bool) (s : map_state) : map_state :=
  mkMapState (safeZonesOf s) (dangerZonesOf s) (volunteers s) (selectedFilter s) (userLocation s) (isTracking s) (destination s) (route s) (distance s) (estimatedTime s) (routeSafetyScore s) v (droppedPins s) (isPinDropMode s) (searchQuery s) (searchSuggestions s) (showSuggestions s) (ratingLocation s) (showRatingModal s) (showIncidentReporting s) (customRadius s) (mapCenter s) (map_view s) (ls_zones s) (ls_pins s) (alerts s).

Definition set_droppedPins (v : list client_pin) (s : map_state) : map_state :=
  mkMapState (safeZonesOf s) (dangerZonesOf s) (volunteers s) (selectedFilter s) (userLocation s) (isTracking s) (destination s) (route s) (distance s) (estimatedTime s) (routeSafetyScore s) (isRouteDetoured s) v (isPinDropMode s) (searchQuery s) (searchSuggestions s) (showSuggestions s) (ratingLocation s) (showRatingModal s) (showIncidentReporting s) (customRadius s) (mapCenter s) (map_view s) (ls_zones s) (ls_pins s) (alerts s).

Definition set_isPinDropMode (v : bool) (s : map_state) : map_state :=
  mkMapState (safeZonesOf s) (dangerZonesOf s) (volunteers s) (selectedFilter s) (userLocation s) (isTracking s) (destination s) (route s) (distance s) (estimatedTime s) (routeSafetyScore s) (isRouteDetoured s) (droppedPins s) v (searchQuery s) (searchSuggestions s) (showSuggestions s) (ratingLocation s) (showRatingModal s) (showIncidentReporting s) (customRadius s) (mapCenter s) (map_view s) (ls_zones s) (ls_pins s) (alerts s).

Definition set_searchQuery (v : string) (s : map_state) : map_state :=
  mkMapState (safeZonesOf s) (dangerZonesOf s) (volunteers s) (selectedFilter s) (userLocation s) (isTracking s) (destination s) (route s) (distance s) (estimatedTime s) (routeSafetyScore s) (isRouteDetoured s) (droppedPins s) (isPinDropMode s) v (searchSuggestions s) (showSuggestions s) (ratingLocation s) (showRatingModal s) (showIncidentReporting s) (customRadius s) (mapCenter s) (map_view s) (ls_zones s) (ls_pins s) (alerts s).

Definition set_searchSuggestions (v : list string) (s : map_state) : map_state :=
  mkMapState (safeZonesOf s) (dangerZonesOf s) (volunteers s) (selectedFilter s) (userLocation s) (isTracking s) (destination s) (route s) (distance s) (estimatedTime s) (routeSafetyScore s) (isRouteDetoured s) (droppedPins s) (isPinDropMode s) (searchQuery s) v (showSuggestions s) (ratingLocation s) (showRatingModal s) (showIncidentReporting s) (customRadius s) (mapCenter s) (map_view s) (ls_zones s) (ls_pins s) (alerts s).

Definition set_showSuggestions (v : bool) (s : map_state) : map_state :=
  mkMapState (safeZonesOf s) (dangerZonesOf s) (volunteers s) (selectedFilter s) (userLocation s) (isTracking s) (destination s) (route s) (distance s) (estimatedTime s) (routeSafetyScore s) (isRouteDetoured s) (droppedPins s) (isPinDropMode s) (searchQuery s) (searchSuggestions s) v (ratingLocation s) (showRatingModal s) (showIncidentReporting s) (customRadius s) (mapCenter s) (map_view s) (ls_zones s) (ls_pins s) (alerts s).

Definition set_ratingLocation (v : option (latlng * bool)) (s : map_state) : map_state :=
  mkMapState (safeZonesOf s) (dangerZonesOf s) (volunteers s) (selectedFilter s) (userLocation s) (isTracking s) (destination s) (route s) (distance s) (estimatedTime s) (routeSafetyScore s) (isRouteDetoured s) (droppedPins s) (isPinDropMode s) (searchQuery s) (searchSuggestions s) (showSuggestions s) v (showRatingModal s) (showIncidentReporting s) (customRadius s) (mapCenter s) (map_view s) (ls_zones s) (ls_pins s) (alerts s).

Definition set_showRatingModal (v : bool) (s : map_state) : map_state :=
  mkMapState (safeZonesOf s) (dangerZonesOf s) (volunteers s) (selectedFilter s) (userLocation s) (isTracking s) (destination s) (route s) (distance s) (estimatedTime s) (routeSafetyScore s) (isRouteDetoured s) (droppedPins s) (isPinDropMode s) (searchQuery s) (searchSuggestions s) (showSuggestions s) (ratingLocation s) v (showIncidentReporting s) (customRadius s) (mapCenter s) (map_view s) (ls_zones s) (ls_pins s) (alerts s).

Definition set_showIncidentReporting (v : bool) (s : map_state) : map_state :=
  mkMapState (safeZonesOf s) (dangerZonesOf s) (volunteers s) (selectedFilter s) (userLocation s) (isTracking s) (destination s) (route s) (distance s) (estimatedTime s) (routeSafetyScore s) (isRouteDetoured s) (droppedPins s) (isPinDropMode s) (searchQuery s) (searchSuggestions s) (showSuggestions s) (ratingLocation s) (showRatingModal s) v (customRadius s) (mapCenter s) (map_view s) (ls_zones s) (ls_pins s) (alerts s).

Definition set_customRadius (v : Q) (s : map_state) : map_state :=
  mkMapState (safeZonesOf s) (dangerZonesOf s) (volunteers s) (selectedFilter s) (userLocation s) (isTracking s) (destination s) (route s) (distance s) (estimatedTime s) (routeSafetyScore s) (isRouteDetoured s) (droppedPins s) (isPinDropMode s) (searchQuery s) (searchSuggestions s) (showSuggestions s) (ratingLocation s) (showRatingModal s) (showIncidentReporting s) v (mapCenter s) (map_view s) (ls_zones s) (ls_pins s) (alerts s).

Definition set_mapCenter (v : option latlng) (s : map_state) : map_state :=
  mkMapState (safeZonesOf s) (dangerZonesOf s) (volunteers s) (selectedFilter s) (userLocation s) (isTracking s) (destination s) (route s) (distance s) (estimatedTime s) (routeSafetyScore s) (isRouteDetoured s) (droppedPins s) (isPinDropMode s) (searchQuery s) (searchSuggestions s) (showSuggestions s) (ratingLocation s) (showRatingModal s) (showIncidentReporting s) (customRadius s) v (map_view s) (ls_zones s) (ls_pins s) (alerts s).

Definition set_map_view (v : option latlng) (s : map_state) : map_state :=
  mkMapState (safeZonesOf s) (dangerZonesOf s) (volunteers s) (selectedFilter s) (userLocation s) (isTracking s) (destination s) (route s) (distance s) (estimatedTime s) (routeSafetyScore s) (isRouteDetoured s) (droppedPins s) (isPinDropMode s) (searchQuery s) (searchSuggestions s) (showSuggestions s) (ratingLocation s) (showRatingModal s) (showIncidentReporting s) (customRadius s) (mapCenter s) v (ls_zones s) (ls_pins s) (alerts s).

Definition set_ls_zones (v : option (list client_zone * list client_zone)) (s : map_state) : map_state :=
  mkMapState (safeZonesOf s) (dangerZonesOf s) (volunteers s) (selectedFilter s) (userLocation s) (isTracking s) (destination s) (route s) (distance s) (estimatedTime s) (routeSafetyScore s) (isRouteDetoured s) (droppedPins s) (isPinDropMode s) (searchQuery s) (searchSuggestions s) (showSuggestions s) (ratingLocation s) (showRatingModal s) (showIncidentReporting s) (customRadius s) (mapCenter s) (map_view s) v (ls_pins s) (alerts s).

Definition set_ls_pins (v : option (list client_pin)) (s : map_state) : map_state :=
  mkMapState (safeZonesOf s) (dangerZonesOf s) (volunteers s) (selectedFilter s) (userLocation s) (isTracking s) (destination s) (route s) (distance s) (estimatedTime s) (routeSafetyScore s) (isRouteDetoured s) (droppedPins s) (isPinDropMode s) (searchQuery s) (searchSuggestions s) (showSuggestions s) (ratingLocation s) (showRatingModal s) (showIncidentReporting s) (customRadius s) (mapCenter s) (map_view s) (ls_zones s) v (alerts s).

Definition set_alerts (v : list alert) (s : map_state) : map_state :=
  mkMapState (safeZonesOf s) (dangerZonesOf s) (volunteers s) (selectedFilter s) (userLocation s) (isTracking s) (destination s) (route s) (distance s) (estimatedTime s) (routeSafetyScore s) (isRouteDetoured s) (droppedPins s) (isPinDropMode s) (searchQuery s) (searchSuggestions s) (showSuggestions s) (ratingLocation s) (showRatingModal s) (showIncidentReporting s) (customRadius s) (mapCenter s) (map_view s) (ls_zones s) (ls_pins s) v.

Section Client.
Context `{Backend}.

Record world : Type := mkWorld {
  w_ui : map_state;
  w_srv : bstate;
  w_timers : list timer
}.

End Client.

Abbreviation Client := (St world js_error).

Section Client_ops.
Context `{Backend}.

(** An awaited [ApiService] call. *)
Definition call {A} (c : Api A) : Client A :=
  fun w => let '(r, b') := c (w_srv w) in
           (match r with inl e => match e with end | inr a => inr a end,
            mkWorld (w_ui w) b' (w_timers w)).

Definition ui : Client map_state := fun w => (inr (w_ui w), w).

Definition set_ui (f : map_state -> map_state) : Client unit :=
  fun w => (inr tt, mkWorld (f (w_ui w)) (w_srv w) (w_timers w)).

Definition set_timeout (t : timer) : Client unit :=
  fun w => (inr tt, mkWorld (w_ui w) (w_srv w) (w_timers w ++ [t])).

End Client_ops.

(** ** String helpers of the search box *)

(** A whitespace character that [trim] removes. *)
Definition is_ws (c : ascii) : bool :=
  let n := nat_of_ascii c in
  (n =? 32)%nat || ((9 <=? n)%nat && (n <=? 13)%nat).

(** [!s.trim()]: the string is empty once trimmed. *)
Definition js_blank (s : string) : bool := forallb is_ws (list_ascii_of_string s).

(** [s.includes(sub)] *)
Fixpoint includes (s sub : string) : bool :=
  prefixb sub s || match s with
                   | EmptyString => false
                   | String _ s' => includes s' sub
                   end.

(** [jalandharLandmarks] of [searchLocation], in the order of
    [Object.entries]. *)
Definition landmarks : list (string * latlng) :=
  [("model town", mkLatLng (313240 # 10000) (755810 # 10000));
   ("civil lines", mkLatLng (313300 # 10000) (755700 # 10000));
   ("cantt", mkLatLng (313180 # 10000) (755820 # 10000));
   ("gt road", mkLatLng (313350 # 10000) (755650 # 10000));
   ("railway station", mkLatLng (313380 # 10000) (755580 # 10000));
   ("bus stand", mkLatLng (313260 # 10000) (755762 # 10000));
   ("dav college", mkLatLng (313290 # 10000) (755740 # 10000));
   ("lovely professional university", mkLatLng (312532 # 10000) (757047 # 10000));
   ("wonderland", mkLatLng (313156 # 10000) (755994 # 10000))].

(** [jalandharLandmarks] of [getSearchSuggestions]. *)
Definition suggestion_places : list string :=
  ["Model Town"; "Civil Lines"; "Cantt"; "GT Road"; "Railway Station";
   "Bus Stand"; "DAV College"; "Lovely Professional University"; "Wonderland";
   "Phagwara Gate"; "Nakodar Road"; "Kapurthala Road"; "Pathankot Road";
   "Kartarpur"; "Adampur"; "Shahkot"; "Phillaur"; "Goraya"].

(** The landmark [searchLocation] finds for a query, if any. *)
Definition find_landmark (query : string) : option (string * latlng) :=
  let searchKey := collate query in
  List.find (fun '(key, _) => includes key searchKey || includes searchKey key) landmarks.

Definition getSearchSuggestions (query : string) : list string :=
  if js_blank query then []
  else take 6 (List.filter (fun place => includes (collate place) (collate query))
                 suggestion_places).

(** [{ id: Date.now(), lat, lng, timestamp }] as the server reads it. *)
Definition pin_request (p : client_pin) : pin_body :=
  mkPinBody (Val (inject_Z (cp_id p))) (Val (cp_lat p)) (Val (cp_lng p)).

Definition push_alert (a : alert) (s : map_state) : map_state := set_alerts (alerts s ++ [a]) s.

(** [mapRef.current.getCenter()], else the tracked [mapCenter], else
    [JALANDHAR_CENTER]. *)
Definition getCurrentMapCenter (s : map_state) : latlng :=
  match map_view s with
  | Some c => c
  | None => match mapCenter s with Some c => c | None => jalandhar_center end
  end.

(** The effects that follow a change of [isPinDropMode]. *)
Definition pin_mode_effects (s : map_state) : map_state :=
  if isPinDropMode s
  then match map_view s with Some c => set_mapCenter (Some c) s | None => s end
  else set_mapCenter None s.


(** A move of the map to centre [c]: [MapEventHandler]'s [moveend] calls
    [setMapCenter] (and so do the listeners of pin mode); the instance
    [mapRef.current], when it was set, is now centred at [c]. *)
Definition move_map (c : latlng) (s : map_state) : map_state :=
  set_mapCenter (Some c) (match map_view s with
                          | Some _ => set_map_view (Some c) s
                          | None => s
                          end).

(** ** Handlers *)

Section Handlers.
Context `{Backend}.

(** [saveSafetyZones]: the user-created zones into the cache. *)
Definition saveSafetyZones (safe danger : list client_zone) : Client unit :=
  set_ui (set_ls_zones (Some (List.filter zone_isUserCreated safe,
                              List.filter zone_isUserCreated danger))).

Definition saveDroppedPins (pins : list client_pin) : Client unit :=
  set_ui (set_ls_pins (Some pins)).

(** The [catch] of [loadDataFromDatabase]: the cached zones and pins. *)
Definition load_from_cache : Client unit :=
  do s <- ui;
  (match ls_zones s with
   | Some (sz, dz) => set_ui (fun s => set_dangerZonesOf dz (set_safeZonesOf sz s))
   | None => st_ret tt
   end) ;;;
  (match ls_pins s with
   | Some ps => set_ui (set_droppedPins ps)
   | None => st_ret tt
   end).

Definition set_zones_from (zonesData : zones_reply) (s : map_state) : map_state :=
  set_dangerZonesOf (map CZServer (dangerZones zonesData))
    (set_safeZonesOf (map CZServer (safeZones zonesData)) s).

(** [loadDataFromDatabase]: the health check, then the zones and the
    pins.  The zones test [zonesData && (zonesData.safeZones ||
    zonesData.dangerZones)] and [Array.isArray(pinsData)] hold of every
    value [ApiService] returns (arrays are truthy). *)
Definition loadDataFromDatabase : Client unit :=
  st_catch
    (do serverHealth <- call ApiService.checkServerHealth;
     match serverHealth with
     | None => st_ret tt
     | Some _ =>
         do zonesData <- call ApiService.fetchZones;
         set_ui (set_zones_from zonesData) ;;;
         do pinsData <- call ApiService.fetchPins;
         set_ui (set_droppedPins (map pin_of_view pinsData))
     end)
    (fun _ => load_from_cache).

(** The pin handlers: add the pin, save it, make it the destination. *)
Definition drop_pin (now : Z) (c : latlng) : Client unit :=
  do s <- ui;
  let newPin := mkClientPin now (lat c) (lng c) in
  let updatedPins := droppedPins s ++ [newPin] in
  set_ui (set_droppedPins updatedPins) ;;;
  st_catch (call (ApiService.createPin (pin_request newPin)) ;;; st_ret tt)
           (fun _ => saveDroppedPins updatedPins) ;;;
  set_ui (set_destination (Some c)) ;;;
  set_ui (set_isPinDropMode false).

Definition dropPinAtCenter (now : Z) : Client unit :=
  do s <- ui;
  if negb (isPinDropMode s) then st_ret tt else drop_pin now (getCurrentMapCenter s).

(** [handleMapClick]: the [MapClickHandler] that would call it is never
    rendered, so no event of the page reaches it. *)
Definition handleMapClick (now : Z) (p : latlng) : Client unit :=
  do s <- ui;
  if isPinDropMode s then drop_pin now p else st_ret tt.

Definition removePin (pinId : Z) : Client unit :=
  do s <- ui;
  let updatedPins := List.filter (fun p => negb (Z.eqb (cp_id p) pinId)) (droppedPins s) in
  set_ui (set_droppedPins updatedPins) ;;;
  st_catch (call (ApiService.deletePin pinId) ;;; st_ret tt) (fun _ => saveDroppedPins updatedPins) ;;;
  match destination s, List.find (fun p => Z.eqb (cp_id p) pinId) (droppedPins s) with
  | Some d, Some removedPin =>
      if Qeq_bool (lat d) (cp_lat removedPin) && Qeq_bool (lng d) (cp_lng removedPin)
      then set_ui (set_destination None) ;;; set_ui (set_route None)
      else st_ret tt
  | _, _ => st_ret tt
  end.

(** [rateAreaWithRadius(rating)]: [timeStr] is
    [new Date().toLocaleTimeString()]. *)
Definition rateAreaWithRadius (rating : Q) (now : Z) (timeStr : string) : Client unit :=
  st_catch
    (do s <- ui;
     match ratingLocation s with
     | None => set_ui (push_alert AlertSelectLocation)
     | Some (loc, isUserLocation) =>
         let isGoodRating := Qle_bool 3 rating in
         let zoneName := if isUserLocation then "My Location Rating"
                         else String.append "Pin Location " timeStr in
         let body := rate_area_body (lat loc) (lng loc) rating (customRadius s) now zoneName in
         let newZone :=
           mkLocalZone (String.append (if isGoodRating then "user-safe-" else "user-danger-")
                          (ms_string now))
             (lat loc) (lng loc) zoneName rating (customRadius s) in
         (if isGoodRating then
            let updatedSafe := safeZonesOf s ++ [CZLocal newZone] in
            set_ui (set_safeZonesOf updatedSafe) ;;;
            st_catch (call (ApiService.createZone body) ;;; set_timeout TRefreshZones)
                     (fun _ => saveSafetyZones updatedSafe (dangerZonesOf s))
          else
            let updatedDanger := dangerZonesOf s ++ [CZLocal newZone] in
            set_ui (set_dangerZonesOf updatedDanger) ;;;
            st_catch (call (ApiService.createZone body) ;;; set_timeout TRefreshZones)
                     (fun _ => saveSafetyZones (safeZonesOf s) updatedDanger)) ;;;
         set_ui (set_showRatingModal false) ;;;
         set_ui (set_ratingLocation None) ;;;
         set_ui (push_alert (AlertRated (customRadius s)))
     end)
    (fun _ => set_ui (push_alert AlertRateError) ;;;
              set_ui (set_showRatingModal false) ;;;
              set_ui (set_ratingLocation None)).

(** The callback of the refresh timer a rating sets. *)
Definition refreshZones : Client unit :=
  do zonesData <- call ApiService.fetchZones;
  set_ui (set_zones_from zonesData).

Definition openRatingModal (location : latlng) (isUserLocation : bool) : Client unit :=
  set_ui (set_ratingLocation (Some (location, isUserLocation))) ;;;
  set_ui (set_showRatingModal true).

(** [setUserLocation(p)], then the effect of [LocationTracker], which
    centres the map on the new location. *)
Definition set_user_location (p : latlng) (s : map_state) : map_state :=
  move_map p (set_userLocation (Some p) s).

(** [getCurrentLocation]: with [navigator.geolocation] the request is
    left to the browser, whose answer is the event [EvGeo]; without it
    the alert, the fallback location and the end of tracking. *)
Definition getCurrentLocation (supported : bool) : Client unit :=
  set_ui (set_isTracking true) ;;;
  if supported then st_ret tt
  else set_ui (push_alert AlertNoGeolocation) ;;;
       set_ui (set_user_location jalandhar_center) ;;;
       set_ui (set_isTracking false).

(** The callbacks of [getCurrentPosition]: the position, or on an error
    the centre of Jalandhar. *)
Definition geo_callback (a : geo_answer) : Client unit :=
  match a with
  | GeoPosition p => set_ui (set_user_location p) ;;; set_ui (set_isTracking false)
  | GeoError => set_ui (set_user_location jalandhar_center) ;;; set_ui (set_isTracking false)
  end.

(** [searchLocation] of a render whose [searchQuery] is [query]. *)
Definition searchLocation_with (query : string) (now : Z) : Client unit :=
  if js_blank query then st_ret tt
  else match find_landmark query with
       | Some (_, location) =>
           set_ui (set_destination (Some location)) ;;;
           set_ui (set_showSuggestions false) ;;;
           set_ui (set_searchQuery "") ;;;
           set_ui (fun s => match map_view s with
                            | Some _ => move_map location s
                            | None => s
                            end) ;;;
           let searchPin := mkClientPin now (lat location) (lng location) in
           set_ui (fun s => set_droppedPins (droppedPins s ++ [searchPin]) s) ;;;
           call (ApiService.createPin (pin_request searchPin)) ;;; st_ret tt
       | None => set_ui (push_alert (AlertNotFound query))
       end.

Definition searchLocation (now : Z) : Client unit :=
  do s <- ui; searchLocation_with (searchQuery s) now.

Definition handleSearchChange (value : string) : Client unit :=
  set_ui (set_searchQuery value) ;;;
  if negb (js_blank value) then
    let suggestions := getSearchSuggestions value in
    set_ui (set_searchSuggestions suggestions) ;;;
    set_ui (set_showSuggestions (0 <? List.length suggestions)%nat)
  else
    set_ui (set_searchSuggestions []) ;;;
    set_ui (set_showSuggestions false).

(** The timer's callback is the [searchLocation] of the render in which
    the suggestion was clicked. *)
Definition handleSuggestionClick (suggestion : string) : Client unit :=
  do s <- ui;
  set_ui (set_searchQuery suggestion) ;;;
  set_ui (set_showSuggestions false) ;;;
  set_timeout (TSearch (searchQuery s)).

Definition handlePinDrop : Client unit :=
  do s <- ui;
  set_ui (fun s' => pin_mode_effects (set_isPinDropMode (negb (isPinDropMode s)) s')).

(** The [onRouteCalculated] callback the page hands to [RoutePlanner]. *)
Definition onRouteCalculated (info : route_info) (s : map_state) : map_state :=
  set_isRouteDetoured (ri_isDetoured info)
    (set_routeSafetyScore (Some (ri_safetyScore info))
       (set_estimatedTime (Some (ri_time info))
          (set_distance (Some (ri_distance info)) (set_route (Some (ri_route info)) s)))).

Definition map_moved (c : latlng) : Client unit := set_ui (move_map c).

(** The zones drawn for the filter: [selectedFilter === 'all' ||
    selectedFilter === 'safe'] and likewise for danger zones. *)
Definition visible_zones (s : map_state) : list client_zone * list client_zone :=
  (if String.eqb (selectedFilter s) "all" || String.eqb (selectedFilter s) "safe"
   then safeZonesOf s else [],
   if String.eqb (selectedFilter s) "all" || String.eqb (selectedFilter s) "danger"
   then dangerZonesOf s else []).

End Handlers.

(** ** Events *)

(** The value of the radius slider ([min 50], [max 500], [step 25]) the
    browser reports for a position [v]: clamped, then on the step. *)
Definition slider_value (v : Z) : Z :=
  50 + 25 * ((Z.min 500 (Z.max 50 v) - 50 + 12) / 25).

Inductive map_event : Type :=
| EvLoad
| EvLocate (supported : bool)
| EvGeo (a : geo_answer)
| EvSearchChange (value : string)
| EvSearch (now : Z)
| EvSearchFocus
| EvSearchBlur
| EvSuggestionClick (suggestion : string)
| EvTogglePinDrop
| EvMapMove (center : latlng)
| EvDropPinAtCenter (now : Z)
| EvMapCreated (center : latlng)
| EvRemovePin (id : Z)
| EvFilter (f : string)
| EvRateMyLocation
| EvRatePin (pin : client_pin)
| EvRouteHere (pin : client_pin)
| EvSetRadius (v : Z)
| EvRate (rating : Q) (now : Z) (timeStr : string)
| EvCloseRating
| EvClearRoute
| EvReportIncident
| EvCloseIncidentReporting
| EvTimer (i : nat) (now : Z).

Section Step.
Context `{Backend}.

Definition run_timer (t : timer) (now : Z) : Client unit :=
  match t with
  | TSearch query => searchLocation_with query now
  | TRefreshZones => refreshZones
  | THideSuggestions => set_ui (set_showSuggestions false)
  end.

(** The [i]-th pending timer fires: it leaves the queue, then runs. *)
Definition fire_timer (i : nat) (now : Z) : Client unit :=
  fun w =>
    match w_timers w !! i with
    | Some t => run_timer t now (mkWorld (w_ui w) (w_srv w) (delete i (w_timers w)))
    | None => (inr tt, w)
    end.

Definition client_handler (e : map_event) : Client unit :=
  match e with
  | EvLoad => loadDataFromDatabase
  | EvLocate sup => getCurrentLocation sup
  | EvGeo a => geo_callback a
  | EvSearchChange v => handleSearchChange v
  | EvSearch now => searchLocation now
  | EvSearchFocus =>
      set_ui (fun s => if String.eqb (searchQuery s) "" then s else set_showSuggestions true s)
  | EvSearchBlur => set_timeout THideSuggestions
  | EvSuggestionClick sug => handleSuggestionClick sug
  | EvTogglePinDrop => handlePinDrop
  | EvMapMove c => map_moved c
  | EvDropPinAtCenter now => dropPinAtCenter now
  | EvMapCreated c => set_ui (set_map_view (Some c))
  | EvRemovePin id => removePin id
  | EvFilter f => set_ui (set_selectedFilter f)
  | EvRateMyLocation =>
      do s <- ui;
      match userLocation s with
      | Some p => openRatingModal p true
      | None => st_ret tt
      end
  | EvRatePin pin => openRatingModal (mkLatLng (cp_lat pin) (cp_lng pin)) false
  | EvRouteHere pin => set_ui (set_destination (Some (mkLatLng (cp_lat pin) (cp_lng pin))))
  | EvSetRadius v => set_ui (set_customRadius (inject_Z (slider_value v)))
  | EvRate r now t => rateAreaWithRadius r now t
  | EvCloseRating => set_ui (set_showRatingModal false) ;;; set_ui (set_ratingLocation None)
  | EvClearRoute => set_ui (set_destination None) ;;; set_ui (set_route None)
  | EvReportIncident => set_ui (set_showIncidentReporting true)
  | EvCloseIncidentReporting => set_ui (set_showIncidentReporting false)
  | EvTimer i now => fire_timer i now
  end.

(** One event; an exception escaping a handler leaves the state it
    reached. *)
Definition client_step (e : map_event) (w : world) : world := snd (client_handler e w).

Fixpoint run_events (es : list map_event) (w : world) : world :=
  match es with
  | [] => w
  | e :: rest => run_events rest (client_step e w)
  end.

End Step.

(** ** Lemmas: no handler body throws *)

Section NoThrow.
Context `{Backend}.

(** [c] never raises. *)
Definition no_throw {A} (c : Client A) : Prop :=
  forall w, exists a w', c w = (inr a, w').

Lemma no_throw_ret {A} (a : A) : no_throw (st_ret a).
Proof. intros w. eauto. Qed.

Lemma no_throw_ui : no_throw ui.
Proof. intros w. eauto. Qed.

Lemma no_throw_set_ui f : no_throw (set_ui f).
Proof. intros w. eauto. Qed.

Lemma no_throw_set_timeout t : no_throw (set_timeout t).
Proof. intros w. eauto. Qed.

Lemma no_throw_call {A} (c : Api A) : no_throw (call c).
Proof.
  intros w. unfold call. destruct (c (w_srv w)) as [[[]|a] b']. eauto.
Qed.

Lemma no_throw_bind {A B} (c : Client A) (k : A -> Client B) :
  no_throw c -> (forall a, no_throw (k a)) -> no_throw (st_bind c k).
Proof.
  intros Hc Hk w. destruct (Hc w) as (a & w1 & E). unfold st_bind. rewrite E. apply Hk.
Qed.

(** A [catch] whose [try] cannot throw never runs. *)
Lemma catch_no_throw {A} (c : Client A) (h : js_error -> Client A) w :
  no_throw c -> st_catch c h w = c w.
Proof. intros Hc. destruct (Hc w) as (a & w' & E). unfold st_catch. by rewrite E. Qed.

Lemma no_throw_catch {A} (c : Client A) (h : js_error -> Client A) :
  no_throw c -> no_throw (st_catch c h).
Proof. intros Hc w. rewrite catch_no_throw by done. apply Hc. Qed.

End NoThrow.

Create HintDb client.
#[export] Hint Resolve no_throw_ret no_throw_ui no_throw_set_ui no_throw_set_timeout
  no_throw_call no_throw_bind no_throw_catch : client.

(** Introduce a binder of the goal itself, never one hidden under a
    definition. *)
Ltac intro_binder := match goal with |- forall _ : _, _ => intro end.

(** One step of a proof about a handler, chosen by the shape of the
    computation [c] in the goal [P c]. *)
Ltac client_step_tac bind_tac catch_tac :=
  match goal with
  | |- forall _ : _, _ => intro
  | |- _ (st_bind _ _) => bind_tac
  | |- _ (st_catch _ _) => catch_tac
  | |- _ (if _ then _ else _) => case_match
  | |- _ (match _ with _ => _ end) => case_match
  | |- _ (let _ := _ in _) => cbv zeta
  | |- _ ((fun _ => _) _) => cbv beta
  end.

(** Prove [no_throw] of a handler: through its binds, matches and
    conditionals. *)
Ltac no_throw_solve :=
  repeat first [ solve [eauto with client]
               | client_step_tac ltac:(apply no_throw_bind) ltac:(apply no_throw_catch) ].

Section Bodies.
Context `{Backend}.

Lemma no_throw_load_body :
  no_throw (do serverHealth <- call ApiService.checkServerHealth;
            match serverHealth with
            | None => st_ret tt
            | Some _ =>
                do zonesData <- call ApiService.fetchZones;
                set_ui (set_zones_from zonesData) ;;;
                do pinsData <- call ApiService.fetchPins;
                set_ui (set_droppedPins (map pin_of_view pinsData))
            end).
Proof. no_throw_solve. Qed.

Lemma no_throw_searchLocation_with query now : no_throw (searchLocation_with query now).
Proof. unfold searchLocation_with. no_throw_solve. Qed.

Lemma no_throw_refreshZones : no_throw refreshZones.
Proof. unfold refreshZones. no_throw_solve. Qed.

End Bodies.

(** ** Lemmas: the frame no handler writes *)

(** The parts of the page's state that no handler writes while every
    [ApiService] call catches its failures: [mapData.volunteers], which
    only [useState] sets, and the [localStorage] cache, which only the
    [catch] blocks touch. *)
Definition frame_of (s : map_state)
    : list map_volunteer * option (list client_zone * list client_zone) * option (list client_pin) :=
  (volunteers s, ls_zones s, ls_pins s).

Section Frame.
Context `{Backend} {T : Type} (obs : map_state -> T).

(** Two worlds that agree on the part [obs] of the page's state. *)
Definition same_obs (w w' : world) : Prop := obs (w_ui w') = obs (w_ui w).

#[export] Instance same_obs_refl : Reflexive same_obs.
Proof. by intros w. Qed.

#[export] Instance same_obs_trans : Transitive same_obs.
Proof. intros w1 w2 w3 E1 E2. unfold same_obs in *. congruence. Qed.

(** An update of the React state that leaves [obs] alone. *)
Definition keeps (f : map_state -> map_state) : Prop := forall s, obs (f s) = obs s.

Lemma obs_set_ui f : keeps f -> st_guarantee same_obs (set_ui f).
Proof. intros Hf w r w' [= _ <-]. apply Hf. Qed.

Lemma obs_ui : st_guarantee same_obs ui.
Proof. intros w r w' [= _ <-]. done. Qed.

Lemma obs_set_timeout t : st_guarantee same_obs (set_timeout t).
Proof. intros w r w' [= _ <-]. done. Qed.

Lemma obs_call {A} (c : Api A) : st_guarantee same_obs (call c).
Proof.
  intros w r w'. unfold call. destruct (c (w_srv w)) as [x b']. intros [= _ <-]. done.
Qed.

(** A [catch] that never runs keeps what its [try] keeps. *)
Lemma obs_catch {A} (c : Client A) (h : js_error -> Client A) :
  no_throw c -> st_guarantee same_obs c -> st_guarantee same_obs (st_catch c h).
Proof. intros Hn Hc w r w'. rewrite catch_no_throw by done. apply Hc. Qed.

End Frame.

#[export] Hint Resolve obs_ui obs_set_timeout obs_call : client.

(** Prove that a handler keeps an observation of the page: through its
    binds, matches and [catch]es, each state update checked by
    computation. *)
Ltac obs_solve :=
  repeat first [ solve [eauto with client]
               | match goal with
                 | |- st_guarantee _ (set_ui _) =>
                     apply obs_set_ui; intros ?s; unfold pin_mode_effects, push_alert, set_user_location, move_map;
                     repeat case_match; reflexivity
                 | |- st_guarantee (same_obs ?o) (st_ret _) => apply (st_guarantee_ret (same_obs o))
                 | |- st_guarantee (same_obs ?o) (st_bind _ _) => apply (st_guarantee_bind (same_obs o))
                 | |- st_guarantee (same_obs _) (st_catch _ _) => apply obs_catch; [no_throw_solve|]
                 end
               | client_step_tac fail fail ].

(** Unfold the handlers of [client_handler] down to their bodies. *)
Ltac unfold_handlers :=
  unfold loadDataFromDatabase, getCurrentLocation, geo_callback, handleSearchChange, searchLocation,
    searchLocation_with, handleSuggestionClick, handlePinDrop, map_moved, dropPinAtCenter,
    handleMapClick, drop_pin, removePin, openRatingModal, rateAreaWithRadius, refreshZones.

Section Frame_handlers.
Context `{Backend}.

(** Whether an event is a move of the radius slider. *)
Lemma slider_event_dec e : {v | e = EvSetRadius v} + {forall v, e <> EvSetRadius v}.
Proof. destruct e; try (by left; eexists); right; discriminate. Qed.

(** The frame and the radius of the rating dialog, which only the
    slider writes. *)
Definition fixed_of (s : map_state) := (frame_of s, customRadius s).

Lemma fixed_run_timer t now : st_guarantee (same_obs fixed_of) (run_timer t now).
Proof. destruct t; simpl; unfold_handlers; obs_solve. Qed.

Lemma fixed_fire_timer i now : st_guarantee (same_obs fixed_of) (fire_timer i now).
Proof.
  intros w r w'. unfold fire_timer. destruct (w_timers w !! i) as [t|].
  - intros Hr. apply (fixed_run_timer t now _ _ _ Hr).
  - intros [= _ <-]. done.
Qed.

(** Every handler but the slider's keeps the frame and the radius. *)
Lemma fixed_handler e :
  (forall v, e <> EvSetRadius v) -> st_guarantee (same_obs fixed_of) (client_handler e).
Proof.
  intros He. destruct e; simpl; unfold_handlers; try apply fixed_fire_timer;
    try (exfalso; by eapply He); obs_solve.
Qed.

Lemma frame_handler e : st_guarantee (same_obs frame_of) (client_handler e).
Proof.
  destruct (slider_event_dec e) as [[v ->]|Hs]; [simpl; obs_solve|].
  intros w r w' Hr. apply (f_equal fst (fixed_handler e Hs w r w' Hr)).
Qed.

(** Any sequence of events keeps the frame. *)
Lemma frame_run_events es w : same_obs frame_of w (run_events es w).
Proof.
  revert w. induction es as [|e es IH]; intros w; simpl; [reflexivity|].
  transitivity (client_step e w); [|apply IH].
  apply (frame_handler e w (fst (client_handler e w))). apply surjective_pairing.
Qed.
End Frame_handlers.

(** ** The radius of the rating dialog *)

(** A position of the slider: 50 to 500 by 25. *)
Definition on_slider (r : Q) : Prop :=
  exists k : Z, (0 <= k <= 18)%Z /\ r = inject_Z (50 + 25 * k).

Lemma slider_value_on_slider v : on_slider (inject_Z (slider_value v)).
Proof.
  exists ((Z.min 500 (Z.max 50 v) - 50 + 12) / 25)%Z. split; [|done].
  split; [apply Z.div_pos; lia|]. apply Z.lt_succ_r, Z.div_lt_upper_bound; lia.
Qed.

Section Radius.
Context `{Backend}.

Lemma radius_step e w :
  on_slider (customRadius (w_ui w)) -> on_slider (customRadius (w_ui (client_step e w))).
Proof.
  destruct (slider_event_dec e) as [[v ->]|Hs]; [intros _; apply slider_value_on_slider|].
  pose proof (fixed_handler e Hs w _ _ (surjective_pairing _)) as E.
  injection E as _ _ _ E. unfold client_step. by rewrite E.
Qed.

Lemma radius_run_events es w :
  on_slider (customRadius (w_ui w)) -> on_slider (customRadius (w_ui (run_events es w))).
Proof. revert w. induction es as [|e es IH]; intros w Hw; simpl; [done|]. by apply IH, radius_step. Qed.
End Radius.

Section Client_lemmas.
Context `{Backend}.

(** A handler that ends with three state updates after a step that cannot
    throw. *)
Lemma then_set_ui3 (X : Client unit) f1 f2 f3 w :
  no_throw X ->
  exists w1, snd ((X ;;; set_ui f1 ;;; set_ui f2 ;;; set_ui f3) w) =
             mkWorld (f3 (f2 (f1 (w_ui w1)))) (w_srv w1) (w_timers w1).
Proof. intros Hx. destruct (Hx w) as (a & w1 & E). exists w1. unfold st_bind. by rewrite E. Qed.
End Client_lemmas.

(** Nine of the places the search box suggests are not landmarks the
    search knows: each is suggested for its own name and not found. *)
Lemma suggested_but_unknown :
  Forall (fun place => In place (getSearchSuggestions place) /\ find_landmark place = None)
    ["Phagwara Gate"; "Nakodar Road"; "Kapurthala Road"; "Pathankot Road";
     "Kartarpur"; "Adampur"; "Shahkot"; "Phillaur"; "Goraya"].
Proof. repeat constructor; vm_compute; auto 20. Qed.

(** ** Claims *)

Section Claims.
Context `{Backend}.

(** C21. The local cache is never written or read.  Every handler of
    SafetyMap awaits [ApiService] methods, which catch every failure and
    return a fallback value, so none of the [catch] blocks that save the
    zones and pins to [localStorage] (or read them back in
    [loadDataFromDatabase]) ever runs: after any sequence of events, with
    any backend (including one that is down), the cache holds what it
    held before. *)
Theorem client_never_caches es w :
  ls_zones (w_ui (run_events es w)) = ls_zones (w_ui w) /\
  ls_pins (w_ui (run_events es w)) = ls_pins (w_ui w).
Proof. pose proof (frame_run_events es w) as E. by injection E. Qed.

(** C23. A rating is always announced as saved.  Once a location is
    selected, [rateAreaWithRadius] ends with the alert that the area was
    rated and saved to the database, whatever the backend answered to
    [ApiService.createZone] (a refused or failed request included), and closes the
    dialog. *)
Theorem rating_always_announced w rating now timeStr loc isUser :
  ratingLocation (w_ui w) = Some (loc, isUser) ->
  let w' := client_step (EvRate rating now timeStr) w in
  last (alerts (w_ui w')) = Some (AlertRated (customRadius (w_ui w))) /\
  showRatingModal (w_ui w') = false /\ ratingLocation (w_ui w') = None.
Proof.
  intros Hloc.
  assert (E : exists w1, client_step (EvRate rating now timeStr) w =
    mkWorld (push_alert (AlertRated (customRadius (w_ui w)))
               (set_ratingLocation None (set_showRatingModal false (w_ui w1))))
            (w_srv w1) (w_timers w1)).
  { unfold client_step. simpl. unfold rateAreaWithRadius.
    rewrite catch_no_throw by no_throw_solve.
    unfold st_bind at 1, ui. rewrite Hloc. cbv zeta. apply then_set_ui3. no_throw_solve. }
  destruct E as [w1 ->]. simpl. split_and!; [apply last_snoc|done|done].
Qed.

(** A clicked suggestion is not what is searched.  Clicking a
    suggestion sets the search box to it, but the search it schedules is
    the [searchLocation] of the current render, which reads the query
    typed before the click. *)
Theorem suggestion_click_searches_typed_text w suggestion :
  let w' := client_step (EvSuggestionClick suggestion) w in
  searchQuery (w_ui w') = suggestion /\
  last (w_timers w') = Some (TSearch (searchQuery (w_ui w))).
Proof.
  simpl. unfold client_step, handleSuggestionClick. simpl. split; [done|].
  by rewrite last_snoc.
Qed.
End Claims.

(** ** The client against the server of server.js *)

Module WithServer.
#[local] Existing Instance server_backend.

(** C22. A poll shows the server's state.  When the server of server.js
    answers, the 5-second [loadDataFromDatabase] replaces the zones and
    pins the map shows by exactly those [GET /api/zones] and
    [GET /api/pins] list, and changes nothing on the server. *)
Theorem poll_shows_server_state u st ts :
  let w' := client_step EvLoad (mkWorld u st ts) in
  safeZonesOf (w_ui w') = map CZServer (safeZones (getZones (srv_db st))) /\
  dangerZonesOf (w_ui w') = map CZServer (dangerZones (getZones (srv_db st))) /\
  droppedPins (w_ui w') = map pin_of_view (getPins (srv_db st)) /\
  w_srv w' = st.
Proof.
  unfold client_step. simpl. split_and!; reflexivity.
Qed.

(** Whether a pin of the list is at the point. *)
Definition pin_at (p : latlng) (q : client_pin) : bool :=
  Qeq_bool (cp_lat q) (lat p) && Qeq_bool (cp_lng q) (lng p).

(** A server that already has the pin another device dropped at the
    same millisecond, 1000. *)
Definition other_device_db : db :=
  set_pins empty_db (<[1000%Z := mkPin 1000 3131000000 7557000000 0]> ∅).

Definition here : latlng := mkLatLng (313300 # 10000) (755800 # 10000).

Definition pin_world : world :=
  mkWorld (initial_map_state None None) (mkServer other_device_db 1) [].

(** A refused pin vanishes without a trace.  The user moves the map
    to a point, turns on pin mode and drops a pin at the centre at the
    same millisecond as another device: the server refuses the duplicate
    id, the map shows the pin anyway with no message, and the next poll
    removes it; nothing was kept in the local cache. *)
Theorem refused_pin_vanishes :
  let w1 := run_events [EvMapMove here; EvTogglePinDrop; EvDropPinAtCenter 1000] pin_world in
  let w2 := client_step EvLoad w1 in
  existsb (pin_at here) (droppedPins (w_ui w1)) = true /\
  existsb (pin_at here) (droppedPins (w_ui w2)) = false /\
  alerts (w_ui w2) = [] /\ ls_pins (w_ui w2) = None.
Proof. vm_compute. split_and!; reflexivity. Qed.

End WithServer.

Module WhenDown.
#[local] Existing Instance down_backend.

Definition rating_world : world :=
  mkWorld (set_ratingLocation (Some (jalandhar_center, true)) (initial_map_state None None)) tt [].

(** The witness of C23 on a server that cannot be reached. *)
Lemma rating_always_announced_witness :
  ratingLocation (w_ui rating_world) = Some (jalandhar_center, true) /\
  last (alerts (w_ui (client_step (EvRate 2 0 "") rating_world))) =
    Some (AlertRated (customRadius (w_ui rating_world))).
Proof.
  assert (Hl : ratingLocation (w_ui rating_world) = Some (jalandhar_center, true)) by reflexivity.
  split; [exact Hl|].
  exact (proj1 (rating_always_announced rating_world 2 0 "" jalandhar_center true Hl)).
Defined.
End WhenDown.

Module WithoutDatabase.
#[local] Existing Instance nopool_backend.

(** A poll of the server started without a database: its health check
    passes, every data route answers 500, and the fallbacks of
    [ApiService] replace the zones and pins the map shows by empty lists,
    with no message and nothing read from the cache. *)
Lemma poll_without_database_empties u ts :
  let w' := client_step EvLoad (mkWorld u tt ts) in
  safeZonesOf (w_ui w') = [] /\ dangerZonesOf (w_ui w') = [] /\ droppedPins (w_ui w') = [] /\
  alerts (w_ui w') = alerts u /\ ls_zones (w_ui w') = ls_zones u.
Proof. split_and!; reflexivity. Qed.
End WithoutDatabase.
