(* ===== verification/MapWidgets.v ===== *)
(** * MapWidgets: the radius preview of the rating dialog

    [RadiusPreview] (SafetyMap.jsx 363-411) draws the circle of the
    radius the user is choosing.  It keeps the Leaflet circle it created
    in a ref and has two effects: the first, on every change of its
    props, removes the previous circle and adds a new one (or only
    removes it when the preview is hidden, has no centre or a zero
    radius), and returns a cleanup that removes the circle and clears the
    ref; the second only removes the circle on unmount.

    The map's layers are a list of circle objects, each with the number
    [L.circle] gave it; React runs the previous cleanup before an effect
    that reruns, and runs an effect again only when one of its
    dependencies changed.  The lemma at the end shows that the map never
    holds more than the one circle of the ref, and none once the preview
    is unmounted. *)

From stdpp Require Import base list.
From Stdlib Require Import String QArith.
From S2P Require Import Prelude Route.

Local Open Scope nat_scope.

Record preview_props : Type := mkPreviewProps {
  pp_center : option latlng;
  pp_radius : Q;
  pp_visible : bool;
  pp_color : string
}.

(** React compares the dependencies one by one; the centre is the same
    state object until the dialog's location changes, so it is compared
    by value. *)
#[local] Instance preview_props_eq_dec : EqDecision preview_props.
Proof. solve_decision. Defined.

(** The circles on the map are the objects [L.circle(...)] returned,
    numbered in creation order. *)
Record preview_state : Type := mkPreview {
  map_layers : list nat;
  circleRef : option nat;
  next_circle : nat;
  cleanup_pending : bool;
  mounted : option preview_props
}.

Definition initial_preview : preview_state := mkPreview [] None 0 false None.

(** [map.removeLayer(layer)] *)
Definition removeLayer (c : nat) (l : list nat) : list nat := List.filter (fun x => negb (x =? c)) l.

(** The body of the first effect; [!radius] holds of 0. *)
Definition preview_effect (p : preview_props) (s : preview_state) : preview_state :=
  if negb (pp_visible p) || negb (bool_decide (is_Some (pp_center p))) || Qeq_bool (pp_radius p) 0
  then
    match circleRef s with
    | Some c => mkPreview (removeLayer c (map_layers s)) None (next_circle s) false (mounted s)
    | None => mkPreview (map_layers s) None (next_circle s) false (mounted s)
    end
  else
    let layers := match circleRef s with
                  | Some c => removeLayer c (map_layers s)
                  | None => map_layers s
                  end in
    mkPreview (next_circle s :: layers) (Some (next_circle s)) (S (next_circle s)) true
      (mounted s).

(** The cleanup the first effect returns, when it returned one. *)
Definition preview_cleanup (s : preview_state) : preview_state :=
  if cleanup_pending s then
    match circleRef s with
    | Some c => mkPreview (removeLayer c (map_layers s)) None (next_circle s) false (mounted s)
    | None => mkPreview (map_layers s) (circleRef s) (next_circle s) false (mounted s)
    end
  else s.

(** The cleanup of the second effect: it removes the circle but leaves
    the ref. *)
Definition unmount_cleanup (s : preview_state) : preview_state :=
  match circleRef s with
  | Some c => mkPreview (removeLayer c (map_layers s)) (circleRef s) (next_circle s)
                (cleanup_pending s) (mounted s)
  | None => s
  end.

Definition set_mounted (m : option preview_props) (s : preview_state) : preview_state :=
  mkPreview (map_layers s) (circleRef s) (next_circle s) (cleanup_pending s) m.

Inductive preview_event : Type :=
| PMount (p : preview_props)
| PRender (p : preview_props)
| PUnmount.

(** [showRatingModal && ratingLocation && <RadiusPreview .../>] mounts and
    unmounts the component; a render with new props reruns the first
    effect after its cleanup, a render with the same props runs nothing. *)
Definition preview_step (e : preview_event) (s : preview_state) : preview_state :=
  match e, mounted s with
  | PMount p, None => preview_effect p (set_mounted (Some p) s)
  | PRender p, Some q =>
      if decide (p = q) then s else preview_effect p (set_mounted (Some p) (preview_cleanup s))
  | PUnmount, Some _ => set_mounted None (unmount_cleanup (preview_cleanup s))
  | _, _ => s
  end.

Definition run_preview (es : list preview_event) (s : preview_state) : preview_state :=
  fold_left (fun s e => preview_step e s) es s.

(** ** The layers stay those of the ref *)

(** The map holds exactly the circle of the ref; a circle in the ref has
    its cleanup registered; an unmounted preview has no circle. *)
Definition preview_inv (s : preview_state) : Prop :=
  map_layers s = match circleRef s with Some c => [c] | None => [] end /\
  (is_Some (circleRef s) -> cleanup_pending s = true) /\
  (mounted s = None -> circleRef s = None).

Lemma removeLayer_self c : removeLayer c [c] = [].
Proof. simpl. by rewrite Nat.eqb_refl. Qed.

Lemma preview_effect_inv p s :
  preview_inv s -> is_Some (mounted s) -> preview_inv (preview_effect p s).
Proof.
  intros (Hl & Hc & Hm) [q Hq]. unfold preview_effect.
  destruct (circleRef s) as [c|]; rewrite Hl; case_match; split_and!; simpl;
    rewrite ?Nat.eqb_refl, ?Hq; try done; by intros [? ?].
Qed.

(** The cleanup clears the ref. *)
Lemma preview_cleanup_inv s :
  preview_inv s -> map_layers (preview_cleanup s) = [] /\ circleRef (preview_cleanup s) = None.
Proof.
  intros (Hl & Hc & Hm). unfold preview_cleanup.
  destruct (circleRef s) as [c|] eqn:E.
  - rewrite Hc by done. simpl. rewrite Hl. simpl. by rewrite Nat.eqb_refl.
  - by destruct (cleanup_pending s).
Qed.

Lemma preview_step_inv e s : preview_inv s -> preview_inv (preview_step e s).
Proof.
  intros Hs. unfold preview_step. destruct e as [p|p|], (mounted s) as [q|] eqn:Em; try done.
  - apply preview_effect_inv; [|by eexists]. destruct Hs as (Hl & Hc & Hm). by split_and!.
  - case_decide; [done|]. apply preview_effect_inv; [|by eexists].
    destruct (preview_cleanup_inv s Hs) as [Hl Hr].
    split_and!; simpl; rewrite ?Hl, ?Hr; try done; by intros [? ?].
  - destruct (preview_cleanup_inv s Hs) as [Hl Hr]. unfold unmount_cleanup. rewrite Hr.
    split_and!; simpl; rewrite ?Hl, ?Hr; try done; by intros [? ?].
Qed.

(** The radius preview never leaves a second circle on the map: after
    any sequence of mounts, renders and unmounts, the map holds at most
    the one circle of the ref, and none after an unmount. *)
Lemma preview_single_circle es :
  List.length (map_layers (run_preview es initial_preview)) <= 1 /\
  (mounted (run_preview es initial_preview) = None ->
   map_layers (run_preview es initial_preview) = []).
Proof.
  assert (H : forall s, preview_inv s -> preview_inv (run_preview es s)).
  { induction es as [|e es IH]; intros s Hs; [done|]. apply IH, preview_step_inv, Hs. }
  destruct (H initial_preview) as (Hl & _ & Hm); [split_and!; [done|by intros [? ?]|done]|].
  rewrite Hl. split; [destruct (circleRef _); simpl; lia|]. intros Hn. by rewrite (Hm Hn).
Qed.
