(* ===== verification/MapView.v ===== *)
(** * MapView: what the SafetyMap page shows, and React's render cycle

    The markup [SafetyMap] returns (SafetyMap.jsx 1003-1946) as data:
    the controls above the map, the banners, the layers of the
    [MapContainer] in the order the JSX lists them, the rating dialog,
    the statistics cards and the incident dialog.  Styles, icons and
    colours of markers are left out; what is kept is which element is
    drawn, where, and with which numbers and texts.

    The second part runs the page the way React does: a state update
    schedules a render; a render creates a new [onRouteCalculated]
    arrow (the JSX passes an inline function) and commits the effect of
    [RoutePlanner] (SafetyMap.jsx 309-360) when one of its dependencies
    [[start, end, dangerZones, onRouteCalculated]] differs from those of
    its last run.  The model compares the points and circles by value,
    where React compares the objects by identity, so it reruns the
    effect at most as often as React does.  The effect's awaits only
    wait for OSRM and are run to their end within the commit. *)

From stdpp Require Import base list strings.
From Stdlib Require Import String ZArith QArith.
From S2P Require Import Prelude Schema Zones Route Api MapClient MapWidgets.

(** ** The layers of the map *)

(** The popup of a zone marker. *)
Record zone_popup : Type := mkZonePopup {
  zp_name : string;
  zp_communityRated : bool;
  zp_rating : Q;
  zp_totalRatings : Z;
  zp_count : option Z;
  zp_added : bool
}.

(** [zone.volunteers] is printed under a safe zone and [zone.incidents]
    under a danger zone ([undefined] prints nothing); the line
    [Added: ...] needs a [createdAt], which only the zones the client
    made itself carry. *)
Definition zone_popup_of (danger : bool) (z : client_zone) : zone_popup :=
  match z with
  | CZServer v =>
      mkZonePopup (zv_name v) (zv_isUserCreated v) (inject_Z (zv_rating v)) (zv_totalRatings v)
        (if danger then zv_incidents v else zv_volunteers v) false
  | CZLocal l =>
      mkZonePopup (lz_name l) true (lz_rating l) 1%Z (Some (if danger then 1 else 0))%Z true
  end.

(** The popup of the route: its title and warning follow
    [isRouteDetoured]. *)
Record route_popup : Type := mkRoutePopup {
  rp_detoured : bool;
  rp_distance : option Z;
  rp_time : option Z;
  rp_score : option Z
}.

Inductive overlay : Type :=
| OCrosshair (at_ : latlng)
| ORoute (positions : list latlng) (color : string) (dashArray : option string) (popup : route_popup)
| OPin (pin : client_pin)
| OUserCircle (center : latlng) (radius : Z)
| OUserMarker (at_ : latlng)
| ODestination (at_ : latlng)
| OSafeZone (c : circle) (popup : zone_popup)
| ODangerZone (c : circle) (popup : zone_popup)
| OVolunteer (v : map_volunteer)
| ORadiusPreview (p : preview_props).

(** [route && route.length > 0 && <Polyline .../>] *)
Definition route_layer (s : map_state) : list overlay :=
  match route s with
  | Some ((_ :: _) as r) =>
      [ORoute r (if isRouteDetoured s then "#ff6b9d" else "#2196F3")
         (if isRouteDetoured s then Some "10, 5" else None)
         (mkRoutePopup (isRouteDetoured s) (distance s) (estimatedTime s) (routeSafetyScore s))]
  | _ => []
  end.

(** The props of [RadiusPreview], mounted by [showRatingModal &&
    ratingLocation]. *)
Definition preview_of (s : map_state) : option preview_props :=
  if showRatingModal s
  then (fun '(c, _) => mkPreviewProps (Some c) (customRadius s) (showRatingModal s) "#667eea")
         <$> ratingLocation s
  else None.

(** The children of [MapContainer], in order.  A dropped pin is drawn
    when [Number(pin.lat)] and [Number(pin.lng)] are numbers, which the
    coordinates of every pin the client holds are. *)
Definition map_overlays (s : map_state) : list overlay :=
  (if isPinDropMode s then from_option (fun c => [OCrosshair c]) [] (mapCenter s) else []) ++
  route_layer s ++
  map OPin (droppedPins s) ++
  from_option (fun u => [OUserCircle u 50%Z; OUserMarker u]) [] (userLocation s) ++
  from_option (fun d => [ODestination d]) [] (destination s) ++
  map (fun z => OSafeZone (zone_circle z) (zone_popup_of false z)) (fst (visible_zones s)) ++
  map (fun z => ODangerZone (zone_circle z) (zone_popup_of true z)) (snd (visible_zones s)) ++
  (if String.eqb (selectedFilter s) "all" then map OVolunteer (volunteers s) else []) ++
  from_option (fun p => [ORadiusPreview p]) [] (preview_of s).

(** The circles [RoutePlanner] receives as [dangerZones={mapData.dangerZones}],
    whatever the filter. *)
Definition planner_zones (s : map_state) : list circle := map zone_circle (dangerZonesOf s).

(** ** The rest of the page *)

(** The rating dialog: [Radius: {customRadius}m], the slider at
    [customRadius], and the buttons 1 to 5, each [rateAreaWithRadius]. *)
Record rating_modal : Type := mkRatingModal {
  rm_radius : Q;
  rm_ratings : list Z
}.

Record stats_cards : Type := mkStatsCards {
  sc_safe : nat;
  sc_danger : nat;
  sc_activeVolunteers : nat;
  sc_tracking : string
}.

Record map_page : Type := mkMapPage {
  mp_locateButton : string;
  mp_locateEnabled : bool;
  mp_pinButton : string;
  mp_dropAtCenter : bool;
  mp_suggestions : list string;
  mp_rateMyArea : bool;
  mp_pinHint : bool;
  mp_routeBanner : option route_banner;
  mp_pinLabel : option (Z * Z);
  mp_center : latlng;
  mp_overlays : list overlay;
  mp_ratingModal : option rating_modal;
  mp_stats : stats_cards;
  mp_incidentModal : option (option latlng)
}.

(** [distance && estimatedTime ? 'Route planned • ...' : 'Route
    planning...']: [distance] is the string of [toFixed(2)], never
    empty once set, and a time of 0 minutes is falsy. *)
Definition page_banner (s : map_state) : route_banner :=
  match distance s, estimatedTime s with
  | Some d, Some t => if Z.eqb t 0 then RoutePlanning else RoutePlanned d t
  | _, _ => RoutePlanning
  end.

Definition map_render (s : map_state) : map_page :=
  mkMapPage
    (if isTracking s then "Getting Location..." else "My Location")
    (negb (isTracking s))
    (if isPinDropMode s then "Cancel" else "Drop Pin")
    (isPinDropMode s)
    (if showSuggestions s && negb (bool_decide (searchSuggestions s = [])) then searchSuggestions s else [])
    (bool_decide (is_Some (userLocation s)))
    (isPinDropMode s)
    (if bool_decide (is_Some (userLocation s)) && bool_decide (is_Some (destination s))
     then Some (page_banner s) else None)
    (if isPinDropMode s then (fun c => (toFixed 6 (lat c), toFixed 6 (lng c))) <$> mapCenter s else None)
    (from_option id jalandhar_center (userLocation s))
    (map_overlays s)
    (if showRatingModal s then Some (mkRatingModal (customRadius s) [1; 2; 3; 4; 5]%Z) else None)
    (mkStatsCards (List.length (safeZonesOf s)) (List.length (dangerZonesOf s))
       (List.length (List.filter (fun v => String.eqb (mv_status v) "online") (volunteers s)))
       (if bool_decide (is_Some (userLocation s)) then "ON" else "OFF"))
    (if showIncidentReporting s then Some (userLocation s) else None).

(** ** React's render cycle *)

Section Cycle.
Context `{Backend} `{Distance} `{RoutingProvider}.

(** What React keeps of the page between renders: the world the
    handlers run on; the number of renders so far (render [n] creates
    the [n]-th [onRouteCalculated] arrow); the dependencies the effect
    of [RoutePlanner] last ran with ([None] while it is unmounted);
    whether a state update waits for a render; and the legs asked of
    OSRM so far. *)
Record page : Type := mkPage {
  pg_world : world;
  pg_renders : nat;
  pg_planner : option (latlng * latlng * list circle * nat);
  pg_dirty : bool;
  pg_legs : list leg
}.

(** The dependencies of the effect at render [n]: [RoutePlanner] is
    mounted by [userLocation && destination]. *)
Definition planner_deps (s : map_state) (n : nat) : option (latlng * latlng * list circle * nat) :=
  match userLocation s, destination s with
  | Some a, Some b => Some (a, b, planner_zones s, n)
  | _, _ => None
  end.

Definition with_ui (f : map_state -> map_state) (w : world) : world :=
  mkWorld (f (w_ui w)) (w_srv w) (w_timers w).

(** A render and its commit.  When the effect runs and reaches
    [onRouteCalculated], [setRoute] receives the fresh array of this
    calculation, so another render is scheduled. *)
Definition render (p : page) : page :=
  let n := S (pg_renders p) in
  let w := pg_world p in
  match planner_deps (w_ui w) n with
  | None => mkPage w n None false (pg_legs p)
  | Some d =>
      if decide (Some d = pg_planner p) then mkPage w n (pg_planner p) false (pg_legs p)
      else
        match routePlanner (userLocation (w_ui w)) (destination (w_ui w)) (planner_zones (w_ui w))
                (pg_legs p) with
        | (inr (Some info), legs) => mkPage (with_ui (onRouteCalculated info) w) n (Some d) true legs
        | (_, legs) => mkPage w n (Some d) false legs
        end
  end.

(** React renders while an update waits. *)
Definition settle_step (p : page) : page := if pg_dirty p then render p else p.

(** An event of the page: its handler runs, and its state updates
    schedule a render. *)
Definition page_event (e : map_event) (p : page) : page :=
  mkPage (client_step e (pg_world p)) (pg_renders p) (pg_planner p) true (pg_legs p).

(** The effect last ran with an arrow of an earlier render. *)
Definition planner_fresh (p : page) : Prop :=
  forall a b zs m, pg_planner p = Some (a, b, zs, m) -> (m <= pg_renders p)%nat.

End Cycle.

(** ** Lemmas *)

(** Take apart a hypothesis [In o l] where [l] is built of the layers of
    the map. *)
Ltac in_layers :=
  repeat match goal with
  | H : In _ (_ ++ _) |- _ => apply in_app_iff in H as [H|H]
  | H : In _ (map _ _) |- _ => apply in_map_iff in H as (? & H & ?)
  | H : In _ [] |- _ => destruct H
  | H : In _ (_ :: _) |- _ => destruct H as [H|H]
  | H : _ \/ _ |- _ => destruct H as [H|H]
  | H : False |- _ => destruct H
  | H : In _ (if ?b then _ else _) |- _ => destruct b; simpl in H
  | H : In _ (from_option _ _ (_ <$> ?o)) |- _ => destruct o as [[]|]; simpl in H
  | H : In _ (from_option _ _ (match ?o with _ => _ end)) |- _ => destruct o; simpl in H
  | H : In _ (from_option _ _ ?o) |- _ => destruct o; simpl in H
  | H : In _ (match ?o with _ => _ end) |- _ => destruct o; simpl in H
  end; try discriminate.

Lemma visible_danger_sub s z : In z (snd (visible_zones s)) -> In z (dangerZonesOf s).
Proof. unfold visible_zones. simpl. case_match; [done|by intros []]. Qed.

(** The banner the page shows after [onRouteCalculated] is the one of
    [Route.banner] for the route calculated. *)
Lemma page_banner_after_route info s : page_banner (onRouteCalculated info s) = banner (Some info).
Proof. reflexivity. Qed.

(** The danger circles drawn are among those the planner avoids. *)
Lemma drawn_danger_in_planner s c pp :
  In (ODangerZone c pp) (map_overlays s) -> In c (planner_zones s).
Proof.
  unfold map_overlays, route_layer, preview_of, planner_zones. intros H.
  in_layers. simplify_eq. by apply in_map, visible_danger_sub.
Qed.

Section Cycle_lemmas.
Context `{Backend} `{Distance} `{RoutingProvider}.

Lemma onRouteCalculated_keeps_planner info s :
  userLocation (onRouteCalculated info s) = userLocation s /\
  destination (onRouteCalculated info s) = destination s /\
  planner_zones (onRouteCalculated info s) = planner_zones s.
Proof. done. Qed.

(** With both points set and a provider that answers with a point, a
    render always reruns the effect, which calls [onRouteCalculated]
    after asking the planner's legs. *)
Lemma render_replans p a b :
  planner_fresh p ->
  userLocation (w_ui (pg_world p)) = Some a -> destination (w_ui (pg_world p)) = Some b ->
  real_route a b <> [] ->
  exists info,
    render p = mkPage (with_ui (onRouteCalculated info) (pg_world p)) (S (pg_renders p))
                 (Some (a, b, planner_zones (w_ui (pg_world p)), S (pg_renders p))) true
                 (pg_legs p ++ planner_legs (planner_zones (w_ui (pg_world p))) a b).
Proof.
  intros Hf Ha Hb Hne. unfold render, planner_deps. rewrite Ha, Hb.
  rewrite decide_False; last first.
  { intros Heq. specialize (Hf _ _ _ _ (eq_sym Heq)). lia. }
  destruct (routePlanner_run a b (planner_zones (w_ui (pg_world p))) (pg_legs p) Hne) as [info E].
  rewrite E. by exists info.
Qed.

(** One settling render from a page that waits for one: the effect
    reruns, keeps both points and the zones, and schedules the next
    render. *)
Lemma settle_replans p a b :
  planner_fresh p -> pg_dirty p = true ->
  userLocation (w_ui (pg_world p)) = Some a -> destination (w_ui (pg_world p)) = Some b ->
  real_route a b <> [] ->
  let p' := settle_step p in
  planner_fresh p' /\ pg_dirty p' = true /\
  userLocation (w_ui (pg_world p')) = Some a /\ destination (w_ui (pg_world p')) = Some b /\
  planner_zones (w_ui (pg_world p')) = planner_zones (w_ui (pg_world p)) /\
  pg_legs p' = pg_legs p ++ planner_legs (planner_zones (w_ui (pg_world p))) a b.
Proof.
  intros Hf Hd Ha Hb Hne. unfold settle_step. rewrite Hd.
  destruct (render_replans p a b Hf Ha Hb Hne) as [info ->]. cbn -[planner_zones].
  split_and!; try done. intros ? ? ? ? [= _ _ _ <-]. done.
Qed.

End Cycle_lemmas.

(** ** Claims *)

Section Claims.
Context `{Backend} `{Distance} `{RoutingProvider}.

(** C18. The route is planned again after every render, for
    ever.  [RoutePlanner]'s effect depends on [onRouteCalculated], an
    arrow the JSX creates anew at each render, and the callback's
    [setRoute] receives the fresh array of each calculation, which
    schedules another render.  So from a page with a location and a
    destination (and a provider that answers with a point), with no
    event at all, every one of the next [k] renders reruns the whole
    planner: the page never settles, and after [k] renders it has asked
    OSRM for the planner's legs [k] more times. *)
Theorem route_replanned_forever p a b k :
  planner_fresh p -> pg_dirty p = true ->
  userLocation (w_ui (pg_world p)) = Some a -> destination (w_ui (pg_world p)) = Some b ->
  real_route a b <> [] ->
  pg_dirty (Nat.iter k settle_step p) = true /\
  pg_legs (Nat.iter k settle_step p) =
    pg_legs p ++ List.concat (List.repeat (planner_legs (planner_zones (w_ui (pg_world p))) a b) k).
Proof.
  intros Hf Hd Ha Hb Hne.
  enough (G : let p' := Nat.iter k settle_step p in
              planner_fresh p' /\ pg_dirty p' = true /\
              userLocation (w_ui (pg_world p')) = Some a /\ destination (w_ui (pg_world p')) = Some b /\
              planner_zones (w_ui (pg_world p')) = planner_zones (w_ui (pg_world p)) /\
              pg_legs p' = pg_legs p ++ List.concat (List.repeat (planner_legs (planner_zones (w_ui (pg_world p))) a b) k))
    by (destruct G as (_ & ? & _ & _ & _ & ?); done).
  induction k as [|k IH]; [simpl; by rewrite app_nil_r|].
  rewrite Nat.iter_succ. destruct IH as (Hf' & Hd' & Ha' & Hb' & Hz & Hl).
  destruct (settle_replans _ a b Hf' Hd' Ha' Hb' Hne) as (? & ? & ? & ? & Hz' & Hl').
  split_and!; try done; [congruence|].
  rewrite Hl', Hl, Hz, <- app_assoc. f_equal. apply concat_repeat_snoc.
Qed.

(** Clearing the route stops the planning: the render that
    follows [Clear Route] unmounts [RoutePlanner], asks OSRM nothing,
    and leaves the page with no render pending. *)
Theorem clear_route_settles p :
  let p1 := settle_step (page_event EvClearRoute p) in
  pg_dirty p1 = false /\ pg_legs p1 = pg_legs p /\ pg_planner p1 = None /\ settle_step p1 = p1.
Proof.
  unfold settle_step, page_event, render, planner_deps. simpl.
  by destruct (userLocation _).
Qed.

(** C24. The map never shows a volunteer.  [mapData.volunteers] starts
    empty and every [setMapData] of SafetyMap spreads the previous
    value, so after any sequence of events, with any backend, the card
    [Active Volunteers] reads 0 and no volunteer marker is drawn. *)
Theorem volunteers_never_shown es w :
  volunteers (w_ui w) = [] ->
  let page := map_render (w_ui (run_events es w)) in
  sc_activeVolunteers (mp_stats page) = 0%nat /\ forall v, ~ In (OVolunteer v) (mp_overlays page).
Proof.
  intros Hv. pose proof (frame_run_events es w) as E. injection E as Ev _ _.
  simpl. rewrite Ev, Hv. split; [done|]. intros v Hin.
  unfold map_overlays, route_layer, preview_of in Hin. rewrite Ev, Hv in Hin. in_layers.
Qed.

(** C25. The radius preview shows a radius of the slider.  From a
    page whose radius is a position of the slider (the first render's
    200 is), after any sequence of events, a radius preview drawn on the
    map has a radius between 50 and 500 metres, a multiple of 25. *)
Theorem preview_radius_on_slider es w pp :
  on_slider (customRadius (w_ui w)) ->
  In (ORadiusPreview pp) (map_overlays (w_ui (run_events es w))) -> on_slider (pp_radius pp).
Proof.
  intros Hw Hin. pose proof (radius_run_events es w Hw) as Hr.
  unfold map_overlays, route_layer, preview_of in Hin. in_layers. simplify_eq. exact Hr.
Qed.

(** The red circles are those the planner avoids: every danger circle
    drawn is one [RoutePlanner] receives, and with the filter [all] each
    danger zone the planner avoids is drawn. *)
Theorem danger_layers_match_planner s :
  (forall c pp, In (ODangerZone c pp) (map_overlays s) -> In c (planner_zones s)) /\
  (selectedFilter s = "all" -> forall z, In z (dangerZonesOf s) ->
     In (ODangerZone (zone_circle z) (zone_popup_of true z)) (map_overlays s)).
Proof.
  split; [apply drawn_danger_in_planner|]. intros Hf z Hz.
  unfold map_overlays. rewrite !in_app_iff. do 6 right; left.
  unfold visible_zones. rewrite Hf. simpl.
  by apply (in_map (fun z => ODangerZone (zone_circle z) (zone_popup_of true z))).
Qed.

(** The filter [safe] hides every danger zone, though [RoutePlanner]
    still receives them all ([planner_zones] does not read the filter). *)
Theorem filter_hides_avoided_zones s :
  selectedFilter s = "safe" -> forall c pp, ~ In (ODangerZone c pp) (map_overlays s).
Proof.
  intros Hf c pp Hin. unfold map_overlays, route_layer, preview_of, visible_zones in Hin.
  rewrite Hf in Hin. simpl in Hin. in_layers.
Qed.
End Claims.

(** ** The claims on concrete pages *)

Module Demo_page.
#[local] Existing Instance server_backend.
#[local] Existing Instance Demo.demo_distance.
#[local] Existing Instance Demo.demo_provider.

(** The page of a user at [demo_start] who asked for a route to
    [demo_end], before its first render. *)
Definition route_world : world :=
  mkWorld (set_destination (Some Demo.demo_end)
             (set_userLocation (Some Demo.demo_start) (initial_map_state None None)))
    (mkServer empty_db 0) [].

Definition route_page : page := mkPage route_world 0 None true [].

Lemma route_replanned_forever_witness :
  planner_fresh route_page /\
  pg_dirty (Nat.iter 3 settle_step route_page) = true /\
  pg_legs (Nat.iter 3 settle_step route_page) =
    [(Demo.demo_start, Demo.demo_end); (Demo.demo_start, Demo.demo_end);
     (Demo.demo_start, Demo.demo_end)].
Proof.
  assert (Hf : planner_fresh route_page) by (intros ? ? ? ? Hp; discriminate Hp).
  assert (Hne : real_route Demo.demo_start Demo.demo_end <> []) by (vm_compute; discriminate).
  destruct (route_replanned_forever route_page Demo.demo_start Demo.demo_end 3 Hf eq_refl eq_refl
              eq_refl Hne) as [Hd Hl].
  split_and!; [exact Hf|exact Hd|]. rewrite Hl. reflexivity.
Defined.

Definition first_world : world := mkWorld (initial_map_state None None) (mkServer empty_db 0) [].

Lemma volunteers_never_shown_witness :
  volunteers (w_ui first_world) = [] /\
  sc_activeVolunteers (mp_stats (map_render (w_ui (run_events [EvLoad; EvFilter "all"] first_world)))) = 0%nat.
Proof.
  assert (Hv : volunteers (w_ui first_world) = []) by reflexivity.
  split; [exact Hv|]. exact (proj1 (volunteers_never_shown [EvLoad; EvFilter "all"] first_world Hv)).
Defined.

Definition demo_pin : client_pin := mkClientPin 7 1 2.

Definition slider_preview : preview_props :=
  mkPreviewProps (Some (mkLatLng 1 2)) (inject_Z 475) true "#667eea".

Lemma preview_radius_on_slider_witness :
  on_slider (customRadius (w_ui first_world)) /\ on_slider (pp_radius slider_preview).
Proof.
  assert (H0 : on_slider (customRadius (w_ui first_world))) by (exists 6%Z; split; [lia|reflexivity]).
  split; [exact H0|].
  apply (preview_radius_on_slider [EvRatePin demo_pin; EvSetRadius 480] first_world slider_preview H0).
  assert (E : map_overlays (w_ui (run_events [EvRatePin demo_pin; EvSetRadius 480] first_world)) =
              [ORadiusPreview slider_preview]) by (vm_compute; reflexivity).
  rewrite E. left. reflexivity.
Defined.
End Demo_page.
