(* ===== verification/IncidentUI.v ===== *)
(** * IncidentUI: the incident screen of the client

    [IncidentReporting] (IncidentReporting.jsx) has three tabs: a form that
    reports an incident, the list of community reports, and the pending
    incidents with the buttons Approve, Reject and Resolve.  Its state is
    the record [ir_state]; a handler runs on it together with the
    backend's state, in the state monad of the Prelude, its [try ...
    catch] blocks as [st_catch].

    The number inputs of the form hold a number or are empty ([None]);
    the browser submits the form only when the [required] inputs are
    filled.  Every volunteer action of this screen is sent with the fixed
    [volunteerId: 'volunteer_user'].

    The theorems connect the screen to the server of server.js: a report
    of the type 'broken_infrastructure' never reaches the table although
    the screen announces it, and the actions of this screen can never
    approve or reject an incident. *)

From stdpp Require Import base list strings pretty gmap.
From Stdlib Require Import String Ascii ZArith QArith.
From S2P Require Import Prelude Sql Schema Incidents Reports Quorum Zones Server Route Api Screen.

Local Open Scope gd_scope.

(** The component's functions, under its name: [getStatusColor] and the
    loaders have namesakes in the other screens. *)
Module IncidentReporting.

(** ** State *)

(** The report form: [lat] and [lng] are the values of number inputs. *)
Record report_form : Type := mkReportForm {
  rf_type : string;
  rf_description : string;
  rf_severity : string;
  rf_lat : option Q;
  rf_lng : option Q
}.

(** [userLocation?.lat || '']: a coordinate of 0 is falsy and leaves the
    input empty. *)
Definition js_coord (q : option Q) : option Q :=
  match q with
  | Some x => if Qeq_bool x 0 then None else Some x
  | None => None
  end.

Definition initial_report_form (userLocation : option latlng) : report_form :=
  mkReportForm "safety_concern" "" "medium"
    (js_coord (lat <$> userLocation)) (js_coord (lng <$> userLocation)).

(** The options of the Incident Type select. *)
Definition incident_types : list string :=
  ["safety_concern"; "harassment"; "poor_lighting"; "broken_infrastructure";
   "suspicious_activity"; "other"].

Inductive ir_alert : Type :=
| ReportSuccess
| ReportError
| ActionSuccess (actionText : string)
| ActionError.

Record ir_state : Type := mkIRState {
  ir_activeTab : string;
  ir_incidents : list incident_view;
  ir_pending : list pending_view;
  ir_loading : bool;
  ir_form : report_form;
  ir_userLocation : option latlng;
  ir_alerts : list ir_alert
}.

Definition initial_ir_state (userLocation : option latlng) : ir_state :=
  mkIRState "report" [] [] false (initial_report_form userLocation) userLocation [].

Definition set_ir_activeTab v s :=
  mkIRState v (ir_incidents s) (ir_pending s) (ir_loading s) (ir_form s) (ir_userLocation s) (ir_alerts s).
Definition set_ir_incidents v s :=
  mkIRState (ir_activeTab s) v (ir_pending s) (ir_loading s) (ir_form s) (ir_userLocation s) (ir_alerts s).
Definition set_ir_pending v s :=
  mkIRState (ir_activeTab s) (ir_incidents s) v (ir_loading s) (ir_form s) (ir_userLocation s) (ir_alerts s).
Definition set_ir_loading v s :=
  mkIRState (ir_activeTab s) (ir_incidents s) (ir_pending s) v (ir_form s) (ir_userLocation s) (ir_alerts s).
Definition set_ir_form v s :=
  mkIRState (ir_activeTab s) (ir_incidents s) (ir_pending s) (ir_loading s) v (ir_userLocation s) (ir_alerts s).
Definition push_ir_alert a s :=
  mkIRState (ir_activeTab s) (ir_incidents s) (ir_pending s) (ir_loading s) (ir_form s)
    (ir_userLocation s) (ir_alerts s ++ [a]).

(** ** Requests *)

(** The browser's check of the [required] inputs. *)
Definition form_complete (f : report_form) : bool :=
  bool_decide (rf_description f <> "") && bool_decide (is_Some (rf_lat f)) &&
  bool_decide (is_Some (rf_lng f)).

(** [incidentData], as the server destructures it. *)
Definition incident_request (now : Z) (f : report_form) : incident_body :=
  mkIncidentBody (Val ("incident-" +:+ pretty now)) (Val (rf_type f))
    (match rf_lat f with Some q => Val q | None => Null end)
    (match rf_lng f with Some q => Val q | None => Null end)
    (Val (rf_description f)) (Val (rf_severity f)) (Val "current_user").

(** [{ action, volunteerId: 'volunteer_user', comment }] *)
Definition ui_action_body (action comment : string) : action_body :=
  mkActionBody (Val action) (Val "volunteer_user") (Val comment).

Definition actionText (action : string) : string :=
  if String.eqb action "approve" then "approved"
  else if String.eqb action "reject" then "rejected"
  else "resolved".

(** ** Rendering *)

Definition getSeverityColor (severity : string) : string :=
  match severity with
  | "low" => "#2ed573"
  | "medium" => "#f39c12"
  | "high" => "#ff4757"
  | _ => "#666"
  end.

Definition getStatusColor (status : string) : string :=
  match status with
  | "pending" => "#f39c12"
  | "approved" => "#2ed573"
  | "resolved" => "#666"
  | "rejected" => "#ff4757"
  | _ => "#666"
  end.

(** [toUpperCase], on ASCII. *)
Definition upper_ascii (c : ascii) : ascii :=
  let n := Ascii.nat_of_ascii c in
  if (97 <=? n)%nat && (n <=? 122)%nat then Ascii.ascii_of_nat (n - 32) else c.

Fixpoint toUpperCase (s : string) : string :=
  match s with
  | EmptyString => EmptyString
  | String c s' => String (upper_ascii c) (toUpperCase s')
  end.

(** [s.replace('_', ' ')]: a string pattern replaces its first occurrence
    only. *)
Fixpoint replace_first_underscore (s : string) : string :=
  match s with
  | EmptyString => EmptyString
  | String c s' =>
      if Ascii.eqb c "_" then String " " s' else String c (replace_first_underscore s')
  end.

(** The title of a card: [incident.type.replace('_', ' ').toUpperCase()]. *)
Definition type_title (ty : string) : string := toUpperCase (replace_first_underscore ty).

(** What a card of the community list or of the review list shows (the
    date, shown with [toLocaleString], is left out). *)
Record incident_card : Type := mkCard {
  card_severity : string;
  card_severity_color : string;
  card_status : string;
  card_status_color : string;
  card_title : string;
  card_description : option string;
  card_lat : Z;
  card_lng : Z;
  card_approvals : nat;
  card_rejections : nat
}.

(** A card of the Community Reports tab; coordinates with [toFixed(4)]. *)
Definition community_card (i : incident_view) : incident_card :=
  mkCard (toUpperCase (v_severity i)) (getSeverityColor (v_severity i))
    (toUpperCase (v_status i)) (getStatusColor (v_status i))
    (type_title (v_type i)) (v_description i) (toFixed 4 (v_lat i)) (toFixed 4 (v_lng i))
    (v_approvalCount i) (v_rejectionCount i).

(** A card of the Volunteer Review tab: its status badge is the fixed
    text 'AWAITING REVIEW'. *)
Definition review_card (i : pending_view) : incident_card :=
  mkCard (toUpperCase (pv_severity i)) (getSeverityColor (pv_severity i))
    "AWAITING REVIEW" "#f39c12"
    (type_title (pv_type i)) (pv_description i) (toFixed 4 (pv_lat i)) (toFixed 4 (pv_lng i))
    (pv_approvalCount i) (pv_rejectionCount i).

(** The tab buttons: [{ id, label }]. *)
Definition ir_tabs : list (string * string) :=
  [("report", "Report Incident"); ("community", "Community Reports");
   ("volunteer", "Volunteer Review")].

(** What the content area shows: one block per [activeTab === ...]; a tab
    id that none of them names shows nothing. *)
Inductive ir_screen : Type :=
| ShowForm (form : report_form) (submitLabel : string) (submitDisabled : bool)
| ShowCommunity (cards : list incident_card) (emptyNote : bool)
| ShowReview (cards : list incident_card) (emptyNote : bool)
| ShowNothing.

Definition ir_render (s : ir_state) : ir_screen :=
  if String.eqb (ir_activeTab s) "report" then
    ShowForm (ir_form s) (if ir_loading s then "Submitting..." else "Submit Report")
      (ir_loading s)
  else if String.eqb (ir_activeTab s) "community" then
    ShowCommunity (map community_card (ir_incidents s))
      (Nat.eqb (List.length (ir_incidents s)) 0)
  else if String.eqb (ir_activeTab s) "volunteer" then
    ShowReview (map review_card (ir_pending s)) (Nat.eqb (List.length (ir_pending s)) 0)
  else ShowNothing.

(** ** Handlers *)

(** The screen's world: its state and the backend's. *)
Abbreviation ir_world := (screen ir_state).
Abbreviation IR := (Scr ir_state).

Section Handlers_ops.
Context `{Backend}.

Definition loadIncidents : IR unit :=
  st_catch (do data <- scr_call ApiService.fetchIncidents; scr_set (set_ir_incidents data))
           (fun _ => st_ret tt).

Definition loadPendingIncidents : IR unit :=
  st_catch (do data <- scr_call ApiService.fetchPendingIncidents; scr_set (set_ir_pending data))
           (fun _ => st_ret tt).

(** [handleSubmitReport], once the browser let the form through: the
    submit button is [disabled={loading}] and the inputs are [required]. *)
Definition handleSubmitReport (now : Z) : IR unit :=
  do s <- scr_get;
  if ir_loading s || negb (form_complete (ir_form s)) then st_ret tt
  else
    scr_set (set_ir_loading true) ;;;
    st_catch
      (scr_call (ApiService.createIncident (incident_request now (ir_form s))) ;;;
       scr_set (set_ir_form (initial_report_form (ir_userLocation s))) ;;;
       loadIncidents ;;;
       loadPendingIncidents ;;;
       scr_set (push_ir_alert ReportSuccess))
      (fun _ => scr_set (push_ir_alert ReportError)) ;;;
    scr_set (set_ir_loading false).

Definition handleVolunteerAction (incidentId action comment : string) : IR unit :=
  st_catch
    (scr_call (ApiService.volunteerAction incidentId (ui_action_body action comment)) ;;;
     loadIncidents ;;;
     loadPendingIncidents ;;;
     scr_set (push_ir_alert (ActionSuccess (actionText action))))
    (fun _ => scr_set (push_ir_alert ActionError)).

End Handlers_ops.

(** ** Events *)

Inductive ir_event : Type :=
| IRMount
| IRTab (tab : string)
| IRType (v : string)
| IRSeverity (v : string)
| IRDescription (v : string)
| IRLat (v : option Q)
| IRLng (v : option Q)
| IRSubmit (now : Z)
| IRApprove (incidentId : string)
| IRReject (incidentId : string)
| IRResolve (incidentId : string).

Definition with_form (g : report_form -> report_form) (s : ir_state) : ir_state :=
  set_ir_form (g (ir_form s)) s.

Section Step.
Context `{Backend}.

Definition ir_handler (e : ir_event) : IR unit :=
  match e with
  | IRMount => loadIncidents ;;; loadPendingIncidents
  | IRTab t => scr_set (set_ir_activeTab t)
  | IRType v => scr_set (with_form (fun f =>
      mkReportForm v (rf_description f) (rf_severity f) (rf_lat f) (rf_lng f)))
  | IRSeverity v => scr_set (with_form (fun f =>
      mkReportForm (rf_type f) (rf_description f) v (rf_lat f) (rf_lng f)))
  | IRDescription v => scr_set (with_form (fun f =>
      mkReportForm (rf_type f) v (rf_severity f) (rf_lat f) (rf_lng f)))
  | IRLat v => scr_set (with_form (fun f =>
      mkReportForm (rf_type f) (rf_description f) (rf_severity f) v (rf_lng f)))
  | IRLng v => scr_set (with_form (fun f =>
      mkReportForm (rf_type f) (rf_description f) (rf_severity f) (rf_lat f) v))
  | IRSubmit now => handleSubmitReport now
  | IRApprove id => handleVolunteerAction id "approve" ""
  | IRReject id => handleVolunteerAction id "reject" ""
  | IRResolve id => handleVolunteerAction id "resolve" ""
  end.

Definition ir_step (e : ir_event) (w : ir_world) : ir_world := snd (ir_handler e w).

(** A session on the screen: its events, one after the other. *)
Definition run_ir (es : list ir_event) (w : ir_world) : ir_world := run_screen ir_handler es w.

End Step.

End IncidentReporting.
Import IncidentReporting.

(** ** The screen against the server of server.js *)

Local Open Scope nat_scope.

(** The volunteer of every action of the screen. *)
Definition screen_volunteer : string := "volunteer_user".

Definition fixed_volunteer (rows : list approval_row) : Prop :=
  forall r, In r rows -> sql_eq (a_volunteer_id r) screen_volunteer = true.

Definition undecided (d : db) : Prop :=
  forall k r, incidents d !! k = Some r -> i_status r = Pending \/ i_status r = Resolved.

Definition screen_inv (d : db) : Prop :=
  db_wf d /\ fixed_volunteer (incident_approvals d) /\ undecided d.

Lemma fixed_volunteer_counts a id rows :
  unique_keys rows -> fixed_volunteer rows -> count_action a id rows <= 1.
Proof.
  intros U V. rewrite count_action_filter.
  etransitivity; [apply (count_if_mono _ (same_key id screen_volunteer))|apply U].
  intros x Hx [Hi _]%andb_prop. unfold same_key. by rewrite Hi, (V x Hx).
Qed.

Lemma upsert_fixed_volunteer now iid act com d u d1 :
  fixed_volunteer (incident_approvals d) ->
  upsert_approval now iid (Some screen_volunteer) act com d = (inr u, d1) ->
  fixed_volunteer (incident_approvals d1) /\ incidents d1 = incidents d.
Proof.
  intros V H. apply upsert_approval_inr_cases in H as (v & a & c & Hv & H).
  injection Hv as <-. destruct H as [[_ ->]|(_ & _ & ->)]; split; try done; simpl.
  - intros r (y & Hy & [->| ->])%in_update_where; simpl; by apply V.
  - intros r [Hr|[<-|[]]]%in_app_iff; [by apply V|apply sql_eq_refl].
Qed.

Lemma undecided_resolve d now k v :
  undecided d -> undecided (set_incidents d (alter (touch now (set_resolved v)) k (incidents d))).
Proof.
  intros S k' r. simpl. destruct (decide (k' = k)) as [->|Hne].
  - rewrite lookup_alter, decide_True by done. destruct (incidents d !! k); simpl; [|intros [=]].
    intros [= <-]. right. by rewrite touch_status.
  - rewrite lookup_alter_ne by done. apply S.
Qed.

Lemma screen_incidentAction now id act com :
  st_preserves screen_inv (incidentAction now id (ui_action_body act com)).
Proof.
  intros d r d' (W & V & S) H. split; [exact (wf_incidentAction _ _ _ _ _ _ W H)|].
  revert H. unfold incidentAction, st_bind at 1 2 3. cbn -[upsert_approval].
  unfold st_bind at 1.
  destruct (upsert_approval now id (Some "volunteer_user") (Some act) (Some com) d)
    as [[e|u] d1] eqn:U.
  { intros [= _ <-]. apply upsert_approval_inl in U as ->. done. }
  pose proof (wf_upsert _ _ _ _ _ _ _ _ W U) as W1.
  apply upsert_fixed_volunteer in U as [V1 I1]; [|done].
  assert (S1 : undecided d1) by (intros k x; rewrite I1; apply S).
  destruct (String.eqb act "resolve").
  - unfold update_incident, st_bind, st_get, st_put. cbn. intros [= _ <-].
    split; [done|]. by apply undecided_resolve.
  - unfold count_actions, st_bind, st_get, st_ret. cbn -[approvals_of rejections_of quorum Nat.leb].
    assert (Ha : approvals_of id (incident_approvals d1) <= 1)
      by exact (fixed_volunteer_counts _ _ _ (wf_unique _ W1) V1).
    assert (Hj : rejections_of id (incident_approvals d1) <= 1)
      by exact (fixed_volunteer_counts _ _ _ (wf_unique _ W1) V1).
    destruct (approvals_of id _) as [|[|[|?]]]; [..|lia];
      destruct (rejections_of id _) as [|[|[|?]]]; try lia; by intros [= _ <-].
Qed.

Lemma createIncident_status now b d u d' :
  Reports.createIncident now b d = (inr u, d') -> undecided d -> undecided d'.
Proof.
  unfold Reports.createIncident, insert_incident. run_sql.
  repeat (case_match; simplify_eq; try done).
  intros [= _ <-] S k r. simpl. rewrite lookup_insert_Some.
  intros [[_ <-]|[_ Hk]]; [by left|by apply (S k r)].
Qed.

Lemma screen_createIncident now b : st_preserves screen_inv (Reports.createIncident now b).
Proof.
  intros d [e|u] d' (W & V & S) H; [by rewrite (createIncident_inl _ _ _ _ _ H)|].
  split_and!; [exact (wf_createIncident _ _ _ _ _ W H)| |by eapply createIncident_status].
  apply createIncident_inr in H as (k & row & -> & _). done.
Qed.

(** The requests the screen sends. *)
Inductive screen_request : request -> Prop :=
| sr_incidents : screen_request GetIncidents
| sr_pending : screen_request GetPending
| sr_report b : screen_request (PostIncident b)
| sr_action id act com : screen_request (PostAction id (ui_action_body act com)).

#[local] Hint Resolve st_preserves_map screen_incidentAction screen_createIncident : guardaid.

Lemma screen_handle now q : screen_request q -> st_preserves screen_inv (handle now q).
Proof.
  intros []; simpl; unfold handle_get_incidents, handle_get_pending, handle_create_incident,
    handle_incident_action; auto 10 with guardaid.
Qed.

Section Preserve.
Context `{Backend}.
Variable P : bstate -> Prop.
Hypothesis post_incident_ok : forall body b, P b -> P (snd (b_post_incident body b)).
Hypothesis post_action_ok : forall id act com b,
  P b -> P (snd (b_post_action id (ui_action_body act com) b)).

Lemma loads_preserve :
  st_preserves (srv_pred P) loadIncidents /\ st_preserves (srv_pred P) loadPendingIncidents.
Proof.
  unfold loadIncidents, loadPendingIncidents, ApiService.fetchIncidents, ApiService.fetchPendingIncidents.
  split; auto 10 with guardaid.
Qed.

(** The screen changes the backend only by reports and by its own
    actions. *)
Lemma ir_handler_preserves e : st_preserves (srv_pred P) (ir_handler e).
Proof.
  destruct loads_preserve as [L1 L2].
  destruct e; simpl; unfold handleSubmitReport, handleVolunteerAction, ApiService.createIncident,
    ApiService.volunteerAction; auto 20 with guardaid.
Qed.

Lemma run_ir_preserves es w : srv_pred P w -> srv_pred P (run_ir es w).
Proof. apply run_screen_preserves, ir_handler_preserves. Qed.
End Preserve.

Lemma init_undecided now :
  incident_approvals (snd (initDB now empty_db)) = [] /\ incidents (snd (initDB now empty_db)) = ∅.
Proof. split; reflexivity. Qed.

Module WithServer.
#[local] Existing Instance server_backend.

Lemma srv_send_long_type b st ty :
  ib_type b = Val ty -> (20 < char_length ty)%nat ->
  srv_send (PostIncident b) st = (false, mkServer (srv_db st) (S (srv_clock st))).
Proof.
  intros Hty Hl. unfold srv_send. simpl handle. unfold st_map, st_bind.
  by rewrite (create_long_type _ _ _ _ Hty Hl).
Qed.

(** C26. With the server of server.js, submitting a complete report of
    the type 'broken_infrastructure', one of the options of the Incident
    Type select, leaves the incidents table as it was (the type is 21
    characters, wider than [type VARCHAR(20)], so the server answers 500),
    yet the screen's last alert is the success message: [ApiService.createIncident]
    of ApiService returns [null] and does not throw. *)
Theorem broken_infrastructure_reports_fail now w :
  ir_loading (scr_ui w) = false -> form_complete (ir_form (scr_ui w)) = true ->
  rf_type (ir_form (scr_ui w)) = "broken_infrastructure" ->
  srv_db (scr_srv (ir_step (IRSubmit now) w)) = srv_db (scr_srv w) /\
  last (ir_alerts (scr_ui (ir_step (IRSubmit now) w))) = Some ReportSuccess.
Proof.
  destruct w as [[tab inc pend ld f loc als] st]. simpl. intros -> Hc Ht.
  unfold ir_step, ir_handler, handleSubmitReport. cbn -[srv_send form_complete].
  rewrite Hc. unfold st_catch, st_bind, scr_call, scr_set, ApiService.createIncident, ApiService.api_send.
  cbn -[srv_send].
  rewrite (srv_send_long_type _ _ "broken_infrastructure"); [|simpl; by rewrite Ht|simpl; lia].
  cbn. rewrite last_app. done.
Qed.

Lemma srv_send_screen q st :
  screen_request q -> screen_inv (srv_db st) -> screen_inv (srv_db (snd (srv_send q st))).
Proof.
  intros Hq I. unfold srv_send.
  destruct (handle (srv_clock st) q (srv_db st)) as [r d'] eqn:E.
  exact (screen_handle _ _ Hq _ _ _ I E).
Qed.

Lemma init_screen_inv now : screen_inv (snd (initDB now empty_db)).
Proof.
  destruct (init_undecided now) as [HA HI].
  split_and!; [|intros x; rewrite HA; intros []|intros k x; rewrite HI, lookup_empty; intros [=]].
  destruct (initDB now empty_db) as [r d] eqn:E. exact (wf_initDB now _ r d wf_empty E).
Qed.

(** C27. The review tab can never decide an incident.  With the server of
    server.js started by [initDB], after any sequence of events on the
    incident screen (reports, tab changes, approvals, rejections and
    resolutions), every incident is [pending] or [resolved]: each action
    is sent as the same volunteer 'volunteer_user', whose single row per
    incident (the UNIQUE key) never makes a count of 3. *)
Theorem review_never_decides now c s es k r :
  incidents (srv_db (scr_srv (run_ir es (mkScreen s (mkServer (snd (initDB now empty_db)) c)))))
    !! k = Some r ->
  i_status r = Pending \/ i_status r = Resolved.
Proof.
  apply (@run_ir_preserves server_backend (fun st : server_state => screen_inv (srv_db st)));
    [intros; apply srv_send_screen; [constructor|done]..|apply init_screen_inv].
Qed.
(** A broken-infrastructure report typed into a fresh screen. *)
Definition demo_form : report_form :=
  mkReportForm "broken_infrastructure" "Streetlight pole down" "high"
    (Some (313260 # 10000)%Q) (Some (755762 # 10000)%Q).

Definition demo_world : ir_world :=
  mkScreen (set_ir_form demo_form (initial_ir_state None))
    (mkServer (snd (initDB 0 empty_db)) 1).

Lemma broken_infrastructure_reports_fail_witness :
  ir_loading (scr_ui demo_world) = false /\ form_complete (ir_form (scr_ui demo_world)) = true /\
  rf_type (ir_form (scr_ui demo_world)) = "broken_infrastructure" /\
  srv_db (scr_srv (ir_step (IRSubmit 5) demo_world)) = srv_db (scr_srv demo_world) /\
  last (ir_alerts (scr_ui (ir_step (IRSubmit 5) demo_world))) = Some ReportSuccess.
Proof.
  assert (H1 : ir_loading (scr_ui demo_world) = false) by reflexivity.
  assert (H2 : form_complete (ir_form (scr_ui demo_world)) = true) by reflexivity.
  assert (H3 : rf_type (ir_form (scr_ui demo_world)) = "broken_infrastructure") by reflexivity.
  split; [exact H1|]. split; [exact H2|]. split; [exact H3|].
  exact (broken_infrastructure_reports_fail 5 demo_world H1 H2 H3).
Defined.

(** A session that reports a poor-lighting incident, approves it and
    resolves it. *)
Definition review_session : list ir_event :=
  [IRType "poor_lighting"; IRDescription "Dark lane"; IRLat (Some (313260 # 10000)%Q);
   IRLng (Some (755762 # 10000)%Q); IRSubmit 7; IRTab "volunteer";
   IRApprove "incident-7"; IRResolve "incident-7"].

Lemma review_never_decides_witness :
  exists r,
    incidents (srv_db (scr_srv (run_ir review_session
      (mkScreen (initial_ir_state None) (mkServer (snd (initDB 0 empty_db)) 1)))))
      !! "incident-7" = Some r /\ (i_status r = Pending \/ i_status r = Resolved).
Proof.
  eexists. split; [vm_compute; reflexivity|].
  eapply (review_never_decides 0 1 (initial_ir_state None) review_session "incident-7").
  vm_compute. reflexivity.
Defined.
End WithServer.
