(* ===== verification/VolunteerHub.v ===== *)
(** * VolunteerHub: the volunteer's screen

    [VolunteerHub] (VolunteerHub.jsx) loads the pending incidents on
    mount, lets the volunteer approve, reject or resolve each of them as
    the logged-in user ([volunteerId: user.id]), and lists two emergency
    alerts held in React state, each with a button to respond.  Its state
    is [hub_state]; a handler runs on it and on the backend's state
    ([Screen]).  Dashboard renders the hub only for a user whose role is
    'volunteer' or 'admin' ([Auth.renderActiveSection]), so the handlers
    take the session's user as a value.

    A button is clicked only while it is rendered: an action on an
    incident needs the tab 'incidents' and the incident's card, a
    response needs the tab 'emergencies' and an alert that is active and
    not yet responded to. *)

From stdpp Require Import base list strings pretty gmap.
From Stdlib Require Import String ZArith QArith.
From S2P Require Import Prelude Sql Schema Incidents Reports Quorum Zones Server Route Auth Api Screen IncidentUI.
Import IncidentReporting.

Local Open Scope gd_scope.

(** The component's functions, under its name. *)
Module VolunteerHub.

(** ** State *)

Record emergency : Type := mkEmergency {
  em_id : string;
  em_type : string;
  em_lat : Q;
  em_lng : Q;
  em_reportedBy : string;
  em_timestamp : Z;
  em_distance : Q;
  em_status : string;
  em_respondedBy : option string
}.

Record volunteer_stats : Type := mkStats {
  incidentsReviewed : nat;
  emergenciesResponded : nat;
  communityRating : Q;
  hoursServed : nat
}.

Inductive hub_alert : Type :=
| HubActionDone (message : string)
| HubActionError
| HubResponding.

Record hub_state : Type := mkHub {
  hub_activeTab : string;
  hub_pending : list pending_view;
  hub_emergencies : list emergency;
  hub_stats : volunteer_stats;
  hub_alerts : list hub_alert
}.

(** The two alerts of [useState], dated from the first render [now]
    (milliseconds). *)
Definition initial_emergencies (now : Z) : list emergency :=
  [mkEmergency "emg-1" "IMMEDIATE DANGER" (313250 # 10000) (755780 # 10000) "Priya S."
     (now - 300000) (8 # 10) "active" None;
   mkEmergency "emg-2" "FEELING UNSAFE" (313200 # 10000) (755720 # 10000) "Anonymous"
     (now - 900000) (12 # 10) "resolved" None].

Definition initial_stats : volunteer_stats := mkStats 23 7 (48 # 10) 45.

Definition initial_hub_state (now : Z) : hub_state :=
  mkHub "dashboard" [] (initial_emergencies now) initial_stats [].

Definition set_hub_activeTab v s :=
  mkHub v (hub_pending s) (hub_emergencies s) (hub_stats s) (hub_alerts s).
Definition set_hub_pending v s :=
  mkHub (hub_activeTab s) v (hub_emergencies s) (hub_stats s) (hub_alerts s).
Definition map_emergencies (f : emergency -> emergency) s :=
  mkHub (hub_activeTab s) (hub_pending s) (map f (hub_emergencies s)) (hub_stats s) (hub_alerts s).
Definition map_stats (f : volunteer_stats -> volunteer_stats) s :=
  mkHub (hub_activeTab s) (hub_pending s) (hub_emergencies s) (f (hub_stats s)) (hub_alerts s).
Definition push_hub_alert a s :=
  mkHub (hub_activeTab s) (hub_pending s) (hub_emergencies s) (hub_stats s) (hub_alerts s ++ [a]).

(** [{ ...prev, incidentsReviewed: prev.incidentsReviewed + 1 }] *)
Definition reviewed_one (st : volunteer_stats) : volunteer_stats :=
  mkStats (S (incidentsReviewed st)) (emergenciesResponded st) (communityRating st)
    (hoursServed st).

Definition responded_one (st : volunteer_stats) : volunteer_stats :=
  mkStats (incidentsReviewed st) (S (emergenciesResponded st)) (communityRating st)
    (hoursServed st).

(** [{ ...alert, status: 'responding', respondedBy: user.name }] *)
Definition respond (name : string) (a : emergency) : emergency :=
  mkEmergency (em_id a) (em_type a) (em_lat a) (em_lng a) (em_reportedBy a) (em_timestamp a)
    (em_distance a) "responding" (Some name).

(** [alert.id === emergencyId ? { ...alert, ... } : alert] *)
Definition respond_to (name emergencyId : string) (a : emergency) : emergency :=
  if String.eqb (em_id a) emergencyId then respond name a else a.

(** The text of [alert(`✅ Incident ${action}d successfully!`)] after the
    mark. *)
Definition hub_action_message (action : string) : string :=
  "Incident " +:+ action +:+ "d successfully!".

(** The body of [ApiService.volunteerAction]: [{ action, volunteerId:
    user.id, comment: '' }]. *)
Definition hub_action_body (u : user) (action : string) : action_body :=
  mkActionBody (Val action) (Val (u_id u)) (Val "").

(** ** Handlers *)

Abbreviation Hub := (Scr hub_state).

Section Handlers.
Context `{Backend}.

Definition loadPendingIncidents : Hub unit :=
  st_catch (do data <- scr_call ApiService.fetchPendingIncidents; scr_set (set_hub_pending data))
           (fun _ => st_ret tt).

Definition handleIncidentAction (u : user) (incidentId action : string) : Hub unit :=
  st_catch
    (scr_call (ApiService.volunteerAction incidentId (hub_action_body u action)) ;;;
     loadPendingIncidents ;;;
     scr_set (map_stats reviewed_one) ;;;
     scr_set (push_hub_alert (HubActionDone (hub_action_message action))))
    (fun _ => scr_set (push_hub_alert HubActionError)).

Definition respondToEmergency (u : user) (emergencyId : string) : Hub unit :=
  scr_set (map_emergencies (respond_to (u_name u) emergencyId)) ;;;
  scr_set (map_stats responded_one) ;;;
  scr_set (push_hub_alert HubResponding).

End Handlers.

(** ** Rendering *)

Definition getTimeAgo (now timestamp : Z) : string :=
  let diff := ((now - timestamp) / 60000)%Z in
  if (diff <? 1)%Z then "Just now"
  else if (diff <? 60)%Z then pretty diff +:+ "m ago"
  else let hours := (diff / 60)%Z in
       if (hours <? 24)%Z then pretty hours +:+ "h ago"
       else pretty (hours / 24)%Z +:+ "d ago".

(** [emergencyAlerts.filter(a => a.status === 'active').length] *)
Definition active_count (s : hub_state) : nat :=
  count_if (fun a => String.eqb (em_status a) "active") (hub_emergencies s).

(** The buttons of an incident card. *)
Inductive review_button : Type := BApprove | BReject | BResolve.

Definition button_action (b : review_button) : string :=
  match b with BApprove => "approve" | BReject => "reject" | BResolve => "resolve" end.

(** The card of [incident] is rendered under the tab 'incidents'. *)
Definition card_shown (s : hub_state) (id : string) : bool :=
  String.eqb (hub_activeTab s) "incidents" &&
  existsb (fun i => String.eqb (pv_id i) id) (hub_pending s).

(** The button of alert [id]: [alert.status === 'active' && !alert.respondedBy]. *)
Definition can_respond (id : string) (a : emergency) : bool :=
  String.eqb (em_id a) id && String.eqb (em_status a) "active" &&
  negb (bool_decide (is_Some (em_respondedBy a))).

(** The button is rendered under the tab 'emergencies'. *)
Definition respond_shown (s : hub_state) (id : string) : bool :=
  String.eqb (hub_activeTab s) "emergencies" && existsb (can_respond id) (hub_emergencies s).

(** An incident card of the review tab. *)
Record hub_card : Type := mkHubCard {
  hc_severity : string;
  hc_title : string;
  hc_description : option string;
  hc_lat : Z;
  hc_lng : Z;
  hc_approvals : nat
}.

(** [incident.severity?.toUpperCase() || 'PENDING'] and
    [incident.type?.replace('_', ' ').toUpperCase() || 'INCIDENT REPORT']:
    an empty string is falsy. *)
Definition hub_card_of (i : pending_view) : hub_card :=
  mkHubCard (js_or (Some (toUpperCase (pv_severity i))) "PENDING")
    (js_or (Some (type_title (pv_type i))) "INCIDENT REPORT")
    (pv_description i) (toFixed 4 (pv_lat i)) (toFixed 4 (pv_lng i)) (pv_approvalCount i).

(** An emergency card: badge, age, distance, type, reporter, responder,
    coordinates, and whether the respond button is there. *)
Record emergency_card : Type := mkEmCard {
  ec_status : string;
  ec_active : bool;
  ec_age : string;
  ec_distance : Q;
  ec_type : string;
  ec_reportedBy : string;
  ec_respondedBy : option string;
  ec_lat : Z;
  ec_lng : Z;
  ec_button : bool
}.

Definition emergency_card_of (now : Z) (a : emergency) : emergency_card :=
  mkEmCard (toUpperCase (em_status a)) (String.eqb (em_status a) "active")
    (getTimeAgo now (em_timestamp a)) (em_distance a) (em_type a) (em_reportedBy a)
    (em_respondedBy a) (toFixed 4 (em_lat a)) (toFixed 4 (em_lng a))
    (String.eqb (em_status a) "active" && negb (bool_decide (is_Some (em_respondedBy a)))).

Inductive hub_screen : Type :=
| HubDashboard (reviewCount activeAlerts : nat)
| HubIncidents (count : nat) (cards : list hub_card)
| HubAllCaughtUp
| HubEmergencies (cards : list emergency_card)
| HubNothing.

Definition hub_render (now : Z) (s : hub_state) : hub_screen :=
  if String.eqb (hub_activeTab s) "dashboard" then
    HubDashboard (List.length (hub_pending s)) (active_count s)
  else if String.eqb (hub_activeTab s) "incidents" then
    match hub_pending s with
    | [] => HubAllCaughtUp
    | l => HubIncidents (List.length l) (map hub_card_of l)
    end
  else if String.eqb (hub_activeTab s) "emergencies" then
    HubEmergencies (map (emergency_card_of now) (hub_emergencies s))
  else HubNothing.

(** The value of a stat card: a count, or the rating shown as
    [`${communityRating}/5`]. *)
Inductive stat_value : Type :=
| StatCount (n : nat)
| StatRating (outOf5 : Q).

(** The header's greeting and the four stat cards above the tabs. *)
Definition hub_header (u : user) (s : hub_state) : string * list (string * stat_value) :=
  ("Welcome back, " +:+ u_name u +:+ "! Ready to help your community?",
   [("Incidents Reviewed", StatCount (incidentsReviewed (hub_stats s)));
    ("Emergencies Responded", StatCount (emergenciesResponded (hub_stats s)));
    ("Community Rating", StatRating (communityRating (hub_stats s)));
    ("Hours Served", StatCount (hoursServed (hub_stats s)))]).

(** ** Events *)

Inductive hub_event : Type :=
| HubMount
| HubTab (tab : string)
| HubReview (incidentId : string) (b : review_button)
| HubRespond (emergencyId : string).

Section Step.
Context `{Backend}.

Definition hub_handler (u : user) (e : hub_event) : Hub unit :=
  match e with
  | HubMount => loadPendingIncidents
  | HubTab t => scr_set (set_hub_activeTab t)
  | HubReview id b =>
      do s <- scr_get;
      if card_shown s id then handleIncidentAction u id (button_action b) else st_ret tt
  | HubRespond id =>
      do s <- scr_get;
      if respond_shown s id then respondToEmergency u id else st_ret tt
  end.

Definition hub_step (u : user) (e : hub_event) (w : screen hub_state) : screen hub_state :=
  snd (hub_handler u e w).

Definition run_hub (u : user) (es : list hub_event) (w : screen hub_state) : screen hub_state :=
  run_screen (hub_handler u) es w.

End Step.

End VolunteerHub.
Import VolunteerHub.

(** ** The emergency alerts *)

Local Open Scope nat_scope.


Definition responding_count (s : hub_state) : nat :=
  count_if (fun a => String.eqb (em_status a) "responding") (hub_emergencies s).

Definition hub_inv (s : hub_state) : Prop :=
  NoDup (map em_id (hub_emergencies s)) /\
  emergenciesResponded (hub_stats s) = 7 + responding_count s.

Lemma can_respond_spec id a : can_respond id a = true -> em_id a = id /\ em_status a = "active".
Proof.
  unfold can_respond. intros [[H1 H2]%andb_prop _]%andb_prop.
  by apply String.eqb_eq in H1, H2.
Qed.

Lemma respond_ids name id l : map em_id (map (respond_to name id) l) = map em_id l.
Proof.
  induction l as [|a l IH]; [done|]. simpl. rewrite IH. unfold respond_to.
  by destruct (String.eqb (em_id a) id).
Qed.

Lemma respond_absent name id l :
  id ∉ map em_id l -> map (respond_to name id) l = l.
Proof.
  induction l as [|a l IH]; [done|]. simpl. intros [Ha Hl]%not_elem_of_cons.
  rewrite IH by done. unfold respond_to.
  destruct (String.eqb_spec (em_id a) id); [congruence|done].
Qed.

(** Responding to a shown alert turns exactly one alert to 'responding'. *)
Lemma respond_count name id l :
  NoDup (map em_id l) -> existsb (can_respond id) l = true ->
  count_if (fun a => String.eqb (em_status a) "responding") (map (respond_to name id) l)
  = S (count_if (fun a => String.eqb (em_status a) "responding") l).
Proof.
  induction l as [|a l IH]; [done|]. simpl. intros [Ha Hl]%NoDup_cons.
  rewrite !count_if_cons. unfold respond_to at 1.
  destruct (String.eqb_spec (em_id a) id) as [<-|Hne]; simpl.
  - intros [[_ ->]%can_respond_spec|(x & Hx & [Hid _]%can_respond_spec)%existsb_exists]%orb_prop.
    + rewrite respond_absent by done. simpl. lia.
    + exfalso. apply Ha. rewrite <- Hid. apply list_elem_of_In, in_map, Hx.
  - intros [[? _]%can_respond_spec|Hex]%orb_prop; [done|]. rewrite IH by done. lia.
Qed.

Lemma respond_inv u id s :
  hub_inv s -> respond_shown s id = true ->
  hub_inv (push_hub_alert HubResponding (map_stats responded_one
             (map_emergencies (respond_to (u_name u) id) s))).
Proof.
  intros [N E] Hs. apply andb_prop in Hs as [_ Hs]. unfold hub_inv, responding_count in *. simpl.
  rewrite respond_ids, respond_count by done. split; [done|lia].
Qed.

Section Counted.
Context `{Backend}.

Lemma hub_handler_inv u e : st_preserves (ui_pred hub_inv) (hub_handler u e).
Proof.
  assert (L : st_preserves (ui_pred hub_inv) loadPendingIncidents).
  { unfold loadPendingIncidents. apply st_preserves_catch; [|auto with guardaid].
    apply st_preserves_bind; [auto with guardaid|intros]. by apply scr_set_ui. }
  destruct e as [| |id b|id]; simpl; [exact L|by apply scr_set_ui|..].
  - apply st_preserves_bind; [auto with guardaid|intros s].
    apply st_preserves_if; [|auto with guardaid]. unfold handleIncidentAction.
    apply st_preserves_catch; [|intros; by apply scr_set_ui].
    repeat (apply st_preserves_bind; [auto with guardaid|intros]); try exact L; by apply scr_set_ui.
  - apply scr_get_bind. intros [s b] r w' Hw. simpl.
    destruct (respond_shown s id) eqn:Hs; [|by intros [= _ <-]].
    intros [= _ <-]. exact (respond_inv u id s Hw Hs).
Qed.

(** The hub counts each response once.  With any backend and any
    user, after any sequence of events from the first render, the stat
    'Emergencies Responded' is its initial 7 plus the number of alerts
    marked 'responding': the button of an alert disappears once it is
    responded to, and alert ids are distinct. *)
Theorem hub_responses_counted u now es b :
  emergenciesResponded (hub_stats (scr_ui (run_hub u es (mkScreen (initial_hub_state now) b))))
  = 7 + responding_count (scr_ui (run_hub u es (mkScreen (initial_hub_state now) b))).
Proof.
  refine (proj2 (run_screen_preserves (ui_pred hub_inv) _ es _ (hub_handler_inv u) _)).
  split; [|reflexivity]. simpl. apply NoDup_cons; split; [|apply NoDup_singleton].
  by rewrite list_elem_of_singleton.
Qed.
End Counted.

(** ** Reviews *)


Lemma hub_step_review `{Backend} u s b id btn :
  card_shown s id = true ->
  hub_step u (HubReview id btn) (mkScreen s b) =
  snd (handleIncidentAction u id (button_action btn) (mkScreen s b)).
Proof. intros Hs. unfold hub_step, hub_handler, st_bind, scr_get. cbn -[card_shown handleIncidentAction]. by rewrite Hs. Qed.

(** C29. A review always counts.  With any backend, clicking Approve,
    Reject or Resolve on a listed incident raises 'Incidents Reviewed' by
    one and ends with the alert 'Incident <action>d successfully!',
    whatever the server answered: [ApiService.volunteerAction] returns [null] on a
    failure instead of throwing.  For Reject the text reads 'Incident
    rejectd successfully!'. *)
Theorem hub_review_always_counted `{Backend} u s b id btn :
  card_shown s id = true ->
  incidentsReviewed (hub_stats (scr_ui (hub_step u (HubReview id btn) (mkScreen s b))))
    = S (incidentsReviewed (hub_stats s)) /\
  last (hub_alerts (scr_ui (hub_step u (HubReview id btn) (mkScreen s b))))
    = Some (HubActionDone (hub_action_message (button_action btn))).
Proof.
  intros Hs. rewrite (hub_step_review _ _ _ _ _ Hs).
  unfold handleIncidentAction, loadPendingIncidents, st_catch, st_bind, scr_call, scr_set,
    ApiService.volunteerAction, ApiService.fetchPendingIncidents, ApiService.api_send, ApiService.api_get. simpl.
  destruct (b_post_action id (hub_action_body u (button_action btn)) b) as [ok b'].
  simpl. by rewrite last_app.
Qed.

Module WhenDown.
#[local] Existing Instance down_backend.

Definition listed_hub : hub_state :=
  mkHub "incidents" [mkPendingView "incident-7" "poor_lighting" 31 75 None "high" "pending"
                       "user-1" 0 0 1] [] initial_stats [].

Definition rajesh : user := mkUser "user-101" "Rajesh Kumar" "9876543210" "volunteer" "".

Lemma hub_review_always_counted_witness :
  card_shown listed_hub "incident-7" = true /\
  incidentsReviewed (hub_stats (scr_ui (hub_step rajesh (HubReview "incident-7" BReject)
                                          (mkScreen listed_hub tt)))) = 24 /\
  last (hub_alerts (scr_ui (hub_step rajesh (HubReview "incident-7" BReject)
                              (mkScreen listed_hub tt))))
  = Some (HubActionDone "Incident rejectd successfully!").
Proof.
  assert (Hs : card_shown listed_hub "incident-7" = true) by reflexivity.
  split; [exact Hs|]. exact (hub_review_always_counted rajesh listed_hub tt "incident-7" BReject Hs).
Defined.
End WhenDown.

(** ** Reaching the quorum *)


Lemma pending_listed d r :
  incidents d !! collate (i_id r) = Some r -> i_status r = Pending ->
  existsb (fun i => String.eqb (pv_id i) (i_id r)) (getPendingIncidents d) = true.
Proof.
  intros Hr Hp. apply existsb_exists. exists (view_pending (incident_approvals d) r).
  split; [|apply String.eqb_refl].
  unfold getPendingIncidents. apply in_map, List.filter_In. split.
  - apply in_sorted_incidents. eauto.
  - by apply is_pending_iff.
Qed.

Lemma fresh_vote id v rows : rows_of id rows = [] -> vote_of id v rows = None.
Proof.
  intros E. unfold vote_of. destruct (List.find (same_key id v) rows) as [x|] eqn:F; [|done].
  apply List.find_some in F as [Hx Hs]. apply andb_prop in Hs as [Hs _].
  assert (Hin : In x (rows_of id rows)) by (apply List.filter_In; auto).
  by rewrite E in Hin.
Qed.

Lemma fresh_count a id rows : rows_of id rows = [] -> count_action a id rows = 0.
Proof. unfold count_action. by intros ->. Qed.

(** A volunteer's session on the hub: open it, go to the review tab,
    approve the incident's card. *)
Definition approve_session (id : string) : list hub_event :=
  [HubMount; HubTab "incidents"; HubReview id BApprove].

Module WithServer.
#[local] Existing Instance server_backend.

Lemma approve_session_run u now st r :
  incidents (srv_db st) !! collate (i_id r) = Some r -> i_status r = Pending ->
  fits (i_id r) (u_id u) "approve" (Some "") ->
  srv_db (scr_srv (run_hub u (approve_session (i_id r)) (mkScreen (initial_hub_state now) st)))
  = after_action (srv_clock st) (i_id r) "approve" (u_id u) (Some "") (srv_db st).
Proof.
  intros Hr Hp Hf. destruct st as [d c]. simpl in *.
  unfold run_hub, run_screen, approve_session, hub_handler. cbn -[getPendingIncidents incidentAction].
  rewrite (pending_listed _ _ Hr Hp). cbn -[getPendingIncidents incidentAction].
  unfold handleIncidentAction, st_catch, st_bind, scr_call, ApiService.volunteerAction, ApiService.api_send.
  cbn -[getPendingIncidents incidentAction].
  change (hub_action_body u "approve") with (action_req "approve" (u_id u) (Some "")).
  unfold srv_send, handle, st_map, handle_incident_action, st_catch, st_bind.
  rewrite incidentAction_run by eauto. reflexivity.
Qed.

(** A volunteer opens the hub on the server's state [st] and approves. *)
Definition hub_session (u : user) (now : Z) (id : string) (st : server_state) : server_state :=
  scr_srv (run_hub u (approve_session id) (mkScreen (initial_hub_state now) st)).

Lemma approve_step u now st r n m :
  unique_keys (incident_approvals (srv_db st)) ->
  incidents (srv_db st) !! collate (i_id r) = Some r -> i_status r = Pending ->
  fits (i_id r) (u_id u) "approve" (Some "") ->
  vote_of (i_id r) (u_id u) (incident_approvals (srv_db st)) = None ->
  approvals_of (i_id r) (incident_approvals (srv_db st)) = n ->
  rejections_of (i_id r) (incident_approvals (srv_db st)) = m -> m < 3 ->
  let rows' := incident_approvals (srv_db (hub_session u now (i_id r) st)) in
  unique_keys rows' /\ approvals_of (i_id r) rows' = S n /\ rejections_of (i_id r) rows' = m /\
  (forall v, vote_of (i_id r) v rows' =
             if sql_eq (u_id u) v then Some "approve" else vote_of (i_id r) v (incident_approvals (srv_db st))) /\
  incidents (srv_db (hub_session u now (i_id r) st)) !! collate (i_id r) =
    Some (if 3 <=? S n then touch (srv_clock st) (set_approved (u_id u)) r else r).
Proof.
  intros U Hr Hp Hf Hv Hn Hm Hm3. unfold hub_session.
  rewrite (approve_session_run _ _ _ _ Hr Hp Hf), after_action_approvals.
  set (rows' := incident_approvals (after_upsert (srv_clock st) (i_id r) (u_id u) "approve"
                                      (Some "") (srv_db st))).
  assert (Ea : approvals_of (i_id r) rows' = S n).
  { pose proof (upsert_counts (srv_clock st) (i_id r) (u_id u) "approve" (Some "") _ "approve" U) as C.
    rewrite Hv, sql_eq_refl in C. fold rows' in C. unfold approvals_of in *. simpl in C. lia. }
  assert (Er : rejections_of (i_id r) rows' = m).
  { pose proof (upsert_counts (srv_clock st) (i_id r) (u_id u) "approve" (Some "") _ "reject" U) as C.
    rewrite Hv in C. replace (sql_eq "approve" "reject") with false in C by reflexivity.
    fold rows' in C. unfold rejections_of in *. simpl in C. lia. }
  split_and!; [by apply upsert_unique|done|done| |].
  - intros v. unfold rows'. by rewrite upsert_votes, sql_eq_refl.
  - rewrite (after_action_lookup _ _ _ _ _ _ _ Hr). fold rows'. rewrite Ea, Er.
    unfold chosen_update, quorum. simpl String.eqb. cbv iota.
    destruct (3 <=? S n); [done|]. by rewrite (proj2 (Nat.leb_gt _ _) Hm3).
Qed.

(** C28. The hub reaches the quorum.  With the server of server.js, on
    an incident that is pending and has no vote yet, three volunteers
    whose ids differ (under the collation) and fit the columns, each
    opening the hub and approving the incident's card one after the
    other, leave the incident approved, by the third of them. *)
Theorem hub_quorum_approves t1 t2 t3 st r u1 u2 u3 :
  unique_keys (incident_approvals (srv_db st)) ->
  incidents (srv_db st) !! collate (i_id r) = Some r -> i_status r = Pending ->
  rows_of (i_id r) (incident_approvals (srv_db st)) = [] ->
  fits (i_id r) (u_id u1) "approve" (Some "") -> fits (i_id r) (u_id u2) "approve" (Some "") ->
  fits (i_id r) (u_id u3) "approve" (Some "") ->
  sql_eq (u_id u1) (u_id u2) = false -> sql_eq (u_id u1) (u_id u3) = false ->
  sql_eq (u_id u2) (u_id u3) = false ->
  exists r',
    incidents (srv_db (hub_session u3 t3 (i_id r) (hub_session u2 t2 (i_id r)
                         (hub_session u1 t1 (i_id r) st)))) !! collate (i_id r) = Some r' /\
    i_status r' = Approved /\ i_approved_by r' = Some (u_id u3).
Proof.
  intros U Hr Hp Hfresh F1 F2 F3 D12 D13 D23.
  pose proof (approve_step u1 t1 st r 0 0 U Hr Hp F1 (fresh_vote _ _ _ Hfresh)
                (fresh_count _ _ _ Hfresh) (fresh_count _ _ _ Hfresh) ltac:(lia))
    as (U1 & A1 & R1 & V1 & L1).
  pose proof (approve_step u2 t2 _ r 1 0 U1 L1 Hp F2
                ltac:(by rewrite V1, D12, fresh_vote) A1 R1 ltac:(lia))
    as (U2 & A2 & R2 & V2 & L2).
  pose proof (approve_step u3 t3 _ r 2 0 U2 L2 Hp F3
                ltac:(by rewrite V2, D23, V1, D13, fresh_vote) A2 R2 ltac:(lia))
    as (_ & _ & _ & _ & L3).
  eexists. split; [exact L3|]. simpl. by rewrite touch_status, touch_approved_by.
Qed.

(** A report filed on the server that initDB started. *)
Definition lane_report : incident_body :=
  mkIncidentBody (Val "incident-7") (Val "poor_lighting") (Val (313260 # 10000)%Q)
    (Val (755762 # 10000)%Q) (Val "Dark lane") (Val "high") (Val "user-1").

Definition reported : server_state :=
  mkServer (snd (handle 1 (PostIncident lane_report) (snd (initDB 0 empty_db)))) 2.

Definition lane_row : incident_row :=
  new_incident 1 "incident-7" "poor_lighting" 3132600000 7557620000 (Some "Dark lane") "high" "user-1".

Definition volunteer (id : string) : user := mkUser id "Volunteer" "9876543210" "volunteer" "".

Lemma hub_quorum_approves_witness :
  incidents (srv_db reported) !! collate (i_id lane_row) = Some lane_row /\
  exists r',
    incidents (srv_db (hub_session (volunteer "user-103") 30 (i_id lane_row)
                 (hub_session (volunteer "user-102") 20 (i_id lane_row)
                   (hub_session (volunteer "user-101") 10 (i_id lane_row) reported))))
      !! collate (i_id lane_row) = Some r' /\
    i_status r' = Approved /\ i_approved_by r' = Some "user-103".
Proof.
  assert (Hr : incidents (srv_db reported) !! collate (i_id lane_row) = Some lane_row)
    by (vm_compute; reflexivity).
  assert (Hf : forall v, char_length v <= 50 -> fits (i_id lane_row) v "approve" (Some ""))
    by (intros v Hv; split_and!; [vm_compute; lia|exact Hv|vm_compute; lia|reflexivity]).
  split; [exact Hr|].
  apply (hub_quorum_approves 10 20 30 reported lane_row (volunteer "user-101")
           (volunteer "user-102") (volunteer "user-103")).
  - intros i v. vm_compute. lia.
  - exact Hr.
  - reflexivity.
  - reflexivity.
  - apply Hf. vm_compute. lia.
  - apply Hf. vm_compute. lia.
  - apply Hf. vm_compute. lia.
  - reflexivity.
  - reflexivity.
  - reflexivity.
Defined.
End WithServer.
