(* ===== verification/AdminPanel.v ===== *)
(** * AdminPanel: the administrator's screen

    [AdminPanel] (AdminPanel.jsx) shows figures held in React state, four
    tabs, the incidents of [GET /api/incidents] and a fixed list of users.
    On mount it loads the incidents and recomputes three figures from
    them: [totalIncidents], [resolvedIncidents] and [pendingIncidents];
    every other figure, the zone counts included, keeps its initial
    value.  Its state is [admin_state]; a handler runs on it and on the
    backend's state ([Screen]).

    The theorem compares the figures with the tables of the server of
    server.js. *)

From stdpp Require Import base list strings pretty gmap sorting.
From Stdlib Require Import String Ascii ZArith QArith.
From S2P Require Import Prelude Sql Schema Incidents Reports Zones Server Api Screen IncidentUI.
Import IncidentReporting.

Local Open Scope gd_scope.

(** The component's functions, under its name. *)
Module AdminPanel.

(** ** State *)

Record admin_stats : Type := mkAdminStats {
  totalUsers : nat;
  activeVolunteers : nat;
  totalIncidents : nat;
  resolvedIncidents : nat;
  pendingIncidents : nat;
  emergencyAlerts : nat;
  safeZones : nat;
  dangerZones : nat
}.

Record admin_user : Type := mkAdminUser {
  au_id : string;
  au_name : string;
  au_role : string;
  au_status : string;
  au_joinedAt : string
}.

Record admin_state : Type := mkAdmin {
  ad_activeTab : string;
  ad_stats : admin_stats;
  ad_incidents : list incident_view;
  ad_users : list admin_user
}.

Definition initial_admin_stats : admin_stats := mkAdminStats 156 23 89 67 15 7 12 8.

Definition initial_users : list admin_user :=
  [mkAdminUser "1" "Priya Sharma" "woman" "active" "2024-09-15";
   mkAdminUser "2" "Rajesh Kumar" "volunteer" "active" "2024-09-10";
   mkAdminUser "3" "Simran Singh" "woman" "active" "2024-09-20";
   mkAdminUser "4" "Amit Patel" "volunteer" "inactive" "2024-08-30"].

Definition initial_admin_state : admin_state :=
  mkAdmin "overview" initial_admin_stats [] initial_users.

Definition set_ad_activeTab v s := mkAdmin v (ad_stats s) (ad_incidents s) (ad_users s).
Definition set_ad_incidents v s := mkAdmin (ad_activeTab s) (ad_stats s) v (ad_users s).
Definition map_ad_stats f s := mkAdmin (ad_activeTab s) (f (ad_stats s)) (ad_incidents s) (ad_users s).

(** [data.filter(i => i.status === st).length] *)
Definition status_count (st : string) (data : list incident_view) : nat :=
  count_if (fun i => String.eqb (v_status i) st) data.

(** [{ ...prev, totalIncidents: ..., resolvedIncidents: ..., pendingIncidents: ... }] *)
Definition stats_of_data (data : list incident_view) (p : admin_stats) : admin_stats :=
  mkAdminStats (totalUsers p) (activeVolunteers p) (List.length data)
    (status_count "resolved" data) (status_count "pending" data) (emergencyAlerts p)
    (safeZones p) (dangerZones p).

(** ** Handlers *)

Abbreviation Admin := (Scr admin_state).

Section Handlers.
Context `{Backend}.

Definition loadIncidents : Admin unit :=
  st_catch
    (do data <- scr_call ApiService.fetchIncidents;
     scr_set (set_ad_incidents data) ;;;
     scr_set (map_ad_stats (stats_of_data data)))
    (fun _ => st_ret tt).

End Handlers.

Inductive admin_event : Type :=
| AdminMount
| AdminTab (tab : string).

Section Step.
Context `{Backend}.

Definition admin_handler (e : admin_event) : Admin unit :=
  match e with
  | AdminMount => loadIncidents
  | AdminTab t => scr_set (set_ad_activeTab t)
  end.

Definition run_admin (es : list admin_event) (w : screen admin_state) : screen admin_state :=
  run_screen admin_handler es w.

End Step.

(** ** Rendering *)

Definition getStatusColor (status : string) : string :=
  match status with
  | "pending" => "#f39c12"
  | "approved" => "#2ed573"
  | "resolved" => "#666"
  | "rejected" => "#ff4757"
  | _ => "#666"
  end.

Definition getRoleColor (role : string) : string :=
  match role with
  | "woman" => "#ff6b9d"
  | "volunteer" => "#2ed573"
  | "admin" => "#667eea"
  | _ => "#666"
  end.

(** The four cards of the overview: [{ label, value, trend }]. *)
Definition stat_cards (st : admin_stats) : list (string * nat * string) :=
  [("Total Users", totalUsers st, "+12%"); ("Active Volunteers", activeVolunteers st, "+5%");
   ("Total Incidents", totalIncidents st, "+8%"); ("Emergency Alerts", emergencyAlerts st, "-3%")].

(** A card of the All Incidents tab, with the fallbacks of [||]: an empty
    string, a null and a count of 0 are all falsy. *)
Record admin_card : Type := mkAdminCard {
  adc_status : string;
  adc_status_color : string;
  adc_severity : string;
  adc_title : string;
  adc_description : string;
  adc_reporter : string;
  adc_approvals : nat;
  adc_rejections : nat
}.

Definition admin_card_of (i : incident_view) : admin_card :=
  mkAdminCard (js_or (Some (toUpperCase (v_status i))) "UNKNOWN") (getStatusColor (v_status i))
    (js_or (Some (toUpperCase (v_severity i))) "MEDIUM")
    (js_or (Some (type_title (v_type i))) "INCIDENT")
    (js_or (v_description i) "No description provided")
    (js_or (Some (v_reporterId i)) "Anonymous")
    (v_approvalCount i) (v_rejectionCount i).

(** [user.role.charAt(0).toUpperCase() + user.role.slice(1)] *)
Definition capitalize (s : string) : string :=
  match s with
  | EmptyString => EmptyString
  | String c s' => String (upper_ascii c) s'
  end.

(** A row of the User Management tab. *)
Definition user_row (u : admin_user) : string * string * string * string :=
  (getRoleColor (au_role u), capitalize (au_role u), toUpperCase (au_status u),
   if String.eqb (au_status u) "active" then "#2ed573" else "#95a5a6").

Inductive admin_screen : Type :=
| AdminOverview (activeConnections : nat)
| AdminIncidents (count : nat) (cards : list admin_card) (noneFound : bool)
| AdminUsers (count : nat) (rows : list (string * string * string * string))
| AdminZones (safe danger : nat)
| AdminNothing.

(** The four stat cards, shown above every tab, and the tab's content;
    the overview's System Health box shows the fixed text '✓ Online' as
    'Database Status'. *)
Definition admin_render (s : admin_state) : list (string * nat * string) * admin_screen :=
  (stat_cards (ad_stats s),
   if String.eqb (ad_activeTab s) "overview" then AdminOverview (totalUsers (ad_stats s))
   else if String.eqb (ad_activeTab s) "incidents" then
     AdminIncidents (List.length (ad_incidents s)) (map admin_card_of (ad_incidents s))
       (Nat.eqb (List.length (ad_incidents s)) 0)
   else if String.eqb (ad_activeTab s) "users" then
     AdminUsers (List.length (ad_users s)) (map user_row (ad_users s))
   else if String.eqb (ad_activeTab s) "zones" then
     AdminZones (safeZones (ad_stats s)) (dangerZones (ad_stats s))
   else AdminNothing).

End AdminPanel.
Import AdminPanel.

(** ** The figures against the server *)

Local Open Scope nat_scope.

(** The rows of the incidents table. *)
Definition table_rows (d : db) : list incident_row := map snd (map_to_list (incidents d)).

(** The number of rows in status [s]. *)
Definition rows_in (s : status) (d : db) : nat :=
  count_if (fun r => bool_decide (i_status r = s)) (table_rows d).

Lemma sorted_incidents_perm t : Permutation (sorted_incidents t) (map snd (map_to_list t)).
Proof. unfold sorted_incidents. apply merge_sort_Permutation. Qed.

Lemma status_name_eqb s s' : String.eqb (status_name s) (status_name s') = bool_decide (s = s').
Proof. destruct s, s'; reflexivity. Qed.

Lemma status_count_rows d s :
  status_count (status_name s) (getIncidents d) = rows_in s d.
Proof.
  unfold status_count, getIncidents, rows_in, table_rows. rewrite count_if_map.
  rewrite (count_if_perm _ _ _ (sorted_incidents_perm _)). apply count_if_ext.
  intros r _. simpl. apply status_name_eqb.
Qed.

Lemma getIncidents_length d : List.length (getIncidents d) = map_size (incidents d).
Proof.
  unfold getIncidents. rewrite length_map, (Permutation_length (sorted_incidents_perm _)).
  by rewrite length_map, length_map_to_list.
Qed.

(** The figures the panel shows after loading the table of [d]. *)
Definition server_figures (d : db) : admin_stats :=
  mkAdminStats 156 23 (map_size (incidents d)) (rows_in Resolved d) (rows_in Pending d) 7 12 8.

Module WithServer.
#[local] Existing Instance server_backend.

(** What the panel holds once it has loaded the table of [st]. *)
Definition shows_server_figures (st : server_state) (w : screen admin_state) : Prop :=
  scr_srv w = st /\ ad_stats (scr_ui w) = server_figures (srv_db st) /\
  ad_incidents (scr_ui w) = getIncidents (srv_db st).

Lemma load_figures st w :
  scr_srv w = st -> ad_stats (scr_ui w) = initial_admin_stats \/ shows_server_figures st w ->
  shows_server_figures st (snd (loadIncidents w)).
Proof.
  intros Hs Hw. destruct w as [[tab sts inc us] b]. simpl in *. subst b.
  unfold loadIncidents, st_catch, st_bind, scr_call, scr_set, ApiService.fetchIncidents, ApiService.api_get. simpl.
  split_and!; [done| |done].
  destruct Hw as [->|(_ & Hst & _)]; [|simpl in Hst; rewrite Hst];
    unfold stats_of_data, server_figures; simpl;
    by rewrite getIncidents_length, <- !status_count_rows.
Qed.

(** C30. The panel's figures against the server.  With the server of
    server.js, after the mount and any tab changes, the panel lists the
    incidents of [GET /api/incidents], its 'Total Incidents' is the number
    of rows of the table and its resolved and pending figures count the
    rows in those statuses; every other figure keeps its initial value,
    so the zone counts stay 12 and 8 whatever the server holds. *)
Theorem admin_stats_match_server st es :
  shows_server_figures st (run_admin (AdminMount :: es) (mkScreen initial_admin_state st)).
Proof.
  unfold run_admin. cbn [run_screen]. apply (run_screen_preserves (shows_server_figures st)).
  - intros [|t] w r w' Hw; simpl.
    + destruct (loadIncidents w) as [r0 w0] eqn:E. intros [= _ <-].
      pose proof (load_figures st w (proj1 Hw) (or_intror Hw)) as L. by rewrite E in L.
    + destruct Hw as (Hs & Ha & Hi). intros [= _ <-]. done.
  - exact (load_figures st (mkScreen initial_admin_state st) eq_refl (or_introl eq_refl)).
Qed.
End WithServer.
