(* ===== verification/Emergency.v ===== *)
(** * Emergency: the emergency screen and the panic button

    [EmergencyAlert] (EmergencyAlert.jsx) is the emergency section of the
    dashboard: three buttons start an alert of a type, a timer counts the
    seconds while it is active ([setInterval] of 1 s, set by an effect on
    [isEmergencyActive]) and is shown as [MM:SS] by [formatTime], and a
    button stops it.  [PanicAlert] (PanicAlert.jsx, a component no other
    file renders) starts a 10-second countdown, after which the alert
    counts as dispatched, and lists IoT devices.

    Both components are pure React state: each is a record and a step
    function per event.  A button is clicked only while it is rendered; an
    interval fires only while the effect that set it is in place.  The
    numbers of the code are nonnegative integers here ([nat]); their
    [toString] is stdpp's [pretty], the decimal digits. *)

From stdpp Require Import base list strings pretty.
From Stdlib Require Import String Ascii ZArith QArith.
From S2P Require Import Prelude Route IncidentUI.
Import IncidentReporting.

Local Open Scope nat_scope.

(** ** formatTime *)

(** [str.padStart(n, c)] with a one-character pad. *)
Definition padStart (n : nat) (c : ascii) (str : string) : string :=
  if String.length str <? n then String.append (string_of_list_ascii (repeat c (n - String.length str))) str
  else str.

(** [`${mins.toString().padStart(2, '0')}:${secs.toString().padStart(2, '0')}`]
    with [mins = Math.floor(seconds / 60)] and [secs = seconds % 60]. *)
Definition formatTime (seconds : nat) : string :=
  padStart 2 "0"%char (pretty (seconds / 60)) +:+ ":" +:+ padStart 2 "0"%char (pretty (seconds mod 60)).

(** ** EmergencyAlert *)

Record emergency_state : Type := mkEmergencyState {
  isEmergencyActive : bool;
  emergencyTimer : nat;
  emergencyType : string
}.

Definition initial_emergency_state : emergency_state := mkEmergencyState false 0 "".

(** The quick emergency buttons. *)
Definition emergency_types : list string := ["IMMEDIATE DANGER"; "FEELING UNSAFE"; "NEED HELP"].

(** [contacts]: name and number; the call button opens [tel:<number>]. *)
Definition contacts : list (string * string) :=
  [("Police", "100"); ("Women Helpline", "181"); ("Emergency Services", "108")].

Definition call_link (number : string) : string := "tel:" +:+ number.

Definition startEmergency (type : string) (s : emergency_state) : emergency_state :=
  mkEmergencyState true 0 type.

Definition stopEmergency (s : emergency_state) : emergency_state :=
  mkEmergencyState false 0 "".

(** The callback of the interval: [setEmergencyTimer(prev => prev + 1)]. *)
Definition emergency_tick (s : emergency_state) : emergency_state :=
  mkEmergencyState (isEmergencyActive s) (S (emergencyTimer s)) (emergencyType s).

Inductive emergency_event : Type :=
| EStart (type : string)
| EStop
| ETick.

(** The start buttons are rendered only while no alert is active, the
    stop button only while one is; the interval exists only while the
    alert is active. *)
Definition emergency_step (e : emergency_event) (s : emergency_state) : emergency_state :=
  match e with
  | EStart t =>
      if negb (isEmergencyActive s) && bool_decide (t ∈ emergency_types)
      then startEmergency t s else s
  | EStop => if isEmergencyActive s then stopEmergency s else s
  | ETick => if isEmergencyActive s then emergency_tick s else s
  end.

Definition run_emergency (es : list emergency_event) (s : emergency_state) : emergency_state :=
  fold_left (fun s e => emergency_step e s) es s.

(** What the section shows: the active alert (its title, the timer and
    the location with [toFixed(6)]), or the buttons and contacts. *)
Inductive emergency_view : Type :=
| ActiveView (title clock : string) (location : option (Z * Z))
| OptionsView (buttons : list string) (calls : list (string * string)).

(** The header's subtitle, then the section. *)
Definition emergency_render (userLocation : option latlng) (s : emergency_state)
    : string * emergency_view :=
  (if isEmergencyActive s then "Emergency in progress..." else "Quick access to emergency services",
   if isEmergencyActive s then
     ActiveView (emergencyType s +:+ " ALERT ACTIVE") (formatTime (emergencyTimer s))
       ((fun p => (toFixed 6 (lat p), toFixed 6 (lng p))) <$> userLocation)
   else OptionsView emergency_types (map (fun c => (c.1, call_link c.2)) contacts)).

(** ** PanicAlert *)

Record iot_device : Type := mkDevice {
  dev_id : nat;
  dev_name : string;
  dev_location : string;
  dev_type : string;
  dev_status : string;
  dev_lastPing : string
}.

Record panic_state : Type := mkPanic {
  alertActive : bool;
  countdown : nat;
  iotDevices : list iot_device;
  dispatched : nat;
  panic_alerts : list string
}.

Definition initial_devices : list iot_device :=
  [mkDevice 1 "Smart Siren Station A" "Broadway & 42nd St" "siren" "online" "2 min ago";
   mkDevice 2 "Emergency Light Alert B" "Central Park West" "light" "online" "1 min ago";
   mkDevice 3 "Smart Siren Station C" "5th Ave & 23rd St" "siren" "offline" "15 min ago";
   mkDevice 4 "Emergency Light Alert D" "Times Square" "light" "online" "30 sec ago"].

Definition initial_panic_state : panic_state := mkPanic false 0 initial_devices 0 [].

(** [iotDevices.filter(d => d.status === st).length] *)
Definition devices_in (st : string) (s : panic_state) : nat :=
  count_if (fun d => String.eqb (dev_status d) st) (iotDevices s).

(** [activateEmergencyAlert]: a 10-second countdown before dispatch. *)
Definition activateEmergencyAlert (s : panic_state) : panic_state :=
  mkPanic true 10 (iotDevices s) (dispatched s) (panic_alerts s).

Definition cancelAlert (s : panic_state) : panic_state :=
  mkPanic false 0 (iotDevices s) (dispatched s) (panic_alerts s).

Definition triggerIoTDevices (s : panic_state) : panic_state :=
  mkPanic (alertActive s) (countdown s) (iotDevices s) (dispatched s)
    (panic_alerts s ++ ["Triggering " +:+ pretty (devices_in "online" s) +:+
                        " nearby IoT safety devices!"]).

(** The interval of the effect exists while [alertActive && countdown > 0]. *)
Definition tick_enabled (s : panic_state) : bool := alertActive s && (0 <? countdown s).

(** One second: [setCountdown(prev => prev - 1)]; the effect that runs on
    the new countdown logs the dispatch when it is 0. *)
Definition panic_tick (s : panic_state) : panic_state :=
  let c := countdown s - 1 in
  mkPanic (alertActive s) c (iotDevices s)
    (if c =? 0 then S (dispatched s) else dispatched s) (panic_alerts s).

Inductive panic_event : Type :=
| PActivate
| PCancel
| PTrigger
| PTick.

(** The activate button is on the screen shown while no alert is active;
    Cancel is rendered only while [countdown > 0]; the IoT button is on
    the active screen. *)
Definition panic_step (e : panic_event) (s : panic_state) : panic_state :=
  match e with
  | PActivate => if alertActive s then s else activateEmergencyAlert s
  | PCancel => if tick_enabled s then cancelAlert s else s
  | PTrigger => if alertActive s then triggerIoTDevices s else s
  | PTick => if tick_enabled s then panic_tick s else s
  end.

Definition run_panic (es : list panic_event) (s : panic_state) : panic_state :=
  fold_left (fun s e => panic_step e s) es s.

(** [Math.round(online / total * 100)] *)
Definition online_percent (s : panic_state) : Z :=
  js_round (inject_Z (Z.of_nat (devices_in "online" s)) /
            inject_Z (Z.of_nat (List.length (iotDevices s))) * 100)%Q.

(** The volunteers the active alert lists as notified: name, distance
    and ETA (a constant of the component). *)
Definition nearbyVolunteers : list (string * string * string) :=
  [("Sarah M.", "0.2 miles", "2 min"); ("Mike R.", "0.4 miles", "4 min");
   ("Anna K.", "0.6 miles", "6 min")].

(** A card of the IoT list: siren or light, name, location, last ping,
    status, and the colours chosen by [status === 'online']. *)
Record device_card : Type := mkDeviceCard {
  dc_siren : bool;
  dc_name : string;
  dc_location : string;
  dc_lastPing : string;
  dc_status : string;
  dc_background : string;
  dc_badge_background : string;
  dc_badge_color : string
}.

Definition device_card_of (d : iot_device) : device_card :=
  let online := String.eqb (dev_status d) "online" in
  mkDeviceCard (String.eqb (dev_type d) "siren") (dev_name d) (dev_location d) (dev_lastPing d)
    (dev_status d) (if online then "#f8fff9" else "#fff8f8")
    (if online then "#d4edda" else "#f8d7da") (if online then "#155724" else "#721c24").

(** The two screens of the component. *)
Inductive panic_view : Type :=
| PanicActiveView (auto_dispatch_in : option nat) (notified : list (string * string * string))
    (cancel_shown : bool) (call : string)
| PanicIdleView (online offline : nat) (cards : list device_card) (coverage : Z) (call : string).

(** [if (alertActive) return (...)]: the countdown while it is positive,
    else 'ALERT DISPATCHED'; the volunteers; the Cancel button only while
    [countdown > 0]; the IoT button and the link to 911. *)
Definition panic_active_view (s : panic_state) : panic_view :=
  PanicActiveView (if 0 <? countdown s then Some (countdown s) else None) nearbyVolunteers
    (0 <? countdown s) (call_link "911").

(** The idle screen: the emergency circle, the link to 911, the online
    and offline counts, a card per device and the coverage. *)
Definition panic_idle_view (s : panic_state) : panic_view :=
  PanicIdleView (devices_in "online" s) (devices_in "offline" s)
    (map device_card_of (iotDevices s)) (online_percent s) (call_link "911").

Definition panic_render (s : panic_state) : panic_view :=
  if alertActive s then panic_active_view s else panic_idle_view s.

(** ** The timer display *)

(** Reading the display back. *)
Definition digit_value (c : ascii) : option N :=
  match c with
  | "0" => Some 0%N | "1" => Some 1%N | "2" => Some 2%N | "3" => Some 3%N | "4" => Some 4%N
  | "5" => Some 5%N | "6" => Some 6%N | "7" => Some 7%N | "8" => Some 8%N | "9" => Some 9%N
  | _ => None
  end%char.

Fixpoint parse_digits (acc : N) (s : string) : option N :=
  match s with
  | EmptyString => Some acc
  | String c s' => match digit_value c with
                   | Some d => parse_digits (acc * 10 + d)%N s'
                   | None => None
                   end
  end.

Fixpoint split_colon (s : string) : option (string * string) :=
  match s with
  | EmptyString => None
  | String c s' =>
      if Ascii.eqb c ":" then Some (EmptyString, s')
      else (fun p => (String c p.1, p.2)) <$> split_colon s'
  end.

Definition parse_time (t : string) : option nat :=
  match split_colon t with
  | Some (a, b) =>
      match parse_digits 0 a, parse_digits 0 b with
      | Some m, Some sec => Some (N.to_nat m * 60 + N.to_nat sec)
      | _, _ => None
      end
  | None => None
  end.

Lemma digit_value_char x : (x < 10)%N -> digit_value (pretty_N_char x) = Some x.
Proof.
  intros Hx. assert (x = 0 \/ x = 1 \/ x = 2 \/ x = 3 \/ x = 4 \/ x = 5 \/ x = 6 \/ x = 7 \/
                     x = 8 \/ x = 9)%N as H by lia.
  repeat destruct H as [->|H]; subst; reflexivity.
Qed.

Lemma parse_pretty_go x s : parse_digits 0 (pretty_N_go x s) = parse_digits x s.
Proof.
  revert s. induction (N.lt_wf_0 x) as [x _ IH]; intros s.
  destruct (decide (x = 0)%N) as [->|Hx]; [by rewrite pretty_N_go_0|].
  rewrite pretty_N_go_step by lia. rewrite IH by (apply N.div_lt; lia). simpl.
  rewrite digit_value_char by (apply N.mod_lt; lia).
  by rewrite N.mul_comm, <- N.div_mod by lia.
Qed.

Lemma parse_pretty (n : nat) : parse_digits 0 (pretty n) = Some (N.of_nat n).
Proof.
  unfold pretty, pretty_nat. unfold pretty, pretty_N. case_decide as H; [by rewrite H|].
  by rewrite parse_pretty_go.
Qed.

Lemma parse_zeros k str :
  parse_digits 0 (String.append (string_of_list_ascii (repeat "0"%char k)) str) = parse_digits 0 str.
Proof. induction k as [|k IH]; [done|]. exact IH. Qed.

Lemma parse_padStart n : parse_digits 0 (padStart 2 "0"%char (pretty n)) = Some (N.of_nat n).
Proof.
  unfold padStart. destruct (String.length (pretty n) <? 2); [rewrite parse_zeros|];
    apply parse_pretty.
Qed.

Lemma split_colon_app a b v :
  parse_digits 0 a = Some v -> split_colon (a +:+ ":" +:+ b) = Some (a, b).
Proof.
  generalize 0%N. induction a as [|c a IH]; intros acc; [done|]. simpl.
  destruct (digit_value c) eqn:Hc; [|done]. intros Ha.
  assert (Ascii.eqb c ":" = false) as -> by (destruct (Ascii.eqb_spec c ":"); subst; done).
  by rewrite (IH _ Ha).
Qed.

(** C31. The timer display loses nothing: reading the [MM:SS] text that
    [formatTime] produces back (minutes before the colon, seconds after,
    leading zeros allowed) gives the number of seconds, for every count,
    also past 99 minutes where the minutes take more than two digits. *)
Theorem formatTime_roundtrip seconds : parse_time (formatTime seconds) = Some seconds.
Proof.
  unfold parse_time, formatTime.
  rewrite (split_colon_app _ _ _ (parse_padStart _)), !parse_padStart, !Nat2N.id.
  f_equal. rewrite (Nat.div_mod_eq seconds 60) at 3. lia.
Qed.

(** ** The countdown *)

Lemma panic_step_countdown e s : countdown s <= 10 -> countdown (panic_step e s) <= 10.
Proof.
  destruct e; simpl; unfold tick_enabled;
    repeat case_match; simpl; lia.
Qed.

Lemma run_panic_countdown es s : countdown s <= 10 -> countdown (run_panic es s) <= 10.
Proof.
  revert s. induction es as [|e es IH]; intros s Hs; [done|]. simpl.
  apply IH, panic_step_countdown, Hs.
Qed.

Lemma ticks_disabled k s : tick_enabled s = false -> Nat.iter k (panic_step PTick) s = s.
Proof.
  intros Hs. induction k as [|k IH]; [done|]. simpl. rewrite IH. simpl. by rewrite Hs.
Qed.

Lemma ticks_stop k s : countdown s <= k -> tick_enabled (Nat.iter k (panic_step PTick) s) = false.
Proof.
  revert s. induction k as [|k IH]; intros s Hs.
  - simpl. unfold tick_enabled. destruct (countdown s); [|lia]. by rewrite andb_false_r.
  - rewrite Nat.iter_succ_r. simpl. destruct (tick_enabled s) eqn:E.
    + apply IH. simpl. lia.
    + by rewrite ticks_disabled.
Qed.

(** C32. The panic countdown terminates.  In every state the panic
    component reaches from its first render, whatever was clicked, at most
    ten firings of the 1-second interval are possible in a row: after ten
    more ticks no interval is running. *)
Theorem panic_countdown_terminates es :
  tick_enabled (Nat.iter 10 (panic_step PTick) (run_panic es initial_panic_state)) = false.
Proof. apply ticks_stop, run_panic_countdown. simpl. lia. Qed.

(** Once dispatched, the alert stays: the Cancel button is rendered only
    while the countdown runs and the activate button only while no alert
    is active, so nothing leaves the dispatched screen. *)
Definition dispatched_state (s : panic_state) : Prop := alertActive s = true /\ countdown s = 0.

Lemma dispatched_step e s : dispatched_state s -> dispatched_state (panic_step e s).
Proof.
  intros [Ha Hc]. destruct e; simpl; unfold tick_enabled; rewrite Ha, ?Hc; simpl;
    [done|done|split; done|done].
Qed.

(** After a dispatch the screen is locked: whatever the user does, the
    component shows 'ALERT DISPATCHED' with no Cancel button, and the
    activate button (on the idle screen) never comes back. *)
Theorem panic_dispatch_locks s :
  alertActive s = false ->
  dispatched (run_panic (PActivate :: repeat PTick 10) s) = S (dispatched s) /\
  forall es', panic_render (run_panic es' (run_panic (PActivate :: repeat PTick 10) s)) =
              PanicActiveView None nearbyVolunteers false "tel:911".
Proof.
  intros Ha. destruct s as [a c d n al]. simpl in Ha. subst a.
  split; [reflexivity|]. intros es'.
  enough (H : forall t, dispatched_state t -> dispatched_state (run_panic es' t)).
  { destruct (H (run_panic (PActivate :: repeat PTick 10) (mkPanic false c d n al)))
      as [Ha Hc]; [split; reflexivity|].
    unfold panic_render, panic_active_view. by rewrite Ha, Hc. }
  induction es' as [|e es' IH]; intros t Ht; [done|]. apply IH, dispatched_step, Ht.
Qed.
