(* ===== verification/Reporter.v ===== *)
(** * Reporter: the two components no screen renders

    [IncidentReporter] (IncidentReporter.jsx) and [VolunteerCoordination]
    (VolunteerCoordination.jsx) are exported but no other file renders
    them.  Both are pure React state: the reporter keeps a form, a flag
    for the confirmation screen, a list of recent reports (the new one
    first, its id the length of the list plus one) and the timer that
    hides the confirmation after 3 s; the coordination screen keeps a tab
    and the volunteer's own status over fixed lists of volunteers and
    shifts.  Each is a record and a step function per event; a control is
    used only while it is rendered. *)

From stdpp Require Import base list strings pretty.
From Stdlib Require Import String.
From S2P Require Import Prelude.

Local Open Scope nat_scope.

(** ** IncidentReporter *)

Record reporter_form : Type := mkReporterForm {
  rp_type : string;
  rp_location : string;
  rp_description : string;
  rp_urgency : string;
  rp_anonymous : bool
}.

Definition empty_reporter_form : reporter_form := mkReporterForm "" "" "" "medium" false.

Record recent_report : Type := mkReport {
  rr_id : nat;
  rr_type : string;
  rr_location : string;
  rr_time : string;
  rr_status : string
}.

Record reporter_state : Type := mkReporter {
  formData : reporter_form;
  submitted : bool;
  recentReports : list recent_report;
  hide_timers : nat
}.

Definition initial_reports : list recent_report :=
  [mkReport 1 "Poor Lighting" "Broadway & 42nd St" "2 hours ago" "Under Review";
   mkReport 2 "Suspicious Activity" "Central Park West" "4 hours ago" "Investigating";
   mkReport 3 "Street Light Out" "5th Avenue & 23rd St" "6 hours ago" "Resolved"].

Definition initial_reporter_state : reporter_state :=
  mkReporter empty_reporter_form false initial_reports 0.

(** The options of the select; the empty one is the placeholder. *)
Definition reporter_types : list string :=
  [""; "Poor Lighting"; "Suspicious Activity"; "Harassment"; "Assault"; "Theft";
   "Infrastructure Issue"; "Other"].

Definition urgency_levels : list string := ["low"; "medium"; "high"; "emergency"].

(** [handleSubmit]: the new report goes first, with id
    [recentReports.length + 1]; the confirmation is shown and a 3-second
    timer is set; the form is reset. *)
Definition reporter_submit (s : reporter_state) : reporter_state :=
  let f := formData s in
  mkReporter empty_reporter_form true
    (mkReport (S (List.length (recentReports s))) (rp_type f) (rp_location f) "Just now"
       "Processing" :: recentReports s)
    (S (hide_timers s)).

(** The fields of the form, by the [name] of their input. *)
Inductive reporter_field : Type :=
| FType (v : string)
| FLocation (v : string)
| FDescription (v : string)
| FUrgency (v : string)
| FAnonymous (checked : bool).

(** [handleChange]: [[name]: type === 'checkbox' ? checked : value]. *)
Definition handleChange (x : reporter_field) (f : reporter_form) : reporter_form :=
  match x with
  | FType v => mkReporterForm v (rp_location f) (rp_description f) (rp_urgency f) (rp_anonymous f)
  | FLocation v => mkReporterForm (rp_type f) v (rp_description f) (rp_urgency f) (rp_anonymous f)
  | FDescription v =>
      mkReporterForm (rp_type f) (rp_location f) v (rp_urgency f) (rp_anonymous f)
  | FUrgency v => mkReporterForm (rp_type f) (rp_location f) (rp_description f) v (rp_anonymous f)
  | FAnonymous b =>
      mkReporterForm (rp_type f) (rp_location f) (rp_description f) (rp_urgency f) b
  end.

Inductive reporter_event : Type :=
| RChange (x : reporter_field)
| RSubmit
| RAnother
| RHideTimer.

(** The form is on screen only while [submitted] is false, and the
    browser submits it only when the [required] type and location are
    filled; 'Submit Another Report' is on the confirmation screen; a
    pending timer sets [submitted] to false whatever screen is shown. *)
Definition reporter_step (e : reporter_event) (s : reporter_state) : reporter_state :=
  match e with
  | RChange x =>
      if submitted s then s
      else mkReporter (handleChange x (formData s)) false (recentReports s) (hide_timers s)
  | RSubmit =>
      if negb (submitted s) && bool_decide (rp_type (formData s) <> "") &&
         bool_decide (rp_location (formData s) <> "")
      then reporter_submit s else s
  | RAnother =>
      if submitted s then mkReporter (formData s) false (recentReports s) (hide_timers s) else s
  | RHideTimer =>
      match hide_timers s with
      | 0 => s
      | S n => mkReporter (formData s) false (recentReports s) n
      end
  end.

Definition run_reporter (es : list reporter_event) (s : reporter_state) : reporter_state :=
  fold_left (fun s e => reporter_step e s) es s.

(** The badge colours of a report's status. *)
Definition report_status_colors (status : string) : string * string :=
  if String.eqb status "Resolved" then ("#d4edda", "#155724")
  else if String.eqb status "Investigating" then ("#fff3cd", "#856404")
  else ("#f8d7da", "#721c24").

(** A card of Recent Community Reports: type, status, the badge colours,
    location and time. *)
Definition report_card (r : recent_report) : string * string * string * string * string * string :=
  let '(bg, fg) := report_status_colors (rr_status r) in
  (rr_type r, rr_status r, bg, fg, rr_location r, rr_time r).

Inductive reporter_view : Type :=
| RConfirmation (reportId : string)
| RFormView (form : reporter_form) (types urgencies : list string)
    (reports : list (string * string * string * string * string * string)).

(** [if (submitted) return (...)]: the confirmation with
    [#GRD{Math.floor(Math.random() * 10000)}], [rand] being that number;
    otherwise the form and the recent reports. *)
Definition reporter_render (rand : nat) (s : reporter_state) : reporter_view :=
  if submitted s then RConfirmation ("#GRD" +:+ pretty rand)
  else RFormView (formData s) reporter_types urgency_levels (map report_card (recentReports s)).

(** ** VolunteerCoordination *)

Record coord_volunteer : Type := mkCoordVolunteer {
  cv_id : nat;
  cv_name : string;
  cv_status : string;
  cv_location : string;
  cv_shifts : nat;
  cv_specialties : list string
}.

Record shift : Type := mkShift {
  sh_id : nat;
  sh_area : string;
  sh_date : string;
  sh_time : string;
  sh_volunteers : nat;
  sh_needed : nat
}.

Definition volunteers : list coord_volunteer :=
  [mkCoordVolunteer 1 "Sarah Mitchell" "online" "Times Square Area" 24
     ["Night Patrol"; "Emergency Response"];
   mkCoordVolunteer 2 "Mike Rodriguez" "online" "Central Park West" 18
     ["Community Outreach"; "Safety Education"];
   mkCoordVolunteer 3 "Anna Kim" "offline" "East Village" 31 ["First Aid"; "Crisis Support"];
   mkCoordVolunteer 4 "David Thompson" "on-patrol" "Brooklyn Bridge Area" 42
     ["Night Patrol"; "Technology Support"]].

Definition upcomingShifts : list shift :=
  [mkShift 1 "Times Square" "2025-10-04" "8:00 PM - 12:00 AM" 3 5;
   mkShift 2 "Central Park" "2025-10-04" "10:00 PM - 2:00 AM" 2 4;
   mkShift 3 "East Village" "2025-10-05" "9:00 PM - 1:00 AM" 4 6].

Record coord_state : Type := mkCoord {
  coord_activeTab : string;
  volunteerStatus : string
}.

Definition initial_coord_state : coord_state := mkCoord "dashboard" "offline".

Inductive coord_event : Type :=
| CToggleStatus
| CTab (tab : string).

(** The status button: [volunteerStatus === 'online' ? 'offline' : 'online'];
    it is on the dashboard tab.  The two tab buttons set 'dashboard' and
    'volunteers'. *)
Definition coord_step (e : coord_event) (s : coord_state) : coord_state :=
  match e with
  | CToggleStatus =>
      if String.eqb (coord_activeTab s) "dashboard" then
        mkCoord (coord_activeTab s)
          (if String.eqb (volunteerStatus s) "online" then "offline" else "online")
      else s
  | CTab t =>
      if bool_decide (t ∈ ["dashboard"; "volunteers"]) then mkCoord t (volunteerStatus s) else s
  end.

(** A shift card: the count, and the button, 'Sign Up' while places are
    left (the button has no handler) or 'Full'. *)
Definition shift_card (sh : shift) : string * nat * nat * string :=
  (sh_area sh, sh_volunteers sh, sh_needed sh,
   if sh_volunteers sh <? sh_needed sh then "Sign Up" else "Full").

(** The status label of a volunteer card. *)
Definition status_label (status : string) : string :=
  if String.eqb status "on-patrol" then "On Patrol" else status.

Inductive coord_view : Type :=
| CoordDashboard (statusText buttonText : string) (shifts : list (string * nat * nat * string))
| CoordVolunteers (cards : list (string * string * string * list string)).

Definition coord_render (s : coord_state) : coord_view :=
  if String.eqb (coord_activeTab s) "dashboard" then
    CoordDashboard
      (if String.eqb (volunteerStatus s) "online" then "Online & Available" else "Offline")
      (if String.eqb (volunteerStatus s) "online" then "Go Offline" else "Go Online")
      (map shift_card upcomingShifts)
  else CoordVolunteers
         (map (fun v => (cv_name v, cv_location v, status_label (cv_status v), cv_specialties v))
              volunteers).

(** ** Lemmas *)

(** The ids of the recent reports, the keys of their list items, stay
    distinct and between 1 and the length of the list. *)
Definition reports_keyed (l : list recent_report) : Prop :=
  NoDup (map rr_id l) /\ Forall (fun r => 1 <= rr_id r <= List.length l) l.

Lemma reports_keyed_cons r l :
  reports_keyed l -> rr_id r = S (List.length l) -> reports_keyed (r :: l).
Proof.
  intros [N F] Hr. split.
  - simpl. apply NoDup_cons. split; [|done]. rewrite Hr. intros Hin.
    apply list_elem_of_In, in_map_iff in Hin as (x & Hx & Hin).
    rewrite Forall_forall in F. specialize (F x (proj2 (list_elem_of_In _ _) Hin)). lia.
  - constructor; [simpl; lia|]. eapply Forall_impl; [exact F|]. simpl. lia.
Qed.

Lemma reporter_keys_distinct es :
  reports_keyed (recentReports (run_reporter es initial_reporter_state)).
Proof.
  enough (H : forall s, reports_keyed (recentReports s) ->
                        reports_keyed (recentReports (run_reporter es s))).
  { apply H. split; [|repeat constructor; simpl; lia].
    apply (bool_decide_unpack (NoDup [1; 2; 3])). vm_compute. exact I. }
  induction es as [|e es IH]; intros s Hs; [done|]. apply IH.
  destruct e; simpl; repeat case_match; simpl; try done.
  all: unfold reporter_submit; apply reports_keyed_cons; done.
Qed.
